(** * Texture Paint Baking add-on: a shallow embedding and its properties

    The add-on drives a host 3D application: it places a camera around a
    mesh, renders snapshots to temporary files, projects them on a bake
    texture and cleans up.  The development models

    - [ProjectionSettings]        (utils/settings.py),
    - [memoize]                   (utils/functions.py),
    - the [TextureProjector]      (utils/projector.py),
    - the bake, cancel and toggle operators (operators/*.py),

    as state-passing functions over an explicit host state ([World]): the
    scene properties, the image, object and material stores, the file
    system, the screen areas and the window manager.  Python exceptions are
    results of type [Result]; an exception leaves the effects performed
    before it in the state.

    Numbers that are Python floats are read as exact rationals ([Q]); the
    C library functions [math.tan], [math.cos], [math.sin], [math.radians]
    and the host's lens-to-angle conversion are parameters ([Libm]). *)

From Stdlib Require Import QArith ZArith Ascii String List Lia.
From stdpp Require Import base gmap strings list pretty.

Open Scope Z_scope.
Open Scope string_scope.

(** ** Python values, exceptions and the state-and-exception monad *)

(** Values held by attribute bags of host objects ([scene.render],
    [scene.eevee], image paint settings, viewport spaces, node and image
    attributes). *)
Inductive PyVal : Type :=
| VNone
| VBool (b : bool)
| VInt (z : Z)
| VNum (q : Q)
| VStr (s : string)
| VInts (l : list Z).

Abbreviation attrs := (gmap string PyVal).

(** [setattr(o, key, value)] *)
Definition setattr (key : string) (v : PyVal) (o : attrs) : attrs := <[key := v]> o.

Inductive Exn : Type :=
| ValueError (msg : string)
| RuntimeError (msg : string)
| AttributeError (msg : string)
| TypeError (msg : string)
| KeyError (key : string)
| IndexError (msg : string)
| ZeroDivisionError (msg : string)
| OSError (msg : string)
| ReferenceError (msg : string).

(** [str(e)] *)
Definition str (e : Exn) : string :=
  match e with
  | ValueError m | RuntimeError m | AttributeError m | TypeError m | IndexError m
  | ZeroDivisionError m | OSError m | ReferenceError m => m
  | KeyError k => "'" +:+ k +:+ "'"
  end.

Inductive Result (A : Type) : Type :=
| Ok (a : A)
| Raise (e : Exn).
Arguments Ok {A} a.
Arguments Raise {A} e.

Definition is_Ok {A} (r : Result A) : bool :=
  match r with Ok _ => true | Raise _ => false end.

(** A computation over a state [S]: it returns a value or raises, and in
    both cases hands back the state it reached. *)
Definition M (S A : Type) : Type := S → Result A * S.

Definition ret {S A} (a : A) : M S A := fun s => (Ok a, s).
Definition raise {S A} (e : Exn) : M S A := fun s => (Raise e, s).
Definition bind {S A B} (m : M S A) (k : A → M S B) : M S B :=
  fun s => match m s with
           | (Ok a, s') => k a s'
           | (Raise e, s') => (Raise e, s')
           end.
Definition gets {S A} (f : S → A) : M S A := fun s => (Ok (f s), s).
Definition modify {S} (f : S → S) : M S unit := fun s => (Ok tt, f s).

Notation "'let*' x ':=' m 'in' k" := (bind m (fun x => k))
  (at level 10, x pattern, m at level 100, k at level 200).
Notation "m ';;' k" := (bind m (fun _ => k))
  (at level 100, k at level 200, right associativity).

(** [try: body except Exception as e: handler(e)] *)
Definition try_except {S A} (body : M S A) (handler : Exn → M S A) : M S A :=
  fun s => match body s with
           | (Ok a, s') => (Ok a, s')
           | (Raise e, s') => handler e s'
           end.

(** [try: body finally: final].  The final block runs on both exits; an
    exception of the final block replaces the pending one. *)
Definition try_finally {S A} (body : M S A) (final : M S unit) : M S A :=
  fun s => match body s with
           | (r, s') =>
               match final s' with
               | (Ok _, s'') => (r, s'')
               | (Raise e, s'') => (Raise e, s'')
               end
           end.

Definition when {S} (b : bool) (m : M S unit) : M S unit :=
  if b then m else ret tt.

(** [for x in l: body(x)] *)
Fixpoint for_each {S A} (l : list A) (body : A → M S unit) : M S unit :=
  match l with
  | [] => ret tt
  | x :: l' => body x ;; for_each l' body
  end.

(** ** utils/settings.py *)

Record ProjectionSettings : Type := {
  st_resolution : Z;
  st_uv_map_name : string;
  st_image_name : string;
  st_camera_name : string;
  st_seam_bleed : Z;
  st_angle_offset : Q;
  st_render_view_prefix : string;
  st_output_folder : string;
  st_temp_folder : string
}.

(** The dataclass defaults; the operator overrides four of them. *)
Definition default_settings : ProjectionSettings := {|
  st_resolution := 4096;
  st_uv_map_name := "Bake_UV";
  st_image_name := "Bake_Texture";
  st_camera_name := "BakeCamera";
  st_seam_bleed := 2;
  st_angle_offset := 30;
  st_render_view_prefix := "EEVEE Bake Test_Model";
  st_output_folder := "texture_projections";
  st_temp_folder := "temp_renders"
|}.

(** ** Vectors and matrices (mathutils), with exact rational entries *)

Record Vec3 : Type := mkVec { vx : Q; vy : Q; vz : Q }.

Definition vadd (a b : Vec3) : Vec3 :=
  mkVec (vx a + vx b) (vy a + vy b) (vz a + vz b).
Definition vsub (a b : Vec3) : Vec3 :=
  mkVec (vx a - vx b) (vy a - vy b) (vz a - vz b).
Definition vdiv (a : Vec3) (k : Q) : Vec3 :=
  mkVec (vx a / k) (vy a / k) (vz a / k).

(** A 4x4 matrix, row by row. *)
Definition Row4 : Type := (Q * Q * Q * Q)%type.
Record Mat4 : Type := mkMat { row0 : Row4; row1 : Row4; row2 : Row4; row3 : Row4 }.

Definition row_apply (r : Row4) (v : Vec3) : Q :=
  let '(a, b, c, d) := r in a * vx v + b * vy v + c * vz v + d.

(** [m @ Vector(v)]: a 3D vector is extended by a 1 and the result is cut
    back to three coordinates. *)
Definition mat_apply (m : Mat4) (v : Vec3) : Vec3 :=
  mkVec (row_apply (row0 m) v) (row_apply (row1 m) v) (row_apply (row2 m) v).

Definition mat_identity : Mat4 :=
  mkMat (1, 0, 0, 0)%Q (0, 1, 0, 0)%Q (0, 0, 1, 0)%Q (0, 0, 0, 1)%Q.

(** Python's two-argument [max] and [min]: the first argument wins ties. *)
Definition py_max (a b : Q) : Q := if Qle_bool b a then a else b.
Definition py_min (a b : Q) : Q := if Qle_bool a b then a else b.

(** [max(...)] and [min(...)] of a sequence; [None] stands for the
    [ValueError] of the empty sequence. *)
Definition max_of (l : list Q) : option Q :=
  match l with
  | [] => None
  | x :: l' => Some (fold_left py_max l' x)
  end.
Definition min_of (l : list Q) : option Q :=
  match l with
  | [] => None
  | x :: l' => Some (fold_left py_min l' x)
  end.

(** The C library and the host's lens model, as parameters. *)
Record Libm : Type := {
  math_tan : Q → Q;
  math_cos : Q → Q;
  math_sin : Q → Q;
  math_radians : Q → Q;
  (** the camera's field of view for a sensor width and a focal length *)
  lens_angle : Q → Q → Q
}.

(** ** The host state

    What the add-on reads and writes through the host's scripting
    interface.  Datablocks (images, objects, materials) are kept by name;
    a Python reference to one is its name. *)
(** properties/baker_properties.py, [EEVEEBakerProperties] ([scene.eevee_baker]). *)
Record Props : Type := mkProps {
  quality_preset : string;
  show_bake : bool;
  force_new_uv : bool;
  should_cancel : bool;
  output_directory : string;
  file_name : string;
  auto_bake : bool;
  resolution : Z;
  seam_bleed : Z;
  progress : nat;
  total_steps : nat;
  is_baking : bool
}.

Definition with_show_bake (f : bool → bool) (r : Props) : Props :=
  mkProps (quality_preset r) (f (show_bake r)) (force_new_uv r) (should_cancel r) (output_directory r) (file_name r) (auto_bake r) (resolution r) (seam_bleed r) (progress r) (total_steps r) (is_baking r).
Definition with_should_cancel (f : bool → bool) (r : Props) : Props :=
  mkProps (quality_preset r) (show_bake r) (force_new_uv r) (f (should_cancel r)) (output_directory r) (file_name r) (auto_bake r) (resolution r) (seam_bleed r) (progress r) (total_steps r) (is_baking r).
Definition with_progress (f : nat → nat) (r : Props) : Props :=
  mkProps (quality_preset r) (show_bake r) (force_new_uv r) (should_cancel r) (output_directory r) (file_name r) (auto_bake r) (resolution r) (seam_bleed r) (f (progress r)) (total_steps r) (is_baking r).
Definition with_total_steps (f : nat → nat) (r : Props) : Props :=
  mkProps (quality_preset r) (show_bake r) (force_new_uv r) (should_cancel r) (output_directory r) (file_name r) (auto_bake r) (resolution r) (seam_bleed r) (progress r) (f (total_steps r)) (is_baking r).
Definition with_is_baking (f : bool → bool) (r : Props) : Props :=
  mkProps (quality_preset r) (show_bake r) (force_new_uv r) (should_cancel r) (output_directory r) (file_name r) (auto_bake r) (resolution r) (seam_bleed r) (progress r) (total_steps r) (f (is_baking r)).
(** properties/baker_properties.py, [EEVEEBakerPreferences]. *)
Record Preferences : Type := mkPreferences {
  fast_taa_samples : Z;
  fast_shadow_size : string;
  balanced_taa_samples : Z;
  balanced_shadow_size : string;
  high_taa_samples : Z;
  high_shadow_size : string
}.

(** An image datablock: its attributes and, as its pixel content, the names of
    the images projected on it so far. *)
Record Image : Type := mkImage {
  img_attrs : attrs;
  img_painted : list string
}.

Definition with_img_attrs (f : attrs → attrs) (r : Image) : Image :=
  mkImage (f (img_attrs r)) (img_painted r).
Definition with_img_painted (f : (list string) → (list string)) (r : Image) : Image :=
  mkImage (img_attrs r) (f (img_painted r)).
(** A shader node; [n_outputs] is the number of its output sockets. *)
Record Node : Type := mkNode {
  n_name : string;
  n_type : string;
  n_outputs : nat;
  n_attrs : attrs
}.

Definition with_n_name (f : string → string) (r : Node) : Node :=
  mkNode (f (n_name r)) (n_type r) (n_outputs r) (n_attrs r).
Definition with_n_type (f : string → string) (r : Node) : Node :=
  mkNode (n_name r) (f (n_type r)) (n_outputs r) (n_attrs r).
Definition with_n_outputs (f : nat → nat) (r : Node) : Node :=
  mkNode (n_name r) (n_type r) (f (n_outputs r)) (n_attrs r).
Definition with_n_attrs (f : attrs → attrs) (r : Node) : Node :=
  mkNode (n_name r) (n_type r) (n_outputs r) (f (n_attrs r)).
(** A node link, from an output socket (by index) to an input socket (by name). *)
Record Link : Type := mkLink {
  from_node : string;
  from_socket : nat;
  to_node : string;
  to_socket : string
}.

(** A material with its node tree and its custom properties; the only custom
    property the add-on stores is a (node name, socket index) pair. *)
Record Material : Type := mkMaterial {
  use_nodes : bool;
  nodes : list Node;
  links : list Link;
  nodes_active : option string;
  id_props : gmap string (string * nat)
}.

Definition with_use_nodes (f : bool → bool) (r : Material) : Material :=
  mkMaterial (f (use_nodes r)) (nodes r) (links r) (nodes_active r) (id_props r).
Definition with_nodes (f : (list Node) → (list Node)) (r : Material) : Material :=
  mkMaterial (use_nodes r) (f (nodes r)) (links r) (nodes_active r) (id_props r).
Definition with_links (f : (list Link) → (list Link)) (r : Material) : Material :=
  mkMaterial (use_nodes r) (nodes r) (f (links r)) (nodes_active r) (id_props r).
Definition with_nodes_active (f : (option string) → (option string)) (r : Material) : Material :=
  mkMaterial (use_nodes r) (nodes r) (links r) (f (nodes_active r)) (id_props r).
Definition with_id_props (f : (gmap string (string * nat)) → (gmap string (string * nat))) (r : Material) : Material :=
  mkMaterial (use_nodes r) (nodes r) (links r) (nodes_active r) (f (id_props r)).
(** An object.  [o_data] holds the camera data of a camera; [o_aim] is the
    direction the rotation was last made to track. *)
Record Object : Type := mkObject {
  o_type : string;
  o_mode : string;
  o_data : attrs;
  o_location : Vec3;
  o_aim : option Vec3;
  o_matrix_world : Mat4;
  o_bound_box : list Vec3;
  o_materials : list string;
  o_uv_layers : list string;
  o_uv_active : option string
}.

Definition with_o_type (f : string → string) (r : Object) : Object :=
  mkObject (f (o_type r)) (o_mode r) (o_data r) (o_location r) (o_aim r) (o_matrix_world r) (o_bound_box r) (o_materials r) (o_uv_layers r) (o_uv_active r).
Definition with_o_mode (f : string → string) (r : Object) : Object :=
  mkObject (o_type r) (f (o_mode r)) (o_data r) (o_location r) (o_aim r) (o_matrix_world r) (o_bound_box r) (o_materials r) (o_uv_layers r) (o_uv_active r).
Definition with_o_data (f : attrs → attrs) (r : Object) : Object :=
  mkObject (o_type r) (o_mode r) (f (o_data r)) (o_location r) (o_aim r) (o_matrix_world r) (o_bound_box r) (o_materials r) (o_uv_layers r) (o_uv_active r).
Definition with_o_location (f : Vec3 → Vec3) (r : Object) : Object :=
  mkObject (o_type r) (o_mode r) (o_data r) (f (o_location r)) (o_aim r) (o_matrix_world r) (o_bound_box r) (o_materials r) (o_uv_layers r) (o_uv_active r).
Definition with_o_aim (f : (option Vec3) → (option Vec3)) (r : Object) : Object :=
  mkObject (o_type r) (o_mode r) (o_data r) (o_location r) (f (o_aim r)) (o_matrix_world r) (o_bound_box r) (o_materials r) (o_uv_layers r) (o_uv_active r).
Definition with_o_matrix_world (f : Mat4 → Mat4) (r : Object) : Object :=
  mkObject (o_type r) (o_mode r) (o_data r) (o_location r) (o_aim r) (f (o_matrix_world r)) (o_bound_box r) (o_materials r) (o_uv_layers r) (o_uv_active r).
Definition with_o_bound_box (f : (list Vec3) → (list Vec3)) (r : Object) : Object :=
  mkObject (o_type r) (o_mode r) (o_data r) (o_location r) (o_aim r) (o_matrix_world r) (f (o_bound_box r)) (o_materials r) (o_uv_layers r) (o_uv_active r).
Definition with_o_materials (f : (list string) → (list string)) (r : Object) : Object :=
  mkObject (o_type r) (o_mode r) (o_data r) (o_location r) (o_aim r) (o_matrix_world r) (o_bound_box r) (f (o_materials r)) (o_uv_layers r) (o_uv_active r).
Definition with_o_uv_layers (f : (list string) → (list string)) (r : Object) : Object :=
  mkObject (o_type r) (o_mode r) (o_data r) (o_location r) (o_aim r) (o_matrix_world r) (o_bound_box r) (o_materials r) (f (o_uv_layers r)) (o_uv_active r).
Definition with_o_uv_active (f : (option string) → (option string)) (r : Object) : Object :=
  mkObject (o_type r) (o_mode r) (o_data r) (o_location r) (o_aim r) (o_matrix_world r) (o_bound_box r) (o_materials r) (o_uv_layers r) (f (o_uv_active r)).
(** A screen area with the settings of its first space. *)
Record Area : Type := mkArea {
  area_type : string;
  area_regions : list string;
  space : attrs
}.

Definition with_area_type (f : string → string) (r : Area) : Area :=
  mkArea (f (area_type r)) (area_regions r) (space r).
Definition with_area_regions (f : (list string) → (list string)) (r : Area) : Area :=
  mkArea (area_type r) (f (area_regions r)) (space r).
Definition with_space (f : attrs → attrs) (r : Area) : Area :=
  mkArea (area_type r) (area_regions r) (f (space r)).
(** [bpy.context.scene] *)
Record Scene : Type := mkScene {
  eevee_baker : Props;
  eevee : attrs;
  render : attrs;
  image_paint : attrs;
  scene_camera : option string
}.

Definition with_eevee_baker (f : Props → Props) (r : Scene) : Scene :=
  mkScene (f (eevee_baker r)) (eevee r) (render r) (image_paint r) (scene_camera r).
Definition with_eevee (f : attrs → attrs) (r : Scene) : Scene :=
  mkScene (eevee_baker r) (f (eevee r)) (render r) (image_paint r) (scene_camera r).
Definition with_render (f : attrs → attrs) (r : Scene) : Scene :=
  mkScene (eevee_baker r) (eevee r) (f (render r)) (image_paint r) (scene_camera r).
Definition with_image_paint (f : attrs → attrs) (r : Scene) : Scene :=
  mkScene (eevee_baker r) (eevee r) (render r) (f (image_paint r)) (scene_camera r).
Definition with_scene_camera (f : (option string) → (option string)) (r : Scene) : Scene :=
  mkScene (eevee_baker r) (eevee r) (render r) (image_paint r) (f (scene_camera r)).
(** [bpy.data] *)
Record BlendData : Type := mkBlendData {
  images : gmap string Image;
  objects : gmap string Object;
  materials : gmap string Material;
  filepath : string
}.

Definition with_images (f : (gmap string Image) → (gmap string Image)) (r : BlendData) : BlendData :=
  mkBlendData (f (images r)) (objects r) (materials r) (filepath r).
Definition with_objects (f : (gmap string Object) → (gmap string Object)) (r : BlendData) : BlendData :=
  mkBlendData (images r) (f (objects r)) (materials r) (filepath r).
Definition with_materials (f : (gmap string Material) → (gmap string Material)) (r : BlendData) : BlendData :=
  mkBlendData (images r) (objects r) (f (materials r)) (filepath r).
Definition with_filepath (f : string → string) (r : BlendData) : BlendData :=
  mkBlendData (images r) (objects r) (materials r) (f (filepath r)).
(** The file system and the clock.  [locked] are the paths the process may
    not remove or create ([os.remove], [os.rmdir] and [os.makedirs] raise
    on them). *)
Record Os : Type := mkOs {
  files : gset string;
  dirs : gset string;
  locked : gset string;
  clock : Z
}.

Definition with_files (f : (gset string) → (gset string)) (r : Os) : Os :=
  mkOs (f (files r)) (dirs r) (locked r) (clock r).
Definition with_dirs (f : (gset string) → (gset string)) (r : Os) : Os :=
  mkOs (files r) (f (dirs r)) (locked r) (clock r).
Definition with_locked (f : (gset string) → (gset string)) (r : Os) : Os :=
  mkOs (files r) (dirs r) (f (locked r)) (clock r).
Definition with_clock (f : Z → Z) (r : Os) : Os :=
  mkOs (files r) (dirs r) (locked r) (f (clock r)).
(** The window manager: the registered event timers (handle, interval in
    seconds), the number of modal handlers added, the operator reports. *)
Record Wm : Type := mkWm {
  timers : list (nat * Q);
  next_timer : nat;
  modal_handlers : nat;
  reports : list (string * string)
}.

Definition with_timers (f : (list (nat * Q)) → (list (nat * Q))) (r : Wm) : Wm :=
  mkWm (f (timers r)) (next_timer r) (modal_handlers r) (reports r).
Definition with_next_timer (f : nat → nat) (r : Wm) : Wm :=
  mkWm (timers r) (f (next_timer r)) (modal_handlers r) (reports r).
Definition with_modal_handlers (f : nat → nat) (r : Wm) : Wm :=
  mkWm (timers r) (next_timer r) (f (modal_handlers r)) (reports r).
Definition with_reports (f : (list (string * string)) → (list (string * string))) (r : Wm) : Wm :=
  mkWm (timers r) (next_timer r) (modal_handlers r) (f (reports r)).

(** What the outside decides: the C library, the add-on registry, the
    outcome and duration of a render, whether projecting fails. *)
Inductive RenderOutcome : Type :=
| RenderRaises        (* [bpy.ops.render.render] raises *)
| RenderNoFile        (* it returns without writing the still *)
| RenderWrites.       (* it writes the still to [scene.render.filepath] *)

Record Host : Type := mkHost {
  libm : Libm;
  addons : gmap string (option Preferences);
  app_tempdir : string;
  render_outcome : RenderOutcome;
  render_seconds : Z;
  project_image_fails : bool
}.


(** The key under which [memoize] files a call: the positional arguments
    and the frozen set of keyword arguments.  Arguments are view types
    ([None] or a string). *)
Definition Key : Type := (list (option string) * gset (string * option string))%type.

(** The value of [get_view_parameters]: [(z_mult, z_pos, center)]. *)
Definition ViewParams : Type := (Q * Q * Vec3)%type.

(** The whole state outside an operator or projector instance.  The two memo
    tables are the [cache] variables that [memoize] closes over, one per
    decorated method, keyed by instance identity. *)
Record World : Type := mkWorld {
  scene : Scene;
  data : BlendData;
  os : Os;
  wm : Wm;
  host : Host;
  areas : list Area;
  active_object : option string;
  stdout : list string;
  memo_distance : gmap nat (gmap Key Q);
  memo_view : gmap nat (gmap Key ViewParams);
  next_instance : nat
}.

Definition with_scene (f : Scene → Scene) (r : World) : World :=
  mkWorld (f (scene r)) (data r) (os r) (wm r) (host r) (areas r) (active_object r) (stdout r) (memo_distance r) (memo_view r) (next_instance r).
Definition with_data (f : BlendData → BlendData) (r : World) : World :=
  mkWorld (scene r) (f (data r)) (os r) (wm r) (host r) (areas r) (active_object r) (stdout r) (memo_distance r) (memo_view r) (next_instance r).
Definition with_os (f : Os → Os) (r : World) : World :=
  mkWorld (scene r) (data r) (f (os r)) (wm r) (host r) (areas r) (active_object r) (stdout r) (memo_distance r) (memo_view r) (next_instance r).
Definition with_wm (f : Wm → Wm) (r : World) : World :=
  mkWorld (scene r) (data r) (os r) (f (wm r)) (host r) (areas r) (active_object r) (stdout r) (memo_distance r) (memo_view r) (next_instance r).
Definition with_areas (f : (list Area) → (list Area)) (r : World) : World :=
  mkWorld (scene r) (data r) (os r) (wm r) (host r) (f (areas r)) (active_object r) (stdout r) (memo_distance r) (memo_view r) (next_instance r).
Definition with_active_object (f : (option string) → (option string)) (r : World) : World :=
  mkWorld (scene r) (data r) (os r) (wm r) (host r) (areas r) (f (active_object r)) (stdout r) (memo_distance r) (memo_view r) (next_instance r).
Definition with_stdout (f : (list string) → (list string)) (r : World) : World :=
  mkWorld (scene r) (data r) (os r) (wm r) (host r) (areas r) (active_object r) (f (stdout r)) (memo_distance r) (memo_view r) (next_instance r).
Definition with_memo_distance (f : (gmap nat (gmap Key Q)) → (gmap nat (gmap Key Q))) (r : World) : World :=
  mkWorld (scene r) (data r) (os r) (wm r) (host r) (areas r) (active_object r) (stdout r) (f (memo_distance r)) (memo_view r) (next_instance r).
Definition with_memo_view (f : (gmap nat (gmap Key ViewParams)) → (gmap nat (gmap Key ViewParams))) (r : World) : World :=
  mkWorld (scene r) (data r) (os r) (wm r) (host r) (areas r) (active_object r) (stdout r) (memo_distance r) (f (memo_view r)) (next_instance r).
Definition with_next_instance (f : nat → nat) (r : World) : World :=
  mkWorld (scene r) (data r) (os r) (wm r) (host r) (areas r) (active_object r) (stdout r) (memo_distance r) (memo_view r) (f (next_instance r)).

(** ** The projector and operator instances *)

(** An entry of [original_nodes]: the (name, type) pairs of the nodes and the
    node that fed the material output. *)
Record OriginalNodes : Type := mkOriginalNodes {
  on_nodes : list (string * string);
  on_output_connection : option string
}.

Definition with_on_output_connection (f : (option string) → (option string)) (r : OriginalNodes) : OriginalNodes :=
  mkOriginalNodes (on_nodes r) (f (on_output_connection r)).
(** utils/projector.py, the attributes of a [TextureProjector].  [self_id]
    is the identity of the instance. *)
Record TextureProjector : Type := mkTextureProjector {
  self_id : nat;
  settings : ProjectionSettings;
  obj : option string;
  bake_image : option string;
  camera : option string;
  temp_files : list (string * string);
  original_nodes : gmap string OriginalNodes;
  output_dir : string;
  temp_dir : string;
  _view3d_cache : option nat;
  aspect_ratio : Q
}.

Definition with_obj (f : (option string) → (option string)) (r : TextureProjector) : TextureProjector :=
  mkTextureProjector (self_id r) (settings r) (f (obj r)) (bake_image r) (camera r) (temp_files r) (original_nodes r) (output_dir r) (temp_dir r) (_view3d_cache r) (aspect_ratio r).
Definition with_bake_image (f : (option string) → (option string)) (r : TextureProjector) : TextureProjector :=
  mkTextureProjector (self_id r) (settings r) (obj r) (f (bake_image r)) (camera r) (temp_files r) (original_nodes r) (output_dir r) (temp_dir r) (_view3d_cache r) (aspect_ratio r).
Definition with_camera (f : (option string) → (option string)) (r : TextureProjector) : TextureProjector :=
  mkTextureProjector (self_id r) (settings r) (obj r) (bake_image r) (f (camera r)) (temp_files r) (original_nodes r) (output_dir r) (temp_dir r) (_view3d_cache r) (aspect_ratio r).
Definition with_temp_files (f : (list (string * string)) → (list (string * string))) (r : TextureProjector) : TextureProjector :=
  mkTextureProjector (self_id r) (settings r) (obj r) (bake_image r) (camera r) (f (temp_files r)) (original_nodes r) (output_dir r) (temp_dir r) (_view3d_cache r) (aspect_ratio r).
Definition with_original_nodes (f : (gmap string OriginalNodes) → (gmap string OriginalNodes)) (r : TextureProjector) : TextureProjector :=
  mkTextureProjector (self_id r) (settings r) (obj r) (bake_image r) (camera r) (temp_files r) (f (original_nodes r)) (output_dir r) (temp_dir r) (_view3d_cache r) (aspect_ratio r).
Definition with_output_dir (f : string → string) (r : TextureProjector) : TextureProjector :=
  mkTextureProjector (self_id r) (settings r) (obj r) (bake_image r) (camera r) (temp_files r) (original_nodes r) (f (output_dir r)) (temp_dir r) (_view3d_cache r) (aspect_ratio r).
Definition with_temp_dir (f : string → string) (r : TextureProjector) : TextureProjector :=
  mkTextureProjector (self_id r) (settings r) (obj r) (bake_image r) (camera r) (temp_files r) (original_nodes r) (output_dir r) (f (temp_dir r)) (_view3d_cache r) (aspect_ratio r).
Definition with__view3d_cache (f : (option nat) → (option nat)) (r : TextureProjector) : TextureProjector :=
  mkTextureProjector (self_id r) (settings r) (obj r) (bake_image r) (camera r) (temp_files r) (original_nodes r) (output_dir r) (temp_dir r) (f (_view3d_cache r)) (aspect_ratio r).
(** The state a projector method runs in. *)
Record PState : Type := mkPState {
  self : TextureProjector;
  world : World
}.

Definition with_self (f : TextureProjector → TextureProjector) (r : PState) : PState :=
  mkPState (f (self r)) (world r).
Definition with_world (f : World → World) (r : PState) : PState :=
  mkPState (self r) (f (world r)).
(** operators/texture_baker.py, the attributes of an [EEVEE_OT_TextureBaker]. *)
Record BakeOperator : Type := mkBakeOperator {
  _timer : option nat;
  projector : option TextureProjector;
  _camera_angles : list (option string * Z);
  _current_angle_index : nat
}.

Definition with__timer (f : (option nat) → (option nat)) (r : BakeOperator) : BakeOperator :=
  mkBakeOperator (f (_timer r)) (projector r) (_camera_angles r) (_current_angle_index r).
Definition with_projector (f : (option TextureProjector) → (option TextureProjector)) (r : BakeOperator) : BakeOperator :=
  mkBakeOperator (_timer r) (f (projector r)) (_camera_angles r) (_current_angle_index r).
Definition with__camera_angles (f : (list (option string * Z)) → (list (option string * Z))) (r : BakeOperator) : BakeOperator :=
  mkBakeOperator (_timer r) (projector r) (f (_camera_angles r)) (_current_angle_index r).
Definition with__current_angle_index (f : nat → nat) (r : BakeOperator) : BakeOperator :=
  mkBakeOperator (_timer r) (projector r) (_camera_angles r) (f (_current_angle_index r)).
(** The state an operator method runs in. *)
Record OState : Type := mkOState {
  op : BakeOperator;
  oworld : World
}.

Definition with_op (f : BakeOperator → BakeOperator) (r : OState) : OState :=
  mkOState (f (op r)) (oworld r).
Definition with_oworld (f : World → World) (r : OState) : OState :=
  mkOState (op r) (f (oworld r)).


(** ** Running one kind of computation inside another *)

(** A host call inside a projector method. *)
Definition liftW {A} (m : M World A) : M PState A :=
  fun s => match m (world s) with
           | (r, w') => (r, mkPState (self s) w')
           end.

(** A host call inside an operator method. *)
Definition liftO {A} (m : M World A) : M OState A :=
  fun s => match m (oworld s) with
           | (r, w') => (r, mkOState (op s) w')
           end.

(** [self.projector.method(...)] inside an operator method: without a
    projector the attribute access on [None] raises. *)
Definition on_projector {A} (m : M PState A) : M OState A :=
  fun s => match projector (op s) with
           | None => (Raise (AttributeError "'NoneType' object has no attribute"), s)
           | Some p =>
               match m (mkPState p (oworld s)) with
               | (r, ps) =>
                   (r, mkOState (with_projector (fun _ => Some (self ps)) (op s)) (world ps))
               end
           end.

Definition get_self {A} (f : TextureProjector → A) : M PState A :=
  gets (fun s => f (self s)).
Definition set_self (f : TextureProjector → TextureProjector) : M PState unit :=
  modify (with_self f).
Definition get_world {A} (f : World → A) : M PState A :=
  gets (fun s => f (world s)).
Definition set_world (f : World → World) : M PState unit :=
  modify (with_world f).

(** ** Strings and paths *)

Fixpoint drop_while {A} (p : A → bool) (l : list A) : list A :=
  match l with
  | [] => []
  | x :: l' => if p x then drop_while p l' else l
  end.

Definition is_slash (c : Ascii.ascii) : bool := Ascii.eqb c "/"%char.

Definition ends_with_slash (p : string) : bool :=
  match rev (list_ascii_of_string p) with
  | c :: _ => is_slash c
  | [] => false
  end.

(** [os.path.join(a, b)] (POSIX) *)
Definition os_path_join (a b : string) : string :=
  if String.prefix "/" b then b
  else if String.eqb a "" then b
  else if ends_with_slash a then a +:+ b
  else a +:+ "/" +:+ b.

(** [os.path.dirname(p)] (POSIX) *)
Definition os_path_dirname (p : string) : string :=
  let head := drop_while (fun c => negb (is_slash c)) (rev (list_ascii_of_string p)) in
  match drop_while is_slash head with
  | [] => string_of_list_ascii (rev head)
  | stripped => string_of_list_ascii (rev stripped)
  end.

Definition drop_prefix (pre s : string) : string :=
  if String.prefix pre s then String.substring (String.length pre) (String.length s - String.length pre) s
  else s.

(** [bpy.path.abspath] and [bpy.path.relpath]: a leading [//] stands for
    the directory of the blend file. *)
Definition bpy_path_abspath (blend : string) (p : string) : string :=
  if String.prefix "//" p
  then os_path_join (os_path_dirname blend) (drop_prefix "//" p)
  else p.
Definition bpy_path_relpath (blend : string) (p : string) : string :=
  "//" +:+ drop_prefix (os_path_dirname blend +:+ "/") p.

(** The host keeps the names of a kind of datablock unique: a name that is
    taken gets the first free numbered suffix [.001], [.002], ... *)
Definition pad3 (n : nat) : string :=
  if (n <? 10)%nat then "00" +:+ pretty n
  else if (n <? 100)%nat then "0" +:+ pretty n
  else pretty n.

Fixpoint unique_suffix (taken : string → bool) (base : string) (n fuel : nat) : string :=
  let candidate := base +:+ "." +:+ pad3 n in
  match fuel with
  | O => candidate
  | S fuel' => if taken candidate then unique_suffix taken base (S n) fuel' else candidate
  end.

Definition unique_name {V} (m : gmap string V) (base : string) : string :=
  let taken := fun k => bool_decide (is_Some (m !! k)) in
  if taken base then unique_suffix taken base 1 (size m) else base.

(** ** Host calls *)

(** [print(msg)] *)
Definition print (msg : string) : M World unit :=
  modify (with_stdout (fun out => (out ++ [msg])%list)).

(** [int(time.time())] *)
Definition time_time : M World Z := gets (fun w => clock (os w)).

(** [os.path.exists(p)] *)
Definition os_path_exists (p : string) : M World bool :=
  gets (fun w => bool_decide (p ∈ files (os w)) || bool_decide (p ∈ dirs (os w))).

(** [os.remove(p)] *)
Definition os_remove (p : string) : M World unit :=
  fun w =>
    if bool_decide (p ∈ locked (os w)) then (Raise (OSError ("Permission denied: " +:+ p)), w)
    else if bool_decide (p ∈ files (os w))
         then (Ok tt, with_os (with_files (fun fs => fs ∖ {[p]})) w)
         else if bool_decide (p ∈ dirs (os w)) then (Raise (OSError ("Is a directory: " +:+ p)), w)
         else (Raise (OSError ("No such file or directory: " +:+ p)), w).

(** [os.makedirs(p, exist_ok=True)] *)
Definition os_makedirs (p : string) : M World unit :=
  fun w =>
    if bool_decide (p ∈ dirs (os w)) then (Ok tt, w)
    else if bool_decide (p ∈ locked (os w)) then (Raise (OSError ("Permission denied: " +:+ p)), w)
    else if bool_decide (p ∈ files (os w)) then (Raise (OSError ("File exists: " +:+ p)), w)
    else (Ok tt, with_os (with_dirs (fun ds => {[p]} ∪ ds)) w).

(** [os.listdir(d)]: what lies below [d]. *)
Definition os_listdir (d : string) : M World (list string) :=
  gets (fun w => List.filter (String.prefix (d +:+ "/"))
                   (elements (files (os w) ∪ dirs (os w)))).

(** [os.rmdir(d)] *)
Definition os_rmdir (d : string) : M World unit :=
  fun w =>
    if bool_decide (d ∈ locked (os w)) then (Raise (OSError ("Permission denied: " +:+ d)), w)
    else if bool_decide (d ∈ dirs (os w))
         then (Ok tt, with_os (with_dirs (fun ds => ds ∖ {[d]})) w)
         else (Raise (OSError ("No such file or directory: " +:+ d)), w).

(** Attribute reads of a bag; an attribute that was never set reads [None]. *)
Definition getattr (key : string) (o : attrs) : PyVal := default VNone (o !! key).

Definition set_eevee (key : string) (v : PyVal) : M World unit :=
  modify (with_scene (with_eevee (setattr key v))).
Definition set_render (key : string) (v : PyVal) : M World unit :=
  modify (with_scene (with_render (setattr key v))).
Definition set_image_paint (key : string) (v : PyVal) : M World unit :=
  modify (with_scene (with_image_paint (setattr key v))).
Definition get_props {A} (f : Props → A) : M World A :=
  gets (fun w => f (eevee_baker (scene w))).
Definition set_props (f : Props → Props) : M World unit :=
  modify (with_scene (with_eevee_baker f)).

(** [name in bpy.data.images] *)
Definition image_exists (name : string) : M World bool :=
  gets (fun w => bool_decide (is_Some (images (data w) !! name))).

(** Attribute writes on a datablock that is gone raise [ReferenceError]. *)
Definition set_image_attr (name key : string) (v : PyVal) : M World unit :=
  fun w => match images (data w) !! name with
           | Some _ => (Ok tt, with_data (with_images (alter (with_img_attrs (setattr key v)) name)) w)
           | None => (Raise (ReferenceError "StructRNA of type Image has been removed"), w)
           end.

(** [bpy.data.images.remove(image)] *)
Definition images_remove (name : string) : M World unit :=
  modify (with_data (with_images (delete name))).

(** [bpy.data.batch_remove(images)] *)
Definition batch_remove (names : list string) : M World unit :=
  modify (with_data (with_images (fun m => foldr delete m names))).

(** [bpy.data.images.new(name=..., ...)] and [bpy.data.images.load(path)]
    followed by a rename: the datablock gets the name, made unique. *)
Definition images_add (name : string) (a : attrs) : M World string :=
  fun w => let name' := unique_name (images (data w)) name in
           (Ok name', with_data (with_images (insert name' (mkImage a []))) w).

Definition lookup_object (name : string) : M World Object :=
  fun w => match objects (data w) !! name with
           | Some o => (Ok o, w)
           | None => (Raise (ReferenceError "StructRNA of type Object has been removed"), w)
           end.

Definition update_object (name : string) (f : Object → Object) : M World unit :=
  lookup_object name ;; modify (with_data (with_objects (alter f name))).

Definition lookup_material (name : string) : M World Material :=
  fun w => match materials (data w) !! name with
           | Some m => (Ok m, w)
           | None => (Raise (ReferenceError "StructRNA of type Material has been removed"), w)
           end.

Definition update_material (name : string) (f : Material → Material) : M World unit :=
  lookup_material name ;; modify (with_data (with_materials (alter f name))).

(** [bpy.ops.object.mode_set(mode=...)]: acts on the active object. *)
Definition mode_set (mode : string) : M World unit :=
  let* a := gets active_object in
  match a with
  | Some name => update_object name (with_o_mode (fun _ => mode))
  | None => raise (RuntimeError "Operator bpy.ops.object.mode_set.poll() failed, context is incorrect")
  end.

(** [bpy.ops.render.render(write_still=True)] *)
Definition render_render : M World unit :=
  let* outcome := gets (fun w => render_outcome (host w)) in
  let* secs := gets (fun w => render_seconds (host w)) in
  match outcome with
  | RenderRaises => raise (RuntimeError "Error: Cannot render")
  | RenderNoFile => modify (with_os (with_clock (fun t => t + secs)))
  | RenderWrites =>
      let* p := gets (fun w => getattr "filepath" (render (scene w))) in
      modify (with_os (with_clock (fun t => t + secs))) ;;
      match p with
      | VStr path => modify (with_os (with_files (fun fs => {[path]} ∪ fs)))
      | _ => ret tt
      end
  end.

(** ** utils/projector.py: [TextureProjector] *)

Definition is_view3d (a : Area) : bool := String.eqb (area_type a) "VIEW_3D".

(** [optimize_render_settings] *)
Definition optimize_render_settings : M PState unit :=
  liftW (
    set_eevee "taa_render_samples" (VInt 8) ;;
    set_eevee "use_taa_reprojection" (VBool true) ;;
    set_eevee "use_ssr" (VBool false) ;;
    set_eevee "use_ssr_refraction" (VBool false) ;;
    set_eevee "use_gtao" (VBool false) ;;
    set_eevee "use_bloom" (VBool false) ;;
    set_eevee "use_motion_blur" (VBool false) ;;
    set_eevee "shadow_cube_size" (VStr "512") ;;
    set_eevee "shadow_cascade_size" (VStr "512") ;;
    modify (with_areas (map (fun area =>
      if is_view3d area
      then with_space (fun sp => setattr "overlay.show_overlays" (VBool false)
                                   (setattr "shading.show_shadows" (VBool false) sp)) area
      else area)))).

(** [_setup_directories] *)
Definition _setup_directories : M PState unit :=
  try_except (
    let* blend := get_world (fun w => filepath (data w)) in
    let* tmp := get_world (fun w => app_tempdir (host w)) in
    let base_dir := if String.eqb blend "" then tmp else os_path_dirname blend in
    let* st := get_self settings in
    set_self (with_output_dir (fun _ => os_path_join base_dir (st_output_folder st))) ;;
    set_self (with_temp_dir (fun _ => os_path_join base_dir (st_temp_folder st))) ;;
    let* out := get_self output_dir in
    let* tmpd := get_self temp_dir in
    liftW (os_makedirs out) ;;
    liftW (os_makedirs tmpd))
  (fun e => raise (RuntimeError ("Failed to setup directories: " +:+ str e))).

(** [__init__]: the instance under construction takes the next identity;
    when the constructor raises no instance results. *)
Definition TextureProjector_init (st : ProjectionSettings) : M World TextureProjector :=
  fun w =>
    let p := mkTextureProjector (next_instance w) st None None None [] ∅ "" "" None 1 in
    let w1 := with_next_instance S w in
    match (_setup_directories ;;
           set_self (with__view3d_cache (fun _ => None)) ;;
           optimize_render_settings) (mkPState p w1) with
    | (Ok _, s) => (Ok (self s), world s)
    | (Raise e, s) => (Raise e, world s)
    end.

Fixpoint find_index {A} (p : A → bool) (l : list A) (i : nat) : option nat :=
  match l with
  | [] => None
  | x :: l' => if p x then Some i else find_index p l' (S i)
  end.

(** [with self.view3d_context() as area: body]: the first 3D viewport is
    looked up once and kept; [temp_override] changes nothing modelled. *)
Definition view3d_context {A} (body : nat → M PState A) : M PState A :=
  let* cached := get_self _view3d_cache in
  let* area :=
    match cached with
    | Some a => ret a
    | None =>
        let* ars := get_world areas in
        match find_index is_view3d ars 0 with
        | Some a => set_self (with__view3d_cache (fun _ => Some a)) ;; ret a
        | None => raise (RuntimeError "No 3D viewport found")
        end
    end in
  body area.

(** [with self.object_mode(mode): body] *)
Definition object_mode {A} (mode : string) (body : M PState A) : M PState A :=
  let* o := get_self obj in
  match o with
  | None => raise (ValueError "No active object")
  | Some name =>
      let* ob := liftW (lookup_object name) in
      let original_mode := o_mode ob in
      let changed := negb (String.eqb original_mode mode) in
      when changed (liftW (mode_set mode)) ;;
      try_finally body (when changed (liftW (mode_set original_mode)))
  end.

(** [cleanup_render_view_image] *)
Definition cleanup_render_view_image (image_name : string) : M PState unit :=
  let* found := liftW (image_exists image_name) in
  when found (
    liftW (set_image_attr image_name "users" (VInt 0)) ;;
    liftW (images_remove image_name)).

(** The body of the loop of [cleanup] for one entry of [temp_files]; the
    result tells whether the image was found, in which case the loop
    appends it to [images_to_remove].  The append precedes the removal of
    the file, so it stands when the removal raises. *)
Definition cleanup_entry (image_name temp_path : string) : M PState bool :=
  let* found := liftW (image_exists image_name) in
  try_except (
    when found (
      liftW (set_image_attr image_name "use_fake_user" (VBool false)) ;;
      liftW (set_image_attr image_name "users" (VInt 0))) ;;
    let* there := liftW (os_path_exists temp_path) in
    when there (liftW (os_remove temp_path)))
  (fun e => liftW (print ("Error cleaning up " +:+ image_name +:+ ": " +:+ str e))) ;;
  ret found.

(** The loop of [cleanup] over [temp_files], with the local list
    [images_to_remove]. *)
Fixpoint cleanup_loop (l : list (string * string)) (images_to_remove : list string)
  : M PState (list string) :=
  match l with
  | [] => ret images_to_remove
  | (image_name, temp_path) :: l' =>
      let* found := cleanup_entry image_name temp_path in
      cleanup_loop l' (if found then (images_to_remove ++ [image_name])%list
                       else images_to_remove)
  end.

(** The end of [cleanup]: the temp directory goes when it is empty. *)
Definition remove_temp_dir : M PState unit :=
  try_except (
    let* d := get_self temp_dir in
    let* there := liftW (os_path_exists d) in
    let* entries := liftW (os_listdir d) in
    when (there && bool_decide (entries = [])) (liftW (os_rmdir d)))
  (fun e => liftW (print ("Error removing temp directory: " +:+ str e))).

(** [cleanup] *)
Definition cleanup : M PState unit :=
  liftW (print "Cleaning up resources...") ;;
  let* tf := get_self temp_files in
  let* images_to_remove := cleanup_loop tf [] in
  when (negb (bool_decide (images_to_remove = []))) (liftW (batch_remove images_to_remove)) ;;
  set_self (with_temp_files (fun _ => [])) ;;
  remove_temp_dir.

(** [self.obj.<attribute>]: on [None] the access raises. *)
Definition the_obj : M PState string :=
  let* o := get_self obj in
  match o with
  | Some name => ret name
  | None => raise (AttributeError "'NoneType' object has no attribute")
  end.

(** The mesh [self.obj] with its data: [uv_layers] and [materials] are
    attributes of mesh data. *)
Definition the_mesh : M PState (string * Object) :=
  let* name := the_obj in
  let* ob := liftW (lookup_object name) in
  if String.eqb (o_type ob) "MESH" then ret (name, ob)
  else raise (AttributeError "object data has no such attribute").

(** [bpy.ops.mesh.select_all] then [bpy.ops.uv.unwrap]: they lay out the
    active UV layer of the active object. *)
Definition uv_unwrap : M World unit :=
  let* a := gets active_object in
  match a with
  | Some name =>
      update_object name (fun o =>
        with_o_data (setattr "unwrapped"
          (match o_uv_active o with Some u => VStr u | None => VNone end)) o)
  | None => raise (RuntimeError "Operator bpy.ops.uv.unwrap.poll() failed, context is incorrect")
  end.

Definition str_in (x : string) (l : list string) : bool := bool_decide (x ∈ l).

(** [create_uv_map] *)
Definition create_uv_map : M PState unit :=
  let* o := get_self obj in
  set_world (with_active_object (fun _ => o)) ;;
  let* force := liftW (get_props force_new_uv) in
  let* (name, ob) := the_mesh in
  let* uv := get_self (fun p => st_uv_map_name (settings p)) in
  when (negb (str_in uv (o_uv_layers ob)) || force) (
    when (str_in uv (o_uv_layers ob))
      (liftW (update_object name
         (with_o_uv_layers (List.filter (fun u => negb (String.eqb u uv)))))) ;;
    liftW (update_object name (with_o_uv_layers (fun l => (l ++ [uv])%list))) ;;
    liftW (update_object name (with_o_uv_active (fun _ => Some uv))) ;;
    object_mode "EDIT" (liftW uv_unwrap)).

(** [create_bake_image]; the result is the image, by name. *)
Definition create_bake_image : M PState string :=
  let* st := get_self settings in
  let* auto := liftW (get_props auto_bake) in
  let* found := liftW (image_exists (st_image_name st)) in
  if found && negb auto then ret (st_image_name st)
  else
    when found (cleanup_render_view_image (st_image_name st)) ;;
    let* out := get_self output_dir in
    let* blend := get_world (fun w => filepath (data w)) in
    let img_path := os_path_join out (st_image_name st +:+ ".png") in
    liftW (images_add (st_image_name st)
             (list_to_map [
                ("width", VInt (st_resolution st));
                ("height", VInt (st_resolution st));
                ("alpha", VBool true);
                ("float_buffer", VBool false);
                ("generated_color", VInts [0; 0; 0; 0]);
                ("filepath_raw", VStr (bpy_path_relpath blend img_path));
                ("file_format", VStr "PNG")])).

(** *** Material nodes *)

(** [nodes.get(name)] *)
Definition nodes_get (name : string) (ns : list Node) : option Node :=
  List.find (fun n => String.eqb (n_name n) name) ns.

(** [material_output.inputs['Surface'].links] *)
Definition surface_links (m : Material) : list Link :=
  List.filter (fun l => String.eqb (to_node l) "Material Output" && String.eqb (to_socket l) "Surface")
    (links m).

(** [links.new(output, input)]: an input socket holds one link, a new one
    replaces it. *)
Definition links_new (l : Link) (ls : list Link) : list Link :=
  (List.filter (fun k => negb (String.eqb (to_node k) (to_node l) && String.eqb (to_socket k) (to_socket l))) ls
   ++ [l])%list.

(** The tree the host gives a material when nodes are first enabled. *)
Definition default_nodes : list Node :=
  [mkNode "Principled BSDF" "BSDF_PRINCIPLED" 1 ∅; mkNode "Material Output" "OUTPUT_MATERIAL" 0 ∅].
Definition default_links : list Link :=
  [mkLink "Principled BSDF" 0 "Material Output" "Surface"].

(** [mat.use_nodes = True] *)
Definition enable_nodes (m : Material) : Material :=
  if use_nodes m then m
  else match nodes m with
       | [] => mkMaterial true default_nodes default_links (nodes_active m) (id_props m)
       | _ => with_use_nodes (fun _ => true) m
       end.

(** [bpy.data.materials.new(name=...)] *)
Definition materials_new (name : string) : M World string :=
  fun w => let name' := unique_name (materials (data w)) name in
           (Ok name', with_data (with_materials (insert name' (mkMaterial false [] [] None ∅))) w).

(** [nodes.new(type)] followed by the rename to [name]; the host fixes
    the type tag and the sockets of a node class. *)
Definition nodes_new (bl_idname name : string) (a : attrs) (ns : list Node) : list Node :=
  let '(tag, outputs) :=
    if String.eqb bl_idname "ShaderNodeUVMap" then ("UVMAP", 1%nat)
    else if String.eqb bl_idname "ShaderNodeTexImage" then ("TEX_IMAGE", 2%nat)
    else (bl_idname, 1%nat) in
  (ns ++ [mkNode name tag outputs a])%list.

Definition image_ref (i : option string) : PyVal :=
  match i with Some n => VStr n | None => VNone end.

(** [setup_material_nodes] *)
Definition setup_material_nodes : M PState unit :=
  let* (name, ob) := the_mesh in
  let* mat :=
    match o_materials ob with
    | [] =>
        let* m := liftW (materials_new "Bake_Material") in
        liftW (update_object name (with_o_materials (fun l => (l ++ [m])%list))) ;;
        ret m
    | m :: _ => ret m
    end in
  liftW (update_material mat enable_nodes) ;;
  let* m := liftW (lookup_material mat) in
  (* Store original node setup if not already stored *)
  let* orig := get_self original_nodes in
  when (negb (bool_decide (is_Some (orig !! mat)))) (
    set_self (with_original_nodes
      (insert mat (mkOriginalNodes (map (fun n => (n_name n, n_type n)) (nodes m)) None))) ;;
    match nodes_get "Material Output" (nodes m), surface_links m with
    | Some _, l :: _ =>
        set_self (with_original_nodes
          (alter (with_on_output_connection (fun _ => Some (from_node l))) mat))
    | _, _ => ret tt
    end) ;;
  (* Check if bake nodes already exist *)
  let* st := get_self settings in
  let* img := get_self bake_image in
  when (negb (bool_decide (is_Some (nodes_get "Bake_UV" (nodes m)))))
    (liftW (update_material mat (with_nodes
       (nodes_new "ShaderNodeUVMap" "Bake_UV"
          (list_to_map [("uv_map", VStr (st_uv_map_name st)); ("location", VInts [-600; 0])]))))) ;;
  (if bool_decide (is_Some (nodes_get "Bake_Texture" (nodes m)))
   then liftW (update_material mat (with_nodes (map (fun n =>
          if String.eqb (n_name n) "Bake_Texture"
          then with_n_attrs (setattr "image" (image_ref img)) n else n))))
   else liftW (update_material mat (with_nodes
          (nodes_new "ShaderNodeTexImage" "Bake_Texture"
             (list_to_map [("image", image_ref img); ("location", VInts [-300; 0])]))))) ;;
  (* Ensure nodes are connected *)
  let* m' := liftW (lookup_material mat) in
  when (negb (existsb (fun l => String.eqb (from_node l) "Bake_UV" && String.eqb (to_node l) "Bake_Texture")
                (links m')))
    (liftW (update_material mat (with_links (links_new (mkLink "Bake_UV" 0 "Bake_Texture" "Vector"))))) ;;
  liftW (update_material mat (with_nodes_active (fun _ => None))).

(** *** Camera *)

(** [bpy.data.objects.remove(o, do_unlink=True)]: the scene camera and the
    active object do not keep a removed object. *)
Definition objects_remove (name : string) : M World unit :=
  modify (with_data (with_objects (delete name))) ;;
  modify (with_scene (with_scene_camera (fun c =>
    match c with Some n => if String.eqb n name then None else c | None => None end))) ;;
  modify (with_active_object (fun c =>
    match c with Some n => if String.eqb n name then None else c | None => None end)).

(** [bpy.ops.object.camera_add()]: a camera with the host's defaults (a
    50 mm lens on a 36 mm sensor) becomes the active object. *)
Definition camera_add : M World string :=
  fun w =>
    let name := unique_name (objects (data w)) "Camera" in
    let cam := mkObject "CAMERA" "OBJECT"
                 (list_to_map [("lens", VNum 50); ("sensor_width", VNum 36);
                               ("sensor_height", VNum 24); ("sensor_fit", VStr "AUTO");
                               ("angle", VNum (lens_angle (libm (host w)) 36 50))])
                 (mkVec 0 0 0) None mat_identity [] [] [] None in
    (Ok name, with_active_object (fun _ => Some name)
                (with_data (with_objects (insert name cam)) w)).

(** [o.name = name], the new name being free. *)
Definition rename_object (old new : string) : M World unit :=
  let* o := lookup_object old in
  modify (with_data (with_objects (fun m => <[new := o]> (delete old m)))) ;;
  modify (with_active_object (fun c =>
    match c with Some n => if String.eqb n old then Some new else c | None => None end)) ;;
  modify (with_scene (with_scene_camera (fun c =>
    match c with Some n => if String.eqb n old then Some new else c | None => None end))).

(** [setup_camera] *)
Definition setup_camera : M PState unit :=
  let* st := get_self settings in
  let* objs := get_world (fun w => objects (data w)) in
  when (bool_decide (is_Some (objs !! st_camera_name st)))
    (liftW (objects_remove (st_camera_name st))) ;;
  let* added := liftW camera_add in
  liftW (rename_object added (st_camera_name st)) ;;
  let* active := get_world active_object in
  set_self (with_camera (fun _ => active)) ;;
  (* Force 1:1 aspect ratio for the camera *)
  liftW (update_object (st_camera_name st) (with_o_data (fun d =>
    setattr "sensor_height" (VNum 36)
      (setattr "sensor_width" (VNum 36) (setattr "sensor_fit" (VStr "HORIZONTAL") d))))) ;;
  liftW (set_render "pixel_aspect_x" (VInt 1)) ;;
  liftW (set_render "pixel_aspect_y" (VInt 1)) ;;
  liftW (set_render "resolution_x" (VInt (st_resolution st))) ;;
  liftW (set_render "resolution_y" (VInt (st_resolution st))).

(** ** utils/functions.py: [memoize]

    [cache] maps an instance to a dictionary from call keys to results.
    [get_cache] and [set_cache] say which of the two tables of [World] the
    decorated method closes over.  The wrapper creates the instance's
    dictionary when missing, and calls [func] only when the key is not in
    it; the result is then stored and read back. *)

Definition call_key (args : list (option string)) (kwargs : gmap string (option string)) : Key :=
  (args, list_to_set (map_to_list kwargs)).

Definition memoize {V}
    (get_cache : World → gmap nat (gmap Key V))
    (set_cache : (gmap nat (gmap Key V) → gmap nat (gmap Key V)) → World → World)
    (func : list (option string) → gmap string (option string) → M PState V)
    (args : list (option string)) (kwargs : gmap string (option string)) : M PState V :=
  let key := call_key args kwargs in
  let* me := get_self self_id in
  (* cache.setdefault(self, {}) *)
  set_world (set_cache (fun c => match c !! me with Some _ => c | None => <[me := ∅]> c end)) ;;
  let* c := get_world get_cache in
  (if bool_decide (is_Some (default ∅ (c !! me) !! key)) then ret tt
   else
     let* v := func args kwargs in
     set_world (set_cache (alter (insert key v) me))) ;;
  (* return cache[self][key] *)
  let* c' := get_world get_cache in
  match default ∅ (c' !! me) !! key with
  | Some v => ret v
  | None => raise (KeyError "cache")
  end.

(** How Python binds the one parameter [view_type] of the two decorated
    methods from a call's arguments. *)
Definition bind_view_type (args : list (option string)) (kwargs : gmap string (option string))
  : Result (option string) :=
  match args with
  | [v] => if bool_decide (kwargs = ∅) then Ok v
           else Raise (TypeError "got multiple values or an unexpected keyword argument")
  | [] => match kwargs !! "view_type" with
          | Some v => if bool_decide (kwargs = {["view_type" := v]}) then Ok v
                      else Raise (TypeError "got an unexpected keyword argument")
          | None => Raise (TypeError "missing 1 required positional argument: 'view_type'")
          end
  | _ => Raise (TypeError "takes 2 positional arguments but more were given")
  end.

Definition of_result {S A} (r : Result A) : M S A := fun s => (r, s).

(** ** Camera placement geometry (utils/projector.py, continued) *)

(** [[self.obj.matrix_world @ Vector(corner) for corner in self.obj.bound_box]] *)
Definition bbox_corners (ob : Object) : list Vec3 :=
  map (mat_apply (o_matrix_world ob)) (o_bound_box ob).

Definition empty_sequence {S A} : M S A :=
  raise (ValueError "arg is an empty sequence").

(** [max(c[i] for c in corners) - min(c[i] for c in corners)] *)
Definition extent {S} (coord : Vec3 → Q) (corners : list Vec3) : M S Q :=
  match max_of (map coord corners), min_of (map coord corners) with
  | Some hi, Some lo => ret (hi - lo)%Q
  | _, _ => empty_sequence
  end.

Definition view_is (view_type : option string) (name : string) : bool :=
  match view_type with
  | Some v => String.eqb v name
  | None => false
  end.

(** The dictionary [distance_factors] and its [.get(view_type, default)]. *)
Definition base_distance (view_type : option string) (max_dimension height : Q) : Q :=
  if view_is view_type "below" then (max_dimension * (12 # 10))%Q
  else if view_is view_type "total" then (py_max max_dimension height * 2)%Q
  else if view_is view_type "upper" then (max_dimension * (12 # 10))%Q
  else (max_dimension * (12 # 10))%Q.

(** [self.camera.data.angle] *)
Definition camera_angle : M PState Q :=
  let* c := get_self camera in
  match c with
  | None => raise (AttributeError "'NoneType' object has no attribute 'data'")
  | Some name =>
      let* cam := liftW (lookup_object name) in
      match getattr "angle" (o_data cam) with
      | VNum fov => ret fov
      | _ => raise (AttributeError "object data has no attribute 'angle'")
      end
  end.

(** The body of [calculate_optimal_distance], before decoration. *)
Definition calculate_optimal_distance_func
    (args : list (option string)) (kwargs : gmap string (option string)) : M PState Q :=
  let* view_type := of_result (bind_view_type args kwargs) in
  let* o := get_self obj in
  match o with
  | None => ret 2%Q
  | Some name =>
      let* ob := liftW (lookup_object name) in
      let corners := bbox_corners ob in
      let* dx := extent vx corners in
      let* dy := extent vy corners in
      let* dz := extent vz corners in
      let max_dimension := py_max dx dy in
      let height := dz in
      let base := base_distance view_type max_dimension height in
      let* fov := camera_angle in
      let* tan := get_world (fun w => math_tan (libm (host w)) (fov / 2)) in
      if Qeq_bool (2 * tan) 0 then raise (ZeroDivisionError "float division by zero")
      else ret ((base / (2 * tan)) * (8 # 10))%Q
  end.

(** [@memoize def calculate_optimal_distance] *)
Definition calculate_optimal_distance := memoize memo_distance with_memo_distance
  calculate_optimal_distance_func.

(** The dictionary [view_params] and its [.get(view_type, default)]. *)
Definition view_params (view_type : option string) (min_bound max_bound center : Vec3) (height : Q)
  : ViewParams :=
  if view_is view_type "below" then ((3 # 10)%Q, (vz min_bound - height * (2 # 10))%Q, center)
  else if view_is view_type "total" then (1%Q, vz center, center)
  else if view_is view_type "upper" then ((17 # 10)%Q, (vz max_bound + height * (2 # 10))%Q, center)
  else (1%Q, vz center, center).

(** The body of [get_view_parameters], before decoration. *)
Definition get_view_parameters_func
    (args : list (option string)) (kwargs : gmap string (option string)) : M PState ViewParams :=
  let* view_type := of_result (bind_view_type args kwargs) in
  let* name := the_obj in
  let* ob := liftW (lookup_object name) in
  let corners := bbox_corners ob in
  match min_of (map vx corners), min_of (map vy corners), min_of (map vz corners),
        max_of (map vx corners), max_of (map vy corners), max_of (map vz corners) with
  | Some x0, Some y0, Some z0, Some x1, Some y1, Some z1 =>
      let min_bound := mkVec x0 y0 z0 in
      let max_bound := mkVec x1 y1 z1 in
      let center := vdiv (vadd min_bound max_bound) 2 in
      let height := (vz max_bound - vz min_bound)%Q in
      ret (view_params view_type min_bound max_bound center height)
  | _, _, _, _, _, _ => empty_sequence
  end.

(** [@memoize def get_view_parameters] *)
Definition get_view_parameters := memoize memo_view with_memo_view get_view_parameters_func.

(** [position_camera] *)
Definition position_camera (horizontal_angle : Q) (view_type : option string) : M PState unit :=
  let* o := get_self obj in
  let* c := get_self camera in
  match o, c with
  | Some _, Some cam =>
      let* (_, z_pos, target) := get_view_parameters [view_type] ∅ in
      let* distance := calculate_optimal_distance [view_type] ∅ in
      let* L := get_world (fun w => libm (host w)) in
      let h_rad := math_radians L horizontal_angle in
      let camera_pos :=
        if view_is view_type "below" then
          let vertical_offset := (distance * (3 # 10))%Q in
          mkVec (vx target + (distance * (9 # 10)) * math_cos L h_rad)
                (vy target + (distance * (9 # 10)) * math_sin L h_rad)
                (z_pos - vertical_offset)
        else if view_is view_type "total" then
          mkVec (vx target + distance * math_cos L h_rad)
                (vy target + distance * math_sin L h_rad)
                (vz target)
        else
          let vertical_offset := (distance * (3 # 10))%Q in
          mkVec (vx target + (distance * (9 # 10)) * math_cos L h_rad)
                (vy target + (distance * (9 # 10)) * math_sin L h_rad)
                (z_pos + vertical_offset) in
      liftW (update_object cam (with_o_location (fun _ => camera_pos))) ;;
      (* Aim camera at target *)
      let direction := vsub target camera_pos in
      liftW (update_object cam (with_o_aim (fun _ => Some direction))) ;;
      (* Update scene camera *)
      set_world (with_scene (with_scene_camera (fun _ => Some cam)))
  | _, _ => raise (ValueError "Object or camera not set")
  end.

(** [generate_camera_angles] *)
Definition generate_camera_angles : M PState (list (string * Z)) :=
  ret (flat_map (fun view_type => map (fun h_angle => (view_type, h_angle)) [0; 90; 180; 270])
         ["below"; "total"; "upper"]).

(** ** Render and project (utils/projector.py, continued) *)

(** [setup_viewport] *)
Definition setup_viewport : M PState unit :=
  view3d_context (fun area =>
    set_world (with_areas (alter (with_space (fun sp =>
      setattr "shading.use_scene_world" (VBool true)
        (setattr "shading.use_scene_lights" (VBool true)
           (setattr "shading.type" (VStr "RENDERED")
              (setattr "region_3d.view_perspective" (VStr "CAMERA") sp))))) area))).

Definition original_settings_keys : list string :=
  ["resolution_x"; "resolution_y"; "filepath"; "engine"; "use_persistent_data"].

(** [create_temp_render]: the image it returns, by the name the host gave
    it, or [None]. *)
Definition create_temp_render : M PState (option string) :=
  let* r := get_world (fun w => render (scene w)) in
  let original_settings := map (fun key => (key, getattr key r)) original_settings_keys in
  let* tmp := get_self temp_dir in
  let* t0 := liftW time_time in
  let temp_path := os_path_join tmp ("temp_render_" +:+ pretty t0 +:+ ".png") in
  try_finally (
    try_except (
      let* st := get_self settings in
      liftW (set_render "resolution_x" (VInt (st_resolution st))) ;;
      liftW (set_render "resolution_y" (VInt (st_resolution st))) ;;
      liftW (set_render "engine" (VStr "BLENDER_EEVEE")) ;;
      liftW (set_render "use_persistent_data" (VBool true)) ;;
      liftW (set_render "use_border" (VBool false)) ;;
      liftW (set_render "use_crop_to_border" (VBool false)) ;;
      liftW (set_render "image_settings.file_format" (VStr "PNG")) ;;
      liftW (set_render "image_settings.color_mode" (VStr "RGBA")) ;;
      liftW (set_render "image_settings.compression" (VInt 0)) ;;
      liftW (set_render "film_transparent" (VBool true)) ;;
      liftW (set_render "filepath" (VStr temp_path)) ;;
      liftW (set_eevee "use_gtao" (VBool true)) ;;
      liftW (set_eevee "gtao_distance" (VNum (2 # 10))) ;;
      liftW (set_eevee "use_ssr" (VBool true)) ;;
      liftW (set_eevee "use_ssr_refraction" (VBool true)) ;;
      liftW render_render ;;
      let* there := liftW (os_path_exists temp_path) in
      if there then
        let* t1 := liftW time_time in
        let temp_name := st_render_view_prefix st +:+ "_" +:+ pretty t1 in
        let* temp_image :=
          liftW (images_add temp_name (list_to_map [("filepath", VStr temp_path);
                                                    ("packed", VBool true)])) in
        set_self (with_temp_files (fun l => (l ++ [(temp_name, temp_path)])%list)) ;;
        ret (Some temp_image)
      else ret None)
    (fun e =>
       liftW (print ("Error creating temp render: " +:+ str e)) ;;
       ret None))
  (* Restore original settings *)
  (for_each original_settings (fun '(key, value) => liftW (set_render key value))).

(** [bpy.ops.paint.project_image(image=name)]: paints on the canvas of the
    image paint settings. *)
Definition project_image (name : string) : M World unit :=
  let* fails := gets (fun w => project_image_fails (host w)) in
  let* canvas := gets (fun w => getattr "canvas" (image_paint (scene w))) in
  let* imgs := gets (fun w => images (data w)) in
  match canvas with
  | VStr c =>
      if fails || negb (bool_decide (is_Some (imgs !! c)))
      then raise (RuntimeError "Operator bpy.ops.paint.project_image failed")
      else modify (with_data (with_images
             (alter (with_img_painted (fun l => (l ++ [name])%list)) c)))
  | _ => raise (RuntimeError "Operator bpy.ops.paint.project_image.poll() failed")
  end.

(** [self.bake_image.update()] then [self.bake_image.save()] *)
Definition bake_image_save : M PState unit :=
  let* b := get_self bake_image in
  match b with
  | None => raise (AttributeError "'NoneType' object has no attribute 'update'")
  | Some name =>
      let* imgs := get_world (fun w => images (data w)) in
      match imgs !! name with
      | None => raise (ReferenceError "StructRNA of type Image has been removed")
      | Some img =>
          match getattr "filepath_raw" (img_attrs img) with
          | VStr p =>
              let* blend := get_world (fun w => filepath (data w)) in
              set_world (with_os (with_files (fun fs => {[bpy_path_abspath blend p]} ∪ fs)))
          | _ => raise (RuntimeError "Error: image has no file path")
          end
      end
  end.

(** [project_texture]; [angle] is not used by the body. *)
Definition project_texture (angle : PyVal) (current_count total_count : nat) : M PState unit :=
  let* o := get_self obj in
  set_world (with_active_object (fun _ => o)) ;;
  object_mode "TEXTURE_PAINT" (
    let* st := get_self settings in
    let* b := get_self bake_image in
    liftW (set_image_paint "mode" (VStr "IMAGE")) ;;
    liftW (set_image_paint "canvas" (image_ref b)) ;;
    liftW (set_image_paint "use_occlude" (VBool true)) ;;
    liftW (set_image_paint "use_backface_culling" (VBool true)) ;;
    liftW (set_image_paint "seam_bleed" (VInt (st_seam_bleed st))) ;;
    liftW (set_image_paint "screen_grab_size" (VInts [st_resolution st; st_resolution st])) ;;
    view3d_context (fun area =>
      liftW (print ("Processing view " +:+ pretty current_count +:+ "/" +:+ pretty total_count)) ;;
      let* render_image := create_temp_render in
      match render_image with
      | Some image =>
          try_except (
            liftW (set_image_paint "clone_image" (VStr image)) ;;
            let* ars := get_world areas in
            match ars !! area with
            | Some a =>
                if str_in "WINDOW" (area_regions a) then
                  liftW (project_image image) ;;
                  bake_image_save
                else raise (IndexError "list index out of range")
            | None => raise (ReferenceError "StructRNA of type Area has been removed")
            end)
          (fun e => liftW (print ("Error during texture projection: " +:+ str e)))
      | None => ret tt
      end)).

Definition angle_label (view_type : string) (h_angle : Z) : PyVal :=
  VStr (view_type +:+ "_" +:+ pretty h_angle).

(** The per-angle loop of [process]: [enumerate(camera_angles, 1)]. *)
Fixpoint process_angles (camera_angles : list (string * Z)) (idx total_angles : nat)
  : M PState unit :=
  match camera_angles with
  | [] => ret tt
  | (view_type, h_angle) :: rest =>
      try_except (
        position_camera (inject_Z h_angle) (Some view_type) ;;
        setup_viewport ;;
        project_texture (angle_label view_type h_angle) idx total_angles)
      (fun e => liftW (print ("Error processing view " +:+ pretty idx +:+ "/"
                                +:+ pretty total_angles +:+ ": " +:+ str e))) ;;
      process_angles rest (S idx) total_angles
  end.

(** [self.camera.data.lens = 35]: the host derives the angle from it. *)
Definition set_lens (cam : string) (lens : Q) : M World unit :=
  let* L := gets (fun w => libm (host w)) in
  update_object cam (with_o_data (fun d =>
    let sensor := match getattr "sensor_width" d with VNum s => s | _ => 36%Q end in
    setattr "angle" (VNum (lens_angle L sensor lens)) (setattr "lens" (VNum lens) d))).

Definition setup_failed {A} (name : string) (m : M PState A) : M PState A :=
  try_except m (fun e => raise (RuntimeError ("Setup failed during " +:+ name +:+ ": " +:+ str e))).

(** The [try] block of [process]. *)
Definition process_body : M PState unit :=
  let* a := get_world active_object in
  set_self (with_obj (fun _ => a)) ;;
  let* objs := get_world (fun w => objects (data w)) in
  match a ≫= (fun name => objs !! name) with
  | None => raise (ValueError "Please select a mesh object")
  | Some ob =>
      if negb (String.eqb (o_type ob) "MESH") then raise (ValueError "Please select a mesh object")
      else
        (* Setup operations *)
        create_uv_map ;;
        (let* img := create_bake_image in set_self (with_bake_image (fun _ => Some img))) ;;
        setup_material_nodes ;;
        setup_camera ;;
        (* Batch setup operations *)
        setup_failed "create_uv_map" create_uv_map ;;
        setup_failed "<lambda>"
          (let* img := create_bake_image in set_self (with_bake_image (fun _ => Some img))) ;;
        setup_failed "setup_material_nodes" setup_material_nodes ;;
        setup_failed "setup_camera" setup_camera ;;
        let* c := get_self camera in
        match c with Some cam => liftW (set_lens cam 35) | None => ret tt end ;;
        let* camera_angles := generate_camera_angles in
        let total_angles := length camera_angles in
        process_angles camera_angles 1 total_angles
  end.

(** [process] *)
Definition process : M PState unit := try_finally process_body cleanup.

(** ** operators/texture_baker.py: [EEVEE_OT_TextureBaker] *)

Inductive OperatorResult : Type := FINISHED | CANCELLED | RUNNING_MODAL | PASS_THROUGH.

(** [wm.event_timer_add(interval, window=...)]: the handle of the timer. *)
Definition event_timer_add (interval : Q) : M World nat :=
  fun w => let h := next_timer (wm w) in
           (Ok h, with_wm (fun m => with_next_timer S
                                      (with_timers (fun l => (l ++ [(h, interval)])%list) m)) w).

(** [wm.event_timer_remove(timer)] *)
Definition event_timer_remove (h : nat) : M World unit :=
  modify (with_wm (with_timers (List.filter (fun t => negb (Nat.eqb (fst t) h))))).

(** [wm.modal_handler_add(self)] *)
Definition modal_handler_add : M World unit :=
  modify (with_wm (with_modal_handlers S)).

(** [self.report({level}, msg)] *)
Definition report (level msg : string) : M World unit :=
  modify (with_wm (with_reports (fun l => (l ++ [(level, msg)])%list))).

(** [f"{view_type}_{h_angle}"] *)
Definition angle_fstring (view_type : option string) (h_angle : Z) : PyVal :=
  VStr (default "None" view_type +:+ "_" +:+ pretty h_angle).

Module EEVEE_OT_TextureBaker.

(** A fresh operator instance: the class attributes. *)
Definition instance : BakeOperator := mkBakeOperator None None [] 0.

(** [cleanup]; the projector's [cleanup] is the one of utils/projector.py. *)
Definition cleanup : M OState unit :=
  liftO (set_props (with_is_baking (fun _ => false))) ;;
  let* t := gets (fun s => _timer (op s)) in
  match t with
  | Some h => liftO (event_timer_remove h)
  | None => ret tt
  end ;;
  let* p := gets (fun s => projector (op s)) in
  match p with
  | Some _ =>
      on_projector cleanup ;;
      (* Remove camera if in auto-bake mode *)
      let* auto := liftO (get_props auto_bake) in
      let* cam := gets (fun s => projector (op s) ≫= camera) in
      match cam with
      | Some c => when auto (liftO (objects_remove c))
      | None => ret tt
      end
  | None => ret tt
  end.

(** [modal]; of the event only its type is read. *)
Definition modal (event_type : string) : M OState OperatorResult :=
  let* cancel := liftO (get_props should_cancel) in
  if cancel then
    cleanup ;;
    liftO (set_props (with_should_cancel (fun _ => false))) ;;
    liftO (report "INFO" "Baking cancelled") ;;
    ret FINISHED
  else if String.eqb event_type "TIMER" then
    let* auto := liftO (get_props auto_bake) in
    if negb auto then
      (* Single shot mode *)
      on_projector (project_texture (VInt 0) 1 1) ;;
      cleanup ;;
      ret FINISHED
    else
      let* angles := gets (fun s => _camera_angles (op s)) in
      let* i := gets (fun s => _current_angle_index (op s)) in
      if (length angles <=? i)%nat then
        cleanup ;;
        ret FINISHED
      else
        (* Process next angle *)
        match angles !! i with
        | None => raise (IndexError "list index out of range")
        | Some (view_type, h_angle) =>
            on_projector (position_camera (inject_Z h_angle) view_type) ;;
            on_projector setup_viewport ;;
            on_projector (project_texture (angle_fstring view_type h_angle)
                            (i + 1) (length angles)) ;;
            (* Update progress *)
            liftO (set_props (with_progress (fun _ => (i + 1)%nat))) ;;
            liftO (set_props (with_total_steps (fun _ => length angles))) ;;
            modify (with_op (with__current_angle_index (fun k => (k + 1)%nat))) ;;
            ret PASS_THROUGH
        end
  else ret PASS_THROUGH.

(** Apply quality preset settings from preferences. *)
Definition apply_quality_preset (preferences : Preferences) : M World unit :=
  let* preset := get_props quality_preset in
  if String.eqb preset "FAST" then
    set_eevee "taa_render_samples" (VInt (fast_taa_samples preferences)) ;;
    set_eevee "shadow_cube_size" (VStr (fast_shadow_size preferences)) ;;
    set_eevee "shadow_cascade_size" (VStr (fast_shadow_size preferences))
  else if String.eqb preset "BALANCED" then
    set_eevee "taa_render_samples" (VInt (balanced_taa_samples preferences)) ;;
    set_eevee "shadow_cube_size" (VStr (balanced_shadow_size preferences)) ;;
    set_eevee "shadow_cascade_size" (VStr (balanced_shadow_size preferences))
  else
    set_eevee "taa_render_samples" (VInt (high_taa_samples preferences)) ;;
    set_eevee "shadow_cube_size" (VStr (high_shadow_size preferences)) ;;
    set_eevee "shadow_cascade_size" (VStr (high_shadow_size preferences)) ;;
    set_eevee "taa_render_samples" (VInt 32) ;;
    set_eevee "shadow_cube_size" (VStr "1024").

(** [execute], from the construction of the projector on. *)
Definition execute_bake (settings : ProjectionSettings) : M OState OperatorResult :=
  let* p := liftO (TextureProjector_init settings) in
  modify (with_op (with_projector (fun _ => Some p))) ;;
  let* a := liftO (gets active_object) in
  on_projector (set_self (with_obj (fun _ => a))) ;;
  on_projector create_uv_map ;;
  on_projector (let* img := create_bake_image in
                set_self (with_bake_image (fun _ => Some img))) ;;
  on_projector setup_material_nodes ;;
  on_projector setup_camera ;;
  let* auto := liftO (get_props auto_bake) in
  if auto then
    let* angles := on_projector generate_camera_angles in
    modify (with_op (with__camera_angles
      (fun _ => map (fun '(v, h) => (Some v, h)) angles))) ;;
    liftO (set_props (with_total_steps (fun _ => length angles))) ;;
    let* h := liftO (event_timer_add (1 # 10)) in
    modify (with_op (with__timer (fun _ => Some h))) ;;
    liftO modal_handler_add ;;
    ret RUNNING_MODAL
  else
    (* Single shot mode *)
    modify (with_op (with__camera_angles (fun _ => [(None, 0)]))) ;;
    liftO (set_props (with_total_steps (fun _ => 1%nat))) ;;
    let* h := liftO (event_timer_add (1 # 10)) in
    modify (with_op (with__timer (fun _ => Some h))) ;;
    liftO modal_handler_add ;;
    ret RUNNING_MODAL.

(** The [try] block of [execute]. *)
Definition execute_body : M OState OperatorResult :=
  liftO (set_props (with_is_baking (fun _ => true))) ;;
  liftO (set_props (with_progress (fun _ => 0%nat))) ;;
  liftO (set_props (with_should_cancel (fun _ => false))) ;;
  let* registry := liftO (gets (fun w => addons (host w))) in
  match registry !! "Texture Paint Bake" with
  | None => raise (KeyError "Texture Paint Bake")
  | Some None =>
      liftO (report "ERROR" "Could not find addon preferences") ;;
      ret CANCELLED
  | Some (Some preferences) =>
      liftO (apply_quality_preset preferences) ;;
      let* props := liftO (get_props (fun p => p)) in
      let* blend := liftO (gets (fun w => filepath (data w))) in
      execute_bake {|
        st_resolution := resolution props;
        st_uv_map_name := st_uv_map_name default_settings;
        st_image_name := file_name props;
        st_camera_name := st_camera_name default_settings;
        st_seam_bleed := seam_bleed props;
        st_angle_offset := st_angle_offset default_settings;
        st_render_view_prefix := st_render_view_prefix default_settings;
        st_output_folder := bpy_path_abspath blend (output_directory props);
        st_temp_folder := st_temp_folder default_settings |}
  end.

(** [execute] *)
Definition execute : M OState OperatorResult :=
  try_except execute_body (fun e =>
    cleanup ;;  (* Ensure cleanup happens *)
    liftO (report "ERROR" (str e)) ;;
    ret CANCELLED).

End EEVEE_OT_TextureBaker.

(** ** operators/cancel_bake.py: [EEVEE_OT_CancelBake] *)

Module EEVEE_OT_CancelBake.

(** [execute] *)
Definition execute : M World OperatorResult :=
  set_props (with_should_cancel (fun _ => true)) ;;  (* Signal the baker to stop *)
  set_props (with_is_baking (fun _ => false)) ;;     (* Reset baking state *)
  set_props (with_progress (fun _ => 0%nat)) ;;      (* Reset progress *)
  ret FINISHED.

End EEVEE_OT_CancelBake.

(** ** operators/toggle_bake.py: [EEVEE_OT_ToggleBakePreview] *)

Module EEVEE_OT_ToggleBakePreview.

(** [is_bake_texture_connected] *)
Definition is_bake_texture_connected (mat : option Material) : bool :=
  match mat with
  | None => false
  | Some m =>
      if negb (use_nodes m) then false
      else match nodes_get "Material Output" (nodes m), surface_links m with
           | Some _, l :: _ => String.eqb (from_node l) "Bake_Texture"
           | _, _ => false
           end
  end.

(** What [toggle_material_nodes] does to the material once the bake
    texture and the output node are found. *)
Definition toggle_links (show_bake : bool) (m : Material) (out : list string) : Material * list string :=
  (* only save the original connection if none is saved and the bake
     texture is not the one connected *)
  let '(m1, out1) :=
    if show_bake then
      match id_props m !! "original_connection" with
      | Some _ => (m, out)
      | None =>
          match surface_links m with
          | current_link :: _ =>
              if negb (String.eqb (from_node current_link) "Bake_Texture")
              then (with_id_props (insert "original_connection"
                                     (from_node current_link, from_socket current_link)) m, out)
              else (m, (out ++ ["Bake_Texture is already connected; original connection not saved."])%list)
          | [] => (m, out)
          end
      end
    else (m, out) in
  (* Clear existing connections on the Material Output's 'Surface' input *)
  let m2 := with_links (List.filter (fun l =>
              negb (String.eqb (to_node l) "Material Output" && String.eqb (to_socket l) "Surface"))) m1 in
  let bake_link := mkLink "Bake_Texture" 0 "Material Output" "Surface" in
  let link :=
    if show_bake then bake_link
    else
      match id_props m2 !! "original_connection" with
      | Some (node_name, socket_index) =>
          match nodes_get node_name (nodes m2) with
          | Some original_node =>
              if (socket_index <? n_outputs original_node)%nat
              then mkLink node_name socket_index "Material Output" "Surface"
              else bake_link
          | None => bake_link
          end
      | None => bake_link
      end in
  (with_links (links_new link) m2, out1).

(** [toggle_material_nodes]; [obj] is the object by name, or [None]. *)
Definition toggle_material_nodes (obj : option string) (show_bake : bool) : M World unit :=
  let* objs := gets (fun w => objects (data w)) in
  match obj ≫= (fun name => objs !! name) with
  | None => print "No object or materials found."
  | Some ob =>
      match o_materials ob with
      | [] => print "No object or materials found."
      | mat :: _ =>
          let* m := lookup_material mat in
          if negb (use_nodes m) then print "Material does not use nodes."
          else
            match nodes_get "Bake_Texture" (nodes m), nodes_get "Material Output" (nodes m) with
            | None, _ => print "Bake_Texture node not found."
            | Some _, None => print "Material Output node not found."
            | Some _, Some _ =>
                let* out := gets stdout in
                let '(m', out') := toggle_links show_bake m out in
                modify (with_data (with_materials (insert mat m'))) ;;
                modify (with_stdout (fun _ => out'))
            end
      end
  end.

Definition mesh_with_materials (w : World) : option (string * Object) :=
  match active_object w with
  | None => None
  | Some name =>
      match objects (data w) !! name with
      | None => None
      | Some ob =>
          if String.eqb (o_type ob) "MESH" && negb (bool_decide (o_materials ob = []))
          then Some (name, ob) else None
      end
  end.

(** [execute] *)
Definition execute : M World OperatorResult :=
  let* target := gets mesh_with_materials in
  match target with
  | Some (name, _) =>
      (* Toggle the state *)
      set_props (with_show_bake negb) ;;
      let* show := get_props show_bake in
      toggle_material_nodes (Some name) show
  | None => print "No active mesh object found."
  end ;;
  (* Clean up the property only after the execution is finished *)
  let* target' := gets mesh_with_materials in
  match target' with
  | Some (_, ob) =>
      match o_materials ob with
      | mat :: _ =>
          let* m := lookup_material mat in
          let* show := get_props show_bake in
          when (bool_decide (is_Some (id_props m !! "original_connection")) && negb show)
            (modify (with_data (with_materials
               (alter (with_id_props (delete "original_connection")) mat))))
      | [] => ret tt
      end
  | None => ret tt
  end ;;
  ret FINISHED.

End EEVEE_OT_ToggleBakePreview.


(** * More of the add-on *)

(** ** __init__.py: [node_tree_changed_handler]

    The handler the add-on appends to the host's list of handlers run
    after each update of the dependency graph. *)
Definition node_tree_changed_handler : M World unit :=
  let* target := gets EEVEE_OT_ToggleBakePreview.mesh_with_materials in
  match target with
  | None => ret tt
  | Some (_, active_obj) =>
      match o_materials active_obj with
      | [] => ret tt
      | mat :: _ =>
          let* ms := gets (fun w => materials (data w)) in
          let is_bake_connected :=
            EEVEE_OT_ToggleBakePreview.is_bake_texture_connected (ms !! mat) in
          set_props (with_show_bake (fun _ => is_bake_connected))
      end
  end.

(** * Properties *)

(** ** Predicates used in the statements *)

(** [stable R m]: whatever the start state and whether [m] returns or
    raises, the state it reaches is related to the start state. *)
Definition stable {S A} (R : S → S → Prop) (m : M S A) : Prop := ∀ s, R s (snd (m s)).

(** The result [memoize] holds for an instance and a call key. *)
Definition cached {V} (c : gmap nat (gmap Key V)) (me : nat) (k : Key) : option V :=
  c !! me ≫= (fun d => d !! k).

(** Every result held by [c] is held, unchanged, by [c']. *)
Definition memo_le {V} (c c' : gmap nat (gmap Key V)) : Prop :=
  ∀ me k v, cached c me k = Some v → cached c' me k = Some v.

(** What no step of the add-on changes in the world: the outside
    ([host]), the protected paths, and the results the memo tables hold. *)
Definition weak_frame (w w' : World) : Prop :=
  host w' = host w ∧ locked (os w') = locked (os w) ∧
  memo_le (memo_distance w) (memo_distance w') ∧
  memo_le (memo_view w) (memo_view w').

(** What no method of the projector changes in the world: the above, the
    scene properties of the add-on and the window manager. *)
Definition world_frame (w w' : World) : Prop :=
  weak_frame w w' ∧
  eevee_baker (scene w') = eevee_baker (scene w) ∧ wm w' = wm w.

(** What no method changes in a projector: its settings, its identity and
    the entries of [original_nodes] it already has. *)
Definition self_frame (p p' : TextureProjector) : Prop :=
  settings p' = settings p ∧ self_id p' = self_id p ∧
  original_nodes p ⊆ original_nodes p'.

Definition frame (s s' : PState) : Prop :=
  self_frame (self s) (self s') ∧ world_frame (world s) (world s').

(** The state transformations of the projector's methods, whatever their
    arguments and whether they return or raise. *)
Inductive projector_operation : (PState → PState) → Prop :=
| op_optimize_render_settings : projector_operation (fun s => snd (optimize_render_settings s))
| op__setup_directories : projector_operation (fun s => snd (_setup_directories s))
| op_cleanup_render_view_image n :
    projector_operation (fun s => snd (cleanup_render_view_image n s))
| op_cleanup : projector_operation (fun s => snd (cleanup s))
| op_create_uv_map : projector_operation (fun s => snd (create_uv_map s))
| op_create_bake_image : projector_operation (fun s => snd (create_bake_image s))
| op_setup_material_nodes : projector_operation (fun s => snd (setup_material_nodes s))
| op_setup_camera : projector_operation (fun s => snd (setup_camera s))
| op_calculate_optimal_distance args kwargs :
    projector_operation (fun s => snd (calculate_optimal_distance args kwargs s))
| op_get_view_parameters args kwargs :
    projector_operation (fun s => snd (get_view_parameters args kwargs s))
| op_position_camera a v : projector_operation (fun s => snd (position_camera a v s))
| op_generate_camera_angles : projector_operation (fun s => snd (generate_camera_angles s))
| op_setup_viewport : projector_operation (fun s => snd (setup_viewport s))
| op_project_texture a c t : projector_operation (fun s => snd (project_texture a c t s))
| op_create_temp_render : projector_operation (fun s => snd (create_temp_render s))
| op_process : projector_operation (fun s => snd (process s)).

(** The frame of an operator method: the projector it holds stays the same
    instance with the same settings. *)
Definition oframe (s s' : OState) : Prop :=
  match projector (op s) with
  | Some p => ∃ p', projector (op s') = Some p' ∧ self_frame p p'
  | None => projector (op s') = None
  end ∧ weak_frame (oworld s) (oworld s').

(** The settings [execute] constructs from the scene properties. *)
Definition execute_settings (w : World) : ProjectionSettings :=
  let props := eevee_baker (scene w) in {|
    st_resolution := resolution props;
    st_uv_map_name := "Bake_UV";
    st_image_name := file_name props;
    st_camera_name := "BakeCamera";
    st_seam_bleed := seam_bleed props;
    st_angle_offset := 30;
    st_render_view_prefix := "EEVEE Bake Test_Model";
    st_output_folder := bpy_path_abspath (filepath (data w)) (output_directory props);
    st_temp_folder := "temp_renders" |}.

(** A relation on worlds, seen from a projector or an operator method. *)
Definition on_world (RW : World → World → Prop) (s s' : PState) : Prop :=
  RW (world s) (world s').
Definition on_oworld (RW : World → World → Prop) (s s' : OState) : Prop :=
  RW (oworld s) (oworld s') ∧
  _current_angle_index (op s') = _current_angle_index (op s) ∧
  _camera_angles (op s') = _camera_angles (op s).

(** No object was placed: an object of the later world is an object of
    the earlier one, where it was and aiming where it aimed. *)
Definition unmoved (w w' : World) : Prop :=
  ∀ name o', objects (data w') !! name = Some o' →
    ∃ o, objects (data w) !! name = Some o ∧
         o_location o' = o_location o ∧ o_aim o' = o_aim o.

(** Nothing was painted: an image of the later world is an image of the
    earlier one with the same projections on it. *)
Definition unpainted (w w' : World) : Prop :=
  ∀ name i', images (data w') !! name = Some i' →
    ∃ i, images (data w) !! name = Some i ∧ img_painted i' = img_painted i.

(** Nothing of a bake step happened: no object placed, nothing rendered
    (the clock stands), nothing painted, the progress properties as they
    were. *)
Definition quiet (w w' : World) : Prop :=
  unmoved w w' ∧ unpainted w w' ∧ clock (os w') = clock (os w) ∧
  progress (eevee_baker (scene w')) = progress (eevee_baker (scene w)) ∧
  total_steps (eevee_baker (scene w')) = total_steps (eevee_baker (scene w)) ∧
  auto_bake (eevee_baker (scene w')) = auto_bake (eevee_baker (scene w)).

(** Repeated calls of the toggle, each with its object and its flag. *)
Definition toggle_many (calls : list (option string * bool)) (w : World) : World :=
  fold_left (fun w '(obj, show_bake) =>
               snd (EEVEE_OT_ToggleBakePreview.toggle_material_nodes obj show_bake w))
    calls w.

(** What [cleanup] of the projector may do to the world: print, change
    attributes of images, delete images, remove files and a directory;
    everything else stays, and no image is painted. *)
Definition cleanup_rel (w w' : World) : Prop :=
  scene w' = scene w ∧ objects (data w') = objects (data w) ∧
  materials (data w') = materials (data w) ∧ filepath (data w') = filepath (data w) ∧
  wm w' = wm w ∧ areas w' = areas w ∧ host w' = host w ∧
  active_object w' = active_object w ∧
  memo_distance w' = memo_distance w ∧ memo_view w' = memo_view w ∧
  next_instance w' = next_instance w ∧
  clock (os w') = clock (os w) ∧ locked (os w') = locked (os w) ∧
  files (os w') ⊆ files (os w) ∧
  unpainted w w'.

(** The images of the two worlds have the same names. *)
Definition same_images (w w' : World) : Prop :=
  ∀ n, is_Some (images (data w') !! n) ↔ is_Some (images (data w) !! n).

(** The names the loop of [cleanup] appends to [images_to_remove]. *)
Definition found_names (l : list (string * string)) (w : World) : list string :=
  map fst (List.filter (fun e => bool_decide (is_Some (images (data w) !! fst e))) l).

(** Every recorded artifact is gone from the world: its image datablock
    and its file. *)
Definition artifacts_removed (tf : list (string * string)) (w' : World) : Prop :=
  ∀ n p, (n, p) ∈ tf → images (data w') !! n = None ∧ p ∉ files (os w').

(** The same, but for the files the process may not remove. *)
Definition artifacts_removed_unless_locked (tf : list (string * string)) (w' : World) : Prop :=
  ∀ n p, (n, p) ∈ tf →
    images (data w') !! n = None ∧ (p ∉ locked (os w') → p ∉ files (os w')).

(** [ignores f m]: [m] neither reads nor undoes what [f] changes: run
    after [f] it returns what it returns without, and the state it reaches
    is [f] of the one it reaches without. *)
Definition ignores {S A} (f : S → S) (m : M S A) : Prop :=
  ∀ s, m (f s) = (fst (m s), f (snd (m s))).

(** The cancel flag written from outside. *)
Definition set_cancel (b : bool) : World → World :=
  with_scene (with_eevee_baker (with_should_cancel (fun _ => b))).

(** The three calls [modal] and [process] make for one camera angle. *)
Definition angle_step (h_angle : Z) (view_type : option string) (label : PyVal)
    (current_count total_count : nat) : M PState unit :=
  position_camera (inject_Z h_angle) view_type ;;
  setup_viewport ;;
  project_texture label current_count total_count.

(** The progress properties as a tick of [modal] leaves them. *)
Definition set_progress (done total : nat) : World → World :=
  with_scene (with_eevee_baker (fun p =>
    with_total_steps (fun _ => total) (with_progress (fun _ => done) p))).

(** The operator with the projector as a call on it left it. *)
Definition holding (p : TextureProjector) : BakeOperator → BakeOperator :=
  with_projector (fun _ => Some p).

(** What is recorded in [temp_files] stays recorded, in its place. *)
Definition keeps_records (s s' : PState) : Prop :=
  temp_files (self s) `prefix_of` temp_files (self s').

(** What the setup calls of [execute] leave as it is: the scene properties
    of the add-on, the window manager, and the operator's own fields but
    the projector. *)
Definition setup_frame (s s' : OState) : Prop :=
  eevee_baker (scene (oworld s')) = eevee_baker (scene (oworld s)) ∧
  wm (oworld s') = wm (oworld s) ∧
  _timer (op s') = _timer (op s) ∧
  _camera_angles (op s') = _camera_angles (op s) ∧
  _current_angle_index (op s') = _current_angle_index (op s).

(** The angles [execute] stores in auto-bake mode. *)
Definition twelve_angles : list (option string * Z) :=
  [(Some "below", 0); (Some "below", 90); (Some "below", 180); (Some "below", 270);
   (Some "total", 0); (Some "total", 90); (Some "total", 180); (Some "total", 270);
   (Some "upper", 0); (Some "upper", 90); (Some "upper", 180); (Some "upper", 270)]%Z.

(** Where an object is and where it aims. *)
Definition placement (o : Object) : Vec3 * option Vec3 := (o_location o, o_aim o).

(** The same objects, each where it was and aiming where it aimed. *)
Definition placed_same (w w' : World) : Prop :=
  ∀ name, placement <$> objects (data w') !! name = placement <$> objects (data w) !! name.

(** The line the loop of [process] prints for an angle that raised. *)
Definition angle_error (idx total_angles : nat) (e : Exn) : string :=
  "Error processing view " +:+ pretty idx +:+ "/" +:+ pretty total_angles +:+ ": " +:+ str e.

Definition logged (msg : string) : PState → PState :=
  with_world (with_stdout (fun out => (out ++ [msg])%list)).

(** ** Geometry *)

(** The least and the greatest number of a list. *)
Definition least (l : list Q) (m : Q) : Prop := m ∈ l ∧ ∀ x, x ∈ l → (m <= x)%Q.
Definition greatest (l : list Q) (m : Q) : Prop := m ∈ l ∧ ∀ x, x ∈ l → (x <= m)%Q.

(** [lo] and [hi] are the corners of the axis-aligned bounding box of the
    points [corners]. *)
Definition bounding_box (corners : list Vec3) (lo hi : Vec3) : Prop :=
  least (map vx corners) (vx lo) ∧ least (map vy corners) (vy lo) ∧
  least (map vz corners) (vz lo) ∧
  greatest (map vx corners) (vx hi) ∧ greatest (map vy corners) (vy hi) ∧
  greatest (map vz corners) (vz hi).

(** The centre of the box, as [get_view_parameters] computes it. *)
Definition centre (lo hi : Vec3) : Vec3 := vdiv (vadd lo hi) 2.

Definition dot (a b : Vec3) : Q := (vx a * vx b + vy a * vy b + vz a * vz b)%Q.

(** A condition every point shown in the square frame of a camera meets.
    The camera is at [loc] and looks along [aim]; [t] is the tangent of
    half its field of view.  With [x], [y] the offsets of the point across
    the view and [depth] its distance along it, the frame shows the point
    when [|x| <= t * depth] and [|y| <= t * depth], which gives
    [x^2 + y^2 + depth^2 <= (1 + 2 t^2) * depth^2]: the point lies in front
    of the camera, in the cone through the corners of the frame. *)
Definition in_view_cone (t : Q) (loc aim p : Vec3) : Prop :=
  let v := vsub p loc in
  (0 < dot v aim)%Q ∧
  (dot v v * dot aim aim <= (1 + 2 * (t * t)) * (dot v aim * dot v aim))%Q.

(** The same condition, decided. *)
Definition in_view_coneb (t : Q) (loc aim p : Vec3) : bool :=
  let v := vsub p loc in
  negb (Qle_bool (dot v aim) 0) &&
  Qle_bool (dot v v * dot aim aim) ((1 + 2 * (t * t)) * (dot v aim * dot v aim)).

(** The full mesh is framed, as far as the cone tells: every corner of
    its bounding box is in the view cone of the camera. *)
Definition corners_in_view (t : Q) (cam : Object) (corners : list Vec3) : Prop :=
  ∃ aim, o_aim cam = Some aim ∧
         ∀ p, p ∈ corners → in_view_cone t (o_location cam) aim p.

(** ** Predicates for the other methods *)

(** Writing back a list of saved settings, in order. *)
Definition restore_all (l : list (string * PyVal)) (r : attrs) : attrs :=
  fold_left (fun r '(k, v) => setattr k v r) l r.

(** [keeps f]: the part [f] of the world is as it was; [okeeps f] says
    the same of the world an operator method sees. *)
Definition keeps {X} (f : World → X) (w w' : World) : Prop := f w' = f w.
Definition okeeps {X} (f : World → X) (s s' : OState) : Prop := f (oworld s') = f (oworld s).

(** The settings of the render engine. *)
Definition engine (w : World) : attrs := eevee (scene w).

(** [spares N F D]: of the images, files and directories, only images
    named in [N], files in [F] and directories in [D] may differ. *)
Definition spares (N F D : string → Prop) (w w' : World) : Prop :=
  (∀ k, ¬ N k → images (data w') !! k = images (data w) !! k) ∧
  (∀ f, ¬ F f → (f ∈ files (os w') ↔ f ∈ files (os w))) ∧
  (∀ d, ¬ D d → (d ∈ dirs (os w') ↔ d ∈ dirs (os w))).

(** The area [view3d_context] hands to its body: the one kept, or the
    first 3D viewport of the screen. *)
Definition the_viewport (p : TextureProjector) (w : World) : option nat :=
  match _view3d_cache p with
  | Some a => Some a
  | None => find_index is_view3d (areas w) 0
  end.

(** What [project_texture] does on the viewport after its message: the
    render and, when there is one, the projection. *)
Definition paint_render (area : nat) : M PState unit :=
  let* render_image := create_temp_render in
  match render_image with
  | Some image =>
      try_except (
        liftW (set_image_paint "clone_image" (VStr image)) ;;
        let* ars := get_world areas in
        match ars !! area with
        | Some a =>
            if str_in "WINDOW" (area_regions a) then
              liftW (project_image image) ;;
              bake_image_save
            else raise (IndexError "list index out of range")
        | None => raise (ReferenceError "StructRNA of type Area has been removed")
        end)
      (fun e => liftW (print ("Error during texture projection: " +:+ str e)))
  | None => ret tt
  end.

(** The world in which [project_texture] starts the render: the object
    active and in texture paint mode, the image paint settings written and
    the message printed. *)
Definition paint_ready (p : TextureProjector) (name : string) (ob : Object)
    (current_count total_count : nat) (w : World) : World :=
  let wa := with_active_object (fun _ => Some name) w in
  let wm := if String.eqb (o_mode ob) "TEXTURE_PAINT" then wa
            else with_data (with_objects (insert name
                   (with_o_mode (fun _ => "TEXTURE_PAINT") ob))) wa in
  let st := settings p in
  with_stdout (fun out => (out ++ ["Processing view " +:+ pretty current_count +:+ "/"
                                   +:+ pretty total_count])%list)
    (with_scene (with_image_paint
       (setattr "screen_grab_size" (VInts [st_resolution st; st_resolution st])))
    (with_scene (with_image_paint (setattr "seam_bleed" (VInt (st_seam_bleed st))))
    (with_scene (with_image_paint (setattr "use_backface_culling" (VBool true)))
    (with_scene (with_image_paint (setattr "use_occlude" (VBool true)))
    (with_scene (with_image_paint (setattr "canvas" (image_ref (bake_image p))))
    (with_scene (with_image_paint (setattr "mode" (VStr "IMAGE"))) wm)))))).


(** ** Sample states

    A scene with one mesh, a cube of side 2 centred at the origin, in a
    blend file saved under /home/u; a screen with a properties editor and
    a 3D viewport; a render that takes two seconds and writes its still. *)

Module Sample.

(** The values of the C library the runs below ask for: the tangent of
    half the field of view of the default lens (18/50), the sine and
    cosine of the azimuth 0.  Angles are passed through in degrees. *)
Definition libm : Libm := {|
  math_tan := fun _ => (9 # 25)%Q;
  math_cos := fun x => if Qeq_bool x 0 then 1%Q else 0%Q;
  math_sin := fun _ => 0%Q;
  math_radians := fun x => x;
  lens_angle := fun sensor lens => (sensor / lens)%Q |}.

Definition cube_corners : list Vec3 :=
  [mkVec (-1) (-1) (-1); mkVec (-1) (-1) 1; mkVec (-1) 1 1; mkVec (-1) 1 (-1);
   mkVec 1 (-1) (-1); mkVec 1 (-1) 1; mkVec 1 1 1; mkVec 1 1 (-1)].

Definition cube : Object :=
  mkObject "MESH" "OBJECT" ∅ (mkVec 0 0 0) None mat_identity cube_corners [] [] None.

(** The same mesh, ten times as large. *)
Definition big_cube : Object :=
  mkObject "MESH" "OBJECT" ∅ (mkVec 0 0 0) None mat_identity
    (map (fun c => mkVec (10 * vx c) (10 * vy c) (10 * vz c)) cube_corners) [] [] None.

Definition bake_camera : Object :=
  mkObject "CAMERA" "OBJECT" (list_to_map [("angle", VNum (72 # 100))])
    (mkVec 0 0 0) None mat_identity [] [] [] None.

Definition props : Props :=
  mkProps "BALANCED" false false false "//texture_projections" "Bake_Texture"
    true 64 2 0 0 false.

Definition preferences : Preferences := mkPreferences 0 "128" 16 "512" 32 "1024".

Definition viewport : Area := mkArea "VIEW_3D" ["HEADER"; "WINDOW"] ∅.
Definition properties_editor : Area := mkArea "PROPERTIES" ["WINDOW"] ∅.

Definition world : World := {|
  scene := mkScene props ∅ ∅ ∅ None;
  data := mkBlendData ∅ {["Cube" := cube]} ∅ "/home/u/scene.blend";
  os := mkOs ∅ ∅ ∅ 1000;
  wm := mkWm [] 0 0 [];
  host := mkHost libm {["Texture Paint Bake" := Some preferences]} "/tmp" RenderWrites 2 false;
  areas := [properties_editor; viewport];
  active_object := Some "Cube";
  stdout := [];
  memo_distance := ∅;
  memo_view := ∅;
  next_instance := 0 |}.

(** The same scene with the single-shot mode chosen. *)
Definition world_single : World :=
  with_scene (with_eevee_baker (fun p =>
    mkProps (quality_preset p) (show_bake p) (force_new_uv p) (should_cancel p)
      (output_directory p) (file_name p) false (resolution p) (seam_bleed p)
      (progress p) (total_steps p) (is_baking p))) world.

(** The same scene on a screen without a 3D viewport. *)
Definition world_no_viewport : World :=
  with_areas (fun _ => [properties_editor]) world.

(** A projector for the cube with a camera in place, as [execute] sets
    it up. *)
Definition a_projector : TextureProjector :=
  mkTextureProjector 0 default_settings (Some "Cube") None (Some "BakeCamera") [] ∅
    "/home/u/texture_projections" "/home/u/temp_renders" None 1.

Definition world_with_camera : World :=
  with_data (with_objects (insert "BakeCamera" bake_camera)) world.

Definition pstate : PState := mkPState a_projector world_with_camera.

(** The state after a first call of [calculate_optimal_distance] for
    the 'total' view, and a later state in which the mesh has grown
    tenfold and the camera has a wider lens. *)
Definition pstate_called : PState :=
  snd (calculate_optimal_distance [Some "total"] ∅ pstate).

Definition pstate_later : PState :=
  with_world (with_data (with_objects (fun m =>
    <["BakeCamera" := with_o_data (setattr "angle" (VNum (15 # 10))) bake_camera]>
      (<["Cube" := big_cube]> m)))) pstate_called.

(** The states after the two memoized calls [position_camera] makes for
    the view from below. *)
Definition pstate_viewed : PState := snd (get_view_parameters [Some "below"] ∅ pstate).

Definition pstate_measured : PState :=
  snd (calculate_optimal_distance [Some "below"] ∅ pstate_viewed).

(** A material whose output is fed by a diffuse shader, with the bake
    nodes in place, on the cube. *)
Definition material : Material :=
  mkMaterial true
    [mkNode "Diffuse BSDF" "BSDF_DIFFUSE" 1 ∅; mkNode "Material Output" "OUTPUT_MATERIAL" 0 ∅;
     mkNode "Bake_UV" "UVMAP" 1 ∅; mkNode "Bake_Texture" "TEX_IMAGE" 2 ∅]
    [mkLink "Diffuse BSDF" 0 "Material Output" "Surface";
     mkLink "Bake_UV" 0 "Bake_Texture" "Vector"]
    None ∅.

Definition world_with_material : World :=
  with_data (fun d =>
    with_materials (insert "Mat" material)
      (with_objects (insert "Cube" (with_o_materials (fun _ => ["Mat"]) cube)) d)) world.

(** The projector after a first [setup_material_nodes] on that scene,
    and the entry it filed. *)
Definition pstate_with_material : PState :=
  mkPState a_projector
    (with_data (with_objects (insert "BakeCamera" bake_camera)) world_with_material).

Definition pstate_nodes_set_up : PState := snd (setup_material_nodes pstate_with_material).

Definition filed_entry : OriginalNodes :=
  mkOriginalNodes
    [("Diffuse BSDF", "BSDF_DIFFUSE"); ("Material Output", "OUTPUT_MATERIAL");
     ("Bake_UV", "UVMAP"); ("Bake_Texture", "TEX_IMAGE")]
    (Some "Diffuse BSDF").

(** The scene after the preview was switched on once, and its material. *)
Definition world_preview_on : World :=
  snd (EEVEE_OT_ToggleBakePreview.toggle_material_nodes (Some "Cube") true world_with_material).

Definition material_preview_on : Material :=
  mkMaterial true (nodes material)
    [mkLink "Bake_UV" 0 "Bake_Texture" "Vector";
     mkLink "Bake_Texture" 0 "Material Output" "Surface"]
    None {["original_connection" := ("Diffuse BSDF", 0%nat)]}.

(** A projector fresh from its class, before [process]. *)
Definition fresh_projector : TextureProjector :=
  mkTextureProjector 7 default_settings None None None [] ∅
    "/home/u/texture_projections" "/home/u/temp_renders" None 1.

(** A fresh operator instance on each of the worlds. *)
Definition ostate : OState := mkOState EEVEE_OT_TextureBaker.instance world.
Definition ostate_single : OState := mkOState EEVEE_OT_TextureBaker.instance world_single.
Definition ostate_no_viewport : OState :=
  mkOState EEVEE_OT_TextureBaker.instance world_no_viewport.

(** A bake run under way: [execute] has returned, one timer tick has been
    handled, and then the user has pressed cancel. *)
Definition ostate_running : OState := snd (EEVEE_OT_TextureBaker.execute ostate).

Definition running_projector : TextureProjector :=
  default a_projector (projector (op ostate_running)).

Definition ostate_ticked : OState :=
  snd (EEVEE_OT_TextureBaker.modal "TIMER" ostate_running).

(** The camera where the first tick of that run has put it, for the view
    from below at azimuth 0, and the corner of the cube next to it. *)
Definition camera_after_tick : Object :=
  default bake_camera (objects (data (oworld ostate_ticked)) !! "BakeCamera").

Definition near_corner : Vec3 := mkVec 1 1 (-1).

Definition ticked_projector : TextureProjector :=
  default a_projector (projector (op ostate_ticked)).

Definition world_cancelled : World :=
  snd (EEVEE_OT_CancelBake.execute (oworld ostate_ticked)).

(** The state of the projector after the first angle of that run. *)
Definition pstate_angle_done : PState :=
  snd (angle_step 0 (Some "below") (angle_fstring (Some "below") 0)
         (_current_angle_index (op ostate_running) + 1)
         (length (_camera_angles (op ostate_running)))
         (mkPState running_projector (oworld ostate_running))).

(** A single-shot run: [execute] has returned; the projector it holds, and
    the state of the projector after its one projection. *)
Definition ostate_single_running : OState :=
  snd (EEVEE_OT_TextureBaker.execute ostate_single).

Definition single_projector : TextureProjector :=
  default a_projector (projector (op ostate_single_running)).

Definition pstate_single_done : PState :=
  snd (project_texture (VInt 0) 1 1
         (mkPState single_projector (oworld ostate_single_running))).

(** A run on the screen without a 3D viewport: [execute] has returned; the
    projector it holds, and the state in which the first angle fails. *)
Definition ostate_blind_running : OState :=
  snd (EEVEE_OT_TextureBaker.execute ostate_no_viewport).

Definition blind_projector : TextureProjector :=
  default a_projector (projector (op ostate_blind_running)).

Definition pstate_angle_failed : PState :=
  snd (angle_step 0 (Some "below") (angle_fstring (Some "below") 0)
         (_current_angle_index (op ostate_blind_running) + 1)
         (length (_camera_angles (op ostate_blind_running)))
         (mkPState blind_projector (oworld ostate_blind_running))).

(** The same scene when the still of the first render cannot be
    removed (a file in use, or one the process has no right to delete),
    and a fresh projector on it. *)
Definition first_still : string := "/home/u/temp_renders/temp_render_1000.png".

Definition world_locked : World :=
  with_os (with_locked (fun _ => {[first_still]})) world.

Definition pstate_locked : PState :=
  match TextureProjector_init default_settings world_locked with
  | (Ok p, w) => mkPState p w
  | (Raise _, w) => mkPState fresh_projector w
  end.

Definition first_artifact : string * string := ("EEVEE Bake Test_Model_1002", first_still).

(** The scene with the camera in place, on a host whose render operator
    raises. *)
Definition failing_host : Host :=
  mkHost libm {["Texture Paint Bake" := Some preferences]} "/tmp" RenderRaises 2 false.

Definition pstate_render_fails : PState :=
  mkPState a_projector
    (mkWorld (scene world_with_camera) (data world_with_camera) (os world_with_camera)
       (wm world_with_camera) failing_host (areas world_with_camera)
       (active_object world_with_camera) (stdout world_with_camera)
       (memo_distance world_with_camera) (memo_view world_with_camera)
       (next_instance world_with_camera)).

(** The scene on a host where the add-on is not among the enabled ones,
    and a fresh operator instance on it. *)
Definition world_not_enabled : World :=
  mkWorld (scene world) (data world) (os world) (wm world)
    (mkHost libm ∅ "/tmp" RenderWrites 2 false) (areas world)
    (active_object world) (stdout world) (memo_distance world) (memo_view world)
    (next_instance world).

Definition ostate_not_enabled : OState :=
  mkOState EEVEE_OT_TextureBaker.instance world_not_enabled.

(** A fresh projector on the scene with nothing selected. *)
Definition pstate_nothing_selected : PState :=
  mkPState fresh_projector (with_active_object (fun _ => None) world).

End Sample.

(** ** Computations that keep a relation

    For a reflexive and transitive [R], [stable R] goes through every
    combinator, so a frame property of a method follows the method's
    text. *)

Section Stable.
Context {S : Type} (R : S → S → Prop).
Hypothesis R_refl : ∀ s, R s s.
Hypothesis R_trans : ∀ s1 s2 s3, R s1 s2 → R s2 s3 → R s1 s3.

Lemma stable_ret {A} (a : A) : stable R (ret a).
Proof using R_refl. intros s. apply R_refl. Qed.

Lemma stable_raise {A} (e : Exn) : stable R (@raise S A e).
Proof using R_refl. intros s. apply R_refl. Qed.

Lemma stable_gets {A} (f : S → A) : stable R (gets f).
Proof using R_refl. intros s. apply R_refl. Qed.

Lemma stable_of_result {A} (r : Result A) : stable R (@of_result S A r).
Proof using R_refl. intros s. apply R_refl. Qed.

Lemma stable_modify (f : S → S) : (∀ s, R s (f s)) → stable R (modify f).
Proof. intros H s. apply H. Qed.

Lemma stable_bind {A B} (m : M S A) (k : A → M S B) :
  stable R m → (∀ a, stable R (k a)) → stable R (bind m k).
Proof using R_trans.
  intros Hm Hk s. unfold bind. specialize (Hm s).
  destruct (m s) as [[a | e] s1]; cbn in *; [| exact Hm].
  eapply R_trans; [exact Hm | apply Hk].
Qed.

Lemma stable_bind_at {A B} (m : M S A) (k : A → M S B) s :
  R s (snd (m s)) → (∀ a, stable R (k a)) → R s (snd (bind m k s)).
Proof using R_trans.
  intros Hm Hk. unfold bind.
  destruct (m s) as [[a | e] s1]; cbn in *; [| exact Hm].
  eapply R_trans; [exact Hm | apply Hk].
Qed.

Lemma stable_try_except {A} (body : M S A) (handler : Exn → M S A) :
  stable R body → (∀ e, stable R (handler e)) → stable R (try_except body handler).
Proof using R_trans.
  intros Hb Hh s. unfold try_except. specialize (Hb s).
  destruct (body s) as [[a | e] s1]; cbn in *; [exact Hb |].
  eapply R_trans; [exact Hb | apply Hh].
Qed.

Lemma stable_try_finally {A} (body : M S A) (final : M S unit) :
  stable R body → stable R final → stable R (try_finally body final).
Proof using R_trans.
  intros Hb Hf s. unfold try_finally. specialize (Hb s).
  destruct (body s) as [r s1]; cbn in *. specialize (Hf s1).
  destruct (final s1) as [[[] | e] s2]; cbn in *; eapply R_trans; eauto.
Qed.

Lemma stable_gets_bind {A B} (f : S → A) (k : A → M S B) :
  (∀ s, R s (snd (k (f s) s))) → stable R (bind (gets f) k).
Proof. intros H s. apply H. Qed.

Lemma stable_when (b : bool) (m : M S unit) : stable R m → stable R (when b m).
Proof using R_refl. intros Hm. destruct b; cbn; [exact Hm | apply stable_ret]. Qed.

Lemma stable_for_each {A} (l : list A) (body : A → M S unit) :
  (∀ x, stable R (body x)) → stable R (for_each l body).
Proof using R_refl R_trans.
  intros Hb. induction l as [| x l IH]; cbn; [apply stable_ret |].
  apply stable_bind; auto.
Qed.
End Stable.

Lemma stable_weaken {S A} (R R' : S → S → Prop) (m : M S A) :
  (∀ s s', R s s' → R' s s') → stable R m → stable R' m.
Proof. intros HR Hm s. apply HR, Hm. Qed.

(** One step of a frame proof along the combinators, for a relation with
    the given proofs of reflexivity and transitivity. *)
Ltac stable_comb refl trans :=
  lazymatch goal with
  | |- stable _ (bind _ _) => apply stable_bind; [exact trans | | intros]
  | |- stable _ (ret _) => apply stable_ret; exact refl
  | |- stable _ (raise _) => apply stable_raise; exact refl
  | |- stable _ empty_sequence => apply stable_raise; exact refl
  | |- stable _ (gets _) => apply stable_gets; exact refl
  | |- stable _ (get_self _) => apply stable_gets; exact refl
  | |- stable _ (get_world _) => apply stable_gets; exact refl
  | |- stable _ (get_props _) => apply stable_gets; exact refl
  | |- stable _ time_time => apply stable_gets; exact refl
  | |- stable _ (os_path_exists _) => apply stable_gets; exact refl
  | |- stable _ (os_listdir _) => apply stable_gets; exact refl
  | |- stable _ (image_exists _) => apply stable_gets; exact refl
  | |- stable _ (of_result _) => apply stable_of_result; exact refl
  | |- stable _ (when _ _) => apply stable_when; [exact refl |]
  | |- stable _ (try_except _ _) => apply stable_try_except; [exact trans | | intros]
  | |- stable _ (try_finally _ _) => apply stable_try_finally; [exact trans | |]
  | |- stable _ (for_each _ _) => apply stable_for_each; [exact refl | exact trans | intros]
  | |- stable _ (match ?x with _ => _ end) => destruct x
  end.

(** ** Equations that run one step of a computation *)

Lemma bind_liftO {A B} (m : M World A) (k : A → M OState B) o w :
  bind (liftO m) k (mkOState o w) =
  match m w with
  | (Ok a, w') => k a (mkOState o w')
  | (Raise e, w') => (Raise e, mkOState o w')
  end.
Proof. unfold bind, liftO; cbn. destruct (m w) as [[a | e] w']; reflexivity. Qed.

Lemma bind_liftW {A B} (m : M World A) (k : A → M PState B) p w :
  bind (liftW m) k (mkPState p w) =
  match m w with
  | (Ok a, w') => k a (mkPState p w')
  | (Raise e, w') => (Raise e, mkPState p w')
  end.
Proof. unfold bind, liftW; cbn. destruct (m w) as [[a | e] w']; reflexivity. Qed.

Lemma bind_on_projector {A B} (m : M PState A) (k : A → M OState B) o w p :
  projector o = Some p →
  bind (on_projector m) k (mkOState o w) =
  match m (mkPState p w) with
  | (Ok a, ps) => k a (mkOState (with_projector (fun _ => Some (self ps)) o) (world ps))
  | (Raise e, ps) => (Raise e, mkOState (with_projector (fun _ => Some (self ps)) o) (world ps))
  end.
Proof.
  intros Hp. unfold bind, on_projector; cbn. rewrite Hp.
  destruct (m (mkPState p w)) as [[a | e] ps]; reflexivity.
Qed.

Lemma bind_modify {S B} (f : S → S) (k : unit → M S B) s :
  bind (modify f) k s = k tt (f s).
Proof. reflexivity. Qed.

Lemma bind_gets {S A B} (f : S → A) (k : A → M S B) s :
  bind (gets f) k s = k (f s) s.
Proof. reflexivity. Qed.

Lemma bind_get_self {A B} (f : TextureProjector → A) (k : A → M PState B) s :
  bind (get_self f) k s = k (f (self s)) s.
Proof. reflexivity. Qed.

Lemma bind_get_world {A B} (f : World → A) (k : A → M PState B) s :
  bind (get_world f) k s = k (f (world s)) s.
Proof. reflexivity. Qed.

Lemma bind_set_self {B} f (k : unit → M PState B) s :
  bind (set_self f) k s = k tt (with_self f s).
Proof. reflexivity. Qed.

Lemma bind_set_world {B} f (k : unit → M PState B) s :
  bind (set_world f) k s = k tt (with_world f s).
Proof. reflexivity. Qed.

Lemma bind_ret {S A B} (a : A) (k : A → M S B) s : bind (ret a) k s = k a s.
Proof. reflexivity. Qed.

Lemma bind_raise {S A B} e (k : A → M S B) s : bind (raise e) k s = (Raise e, s).
Proof. reflexivity. Qed.

Lemma bind_assoc {S A B C} (m : M S A) (k : A → M S B) (h : B → M S C) s :
  bind (bind m k) h s = bind m (fun a => bind (k a) h) s.
Proof. unfold bind. destruct (m s) as [[a | e] s1]; reflexivity. Qed.

(** ** The frame of the projector's methods *)

Lemma memo_le_refl {V} (c : gmap nat (gmap Key V)) : memo_le c c.
Proof. intros me k v H. exact H. Qed.

Lemma memo_le_trans {V} (c1 c2 c3 : gmap nat (gmap Key V)) :
  memo_le c1 c2 → memo_le c2 c3 → memo_le c1 c3.
Proof. intros H1 H2 me k v H. apply H2, H1, H. Qed.

Lemma weak_frame_refl w : weak_frame w w.
Proof. repeat split; apply memo_le_refl. Qed.

Lemma weak_frame_trans w1 w2 w3 : weak_frame w1 w2 → weak_frame w2 w3 → weak_frame w1 w3.
Proof.
  intros (H1 & H2 & H3 & H4) (G1 & G2 & G3 & G4). repeat split; try congruence.
  - eapply memo_le_trans; eauto.
  - eapply memo_le_trans; eauto.
Qed.

Lemma weak_frame_same w w' :
  host w' = host w → locked (os w') = locked (os w) →
  memo_distance w' = memo_distance w → memo_view w' = memo_view w →
  weak_frame w w'.
Proof. intros H1 H2 H3 H4. repeat split; auto; rewrite ?H3, ?H4; apply memo_le_refl. Qed.

Lemma world_frame_refl w : world_frame w w.
Proof. split; [apply weak_frame_refl | done]. Qed.

Lemma world_frame_trans w1 w2 w3 : world_frame w1 w2 → world_frame w2 w3 → world_frame w1 w3.
Proof.
  intros (H1 & H2 & H3) (G1 & G2 & G3). split; [eapply weak_frame_trans; eauto |].
  split; congruence.
Qed.

Lemma world_frame_same w w' :
  host w' = host w → locked (os w') = locked (os w) →
  memo_distance w' = memo_distance w → memo_view w' = memo_view w →
  eevee_baker (scene w') = eevee_baker (scene w) → wm w' = wm w →
  world_frame w w'.
Proof. intros H1 H2 H3 H4 H5 H6. split; [by apply weak_frame_same | done]. Qed.

Lemma self_frame_refl p : self_frame p p.
Proof. repeat split; reflexivity. Qed.

Lemma self_frame_trans p1 p2 p3 : self_frame p1 p2 → self_frame p2 p3 → self_frame p1 p3.
Proof.
  intros (H1 & H2 & H3) (G1 & G2 & G3). repeat split; try congruence.
  etransitivity; eauto.
Qed.

Lemma self_frame_same p p' :
  settings p' = settings p → self_id p' = self_id p → original_nodes p' = original_nodes p →
  self_frame p p'.
Proof. intros H1 H2 H3. repeat split; auto. rewrite H3. reflexivity. Qed.

Lemma frame_refl s : frame s s.
Proof. split; [apply self_frame_refl | apply world_frame_refl]. Qed.

Lemma frame_trans s1 s2 s3 : frame s1 s2 → frame s2 s3 → frame s1 s3.
Proof.
  intros [H1 H2] [G1 G2]. split;
    [eapply self_frame_trans | eapply world_frame_trans]; eauto.
Qed.

Lemma stable_liftW {A} (m : M World A) : stable world_frame m → stable frame (liftW m).
Proof.
  intros H [p w]. unfold liftW; cbn. specialize (H w).
  destruct (m w) as [r w']; cbn in *. split; [apply self_frame_refl | exact H].
Qed.

Lemma stable_set_self (f : TextureProjector → TextureProjector) :
  (∀ p, self_frame p (f p)) → stable frame (set_self f).
Proof. intros H [p w]. cbn. split; [apply H | apply world_frame_refl]. Qed.

Lemma stable_set_world (f : World → World) :
  (∀ w, world_frame w (f w)) → stable frame (set_world f).
Proof. intros H [p w]. cbn. split; [apply self_frame_refl | apply H]. Qed.

Create HintDb stable discriminated.

Ltac frame_step :=
  first
    [ stable_comb frame_refl frame_trans
    | stable_comb world_frame_refl world_frame_trans
    | lazymatch goal with
      | |- stable frame (liftW _) => apply stable_liftW
      | |- stable frame (set_self _) =>
          apply stable_set_self; intros; apply self_frame_same; reflexivity
      | |- stable frame (set_world _) =>
          apply stable_set_world; intros; apply world_frame_same; reflexivity
      | |- stable world_frame (modify _) =>
          apply stable_modify; intros; apply world_frame_same; reflexivity
      end
    | solve [auto with stable nocore] ].

Ltac frame_auto := repeat frame_step.

(** A host call that branches on the world and changes it by setters. *)
Ltac frame_prim :=
  let w := fresh "w" in
  intros w; cbv beta delta [os_remove os_makedirs os_rmdir set_image_attr images_add
    lookup_object lookup_material materials_new camera_add event_timer_add];
  repeat case_match; cbn [snd];
  first [apply world_frame_refl | apply world_frame_same; reflexivity].

(** *** Host calls *)

Lemma stable_print msg : stable world_frame (print msg).
Proof. unfold print. frame_auto. Qed.

Lemma stable_set_eevee k v : stable world_frame (set_eevee k v).
Proof. unfold set_eevee. frame_auto. Qed.

Lemma stable_set_render k v : stable world_frame (set_render k v).
Proof. unfold set_render. frame_auto. Qed.

Lemma stable_set_image_paint k v : stable world_frame (set_image_paint k v).
Proof. unfold set_image_paint. frame_auto. Qed.

Lemma stable_images_remove n : stable world_frame (images_remove n).
Proof. unfold images_remove. frame_auto. Qed.

Lemma stable_batch_remove l : stable world_frame (batch_remove l).
Proof. unfold batch_remove. frame_auto. Qed.

Lemma stable_os_remove p : stable world_frame (os_remove p).
Proof. frame_prim. Qed.

Lemma stable_os_makedirs p : stable world_frame (os_makedirs p).
Proof. frame_prim. Qed.

Lemma stable_os_rmdir d : stable world_frame (os_rmdir d).
Proof. frame_prim. Qed.

Lemma stable_set_image_attr n k v : stable world_frame (set_image_attr n k v).
Proof. frame_prim. Qed.

Lemma stable_images_add n a : stable world_frame (images_add n a).
Proof. frame_prim. Qed.

Lemma stable_lookup_object n : stable world_frame (lookup_object n).
Proof. frame_prim. Qed.

Lemma stable_lookup_material n : stable world_frame (lookup_material n).
Proof. frame_prim. Qed.

Lemma stable_materials_new n : stable world_frame (materials_new n).
Proof. frame_prim. Qed.

Lemma stable_camera_add  : stable world_frame camera_add.
Proof. frame_prim. Qed.

#[local] Hint Resolve stable_print stable_set_eevee stable_set_render stable_set_image_paint stable_images_remove stable_batch_remove stable_os_remove stable_os_makedirs stable_os_rmdir stable_set_image_attr stable_images_add stable_lookup_object stable_lookup_material stable_materials_new stable_camera_add : stable.

Lemma stable_update_object n f : stable world_frame (update_object n f).
Proof. unfold update_object. frame_auto. Qed.

Lemma stable_update_material n f : stable world_frame (update_material n f).
Proof. unfold update_material. frame_auto. Qed.

#[local] Hint Resolve stable_update_object stable_update_material : stable.

Lemma stable_mode_set mode : stable world_frame (mode_set mode).
Proof. unfold mode_set. frame_auto. Qed.

Lemma stable_render_render  : stable world_frame render_render.
Proof. unfold render_render. frame_auto. Qed.

Lemma stable_uv_unwrap  : stable world_frame uv_unwrap.
Proof. unfold uv_unwrap. frame_auto. Qed.

Lemma stable_objects_remove n : stable world_frame (objects_remove n).
Proof. unfold objects_remove. frame_auto. Qed.

Lemma stable_rename_object a b : stable world_frame (rename_object a b).
Proof. unfold rename_object. frame_auto. Qed.

Lemma stable_project_image n : stable world_frame (project_image n).
Proof. unfold project_image. frame_auto. Qed.

Lemma stable_set_lens c l : stable world_frame (set_lens c l).
Proof. unfold set_lens. frame_auto. Qed.

#[local] Hint Resolve stable_mode_set stable_render_render stable_uv_unwrap stable_objects_remove stable_rename_object stable_project_image stable_set_lens : stable.

(** *** Projector methods *)

Lemma stable_optimize_render_settings : stable frame optimize_render_settings.
Proof. unfold optimize_render_settings. frame_auto. Qed.

Lemma stable__setup_directories : stable frame _setup_directories.
Proof. unfold _setup_directories. frame_auto. Qed.

Lemma stable_view3d_context {A} (body : nat → M PState A) :
  (∀ a, stable frame (body a)) → stable frame (view3d_context body).
Proof. intros H. unfold view3d_context. frame_auto. Qed.

Lemma stable_object_mode {A} mode (body : M PState A) :
  stable frame body → stable frame (object_mode mode body).
Proof. intros H. unfold object_mode. frame_auto. Qed.

Lemma stable_cleanup_render_view_image n : stable frame (cleanup_render_view_image n).
Proof. unfold cleanup_render_view_image. frame_auto. Qed.

Lemma stable_cleanup_entry n p : stable frame (cleanup_entry n p).
Proof. unfold cleanup_entry. frame_auto. Qed.

#[local] Hint Resolve stable_cleanup_entry : stable.

Lemma stable_cleanup_loop l acc : stable frame (cleanup_loop l acc).
Proof.
  revert acc. induction l as [| [image_name temp_path] l IH]; intros acc; cbn [cleanup_loop].
  - frame_auto.
  - frame_auto.
Qed.

#[local] Hint Resolve stable_optimize_render_settings stable__setup_directories
  stable_cleanup_render_view_image stable_cleanup_loop : stable.

Lemma stable_remove_temp_dir : stable frame remove_temp_dir.
Proof. unfold remove_temp_dir. frame_auto. Qed.

#[local] Hint Resolve stable_remove_temp_dir : stable.

Lemma stable_cleanup : stable frame cleanup.
Proof. unfold cleanup. frame_auto. Qed.

Lemma stable_the_obj : stable frame the_obj.
Proof. unfold the_obj. frame_auto. Qed.

#[local] Hint Resolve stable_cleanup stable_the_obj : stable.

Lemma stable_the_mesh : stable frame the_mesh.
Proof. unfold the_mesh. frame_auto. Qed.

#[local] Hint Resolve stable_the_mesh : stable.

Lemma stable_create_uv_map : stable frame create_uv_map.
Proof. unfold create_uv_map. frame_auto. apply stable_object_mode. frame_auto. Qed.

Lemma stable_create_bake_image : stable frame create_bake_image.
Proof. unfold create_bake_image. frame_auto. Qed.

Lemma stable_setup_camera : stable frame setup_camera.
Proof. unfold setup_camera. frame_auto. Qed.

Lemma stable_setup_viewport : stable frame setup_viewport.
Proof. unfold setup_viewport. apply stable_view3d_context. intros. frame_auto. Qed.

Lemma stable_create_temp_render : stable frame create_temp_render.
Proof. unfold create_temp_render. frame_auto. Qed.

Lemma stable_bake_image_save : stable frame bake_image_save.
Proof. unfold bake_image_save. frame_auto. Qed.

#[local] Hint Resolve stable_create_uv_map stable_create_bake_image stable_setup_camera
  stable_setup_viewport stable_create_temp_render stable_bake_image_save : stable.

Lemma stable_project_texture a c t : stable frame (project_texture a c t).
Proof.
  unfold project_texture. frame_auto. apply stable_object_mode. frame_auto.
  apply stable_view3d_context. intros. frame_auto.
Qed.

Lemma stable_generate_camera_angles : stable frame generate_camera_angles.
Proof. unfold generate_camera_angles. frame_auto. Qed.

#[local] Hint Resolve stable_project_texture stable_generate_camera_angles : stable.

(** ** [memoize] *)

(** The two decorated bodies only read the state. *)
Lemma liftW_lookup_object_readonly n s : snd (liftW (lookup_object n) s) = s.
Proof.
  destruct s as [p w]. unfold liftW, lookup_object; cbn.
  destruct (objects (data w) !! n); reflexivity.
Qed.

Lemma extent_readonly coord corners (s : PState) : snd (extent coord corners s) = s.
Proof. unfold extent. repeat case_match; reflexivity. Qed.

Lemma camera_angle_readonly s : snd (camera_angle s) = s.
Proof.
  destruct s as [p w]. unfold camera_angle, bind, get_self, gets, liftW, lookup_object, raise, ret; cbn.
  destruct (camera p) as [name |]; cbn; [| reflexivity].
  destruct (objects (data w) !! name) as [cam |]; cbn; [| reflexivity].
  destruct (getattr "angle" (o_data cam)); reflexivity.
Qed.

Lemma bind_readonly {S A B} (m : M S A) (k : A → M S B) s :
  snd (m s) = s → (∀ a, snd (k a s) = s) → snd (bind m k s) = s.
Proof.
  intros Hm Hk. unfold bind. destruct (m s) as [[a | e] s1]; cbn in *; subst; [apply Hk | done].
Qed.

Lemma calculate_optimal_distance_func_readonly args kwargs s :
  snd (calculate_optimal_distance_func args kwargs s) = s.
Proof.
  unfold calculate_optimal_distance_func.
  apply bind_readonly; [reflexivity | intros view_type].
  apply bind_readonly; [reflexivity | intros o].
  destruct o as [name |]; [| reflexivity].
  apply bind_readonly; [apply liftW_lookup_object_readonly | intros ob].
  do 3 (apply bind_readonly; [apply extent_readonly | intros ?]).
  apply bind_readonly; [apply camera_angle_readonly | intros fov].
  apply bind_readonly; [reflexivity | intros tan].
  case_match; reflexivity.
Qed.

Lemma get_view_parameters_func_readonly args kwargs s :
  snd (get_view_parameters_func args kwargs s) = s.
Proof.
  unfold get_view_parameters_func.
  apply bind_readonly; [reflexivity | intros view_type].
  apply bind_readonly; [| intros name].
  { unfold the_obj. apply bind_readonly; [reflexivity | intros o]. by destruct o. }
  apply bind_readonly; [apply liftW_lookup_object_readonly | intros ob].
  repeat case_match; reflexivity.
Qed.

Section Memoize.
Context {V : Type}.
Context (get_cache : World → gmap nat (gmap Key V)).
Context (set_cache : (gmap nat (gmap Key V) → gmap nat (gmap Key V)) → World → World).
Hypothesis get_set : ∀ f w, get_cache (set_cache f w) = f (get_cache w).
Hypothesis set_same : ∀ f w, f (get_cache w) = get_cache w → set_cache f w = w.
Hypothesis set_set : ∀ f g w, set_cache g (set_cache f w) = set_cache (fun c => g (f c)) w.

Lemma cached_default (c : gmap nat (gmap Key V)) me key :
  default ∅ (c !! me) !! key = cached c me key.
Proof. unfold cached. destruct (c !! me); cbn; [done | apply lookup_empty]. Qed.

(** A call whose key is filed returns the filed result and changes
    nothing, whatever the decorated function is. *)
Lemma memoize_hit func args kwargs s v :
  cached (get_cache (world s)) (self_id (self s)) (call_key args kwargs) = Some v →
  memoize get_cache set_cache func args kwargs s = (Ok v, s).
Proof using get_set set_same.
  intros Hc. destruct s as [p w]; cbn in *.
  assert (Hme : is_Some (get_cache w !! self_id p)).
  { unfold cached in Hc. destruct (get_cache w !! self_id p); [eauto | done]. }
  destruct Hme as [d Hd].
  unfold memoize, bind, get_self, set_world, get_world, gets, modify, ret; cbn.
  rewrite set_same by (by rewrite Hd).
  rewrite !cached_default, Hc. cbn.
  rewrite set_same by (by rewrite Hd).
  rewrite cached_default, Hc. unfold with_world; cbn.
  rewrite set_same by (by rewrite Hd). reflexivity.
Qed.

(** A call that returns has its result filed under its key. *)
Lemma memoize_result func args kwargs s v s' :
  (∀ a k s, snd (func a k s) = s) →
  memoize get_cache set_cache func args kwargs s = (Ok v, s') →
  self s' = self s ∧
  cached (get_cache (world s')) (self_id (self s)) (call_key args kwargs) = Some v.
Proof using get_set.
  intros Hro. destruct s as [p w]; cbn.
  unfold memoize, bind, get_self, set_world, get_world, gets, modify, ret, raise; cbn.
  rewrite !get_set. case_bool_decide as Hin; cbn.
  - rewrite !get_set, !cached_default.
    destruct (cached _ _ _) eqn:E; intros Heq; simplify_eq.
    split; [done |]. cbn. by rewrite get_set.
  - specialize (Hro args kwargs).
    match goal with |- context [func args kwargs ?s1] =>
      specialize (Hro s1); destruct (func args kwargs s1) as [[x | e] s2] end;
      cbn in *; subst; cbn; [| intros; simplify_eq].
    rewrite !get_set, !cached_default.
    destruct (cached _ _ _) eqn:E; intros Heq; simplify_eq.
    split; [done |]. cbn. by rewrite !get_set.
Qed.

(** A call never drops or overwrites a filed result. *)
Lemma memoize_grows func args kwargs s :
  (∀ a k s, snd (func a k s) = s) →
  ∃ g, snd (memoize get_cache set_cache func args kwargs s) = with_world (set_cache g) s ∧
       memo_le (get_cache (world s)) (g (get_cache (world s))).
Proof using get_set set_set.
  intros Hro. destruct s as [p w]; cbn.
  set (setdefault := fun c : gmap nat (gmap Key V) =>
         match c !! self_id p with Some _ => c | None => <[self_id p := ∅]> c end).
  assert (Hsd : ∀ c, memo_le c (setdefault c)).
  { intros c me k v Hc. unfold setdefault. destruct (c !! self_id p) eqn:E; [done |].
    unfold cached in *. destruct (decide (me = self_id p)) as [-> | Hne].
    - by rewrite E in Hc.
    - by rewrite lookup_insert_ne. }
  unfold memoize, bind, get_self, set_world, get_world, gets, modify, ret, raise; cbn.
  fold setdefault. rewrite !get_set. case_bool_decide as Hin; cbn.
  - rewrite !get_set. exists setdefault. split; [by case_match | apply Hsd].
  - specialize (Hro args kwargs).
    match goal with |- context [func args kwargs ?s1] =>
      specialize (Hro s1); destruct (func args kwargs s1) as [[x | e] s2] end;
      cbn in *; subst; cbn.
    + exists (fun c => alter <[call_key args kwargs:=x]> (self_id p) (setdefault c)). split.
      { match goal with |- (match ?t with _ => _ end _).2 = _ => destruct t end;
          unfold with_world; cbn; by rewrite set_set. }
      eapply memo_le_trans; [apply Hsd |].
      intros me k v Hc. unfold cached in *.
      destruct (decide (me = self_id p)) as [-> | Hne].
      * rewrite lookup_alter_eq. destruct (setdefault (get_cache w) !! self_id p) as [d |] eqn:E;
          [| done]. cbn in *.
        destruct (decide (k = call_key args kwargs)) as [-> | Hk].
        -- exfalso. apply Hin. eauto.
        -- by rewrite lookup_insert_ne.
      * by rewrite lookup_alter_ne.
    + exists setdefault. split; [done | apply Hsd].
Qed.
End Memoize.

Lemma distance_get_set f w : memo_distance (with_memo_distance f w) = f (memo_distance w).
Proof. reflexivity. Qed.
Lemma distance_set_same f w : f (memo_distance w) = memo_distance w → with_memo_distance f w = w.
Proof. destruct w; unfold with_memo_distance; cbn. intros H. by rewrite H. Qed.
Lemma distance_set_set f g w :
  with_memo_distance g (with_memo_distance f w) = with_memo_distance (fun c => g (f c)) w.
Proof. reflexivity. Qed.

Lemma view_get_set f w : memo_view (with_memo_view f w) = f (memo_view w).
Proof. reflexivity. Qed.
Lemma view_set_same f w : f (memo_view w) = memo_view w → with_memo_view f w = w.
Proof. destruct w; unfold with_memo_view; cbn. intros H. by rewrite H. Qed.
Lemma view_set_set f g w :
  with_memo_view g (with_memo_view f w) = with_memo_view (fun c => g (f c)) w.
Proof. reflexivity. Qed.

Lemma stable_calculate_optimal_distance args kwargs :
  stable frame (calculate_optimal_distance args kwargs).
Proof.
  intros s. unfold calculate_optimal_distance.
  destruct (memoize_grows memo_distance with_memo_distance distance_get_set distance_set_set
              calculate_optimal_distance_func args kwargs s
              calculate_optimal_distance_func_readonly) as (g & -> & Hle).
  split; [apply self_frame_refl |]. destruct s as [p w]; cbn in *.
  repeat split; [exact Hle | apply memo_le_refl].
Qed.

Lemma stable_get_view_parameters args kwargs :
  stable frame (get_view_parameters args kwargs).
Proof.
  intros s. unfold get_view_parameters.
  destruct (memoize_grows memo_view with_memo_view view_get_set view_set_set
              get_view_parameters_func args kwargs s
              get_view_parameters_func_readonly) as (g & -> & Hle).
  split; [apply self_frame_refl |]. destruct s as [p w]; cbn in *.
  repeat split; [apply memo_le_refl | exact Hle].
Qed.

#[local] Hint Resolve stable_calculate_optimal_distance stable_get_view_parameters : stable.

Lemma stable_position_camera a v : stable frame (position_camera a v).
Proof. unfold position_camera. frame_auto. Qed.

#[local] Hint Resolve stable_position_camera : stable.

(** [setup_material_nodes] files a material only when it has no entry. *)
Lemma stable_setup_material_nodes : stable frame setup_material_nodes.
Proof.
  unfold setup_material_nodes.
  frame_step; [frame_auto |]. destruct a as [name ob].
  frame_step; [frame_auto |]. rename a into mat.
  frame_step; [frame_auto |].
  frame_step; [frame_auto |]. rename a0 into m.
  intros [p w]. unfold bind at 1. unfold get_self at 1. unfold gets at 1. cbn [self].
  apply (stable_bind_at frame frame_trans); [| intros; frame_auto].
  unfold when. case_bool_decide as Hmat; cbn [negb]; [apply frame_refl |].
  assert (Hnone : original_nodes p !! mat = None).
  { destruct (original_nodes p !! mat) eqn:E; [exfalso; apply Hmat; eauto | done]. }
  unfold bind, set_self, modify; cbn.
  repeat case_match; cbn; (split; [| apply world_frame_refl]);
    (repeat split; cbn; try done);
    apply map_subseteq_spec; intros i x Hi;
    (destruct (decide (i = mat)) as [-> | Hne]; [congruence |]);
    rewrite ?lookup_alter_ne, ?lookup_insert_ne by done; done.
Qed.

#[local] Hint Resolve stable_setup_material_nodes : stable.

Lemma stable_process_angles l idx total : stable frame (process_angles l idx total).
Proof.
  revert idx. induction l as [| [view_type h_angle] l IH]; intros idx; cbn [process_angles];
    frame_auto.
Qed.

#[local] Hint Resolve stable_process_angles : stable.

Lemma stable_setup_failed {A} name (m : M PState A) :
  stable frame m → stable frame (setup_failed name m).
Proof. intros H. unfold setup_failed. frame_auto. Qed.

Lemma stable_process_body : stable frame process_body.
Proof.
  unfold process_body. frame_auto; apply stable_setup_failed; frame_auto.
Qed.

Lemma stable_process : stable frame process.
Proof.
  unfold process. apply stable_try_finally;
    [apply frame_trans | apply stable_process_body | apply stable_cleanup].
Qed.

(** Every method of the projector keeps the frame. *)
Lemma projector_operation_frame f : projector_operation f → ∀ s, frame s (f s).
Proof.
  intros Hf. destruct Hf;
    match goal with |- ∀ s, frame s (snd (?m s)) => change (stable frame m) end;
    first [ apply stable_process | frame_step ].
Qed.

(** ** The frame of the operator's methods *)

Lemma oframe_refl s : oframe s s.
Proof.
  split; [| apply weak_frame_refl].
  destruct (projector (op s)) as [p |] eqn:E; [| done].
  exists p. split; [done | apply self_frame_refl].
Qed.

Lemma oframe_trans s1 s2 s3 : oframe s1 s2 → oframe s2 s3 → oframe s1 s3.
Proof.
  intros [H1 H2] [G1 G2]. split; [| eapply weak_frame_trans; eauto].
  destruct (projector (op s1)) as [p1 |].
  - destruct H1 as (p2 & E2 & F12). rewrite E2 in G1. destruct G1 as (p3 & E3 & F23).
    exists p3. split; [done | eapply self_frame_trans; eauto].
  - by rewrite H1 in G1.
Qed.


Lemma oframe_same_op o w w' : weak_frame w w' → oframe (mkOState o w) (mkOState o w').
Proof.
  intros H. split; [| exact H]. cbn.
  destruct (projector o) as [p |]; [| done]. exists p. split; [done | apply self_frame_refl].
Qed.

Lemma stable_liftO {A} (m : M World A) : stable weak_frame m → stable oframe (liftO m).
Proof.
  intros H [o w]. unfold liftO; cbn. specialize (H w).
  destruct (m w) as [r w']; cbn in *. by apply oframe_same_op.
Qed.

Lemma stable_on_projector {A} (m : M PState A) : stable frame m → stable oframe (on_projector m).
Proof.
  intros H [o w]. unfold on_projector; cbn.
  destruct (projector o) as [p |] eqn:E; cbn.
  - specialize (H (mkPState p w)). destruct (m (mkPState p w)) as [r [p' w']]; cbn in *.
    destruct H as [H1 [H2 _]]. split; [| exact H2]. cbn. rewrite E. eauto.
  - split; [cbn; by rewrite E | apply weak_frame_refl].
Qed.

Lemma stable_modify_op (f : BakeOperator → BakeOperator) :
  (∀ o, projector (f o) = projector o) → stable oframe (modify (with_op f)).
Proof.
  intros H [o w]. cbn. split; [| apply weak_frame_refl]. cbn. rewrite H.
  destruct (projector o) as [p |]; [| done]. exists p. split; [done | apply self_frame_refl].
Qed.

Lemma world_frame_weak w w' : world_frame w w' → weak_frame w w'.
Proof. by intros [H _]. Qed.

Ltac weak_prim :=
  apply stable_modify; intros; apply weak_frame_same; reflexivity.

Lemma weak_set_props f : stable weak_frame (set_props f).
Proof. unfold set_props. weak_prim. Qed.
Lemma weak_report l m : stable weak_frame (report l m).
Proof. unfold report. weak_prim. Qed.
Lemma weak_event_timer_add q : stable weak_frame (event_timer_add q).
Proof. intros w. apply weak_frame_same; reflexivity. Qed.
Lemma weak_event_timer_remove h : stable weak_frame (event_timer_remove h).
Proof. unfold event_timer_remove. weak_prim. Qed.
Lemma weak_modal_handler_add : stable weak_frame modal_handler_add.
Proof. unfold modal_handler_add. weak_prim. Qed.
Lemma weak_of_world_frame {A} (m : M World A) : stable world_frame m → stable weak_frame m.
Proof. apply stable_weaken, world_frame_weak. Qed.

#[local] Hint Resolve weak_set_props weak_report weak_event_timer_add weak_event_timer_remove
  weak_modal_handler_add : stable.

Ltac oframe_step :=
  first
    [ stable_comb oframe_refl oframe_trans
    | stable_comb weak_frame_refl weak_frame_trans
    | lazymatch goal with
      | |- stable oframe (liftO _) => apply stable_liftO
      | |- stable oframe (on_projector _) => apply stable_on_projector
      | |- stable oframe (modify (with_op _)) => apply stable_modify_op; reflexivity
      end
    | solve [auto with stable nocore]
    | apply weak_of_world_frame; solve [auto with stable nocore]
    | frame_step ].

Lemma stable_baker_cleanup : stable oframe EEVEE_OT_TextureBaker.cleanup.
Proof. unfold EEVEE_OT_TextureBaker.cleanup. repeat oframe_step. Qed.

#[local] Hint Resolve stable_baker_cleanup : stable.

Lemma stable_baker_modal ev : stable oframe (EEVEE_OT_TextureBaker.modal ev).
Proof. unfold EEVEE_OT_TextureBaker.modal. repeat oframe_step. Qed.

(** The constructor hands out an instance with the settings it was given. *)
Lemma TextureProjector_init_settings st w p w' :
  TextureProjector_init st w = (Ok p, w') → settings p = st.
Proof.
  unfold TextureProjector_init.
  set (p0 := mkTextureProjector _ _ _ _ _ _ _ _ _ _ _).
  set (w1 := with_next_instance S w).
  assert (H : stable frame (_setup_directories ;;
                            set_self (with__view3d_cache (fun _ => None)) ;;
                            optimize_render_settings)) by frame_auto.
  specialize (H (mkPState p0 w1)).
  destruct ((_ ;; _) (mkPState p0 w1)) as [[[] | e] s1]; intros Heq; simplify_eq.
  by destruct H as [(H1 & _) H2].
Qed.

Lemma TextureProjector_init_frame st : stable world_frame (TextureProjector_init st).
Proof.
  intros w. unfold TextureProjector_init.
  set (p0 := mkTextureProjector _ _ _ _ _ _ _ _ _ _ _).
  set (w1 := with_next_instance S w).
  assert (H : stable frame (_setup_directories ;;
                            set_self (with__view3d_cache (fun _ => None)) ;;
                            optimize_render_settings)) by frame_auto.
  specialize (H (mkPState p0 w1)).
  destruct ((_ ;; _) (mkPState p0 w1)) as [[[] | e] s1]; cbn;
    (eapply world_frame_trans; [| apply H]; apply world_frame_same; reflexivity).
Qed.

Lemma stable_apply_quality_preset prefs :
  stable world_frame (EEVEE_OT_TextureBaker.apply_quality_preset prefs).
Proof. unfold EEVEE_OT_TextureBaker.apply_quality_preset. frame_auto. Qed.

#[local] Hint Resolve TextureProjector_init_frame stable_apply_quality_preset : stable.

(** From a state that holds a projector, a computation that keeps the
    operator's frame ends with a projector of the same settings. *)
Lemma oframe_settings {A} (m : M OState A) s p :
  stable oframe m → projector (op s) = Some p →
  ∃ p', projector (op (snd (m s))) = Some p' ∧ settings p' = settings p.
Proof.
  intros Hm Hp. destruct (Hm s) as [H _]. rewrite Hp in H.
  destruct H as (p' & Hp' & Hs & _). eauto.
Qed.

(** [execute] from the construction on: the operator ends with the
    projector it had, or with one that has the settings just given. *)
Lemma execute_bake_settings st s :
  let s' := snd (EEVEE_OT_TextureBaker.execute_bake st s) in
  oframe s s' ∨ ∃ p', projector (op s') = Some p' ∧ settings p' = st.
Proof.
  destruct s as [o w]. unfold EEVEE_OT_TextureBaker.execute_bake.
  rewrite bind_liftO.
  pose proof (TextureProjector_init_frame st w) as Hw.
  destruct (TextureProjector_init st w) as [[p | e] w1] eqn:Einit; cbn [snd] in *.
  - right. apply TextureProjector_init_settings in Einit.
    rewrite bind_modify.
    match goal with |- context [snd (?m ?s1)] =>
      destruct (oframe_settings m s1 p) as (p' & Hp' & Hs);
        [repeat oframe_step | reflexivity |] end.
    exists p'. split; [done | congruence].
  - left. apply oframe_same_op. by apply world_frame_weak.
Qed.

Lemma apply_quality_preset_props prefs w r w' :
  EEVEE_OT_TextureBaker.apply_quality_preset prefs w = (r, w') →
  eevee_baker (scene w') = eevee_baker (scene w) ∧ data w' = data w.
Proof.
  unfold EEVEE_OT_TextureBaker.apply_quality_preset, bind, get_props, set_eevee, gets, modify.
  cbn. repeat case_match; intros; simplify_eq; done.
Qed.

Lemma execute_body_settings s :
  projector (op s) = None →
  let s1 := snd (EEVEE_OT_TextureBaker.execute_body s) in
  projector (op s1) = None ∨
  ∃ p', projector (op s1) = Some p' ∧ settings p' = execute_settings (oworld s).
Proof.
  destruct s as [o w]. cbn [op oworld]. intros Hnone.
  unfold EEVEE_OT_TextureBaker.execute_body.
  do 4 (rewrite bind_liftO; cbn [set_props modify gets]).
  destruct (addons _ !! "Texture Paint Bake") as [[prefs |] |].
  - rewrite bind_liftO.
    match goal with |- context [EEVEE_OT_TextureBaker.apply_quality_preset prefs ?w1] =>
      destruct (EEVEE_OT_TextureBaker.apply_quality_preset prefs w1) as [[[] | e] w2] eqn:Eq end.
    + apply apply_quality_preset_props in Eq as [Eprops Edata].
      rewrite bind_liftO. cbn [get_props gets]. rewrite bind_liftO. cbn [gets].
      match goal with |- context [EEVEE_OT_TextureBaker.execute_bake ?st ?s1] =>
        destruct (execute_bake_settings st s1) as [[H _] | (p' & Hp' & Hs)] end.
      * left. cbn in H. by rewrite Hnone in H.
      * right. exists p'. split; [exact Hp' |]. rewrite Hs.
        unfold execute_settings, bpy_path_abspath. rewrite Eprops, Edata. reflexivity.
    + left. done.
  - rewrite bind_liftO. cbn. by left.
  - left. done.
Qed.

Lemma execute_settings_spec s p' :
  projector (op s) = None →
  projector (op (snd (EEVEE_OT_TextureBaker.execute s))) = Some p' →
  settings p' = execute_settings (oworld s).
Proof.
  intros Hnone. unfold EEVEE_OT_TextureBaker.execute, try_except.
  pose proof (execute_body_settings s Hnone) as Hb. cbn zeta in Hb.
  destruct (EEVEE_OT_TextureBaker.execute_body s) as [[r | e] s1]; cbn [snd] in *.
  - intros Hp. destruct Hb as [Hb | (p & Hp1 & Hs)]; congruence.
  - match goal with |- context [snd (?m s1)] =>
      assert (Hst : stable oframe m) by (repeat oframe_step);
      destruct (Hst s1) as [H _] end.
    intros Hp. destruct Hb as [Hb | (p & Hp1 & Hs)].
    + rewrite Hb in H. congruence.
    + rewrite Hp1 in H. destruct H as (p2 & Hp2 & Hs2 & _). congruence.
Qed.

(** ** The preview toggle *)

Lemma toggle_links_keeps show m out c :
  id_props m !! "original_connection" = Some c →
  id_props (fst (EEVEE_OT_ToggleBakePreview.toggle_links show m out)) !! "original_connection"
    = Some c.
Proof.
  intros Hc. unfold EEVEE_OT_ToggleBakePreview.toggle_links.
  destruct show; [rewrite Hc |]; cbn; exact Hc.
Qed.

Lemma toggle_links_writes show m out c :
  id_props m !! "original_connection" = None →
  id_props (fst (EEVEE_OT_ToggleBakePreview.toggle_links show m out)) !! "original_connection"
    = Some c →
  show = true ∧
  ∃ l rest, surface_links m = l :: rest ∧ from_node l ≠ "Bake_Texture" ∧
            c = (from_node l, from_socket l).
Proof.
  intros Hnone. unfold EEVEE_OT_ToggleBakePreview.toggle_links.
  destruct show; [rewrite Hnone |]; cbn; [| congruence].
  destruct (surface_links m) as [| l rest] eqn:El; cbn; [congruence |].
  destruct (String.eqb (from_node l) "Bake_Texture") eqn:Eb; cbn; [congruence |].
  rewrite lookup_insert_eq. intros [= <-]. split; [done |].
  exists l, rest. split; [done |]. split; [| done].
  intros Heq. rewrite Heq in Eb. cbn in Eb. done.
Qed.

Lemma bind_lookup_material {B} mat (k : Material → M World B) w :
  bind (lookup_material mat) k w =
  match materials (data w) !! mat with
  | Some m => k m w
  | None => (Raise (ReferenceError "StructRNA of type Material has been removed"), w)
  end.
Proof. unfold bind, lookup_material. by destruct (materials (data w) !! mat). Qed.

(** [toggle_material_nodes] leaves the materials alone or replaces one of
    them by what [toggle_links] makes of it. *)
Lemma toggle_material_nodes_cases obj show w :
  let w' := snd (EEVEE_OT_ToggleBakePreview.toggle_material_nodes obj show w) in
  materials (data w') = materials (data w) ∨
  ∃ mat m out, materials (data w) !! mat = Some m ∧
    materials (data w')
    = <[mat := fst (EEVEE_OT_ToggleBakePreview.toggle_links show m out)]> (materials (data w)).
Proof.
  unfold EEVEE_OT_ToggleBakePreview.toggle_material_nodes.
  rewrite bind_gets.
  destruct (obj ≫= _) as [ob |]; [| by left].
  destruct (o_materials ob) as [| mat rest]; [by left |].
  rewrite bind_lookup_material.
  destruct (materials (data w) !! mat) as [m |] eqn:Em; [| by left].
  destruct (use_nodes m); cbn [negb]; [| by left].
  destruct (nodes_get "Bake_Texture" (nodes m)); [| by left].
  destruct (nodes_get "Material Output" (nodes m)); [| by left].
  rewrite bind_gets.
  destruct (EEVEE_OT_ToggleBakePreview.toggle_links show m (stdout w)) as [m' out'] eqn:Et.
  right. exists mat, m, (stdout w). split; [done |]. rewrite Et. reflexivity.
Qed.

Lemma toggle_material_nodes_keeps obj show w mat m c :
  materials (data w) !! mat = Some m →
  id_props m !! "original_connection" = Some c →
  ∃ m', materials (data (snd (EEVEE_OT_ToggleBakePreview.toggle_material_nodes obj show w)))
          !! mat = Some m' ∧
        id_props m' !! "original_connection" = Some c.
Proof.
  intros Hm Hc.
  destruct (toggle_material_nodes_cases obj show w) as [-> | (mat' & m0 & out & Hm0 & ->)];
    [eauto |].
  destruct (decide (mat' = mat)) as [-> | Hne].
  - rewrite lookup_insert_eq. eexists. split; [done |].
    apply toggle_links_keeps. congruence.
  - rewrite lookup_insert_ne by done. eauto.
Qed.

(** ** What [cleanup] does *)

Lemma unpainted_refl w : unpainted w w.
Proof. intros n i H. eauto. Qed.

Lemma unpainted_trans w1 w2 w3 : unpainted w1 w2 → unpainted w2 w3 → unpainted w1 w3.
Proof.
  intros H1 H2 n i3 H. destruct (H2 n i3 H) as (i2 & Hi2 & E2).
  destruct (H1 n i2 Hi2) as (i1 & Hi1 & E1). exists i1. split; [done | congruence].
Qed.

Lemma unpainted_same w w' : images (data w') = images (data w) → unpainted w w'.
Proof. intros E n i H. rewrite E in H. eauto. Qed.

Lemma cleanup_rel_refl w : cleanup_rel w w.
Proof. unfold cleanup_rel. split_and!; try done. apply unpainted_refl. Qed.

Lemma cleanup_rel_trans w1 w2 w3 : cleanup_rel w1 w2 → cleanup_rel w2 w3 → cleanup_rel w1 w3.
Proof.
  unfold cleanup_rel. intros H G.
  destruct H as (H1 & H2 & H3 & H4 & H5 & H6 & H7 & H8 & H9 & H10 & H11 & H12 & H13 & H14 & H15).
  destruct G as (G1 & G2 & G3 & G4 & G5 & G6 & G7 & G8 & G9 & G10 & G11 & G12 & G13 & G14 & G15).
  split_and!; try congruence; [etransitivity; eauto | eapply unpainted_trans; eauto].
Qed.

Lemma same_images_refl w : same_images w w.
Proof. intros n. reflexivity. Qed.

Lemma same_images_trans w1 w2 w3 : same_images w1 w2 → same_images w2 w3 → same_images w1 w3.
Proof. intros H1 H2 n. rewrite (H2 n). apply H1. Qed.

(** The two ways a step of [cleanup] changes the world without touching
    the images or the files. *)
Lemma cleanup_rel_print w msg : cleanup_rel w (with_stdout (fun out => (out ++ [msg])%list) w).
Proof. unfold cleanup_rel. split_and!; try done. by apply unpainted_same. Qed.

Lemma print_spec msg w : print msg w = (Ok tt, with_stdout (fun out => (out ++ [msg])%list) w).
Proof. reflexivity. Qed.

Lemma set_image_attr_spec n k v w i :
  images (data w) !! n = Some i →
  set_image_attr n k v w
  = (Ok tt, with_data (with_images (alter (with_img_attrs (setattr k v)) n)) w).
Proof. intros H. unfold set_image_attr. by rewrite H. Qed.

Lemma cleanup_rel_set_attr w n f :
  cleanup_rel w (with_data (with_images (alter (with_img_attrs f) n)) w) ∧
  same_images w (with_data (with_images (alter (with_img_attrs f) n)) w).
Proof.
  split.
  - unfold cleanup_rel. split_and!; try done.
    intros m i' H. cbn in H. destruct (decide (n = m)) as [-> | Hne].
    + rewrite lookup_alter_eq in H. destruct (images (data w) !! m) as [i |]; [| done].
      cbn in H. injection H as <-. eauto.
    + rewrite lookup_alter_ne in H by done. eauto.
  - intros m. cbn. destruct (decide (n = m)) as [-> | Hne].
    + rewrite lookup_alter_eq. by rewrite fmap_is_Some.
    + by rewrite lookup_alter_ne.
Qed.

Lemma cleanup_rel_files w f :
  (∀ fs, f fs ⊆ fs) → cleanup_rel w (with_os (with_files f) w).
Proof.
  intros Hf. unfold cleanup_rel. split_and!; try done; [apply Hf | by apply unpainted_same].
Qed.

Lemma try_except_bind_ok {S A B} (m : M S A) (k : A → M S B) h s a s1 :
  m s = (Ok a, s1) → try_except (bind m k) h s = try_except (k a) h s1.
Proof. intros H. unfold try_except, bind. by rewrite H. Qed.

Lemma bind_ok {S A B} (m : M S A) (k : A → M S B) s a s1 :
  m s = (Ok a, s1) → bind m k s = k a s1.
Proof. intros H. unfold bind. by rewrite H. Qed.

(** The removal of the file of an entry, in its [try] block. *)
Lemma remove_file_spec n p p0 w :
  ∃ w', try_except
          (let* there := liftW (os_path_exists p) in when there (liftW (os_remove p)))
          (fun e => liftW (print ("Error cleaning up " +:+ n +:+ ": " +:+ str e)))
          (mkPState p0 w)
        = (Ok tt, mkPState p0 w') ∧
        cleanup_rel w w' ∧ images (data w') = images (data w) ∧
        (p ∉ locked (os w) → p ∉ files (os w')).
Proof.
  unfold try_except. rewrite bind_liftW. cbn [os_path_exists gets].
  destruct (decide (p ∈ files (os w))) as [Hf | Hf];
    destruct (decide (p ∈ locked (os w))) as [Hl | Hl];
    destruct (decide (p ∈ dirs (os w))) as [Hd | Hd];
    rewrite ?(bool_decide_true _ Hf), ?(bool_decide_false _ Hf),
            ?(bool_decide_true _ Hd), ?(bool_decide_false _ Hd);
    cbn [orb when]; unfold liftW, os_remove, print, modify, ret; cbn [world self];
    rewrite ?(bool_decide_true _ Hf), ?(bool_decide_false _ Hf),
            ?(bool_decide_true _ Hd), ?(bool_decide_false _ Hd),
            ?(bool_decide_true _ Hl), ?(bool_decide_false _ Hl);
    cbn [world self]; eexists; (split; [reflexivity |]);
    first [ split; [apply cleanup_rel_print |]; split; [done | done]
          | split; [apply cleanup_rel_refl |]; split; [done | done]
          | split; [apply cleanup_rel_files; set_solver |]; split; [done | cbn; set_solver] ].
Qed.

(** One entry of [temp_files]: the body of the loop never raises, tells
    whether the image existed, keeps the names of the images, and leaves
    no file at the recorded path unless the path is protected. *)
Lemma cleanup_entry_spec n p s :
  ∃ w', cleanup_entry n p s
        = (Ok (bool_decide (is_Some (images (data (world s)) !! n))), mkPState (self s) w') ∧
        cleanup_rel (world s) w' ∧ same_images (world s) w' ∧
        (p ∉ locked (os (world s)) → p ∉ files (os w')).
Proof.
  destruct s as [p0 w]. unfold cleanup_entry. rewrite bind_liftW. cbn [image_exists gets world self].
  destruct (images (data w) !! n) as [i |] eqn:Ei.
  - rewrite bool_decide_true by eauto.
    destruct (cleanup_rel_set_attr w n (setattr "use_fake_user" (VBool false))) as [R1 D1].
    set (w1 := with_data (with_images (alter (with_img_attrs (setattr "use_fake_user" (VBool false))) n)) w) in *.
    destruct (cleanup_rel_set_attr w1 n (setattr "users" (VInt 0))) as [R2 D2].
    set (w2 := with_data (with_images (alter (with_img_attrs (setattr "users" (VInt 0))) n)) w1) in *.
    assert (E1 : (when true (liftW (set_image_attr n "use_fake_user" (VBool false)) ;;
                             liftW (set_image_attr n "users" (VInt 0)))) (mkPState p0 w)
                 = (Ok tt, mkPState p0 w2)).
    { unfold when. rewrite bind_liftW, (set_image_attr_spec _ _ _ _ i Ei). fold w1.
      unfold liftW. cbn [world self].
      assert (is_Some (images (data w1) !! n)) as [i1 Ei1] by (apply D1; eauto).
      by rewrite (set_image_attr_spec _ _ _ _ i1 Ei1). }
    destruct (remove_file_spec n p p0 w2) as (w' & E2 & R3 & I3 & F3).
    exists w'. split.
    + rewrite (bind_ok _ _ _ tt (mkPState p0 w')); [reflexivity |].
      rewrite (try_except_bind_ok _ _ _ _ _ _ E1). exact E2.
    + split; [eauto using cleanup_rel_trans |]. split.
      * eapply same_images_trans; [| intros m; rewrite I3; reflexivity].
        eapply same_images_trans; eauto.
      * intros Hl. apply F3. destruct R1 as (_ & _ & _ & _ & _ & _ & _ & _ & _ & _ & _ & _ & L1 & _).
        destruct R2 as (_ & _ & _ & _ & _ & _ & _ & _ & _ & _ & _ & _ & L2 & _).
        rewrite L2, L1. exact Hl.
  - rewrite bool_decide_false by (intros [? ?]; done).
    destruct (remove_file_spec n p p0 w) as (w' & E2 & R3 & I3 & F3).
    exists w'. split.
    + rewrite (bind_ok _ _ _ tt (mkPState p0 w')); [reflexivity |].
      rewrite (try_except_bind_ok _ _ _ (mkPState p0 w) tt (mkPState p0 w)); [exact E2 | reflexivity].
    + split; [done |]. split; [intros m; rewrite I3; reflexivity | done].
Qed.

Lemma found_names_same l w w' : same_images w w' → found_names l w' = found_names l w.
Proof.
  intros H. unfold found_names. f_equal.
  induction l as [| [n p] l IH]; cbn; [done |].
  rewrite IH. destruct (decide (is_Some (images (data w) !! n))) as [Hs | Hs].
  - rewrite !bool_decide_true; [done | done | by apply H].
  - rewrite !bool_decide_false; [done | done | by rewrite (H n)].
Qed.

Lemma cleanup_rel_locked w w' : cleanup_rel w w' → locked (os w') = locked (os w).
Proof. unfold cleanup_rel. tauto. Qed.

Lemma cleanup_rel_files_sub w w' : cleanup_rel w w' → files (os w') ⊆ files (os w).
Proof. unfold cleanup_rel. tauto. Qed.

(** The loop of [cleanup]: it never raises, it collects the names of the
    recorded images that exist, and it leaves no recorded file behind
    unless its path is protected. *)
Lemma cleanup_loop_spec l acc s :
  ∃ w', cleanup_loop l acc s
        = (Ok (acc ++ found_names l (world s))%list, mkPState (self s) w') ∧
        cleanup_rel (world s) w' ∧ same_images (world s) w' ∧
        (∀ n p, (n, p) ∈ l → p ∉ locked (os (world s)) → p ∉ files (os w')).
Proof.
  revert acc s. induction l as [| [n p] l IH]; intros acc s.
  - exists (world s). destruct s as [p0 w]. cbn. rewrite app_nil_r.
    split; [done |]. split; [apply cleanup_rel_refl |]. split; [apply same_images_refl |].
    intros n p Hin. by apply elem_of_nil in Hin.
  - cbn [cleanup_loop].
    destruct (cleanup_entry_spec n p s) as (w1 & E1 & R1 & D1 & F1).
    rewrite (bind_ok _ _ _ _ _ E1).
    match goal with |- context [cleanup_loop l ?acc1 ?s1] =>
      destruct (IH acc1 s1) as (w2 & E2 & R2 & D2 & F2) end.
    cbn [world self] in *. exists w2. split; [| split; [| split]].
    + rewrite E2. f_equal. f_equal. rewrite (found_names_same l _ _ D1).
      unfold found_names at 2. cbn [List.filter fst].
      destruct (bool_decide (is_Some (images (data (world s)) !! n))); cbn [map];
        [by rewrite <- app_assoc | done].
    + eapply cleanup_rel_trans; eauto.
    + eapply same_images_trans; eauto.
    + intros n' p' Hin Hl. apply elem_of_cons in Hin as [[= -> ->] | Hin].
      * intros Hf. apply (F1 Hl). by apply (cleanup_rel_files_sub _ _ R2).
      * apply (F2 n' p' Hin). by rewrite (cleanup_rel_locked _ _ R1).
Qed.

Lemma remove_temp_dir_spec p0 w :
  ∃ w', remove_temp_dir (mkPState p0 w) = (Ok tt, mkPState p0 w') ∧
        cleanup_rel w w' ∧ images (data w') = images (data w) ∧
        files (os w') = files (os w).
Proof.
  unfold remove_temp_dir, try_except. rewrite bind_get_self. cbn [self].
  rewrite bind_liftW. cbn [os_path_exists gets]. rewrite bind_liftW. cbn [os_listdir gets].
  destruct (_ && _); cbn [when]; [| by exists w; split_and!; try done; apply cleanup_rel_refl].
  unfold liftW, os_rmdir, print, modify. cbn [world self].
  destruct (bool_decide (temp_dir p0 ∈ locked (os w)));
    [| destruct (bool_decide (temp_dir p0 ∈ dirs (os w)))];
    eexists; (split; [reflexivity |]); split_and!; try done; cbn [world self];
    first [apply cleanup_rel_print
          | unfold cleanup_rel; split_and!; try done; by apply unpainted_same].
Qed.

Lemma lookup_foldr_delete {V} (m : gmap string V) (names : list string) n :
  foldr delete m names !! n = if bool_decide (n ∈ names) then None else m !! n.
Proof.
  induction names as [| x names IH]; cbn; [done |].
  destruct (decide (x = n)) as [-> | Hne].
  - rewrite lookup_delete_eq. rewrite bool_decide_true; [done | set_solver].
  - rewrite lookup_delete_ne by done. rewrite IH.
    destruct (decide (n ∈ names)).
    + rewrite !bool_decide_true; [done | set_solver | done].
    + rewrite !bool_decide_false; [done | set_solver | done].
Qed.

Lemma elem_of_found_names l w n p :
  (n, p) ∈ l → is_Some (images (data w) !! n) → n ∈ found_names l w.
Proof.
  intros Hin Hs. unfold found_names. apply list_elem_of_fmap. exists (n, p). split; [done |].
  apply list_elem_of_In, filter_In. split; [by apply list_elem_of_In |].
  cbn. by apply bool_decide_eq_true.
Qed.

(** [cleanup] of the projector never raises; it empties [temp_files]; in
    the world it only prints, deletes images and removes files and the
    temp directory; every recorded image is gone, and every recorded file
    unless its path is protected. *)
Lemma cleanup_spec s :
  ∃ w', cleanup s = (Ok tt, mkPState (with_temp_files (fun _ => []) (self s)) w') ∧
        cleanup_rel (world s) w' ∧
        artifacts_removed_unless_locked (temp_files (self s)) w'.
Proof.
  destruct s as [p0 w]. unfold cleanup. rewrite bind_liftW, print_spec, bind_get_self. cbn [self].
  set (w0 := with_stdout _ w).
  assert (R0 : cleanup_rel w w0) by apply cleanup_rel_print.
  destruct (cleanup_loop_spec (temp_files p0) [] (mkPState p0 w0)) as (w1 & E1 & R1 & D1 & F1).
  cbn [world self app] in *. rewrite (bind_ok _ _ _ _ _ E1).
  set (names := found_names (temp_files p0) w0) in *.
  set (w2 := if bool_decide (names = []) then w1
             else with_data (with_images (fun m => foldr delete m names)) w1).
  assert (E2 : (when (negb (bool_decide (names = []))) (liftW (batch_remove names)))
                 (mkPState p0 w1) = (Ok tt, mkPState p0 w2)).
  { unfold w2. destruct (bool_decide (names = [])); reflexivity. }
  assert (I2 : ∀ n, images (data w2) !! n
                    = if bool_decide (n ∈ names) then None else images (data w1) !! n).
  { intros n. unfold w2. destruct (bool_decide (names = [])) eqn:En.
    - apply bool_decide_eq_true in En. rewrite En. rewrite bool_decide_false; [done | set_solver].
    - cbn. apply lookup_foldr_delete. }
  assert (R2 : cleanup_rel w1 w2).
  { unfold w2. destruct (bool_decide (names = [])); [apply cleanup_rel_refl |].
    unfold cleanup_rel. split_and!; try done.
    intros n i' H. cbn in H. rewrite lookup_foldr_delete in H.
    destruct (bool_decide (n ∈ names)); [done | eauto]. }
  rewrite (bind_ok _ _ _ _ _ E2). rewrite bind_set_self. cbn [with_self self world].
  destruct (remove_temp_dir_spec (with_temp_files (fun _ => []) p0) w2) as (w3 & E3 & R3 & I3 & F3).
  exists w3. split; [exact E3 |]. split.
  - eauto using cleanup_rel_trans.
  - intros n p Hin. split.
    + rewrite I3, I2. destruct (decide (is_Some (images (data w0) !! n))) as [Hs | Hs].
      * rewrite bool_decide_true; [done |]. eapply elem_of_found_names; eauto.
      * destruct (bool_decide (n ∈ names)); [done |].
        destruct (images (data w1) !! n) eqn:E; [| done].
        exfalso. apply Hs, D1. eauto.
    + rewrite F3. intros Hl Hf. apply (cleanup_rel_files_sub _ _ R2) in Hf.
      apply (F1 n p Hin); [| done].
      rewrite (cleanup_rel_locked _ _ R3), (cleanup_rel_locked _ _ R2),
              (cleanup_rel_locked _ _ R1) in Hl. done.
Qed.

(** ** What [cleanup] of the operator does *)

Lemma unmoved_refl w : unmoved w w.
Proof. intros n o H. eauto. Qed.

Lemma unmoved_trans w1 w2 w3 : unmoved w1 w2 → unmoved w2 w3 → unmoved w1 w3.
Proof.
  intros H1 H2 n o3 H. destruct (H2 n o3 H) as (o2 & Ho2 & E2 & E2').
  destruct (H1 n o2 Ho2) as (o1 & Ho1 & E1 & E1'). exists o1. split; [done |]. split; congruence.
Qed.

Lemma unmoved_same w w' : objects (data w') = objects (data w) → unmoved w w'.
Proof. intros E n o H. rewrite E in H. eauto. Qed.

Lemma unmoved_delete w w' name :
  objects (data w') = delete name (objects (data w)) → unmoved w w'.
Proof.
  intros E n o H. rewrite E in H. apply lookup_delete_Some in H as [_ H]. eauto.
Qed.

Lemma quiet_refl w : quiet w w.
Proof. split_and!; try done; [apply unmoved_refl | apply unpainted_refl]. Qed.

Lemma quiet_trans w1 w2 w3 : quiet w1 w2 → quiet w2 w3 → quiet w1 w3.
Proof.
  intros (H1 & H2 & H3 & H4 & H5 & H6) (G1 & G2 & G3 & G4 & G5 & G6).
  split_and!; try congruence; [eapply unmoved_trans | eapply unpainted_trans]; eauto.
Qed.

Lemma cleanup_rel_quiet w w' : cleanup_rel w w' → quiet w w'.
Proof.
  intros (H1 & H2 & H3 & H4 & H5 & H6 & H7 & H8 & H9 & H10 & H11 & H12 & H13 & H14 & H15).
  split_and!; try (by rewrite H1); try done. by apply unmoved_same.
Qed.

Lemma quiet_same w w' :
  objects (data w') = objects (data w) → images (data w') = images (data w) →
  clock (os w') = clock (os w) →
  progress (eevee_baker (scene w')) = progress (eevee_baker (scene w)) →
  total_steps (eevee_baker (scene w')) = total_steps (eevee_baker (scene w)) →
  auto_bake (eevee_baker (scene w')) = auto_bake (eevee_baker (scene w)) →
  quiet w w'.
Proof.
  intros. split_and!; try done; [by apply unmoved_same | by apply unpainted_same].
Qed.

Lemma objects_remove_spec c w :
  ∃ w', objects_remove c w = (Ok tt, w') ∧ quiet w w' ∧
        eevee_baker (scene w') = eevee_baker (scene w) ∧
        images (data w') = images (data w) ∧ os w' = os w ∧ wm w' = wm w.
Proof.
  eexists. split; [reflexivity |]. split_and!; try done.
  split_and!; try done; [by eapply unmoved_delete | by apply unpainted_same].
Qed.

(** [cleanup] of the operator, when it holds a projector: it never
    raises; the projector's [cleanup] has run; the operator's timer is no
    longer registered; nothing of a bake step has happened. *)
Lemma baker_cleanup_spec o w p r s' :
  projector o = Some p →
  EEVEE_OT_TextureBaker.cleanup (mkOState o w) = (r, s') →
  r = Ok tt ∧
  op s' = with_projector (fun _ => Some (with_temp_files (fun _ => []) p)) o ∧
  quiet w (oworld s') ∧
  artifacts_removed_unless_locked (temp_files p) (oworld s') ∧
  is_baking (eevee_baker (scene (oworld s'))) = false ∧
  should_cancel (eevee_baker (scene (oworld s'))) = should_cancel (eevee_baker (scene w)) ∧
  locked (os (oworld s')) = locked (os w) ∧
  reports (wm (oworld s')) = reports (wm w) ∧
  (∀ h, _timer o = Some h → h ∉ map fst (timers (wm (oworld s')))).
Proof.
  intros Hp. unfold EEVEE_OT_TextureBaker.cleanup.
  rewrite bind_liftO. cbn [set_props modify]. rewrite bind_gets. cbn [op].
  set (w1 := with_scene _ w).
  set (w2 := match _timer o with
             | Some h => with_wm (with_timers (List.filter (fun t => negb (Nat.eqb (fst t) h)))) w1
             | None => w1 end).
  assert (E2 : (match _timer o with
                | Some h => liftO (event_timer_remove h)
                | None => ret tt end) (mkOState o w1) = (Ok tt, mkOState o w2)).
  { unfold w2. destruct (_timer o); reflexivity. }
  rewrite (bind_ok _ _ _ _ _ E2). rewrite bind_gets. cbn [op]. rewrite Hp.
  rewrite (bind_on_projector _ _ _ _ _ Hp).
  destruct (cleanup_spec (mkPState p w2)) as (w3 & E3 & R3 & A3). rewrite E3.
  cbv beta iota. cbn [self world]. rewrite bind_liftO. cbn [get_props gets]. rewrite bind_gets.
  cbn [op projector with_projector mbind option_bind camera with_temp_files].
  assert (Q12 : quiet w w2).
  { unfold w2, w1. destruct (_timer o); by apply quiet_same. }
  assert (Hfinal : ∀ w4, quiet w3 w4 → eevee_baker (scene w4) = eevee_baker (scene w3) →
            images (data w4) = images (data w3) → os w4 = os w3 → wm w4 = wm w3 →
            quiet w w4 ∧ artifacts_removed_unless_locked (temp_files p) w4 ∧
            is_baking (eevee_baker (scene w4)) = false ∧
            should_cancel (eevee_baker (scene w4)) = should_cancel (eevee_baker (scene w)) ∧
            locked (os w4) = locked (os w) ∧ reports (wm w4) = reports (wm w) ∧
            (∀ h, _timer o = Some h → h ∉ map fst (timers (wm w4)))).
  { intros w4 Q4 Ep Ei Eo Ew.
    destruct R3 as (S1 & S2 & S3 & S4 & S5 & S6 & S7 & S8 & S9 & S10 & S11 & S12 & S13 & S14 & S15).
    split_and!.
    - eapply quiet_trans; [exact Q12 |]. eapply quiet_trans; [| exact Q4].
      apply cleanup_rel_quiet. unfold cleanup_rel. by split_and!.
    - intros n q Hin. destruct (A3 n q Hin) as [A B]. rewrite Ei, Eo. by split.
    - rewrite Ep, S1. unfold w2, w1. by destruct (_timer o).
    - rewrite Ep, S1. unfold w2, w1. by destruct (_timer o).
    - rewrite Eo, S13. unfold w2, w1. by destruct (_timer o).
    - rewrite Ew, S5. unfold w2, w1. by destruct (_timer o).
    - intros h Hh. rewrite Ew, S5. unfold w2. rewrite Hh. cbn.
      intros Hin. apply list_elem_of_fmap in Hin as ([h' q] & -> & Hin).
      apply list_elem_of_In, filter_In in Hin as [_ Hne]. cbn in Hne.
      by rewrite Nat.eqb_refl in Hne. }
  destruct (camera p) as [c |]; [destruct (auto_bake (eevee_baker (scene w3))) |]; cbn [when].
  - destruct (objects_remove_spec c w3) as (w4 & E4 & Q4 & Ep & Ei & Eo & Ew).
    unfold liftO. cbn [oworld op]. rewrite E4.
    intros [= <- <-]. split; [done |]. split; [done |]. by apply Hfinal.
  - intros [= <- <-]. split; [done |]. split; [done |].
    apply Hfinal; [apply quiet_refl | done..].
  - intros [= <- <-]. split; [done |]. split; [done |].
    apply Hfinal; [apply quiet_refl | done..].
Qed.

(** [cleanup] of the operator never raises, whether or not it holds a
    projector, and keeps the operator's own fields but the projector. *)
Lemma baker_cleanup_returns o w :
  ∃ s', EEVEE_OT_TextureBaker.cleanup (mkOState o w) = (Ok tt, s') ∧
        quiet w (oworld s') ∧
        _current_angle_index (op s') = _current_angle_index o ∧
        _camera_angles (op s') = _camera_angles o ∧
        _timer (op s') = _timer o ∧
        is_baking (eevee_baker (scene (oworld s'))) = false ∧
        should_cancel (eevee_baker (scene (oworld s'))) = should_cancel (eevee_baker (scene w)) ∧
        locked (os (oworld s')) = locked (os w) ∧
        reports (wm (oworld s')) = reports (wm w) ∧
        (∀ h, _timer o = Some h → h ∉ map fst (timers (wm (oworld s')))) ∧
        match projector o with
        | Some p => projector (op s') = Some (with_temp_files (fun _ => []) p) ∧
                    artifacts_removed_unless_locked (temp_files p) (oworld s')
        | None => projector (op s') = None
        end.
Proof.
  destruct (projector o) as [p |] eqn:Hp.
  - destruct (EEVEE_OT_TextureBaker.cleanup (mkOState o w)) as [r s'] eqn:E.
    destruct (baker_cleanup_spec o w p r s' Hp E)
      as (-> & Hop & Hq & Ha & Hb & Hc & Hl & Hr & Ht).
    exists s'. rewrite Hop. cbn. by split_and!.
  - unfold EEVEE_OT_TextureBaker.cleanup.
    rewrite bind_liftO. cbn [set_props modify]. rewrite bind_gets. cbn [op].
    set (w1 := with_scene _ w).
    set (w2 := match _timer o with
               | Some h => with_wm (with_timers (List.filter (fun t => negb (Nat.eqb (fst t) h)))) w1
               | None => w1 end).
    assert (E2 : (match _timer o with
                  | Some h => liftO (event_timer_remove h)
                  | None => ret tt end) (mkOState o w1) = (Ok tt, mkOState o w2)).
    { unfold w2. destruct (_timer o); reflexivity. }
    rewrite (bind_ok _ _ _ _ _ E2). rewrite bind_gets. cbn [op]. rewrite Hp.
    exists (mkOState o w2). cbn [op oworld]. rewrite Hp.
    split; [reflexivity |].
    split; [unfold w2, w1; destruct (_timer o); by apply quiet_same |].
    split_and!; try done; try (unfold w2, w1; by destruct (_timer o)).
    intros h Hh. unfold w2. rewrite Hh. cbn.
    intros Hin. apply list_elem_of_fmap in Hin as ([h' q] & -> & Hin).
    apply list_elem_of_In, filter_In in Hin as [_ Hne]. cbn in Hne.
    by rewrite Nat.eqb_refl in Hne.
Qed.

(** ** A tick of [modal] with the cancel flag set *)

Lemma modal_cancel ev o w :
  should_cancel (eevee_baker (scene w)) = true →
  ∃ s', EEVEE_OT_TextureBaker.modal ev (mkOState o w) = (Ok FINISHED, s') ∧
        should_cancel (eevee_baker (scene (oworld s'))) = false ∧
        is_baking (eevee_baker (scene (oworld s'))) = false ∧
        quiet w (oworld s') ∧
        _current_angle_index (op s') = _current_angle_index o ∧
        _camera_angles (op s') = _camera_angles o ∧
        reports (wm (oworld s')) = (reports (wm w) ++ [("INFO", "Baking cancelled")])%list ∧
        (∀ h, _timer o = Some h → h ∉ map fst (timers (wm (oworld s')))) ∧
        match projector o with
        | Some p => projector (op s') = Some (with_temp_files (fun _ => []) p) ∧
                    artifacts_removed_unless_locked (temp_files p) (oworld s')
        | None => projector (op s') = None
        end.
Proof.
  intros Hc. unfold EEVEE_OT_TextureBaker.modal.
  rewrite bind_liftO. cbn [get_props gets]. rewrite Hc.
  destruct (baker_cleanup_returns o w)
    as ([o1 w1] & E & Hq & Hi & Ha & Ht & Hb & Hs & Hl & Hr & Hh & Hp).
  rewrite (bind_ok _ _ _ _ _ E). rewrite bind_liftO. cbn [set_props modify].
  rewrite bind_liftO. cbn [report modify]. cbn [oworld op] in *.
  eexists. split; [reflexivity |]. cbn [oworld op].
  split; [reflexivity |]. split; [exact Hb |].
  split; [eapply quiet_trans; [exact Hq |]; by apply quiet_same |].
  split; [exact Hi |]. split; [exact Ha |].
  split; [cbn; by rewrite Hr |].
  split; [exact Hh |].
  destruct (projector o); [| exact Hp].
  destruct Hp as [Hp1 Hp2]. split; [exact Hp1 |].
  intros n q Hin. exact (Hp2 n q Hin).
Qed.

(** ** Computations that ignore a change of the state *)

Section Ignores.
Context {S : Type} (f : S → S).

Lemma ignores_ret {A} (a : A) : ignores f (ret a).
Proof. intros s. reflexivity. Qed.

Lemma ignores_raise {A} (e : Exn) : ignores f (@raise S A e).
Proof. intros s. reflexivity. Qed.

Lemma ignores_of_result {A} (r : Result A) : ignores f (@of_result S A r).
Proof. intros s. reflexivity. Qed.

Lemma ignores_gets {A} (g : S → A) : (∀ s, g (f s) = g s) → ignores f (gets g).
Proof. intros H s. unfold gets. cbn. by rewrite H. Qed.

Lemma ignores_modify (g : S → S) : (∀ s, g (f s) = f (g s)) → ignores f (modify g).
Proof. intros H s. unfold modify. cbn. by rewrite H. Qed.

Lemma ignores_bind {A B} (m : M S A) (k : A → M S B) :
  ignores f m → (∀ a, ignores f (k a)) → ignores f (bind m k).
Proof.
  intros Hm Hk s. unfold bind. rewrite Hm.
  destruct (m s) as [[a | e] s1]; cbn; [apply Hk | reflexivity].
Qed.

Lemma ignores_try_except {A} (body : M S A) (handler : Exn → M S A) :
  ignores f body → (∀ e, ignores f (handler e)) → ignores f (try_except body handler).
Proof.
  intros Hb Hh s. unfold try_except. rewrite Hb.
  destruct (body s) as [[a | e] s1]; cbn; [reflexivity | apply Hh].
Qed.

Lemma ignores_try_finally {A} (body : M S A) (final : M S unit) :
  ignores f body → ignores f final → ignores f (try_finally body final).
Proof.
  intros Hb Hf s. unfold try_finally. rewrite Hb.
  destruct (body s) as [r s1]; cbn. rewrite Hf.
  destruct (final s1) as [[[] | e] s2]; reflexivity.
Qed.

Lemma ignores_when (b : bool) (m : M S unit) : ignores f m → ignores f (when b m).
Proof. intros Hm. destruct b; cbn; [exact Hm | apply ignores_ret]. Qed.

Lemma ignores_for_each {A} (l : list A) (body : A → M S unit) :
  (∀ x, ignores f (body x)) → ignores f (for_each l body).
Proof.
  intros Hb. induction l as [| x l IH]; cbn; [apply ignores_ret |].
  apply ignores_bind; auto.
Qed.
End Ignores.

Lemma ignores_liftW {A} (fw : World → World) (m : M World A) :
  ignores fw m → ignores (with_world fw) (liftW m).
Proof.
  intros H [p w]. unfold liftW; cbn. rewrite H. by destruct (m w).
Qed.

Create HintDb ignores discriminated.

(** One step along the text of a method, for a change of the world that
    commutes with the setters by computation. *)
Ltac ignores_step :=
  first
    [ lazymatch goal with
      | |- ignores _ (bind _ _) => apply ignores_bind; [| intros]
      | |- ignores _ (ret _) => apply ignores_ret
      | |- ignores _ (raise _) => apply ignores_raise
      | |- ignores _ empty_sequence => apply ignores_raise
      | |- ignores _ (of_result _) => apply ignores_of_result
      | |- ignores _ (when _ _) => apply ignores_when
      | |- ignores _ (try_except _ _) => apply ignores_try_except; [| intros]
      | |- ignores _ (try_finally _ _) => apply ignores_try_finally
      | |- ignores _ (for_each _ _) => apply ignores_for_each; intros
      | |- ignores _ (liftW _) => apply ignores_liftW
      | |- ignores _ (gets _) => apply ignores_gets; intros; reflexivity
      | |- ignores _ (modify _) => apply ignores_modify; intros; reflexivity
      | |- ignores _ (get_self _) => apply ignores_gets; intros; reflexivity
      | |- ignores _ (get_world _) => apply ignores_gets; intros; reflexivity
      | |- ignores _ (set_self _) => apply ignores_modify; intros; reflexivity
      | |- ignores _ (set_world _) => apply ignores_modify; intros; reflexivity
      | |- ignores _ (match ?x with _ => _ end) => destruct x
      end
    | solve [auto with ignores nocore] ].

Ltac ignores_auto := repeat ignores_step.

(** A host call that branches on the world and changes it by setters. *)
Ltac ignores_prim :=
  let w := fresh "w" in
  intros w; cbv beta delta [set_cancel os_remove os_makedirs os_rmdir set_image_attr images_add
    lookup_object lookup_material]; cbn;
  repeat case_match; reflexivity.

Section Cancel.
Variable b : bool.

Lemma ignores_print msg : ignores (set_cancel b) (print msg).
Proof. unfold print. ignores_auto. Qed.
Lemma ignores_time_time : ignores (set_cancel b) time_time.
Proof. unfold time_time. ignores_auto. Qed.
Lemma ignores_os_path_exists p : ignores (set_cancel b) (os_path_exists p).
Proof. unfold os_path_exists. ignores_auto. Qed.
Lemma ignores_set_eevee k v : ignores (set_cancel b) (set_eevee k v).
Proof. unfold set_eevee. ignores_auto. Qed.
Lemma ignores_set_render k v : ignores (set_cancel b) (set_render k v).
Proof. unfold set_render. ignores_auto. Qed.
Lemma ignores_set_image_paint k v : ignores (set_cancel b) (set_image_paint k v).
Proof. unfold set_image_paint. ignores_auto. Qed.
Lemma ignores_images_add n a : ignores (set_cancel b) (images_add n a).
Proof. ignores_prim. Qed.
Lemma ignores_lookup_object n : ignores (set_cancel b) (lookup_object n).
Proof. ignores_prim. Qed.

#[local] Hint Resolve ignores_print ignores_time_time ignores_os_path_exists ignores_set_eevee
  ignores_set_render ignores_set_image_paint ignores_images_add ignores_lookup_object : ignores.

Lemma ignores_update_object n g : ignores (set_cancel b) (update_object n g).
Proof. unfold update_object. ignores_auto. Qed.

#[local] Hint Resolve ignores_update_object : ignores.

Lemma ignores_mode_set mode : ignores (set_cancel b) (mode_set mode).
Proof. unfold mode_set. ignores_auto. Qed.
Lemma ignores_render_render : ignores (set_cancel b) render_render.
Proof. unfold render_render. ignores_auto. Qed.
Lemma ignores_project_image n : ignores (set_cancel b) (project_image n).
Proof. unfold project_image. ignores_auto. Qed.

#[local] Hint Resolve ignores_mode_set ignores_render_render ignores_project_image : ignores.

Lemma ignores_view3d_context {A} (body : nat → M PState A) :
  (∀ a, ignores (with_world (set_cancel b)) (body a)) →
  ignores (with_world (set_cancel b)) (view3d_context body).
Proof. intros H. unfold view3d_context. ignores_auto; apply H. Qed.

Lemma ignores_object_mode {A} mode (body : M PState A) :
  ignores (with_world (set_cancel b)) body →
  ignores (with_world (set_cancel b)) (object_mode mode body).
Proof. intros H. unfold object_mode. ignores_auto; exact H. Qed.

Lemma ignores_setup_viewport : ignores (with_world (set_cancel b)) setup_viewport.
Proof. unfold setup_viewport. apply ignores_view3d_context. intros. ignores_auto. Qed.

Lemma ignores_create_temp_render : ignores (with_world (set_cancel b)) create_temp_render.
Proof. unfold create_temp_render. ignores_auto. Qed.

Lemma ignores_bake_image_save : ignores (with_world (set_cancel b)) bake_image_save.
Proof. unfold bake_image_save. ignores_auto. Qed.

#[local] Hint Resolve ignores_setup_viewport ignores_create_temp_render ignores_bake_image_save
  : ignores.

Lemma ignores_project_texture a c t :
  ignores (with_world (set_cancel b)) (project_texture a c t).
Proof.
  unfold project_texture. ignores_auto. apply ignores_object_mode. ignores_auto.
  apply ignores_view3d_context. intros. ignores_auto.
Qed.

Lemma ignores_extent coord corners : ignores (with_world (set_cancel b)) (extent coord corners).
Proof. unfold extent. ignores_auto. Qed.

Lemma ignores_camera_angle : ignores (with_world (set_cancel b)) camera_angle.
Proof. unfold camera_angle. ignores_auto. Qed.

Lemma ignores_the_obj : ignores (with_world (set_cancel b)) the_obj.
Proof. unfold the_obj. ignores_auto. Qed.

#[local] Hint Resolve ignores_project_texture ignores_extent ignores_camera_angle ignores_the_obj
  : ignores.

Lemma ignores_memoize {V} get_cache set_cache
    (func : list (option string) → gmap string (option string) → M PState V) args kwargs :
  (∀ w, get_cache (set_cancel b w) = get_cache w) →
  (∀ g w, set_cache g (set_cancel b w) = set_cancel b (set_cache g w)) →
  (∀ args kwargs, ignores (with_world (set_cancel b)) (func args kwargs)) →
  ignores (with_world (set_cancel b)) (memoize get_cache set_cache func args kwargs).
Proof.
  intros Hg Hs Hf. unfold memoize. cbv zeta.
  repeat first
    [ apply Hf
    | lazymatch goal with
      | |- ignores _ (get_world get_cache) =>
          apply ignores_gets; intros [p w]; cbn; apply Hg
      | |- ignores _ (set_world (set_cache _)) =>
          apply ignores_modify; intros [p w]; unfold with_world; cbn; by rewrite Hs
      | |- ignores _ (if ?x then _ else _) => destruct x
      end
    | ignores_step ].
Qed.

Lemma ignores_calculate_optimal_distance args kwargs :
  ignores (with_world (set_cancel b)) (calculate_optimal_distance args kwargs).
Proof.
  apply ignores_memoize; [reflexivity | reflexivity |].
  intros. unfold calculate_optimal_distance_func. ignores_auto.
Qed.

Lemma ignores_get_view_parameters args kwargs :
  ignores (with_world (set_cancel b)) (get_view_parameters args kwargs).
Proof.
  apply ignores_memoize; [reflexivity | reflexivity |].
  intros. unfold get_view_parameters_func. ignores_auto.
Qed.

#[local] Hint Resolve ignores_calculate_optimal_distance ignores_get_view_parameters : ignores.

Lemma ignores_position_camera a v :
  ignores (with_world (set_cancel b)) (position_camera a v).
Proof. unfold position_camera. ignores_auto. Qed.

#[local] Hint Resolve ignores_position_camera : ignores.

(** The processing of one camera angle neither reads nor writes the
    cancel flag. *)
Lemma ignores_angle_step h v label c t :
  ignores (with_world (set_cancel b)) (angle_step h v label c t).
Proof. unfold angle_step. ignores_auto. Qed.

End Cancel.

(** ** A timer tick of [modal] *)

(** Successive calls on the projector are one sequence of calls on it. *)
Lemma on_projector_seq {A B} (m : M PState A) (k : M PState B) (s : OState) :
  (on_projector m ;; on_projector k) s = on_projector (m ;; k) s.
Proof.
  destruct s as [o w]. unfold bind, on_projector. cbn.
  destruct (projector o) as [p |]; [| reflexivity].
  destruct (m (mkPState p w)) as [[a | e] [p1 w1]]; cbn; [| reflexivity].
  destruct (k (mkPState p1 w1)) as [r [p2 w2]]; reflexivity.
Qed.

(** In auto-bake mode, with the flag clear and an angle left, a timer tick
    is the processing of that angle on the projector; when it returns, the
    progress properties and the index are written; when it raises, the
    exception leaves [modal]. *)
Lemma modal_tick o w p v h :
  should_cancel (eevee_baker (scene w)) = false →
  auto_bake (eevee_baker (scene w)) = true →
  projector o = Some p →
  _camera_angles o !! _current_angle_index o = Some (v, h) →
  EEVEE_OT_TextureBaker.modal "TIMER" (mkOState o w) =
    match angle_step h v (angle_fstring v h) (_current_angle_index o + 1)
            (length (_camera_angles o)) (mkPState p w) with
    | (Ok _, ps) =>
        (Ok PASS_THROUGH,
         mkOState (with__current_angle_index (fun k => (k + 1)%nat) (holding (self ps) o))
           (set_progress (_current_angle_index o + 1) (length (_camera_angles o)) (world ps)))
    | (Raise e, ps) => (Raise e, mkOState (holding (self ps) o) (world ps))
    end.
Proof.
  intros Hc Ha Hp Hi. unfold EEVEE_OT_TextureBaker.modal.
  rewrite bind_liftO. cbn [get_props gets]. rewrite Hc. cbn [String.eqb Ascii.eqb Bool.eqb].
  rewrite bind_liftO. cbn [get_props gets]. rewrite Ha. cbn [negb].
  rewrite !bind_gets. cbn [op].
  assert (Hlt : (length (_camera_angles o) <=? _current_angle_index o)%nat = false).
  { apply Nat.leb_gt. by eapply lookup_lt_Some. }
  rewrite Hlt, Hi.
  set (i := _current_angle_index o). set (n := length (_camera_angles o)).
  unfold angle_step.
  set (m1 := position_camera _ _). set (m2 := setup_viewport).
  set (m3 := project_texture _ _ _). clearbody m1 m2 m3.
  unfold bind at 1 2 3. unfold on_projector. cbn [op oworld]. rewrite Hp.
  unfold bind.
  destruct (m1 (mkPState p w)) as [[[] | e] [p1 w1]]; cbn; [| reflexivity].
  destruct (m2 (mkPState p1 w1)) as [[[] | e] [p2 w2]]; cbn; [| reflexivity].
  destruct (m3 (mkPState p2 w2)) as [[[] | e] [p3 w3]]; cbn; reflexivity.
Qed.

(** In auto-bake mode, with the flag clear and no angle left, a timer
    tick is [cleanup]. *)
Lemma modal_done o w :
  should_cancel (eevee_baker (scene w)) = false →
  auto_bake (eevee_baker (scene w)) = true →
  (length (_camera_angles o) ≤ _current_angle_index o)%nat →
  EEVEE_OT_TextureBaker.modal "TIMER" (mkOState o w) =
    (Ok FINISHED, snd (EEVEE_OT_TextureBaker.cleanup (mkOState o w))).
Proof.
  intros Hc Ha Hi. unfold EEVEE_OT_TextureBaker.modal.
  rewrite bind_liftO. cbn [get_props gets]. rewrite Hc. cbn [String.eqb Ascii.eqb Bool.eqb].
  rewrite bind_liftO. cbn [get_props gets]. rewrite Ha. cbn [negb].
  rewrite !bind_gets. cbn [op].
  apply Nat.leb_le in Hi. rewrite Hi.
  destruct (baker_cleanup_returns o w) as (s' & E & _).
  rewrite (bind_ok _ _ _ _ _ E). by rewrite E.
Qed.

(** In single-shot mode, with the flag clear, a timer tick is one call of
    [project_texture] and, when it returns, [cleanup]. *)
Lemma modal_single o w p :
  should_cancel (eevee_baker (scene w)) = false →
  auto_bake (eevee_baker (scene w)) = false →
  projector o = Some p →
  EEVEE_OT_TextureBaker.modal "TIMER" (mkOState o w) =
    match project_texture (VInt 0) 1 1 (mkPState p w) with
    | (Ok _, ps) =>
        (Ok FINISHED,
         snd (EEVEE_OT_TextureBaker.cleanup (mkOState (holding (self ps) o) (world ps))))
    | (Raise e, ps) => (Raise e, mkOState (holding (self ps) o) (world ps))
    end.
Proof.
  intros Hc Ha Hp. unfold EEVEE_OT_TextureBaker.modal.
  rewrite bind_liftO. cbn [get_props gets]. rewrite Hc. cbn [String.eqb Ascii.eqb Bool.eqb].
  rewrite bind_liftO. cbn [get_props gets]. rewrite Ha. cbn [negb].
  rewrite (bind_on_projector _ _ _ _ _ Hp).
  destruct (project_texture (VInt 0) 1 1 (mkPState p w)) as [[[] | e] [p1 w1]];
    cbn [self world]; [| reflexivity].
  destruct (baker_cleanup_returns (holding p1 o) w1) as (s' & E & _).
  unfold holding in *. rewrite (bind_ok _ _ _ _ _ E). by rewrite E.
Qed.

(** With the flag clear, an event that is not of the timer passes. *)
Lemma modal_other_event ev o w :
  should_cancel (eevee_baker (scene w)) = false → ev ≠ "TIMER" →
  EEVEE_OT_TextureBaker.modal ev (mkOState o w) = (Ok PASS_THROUGH, mkOState o w).
Proof.
  intros Hc Hev. unfold EEVEE_OT_TextureBaker.modal.
  rewrite bind_liftO. cbn [get_props gets]. rewrite Hc.
  apply String.eqb_neq in Hev. by rewrite Hev.
Qed.

(** ** Records of [temp_files] are only dropped by [cleanup] *)

Lemma keeps_records_refl s : keeps_records s s.
Proof. unfold keeps_records. reflexivity. Qed.

Lemma keeps_records_trans s1 s2 s3 :
  keeps_records s1 s2 → keeps_records s2 s3 → keeps_records s1 s3.
Proof. unfold keeps_records. intros H1 H2. by etrans. Qed.

Lemma records_liftW {A} (m : M World A) : stable keeps_records (liftW m).
Proof. intros [p w]. unfold liftW, keeps_records. cbn. by destruct (m w). Qed.

Lemma records_set_world (f : World → World) : stable keeps_records (set_world f).
Proof. intros [p w]. unfold keeps_records. cbn. reflexivity. Qed.

Create HintDb records discriminated.

Ltac records_step :=
  first
    [ stable_comb keeps_records_refl keeps_records_trans
    | lazymatch goal with
      | |- stable keeps_records (liftW _) => apply records_liftW
      | |- stable keeps_records (set_world _) => apply records_set_world
      | |- stable keeps_records (set_self _) =>
          apply stable_modify; intros; unfold keeps_records; cbn;
          first [reflexivity | by apply prefix_app_r]
      end
    | solve [auto with records nocore] ].

Ltac records_auto := repeat records_step.

Lemma records_view3d_context {A} (body : nat → M PState A) :
  (∀ a, stable keeps_records (body a)) → stable keeps_records (view3d_context body).
Proof. intros H. unfold view3d_context. records_auto. Qed.

Lemma records_object_mode {A} mode (body : M PState A) :
  stable keeps_records body → stable keeps_records (object_mode mode body).
Proof. intros H. unfold object_mode. records_auto. Qed.

Lemma records_the_obj : stable keeps_records the_obj.
Proof. unfold the_obj. records_auto. Qed.

#[local] Hint Resolve records_the_obj : records.

Lemma records_the_mesh : stable keeps_records the_mesh.
Proof. unfold the_mesh. records_auto. Qed.

#[local] Hint Resolve records_the_mesh : records.

Lemma records_cleanup_render_view_image n : stable keeps_records (cleanup_render_view_image n).
Proof. unfold cleanup_render_view_image. records_auto. Qed.

#[local] Hint Resolve records_cleanup_render_view_image : records.

Lemma records_create_uv_map : stable keeps_records create_uv_map.
Proof. unfold create_uv_map. records_auto. apply records_object_mode. records_auto. Qed.

Lemma records_create_bake_image : stable keeps_records create_bake_image.
Proof. unfold create_bake_image. records_auto. Qed.

Lemma records_setup_camera : stable keeps_records setup_camera.
Proof. unfold setup_camera. records_auto. Qed.

Lemma records_setup_viewport : stable keeps_records setup_viewport.
Proof. unfold setup_viewport. apply records_view3d_context. intros. records_auto. Qed.

Lemma records_create_temp_render : stable keeps_records create_temp_render.
Proof. unfold create_temp_render. records_auto. Qed.

Lemma records_bake_image_save : stable keeps_records bake_image_save.
Proof. unfold bake_image_save. records_auto. Qed.

#[local] Hint Resolve records_create_uv_map records_create_bake_image records_setup_camera
  records_setup_viewport records_create_temp_render records_bake_image_save : records.

Lemma records_project_texture a c t : stable keeps_records (project_texture a c t).
Proof.
  unfold project_texture. records_auto. apply records_object_mode. records_auto.
  apply records_view3d_context. intros. records_auto.
Qed.

Lemma records_extent coord corners : stable keeps_records (extent coord corners).
Proof. unfold extent. records_auto. Qed.

Lemma records_camera_angle : stable keeps_records camera_angle.
Proof. unfold camera_angle. records_auto. Qed.

#[local] Hint Resolve records_project_texture records_extent records_camera_angle : records.

Lemma records_memoize {V} get_cache set_cache
    (func : list (option string) → gmap string (option string) → M PState V) args kwargs :
  (∀ args kwargs, stable keeps_records (func args kwargs)) →
  stable keeps_records (memoize get_cache set_cache func args kwargs).
Proof. intros Hf. unfold memoize. cbv zeta. repeat first [apply Hf | records_step]. Qed.

Lemma records_calculate_optimal_distance args kwargs :
  stable keeps_records (calculate_optimal_distance args kwargs).
Proof.
  apply records_memoize. intros. unfold calculate_optimal_distance_func. records_auto.
Qed.

Lemma records_get_view_parameters args kwargs :
  stable keeps_records (get_view_parameters args kwargs).
Proof.
  apply records_memoize. intros. unfold get_view_parameters_func. records_auto.
Qed.

#[local] Hint Resolve records_calculate_optimal_distance records_get_view_parameters : records.

Lemma records_position_camera a v : stable keeps_records (position_camera a v).
Proof. unfold position_camera. records_auto. Qed.

Lemma records_setup_material_nodes : stable keeps_records setup_material_nodes.
Proof. unfold setup_material_nodes. records_auto. Qed.

#[local] Hint Resolve records_position_camera records_setup_material_nodes : records.

Lemma records_angle_step h v label c t : stable keeps_records (angle_step h v label c t).
Proof. unfold angle_step. records_auto. Qed.

Lemma records_process_angles l idx total : stable keeps_records (process_angles l idx total).
Proof.
  revert idx. induction l as [| [view_type h_angle] l IH]; intros idx; cbn [process_angles];
    records_auto.
Qed.

#[local] Hint Resolve records_process_angles : records.

Lemma records_setup_failed {A} name (m : M PState A) :
  stable keeps_records m → stable keeps_records (setup_failed name m).
Proof. intros H. unfold setup_failed. records_auto. Qed.

Lemma records_generate_camera_angles : stable keeps_records generate_camera_angles.
Proof. unfold generate_camera_angles. records_auto. Qed.

#[local] Hint Resolve records_generate_camera_angles : records.

Lemma records_process_body : stable keeps_records process_body.
Proof.
  unfold process_body. records_auto; apply records_setup_failed; records_auto.
Qed.

(** ** [process] ends in [cleanup] *)

Lemma process_spec s :
  fst (process s) = fst (process_body s) ∧
  self (snd (process s)) = with_temp_files (fun _ => []) (self (snd (process_body s))) ∧
  cleanup_rel (world (snd (process_body s))) (world (snd (process s))) ∧
  artifacts_removed_unless_locked (temp_files (self (snd (process_body s))))
    (world (snd (process s))).
Proof.
  unfold process, try_finally. destruct (process_body s) as [r s1]. cbn [fst snd].
  destruct (cleanup_spec s1) as (w' & E & R & A). rewrite E. cbn. by split_and!.
Qed.

(** ** [execute] of the bake operator *)

Lemma bind_ok_inv {S A B} (m : M S A) (k : A → M S B) s r s' :
  bind m k s = (Ok r, s') → ∃ a s1, m s = (Ok a, s1) ∧ k a s1 = (Ok r, s').
Proof.
  unfold bind. destruct (m s) as [[a | e] s1]; [eauto | discriminate].
Qed.

Lemma setup_frame_refl s : setup_frame s s.
Proof. by unfold setup_frame. Qed.

Lemma setup_frame_trans s1 s2 s3 : setup_frame s1 s2 → setup_frame s2 s3 → setup_frame s1 s3.
Proof. unfold setup_frame. intros (?&?&?&?&?) (?&?&?&?&?). split_and!; congruence. Qed.

Lemma setup_liftO {A} (m : M World A) : stable world_frame m → stable setup_frame (liftO m).
Proof.
  intros H [o w]. unfold liftO; cbn. specialize (H w).
  destruct (m w) as [r w']; cbn in *. destruct H as (_ & Hp & Hw). by split_and!.
Qed.

Lemma setup_on_projector {A} (m : M PState A) :
  stable frame m → stable setup_frame (on_projector m).
Proof.
  intros H [o w]. unfold on_projector; cbn.
  destruct (projector o) as [p |]; cbn; [| apply setup_frame_refl].
  specialize (H (mkPState p w)). destruct (m (mkPState p w)) as [r [p' w']]; cbn in *.
  destruct H as [_ (_ & Hp & Hw)]. by split_and!.
Qed.

Lemma setup_modify_projector f : stable setup_frame (modify (with_op (with_projector f))).
Proof. intros [o w]. by split_and!. Qed.

Ltac setup_step :=
  first
    [ stable_comb setup_frame_refl setup_frame_trans
    | lazymatch goal with
      | |- stable setup_frame (liftO _) => apply setup_liftO
      | |- stable setup_frame (on_projector _) => apply setup_on_projector
      | |- stable setup_frame (modify (with_op (with_projector _))) =>
          apply setup_modify_projector
      end
    | frame_step ].

(** Takes the first call off a sequence that returned, with what it kept. *)
Ltac setup_inv H :=
  let a := fresh "a" in
  let s1 := fresh "s" in
  let E := fresh "E" in
  let F := fresh "F" in
  apply bind_ok_inv in H as (a & s1 & E & H);
  match type of E with
  | ?m ?s0 = _ =>
      assert (F : stable setup_frame m) by (repeat setup_step);
      specialize (F s0); rewrite E in F; cbn [snd] in F
  end.

Lemma on_projector_ok {A} (m : M PState A) s a s1 :
  on_projector m s = (Ok a, s1) → is_Some (projector (op s1)).
Proof.
  unfold on_projector. destruct (projector (op s)); [| discriminate].
  destruct (m _) as [r ps]. intros [= _ <-]. cbn. eauto.
Qed.

(** When [execute], from the construction of the projector on, returns:
    the timer is registered with an interval of a tenth of a second and
    held by the operator, the angles and the number of steps are those of
    the mode, and the index is untouched. *)
Lemma execute_bake_returns st s r s' :
  EEVEE_OT_TextureBaker.execute_bake st s = (Ok r, s') →
  r = RUNNING_MODAL ∧
  (∃ h, _timer (op s') = Some h ∧
        timers (wm (oworld s')) = (timers (wm (oworld s)) ++ [(h, 1 # 10)])%list) ∧
  modal_handlers (wm (oworld s')) = S (modal_handlers (wm (oworld s))) ∧
  _current_angle_index (op s') = _current_angle_index (op s) ∧
  is_Some (projector (op s')) ∧
  (∃ n, eevee_baker (scene (oworld s'))
          = with_total_steps (fun _ => n) (eevee_baker (scene (oworld s))) ∧
        if auto_bake (eevee_baker (scene (oworld s)))
        then _camera_angles (op s') = twelve_angles ∧ n = 12%nat
        else _camera_angles (op s') = [(None, 0%Z)] ∧ n = 1%nat).
Proof.
  intros H. unfold EEVEE_OT_TextureBaker.execute_bake in H.
  setup_inv H. setup_inv H. setup_inv H. setup_inv H. setup_inv H. setup_inv H.
  setup_inv H. setup_inv H.
  assert (F' : setup_frame s s7) by (repeat (eapply setup_frame_trans; [eassumption |]);
                                     apply setup_frame_refl).
  assert (Hproj : is_Some (projector (op s7))) by (eapply on_projector_ok; eassumption).
  clear F F0 F1 F2 F3 F4 F5 F6 E E0 E1 E2 E3 E4 E5 E6 s0 s1 s2 s3 s4 s5 s6.
  destruct s7 as [o7 w7]. destruct F' as (Hp & Hw & Ht & Ha & Hi). cbn [op oworld] in *.
  rewrite bind_liftO in H. cbn [get_props gets] in H. rewrite Hp in H.
  destruct (auto_bake (eevee_baker (scene (oworld s)))).
  - destruct Hproj as [p7 Hp7].
    rewrite (bind_on_projector _ _ _ _ _ Hp7) in H. cbn in H.
    injection H as <- <-. cbn. rewrite Hp, Hw, Hi.
    split; [done |]. split; [eauto |]. split; [done |]. split; [done |]. split; [eauto |].
    exists 12%nat. by split_and!.
  - cbn in H. injection H as <- <-. cbn. rewrite Hp, Hw, Hi.
    split; [done |]. split; [eauto |]. split; [done |]. split; [done |]. split; [eauto |].
    exists 1%nat. by split_and!.
Qed.

(** When [execute] returns RUNNING_MODAL: the run is flagged, the
    progress is reset, and the timer, the angles and the number of steps
    are as [execute_bake_returns] says. *)
Lemma execute_running s s' :
  EEVEE_OT_TextureBaker.execute s = (Ok RUNNING_MODAL, s') →
  (∃ h, _timer (op s') = Some h ∧
        timers (wm (oworld s')) = (timers (wm (oworld s)) ++ [(h, 1 # 10)])%list) ∧
  modal_handlers (wm (oworld s')) = S (modal_handlers (wm (oworld s))) ∧
  _current_angle_index (op s') = _current_angle_index (op s) ∧
  is_Some (projector (op s')) ∧
  is_baking (eevee_baker (scene (oworld s'))) = true ∧
  progress (eevee_baker (scene (oworld s'))) = 0%nat ∧
  should_cancel (eevee_baker (scene (oworld s'))) = false ∧
  auto_bake (eevee_baker (scene (oworld s'))) = auto_bake (eevee_baker (scene (oworld s))) ∧
  if auto_bake (eevee_baker (scene (oworld s)))
  then _camera_angles (op s') = twelve_angles ∧
       total_steps (eevee_baker (scene (oworld s'))) = 12%nat
  else _camera_angles (op s') = [(None, 0%Z)] ∧
       total_steps (eevee_baker (scene (oworld s'))) = 1%nat.
Proof.
  unfold EEVEE_OT_TextureBaker.execute, try_except.
  destruct (EEVEE_OT_TextureBaker.execute_body s) as [[r | e] s1] eqn:E.
  - intros [= -> ->]. destruct s as [o w]. cbn [op oworld].
    unfold EEVEE_OT_TextureBaker.execute_body in E.
    do 4 (rewrite bind_liftO in E; cbn [set_props modify gets] in E).
    destruct (addons _ !! "Texture Paint Bake") as [[prefs |] |]; [| | discriminate].
    + rewrite bind_liftO in E.
      match type of E with context [EEVEE_OT_TextureBaker.apply_quality_preset prefs ?w1] =>
        pose proof (stable_apply_quality_preset prefs w1) as Hq;
        destruct (EEVEE_OT_TextureBaker.apply_quality_preset prefs w1) as [[[] | e] w2] end;
        [| discriminate].
      destruct Hq as (_ & Hprops & Hwm). cbn [snd] in *.
      rewrite bind_liftO in E. cbn [get_props gets] in E. rewrite bind_liftO in E.
      cbn [gets] in E.
      apply execute_bake_returns in E as (_ & Ht & Hm & Hi & Hp & n & Hn & Hmode).
      cbn [op oworld] in *. rewrite Hwm in Ht, Hm. rewrite Hprops in Hn, Hmode.
      cbn in Ht, Hm, Hn, Hmode. rewrite Hn. cbn.
      split; [exact Ht |]. split; [exact Hm |]. split; [exact Hi |]. split; [exact Hp |].
      split; [done |]. split; [done |]. split; [done |]. split; [done |].
      destruct (auto_bake (eevee_baker (scene w))); destruct Hmode as [Ha ->]; by split.
    + rewrite bind_liftO in E. discriminate.
  - intros H. apply bind_ok_inv in H as (? & ? & _ & H).
    apply bind_ok_inv in H as (? & ? & _ & H). discriminate.
Qed.

(** In auto-bake mode, with the flag clear, a timer tick that returns
    finishes exactly when no angle is left. *)
Lemma modal_finishes_iff o w r s' :
  should_cancel (eevee_baker (scene w)) = false →
  auto_bake (eevee_baker (scene w)) = true →
  EEVEE_OT_TextureBaker.modal "TIMER" (mkOState o w) = (Ok r, s') →
  r = FINISHED ↔ (length (_camera_angles o) ≤ _current_angle_index o)%nat.
Proof.
  intros Hc Ha H.
  destruct (decide (length (_camera_angles o) ≤ _current_angle_index o)%nat) as [Hi | Hi].
  - rewrite (modal_done o w Hc Ha Hi) in H. injection H as <- _. done.
  - split; [| done]. intros ->. exfalso.
    destruct (lookup_lt_is_Some_2 (_camera_angles o) (_current_angle_index o))
      as [[v h] Hv]; [lia |].
    destruct (projector o) as [p |] eqn:Hp.
    + rewrite (modal_tick o w p v h Hc Ha Hp Hv) in H.
      destruct (angle_step _ _ _ _ _ _) as [[[] | e] ps]; discriminate.
    + unfold EEVEE_OT_TextureBaker.modal in H.
      rewrite bind_liftO in H. cbn [get_props gets] in H. rewrite Hc in H.
      cbn [String.eqb Ascii.eqb Bool.eqb] in H.
      rewrite bind_liftO in H. cbn [get_props gets] in H. rewrite Ha in H. cbn [negb] in H.
      rewrite !bind_gets in H. cbn [op] in H.
      assert (Hlt : (length (_camera_angles o) <=? _current_angle_index o)%nat = false)
        by (apply Nat.leb_gt; lia).
      rewrite Hlt, Hv in H. unfold bind at 1, on_projector at 1 in H. cbn [op] in H.
      rewrite Hp in H. discriminate.
Qed.

(** ** [project_texture] places no object *)

Lemma placed_same_refl w : placed_same w w.
Proof. by intros n. Qed.

Lemma placed_same_trans w1 w2 w3 : placed_same w1 w2 → placed_same w2 w3 → placed_same w1 w3.
Proof. intros H1 H2 n. by rewrite H2, H1. Qed.

Lemma placed_same_same w w' : objects (data w') = objects (data w) → placed_same w w'.
Proof. intros E n. by rewrite E. Qed.

Lemma placed_same_alter w f name :
  (∀ o, placement (f o) = placement o) →
  placed_same w (with_data (with_objects (alter f name)) w).
Proof.
  intros Hf n. cbn. destruct (decide (name = n)) as [-> | Hne].
  - rewrite lookup_alter_eq. destruct (objects (data w) !! n); cbn; [| done]. by rewrite Hf.
  - by rewrite lookup_alter_ne.
Qed.

Lemma placed_liftW {A} (m : M World A) :
  stable placed_same m → stable (on_world placed_same) (liftW m).
Proof.
  intros H [p w]. unfold liftW, on_world; cbn. specialize (H w). by destruct (m w).
Qed.

Lemma on_world_refl (R : World → World → Prop) :
  (∀ w, R w w) → ∀ s, on_world R s s.
Proof. intros H s. apply H. Qed.

Lemma on_world_trans (R : World → World → Prop) :
  (∀ w1 w2 w3, R w1 w2 → R w2 w3 → R w1 w3) →
  ∀ s1 s2 s3, on_world R s1 s2 → on_world R s2 s3 → on_world R s1 s3.
Proof. intros H s1 s2 s3. apply H. Qed.

Create HintDb placed discriminated.

Ltac placed_step :=
  first
    [ stable_comb (on_world_refl placed_same placed_same_refl)
                  (on_world_trans placed_same placed_same_trans)
    | stable_comb placed_same_refl placed_same_trans
    | lazymatch goal with
      | |- stable (on_world placed_same) (liftW _) => apply placed_liftW
      | |- stable (on_world placed_same) (set_self _) =>
          apply stable_modify; intros; apply placed_same_refl
      | |- stable (on_world placed_same) (set_world _) =>
          apply stable_modify; intros; apply placed_same_same; reflexivity
      | |- stable placed_same (modify _) =>
          apply stable_modify; intros; apply placed_same_same; reflexivity
      end
    | solve [auto with placed nocore] ].

Ltac placed_auto := repeat placed_step.

Ltac placed_prim :=
  let w := fresh "w" in
  intros w; cbv beta delta [os_remove os_makedirs os_rmdir set_image_attr images_add
    lookup_object lookup_material];
  repeat case_match; cbn [snd];
  first [apply placed_same_refl | apply placed_same_same; reflexivity].

Lemma placed_print msg : stable placed_same (print msg).
Proof. unfold print. placed_auto. Qed.
Lemma placed_set_eevee k v : stable placed_same (set_eevee k v).
Proof. unfold set_eevee. placed_auto. Qed.
Lemma placed_set_render k v : stable placed_same (set_render k v).
Proof. unfold set_render. placed_auto. Qed.
Lemma placed_set_image_paint k v : stable placed_same (set_image_paint k v).
Proof. unfold set_image_paint. placed_auto. Qed.
Lemma placed_images_add n a : stable placed_same (images_add n a).
Proof. placed_prim. Qed.
Lemma placed_lookup_object n : stable placed_same (lookup_object n).
Proof. placed_prim. Qed.

#[local] Hint Resolve placed_print placed_set_eevee placed_set_render placed_set_image_paint
  placed_images_add placed_lookup_object : placed.

Lemma placed_mode_set mode : stable placed_same (mode_set mode).
Proof.
  unfold mode_set, update_object. placed_auto.
  apply stable_modify. intros w. by apply placed_same_alter.
Qed.
Lemma placed_render_render : stable placed_same render_render.
Proof. unfold render_render. placed_auto. Qed.
Lemma placed_project_image n : stable placed_same (project_image n).
Proof. unfold project_image. placed_auto. Qed.

#[local] Hint Resolve placed_mode_set placed_render_render placed_project_image : placed.

Lemma placed_view3d_context {A} (body : nat → M PState A) :
  (∀ a, stable (on_world placed_same) (body a)) →
  stable (on_world placed_same) (view3d_context body).
Proof. intros H. unfold view3d_context. placed_auto. Qed.

Lemma placed_object_mode {A} mode (body : M PState A) :
  stable (on_world placed_same) body → stable (on_world placed_same) (object_mode mode body).
Proof. intros H. unfold object_mode. placed_auto. Qed.

Lemma placed_create_temp_render : stable (on_world placed_same) create_temp_render.
Proof. unfold create_temp_render. placed_auto. Qed.

Lemma placed_bake_image_save : stable (on_world placed_same) bake_image_save.
Proof. unfold bake_image_save. placed_auto. Qed.

#[local] Hint Resolve placed_create_temp_render placed_bake_image_save : placed.

Lemma placed_project_texture a c t : stable (on_world placed_same) (project_texture a c t).
Proof.
  unfold project_texture. placed_auto. apply placed_object_mode. placed_auto.
  apply placed_view3d_context. intros. placed_auto.
Qed.

(** Outside auto-bake mode [cleanup] of the operator removes no object. *)
Lemma baker_cleanup_objects o w :
  auto_bake (eevee_baker (scene w)) = false →
  objects (data (oworld (snd (EEVEE_OT_TextureBaker.cleanup (mkOState o w)))))
    = objects (data w).
Proof.
  intros Ha. unfold EEVEE_OT_TextureBaker.cleanup.
  rewrite bind_liftO. cbn [set_props modify]. rewrite bind_gets. cbn [op].
  set (w1 := with_scene _ w).
  set (w2 := match _timer o with
             | Some h => with_wm (with_timers (List.filter (fun t => negb (Nat.eqb (fst t) h)))) w1
             | None => w1 end).
  assert (E2 : (match _timer o with
                | Some h => liftO (event_timer_remove h)
                | None => ret tt end) (mkOState o w1) = (Ok tt, mkOState o w2)).
  { unfold w2. destruct (_timer o); reflexivity. }
  assert (H2 : objects (data w2) = objects (data w) ∧
               auto_bake (eevee_baker (scene w2)) = false).
  { unfold w2, w1. destruct (_timer o); by split. }
  destruct H2 as [Hobj Hauto].
  rewrite (bind_ok _ _ _ _ _ E2). rewrite bind_gets. cbn [op].
  destruct (projector o) as [p |] eqn:Hp; [| exact Hobj].
  rewrite (bind_on_projector _ _ _ _ _ Hp).
  destruct (cleanup_spec (mkPState p w2)) as (w3 & E3 & R3 & _). rewrite E3.
  cbv beta iota. cbn [self world]. rewrite bind_liftO. cbn [get_props gets]. rewrite bind_gets.
  cbn [op projector with_projector mbind option_bind camera with_temp_files].
  destruct R3 as (S1 & S2 & _). cbn [world] in S1, S2.
  rewrite S1, Hauto.
  destruct (camera p); cbn; by rewrite S2.
Qed.

(** A run with a known result, as an equation. *)
Lemma run_eq {S A} (m : M S A) s r : fst (m s) = r → m s = (r, snd (m s)).
Proof. intros <-. apply surjective_pairing. Qed.

(** ** A failing angle in [process] and in [modal] *)

(** The loop of [process], one angle at a time: an angle that raised is
    logged and the loop goes on with the rest. *)
Lemma process_angles_step v h rest idx total s :
  process_angles ((v, h) :: rest) idx total s =
    match angle_step h (Some v) (angle_label v h) idx total s with
    | (Ok _, s1) => process_angles rest (S idx) total s1
    | (Raise e, s1) => process_angles rest (S idx) total (logged (angle_error idx total e) s1)
    end.
Proof.
  cbn [process_angles]. unfold bind at 1, try_except.
  fold (angle_step h (Some v) (angle_label v h) idx total).
  destruct (angle_step _ _ _ _ _ s) as [[[] | e] [p1 w1]]; reflexivity.
Qed.

(** The loop of [process] never raises. *)
Lemma process_angles_total l idx total s : fst (process_angles l idx total s) = Ok tt.
Proof.
  revert idx s. induction l as [| [v h] l IH]; intros idx s; [reflexivity |].
  rewrite process_angles_step.
  destruct (angle_step _ _ _ _ _ s) as [[[] | e] s1]; apply IH.
Qed.

(** ** The geometry of the camera placement *)

Lemma py_min_spec a b : (py_min a b = a ∨ py_min a b = b) ∧ (py_min a b <= a)%Q ∧ (py_min a b <= b)%Q.
Proof.
  unfold py_min. destruct (Qle_bool a b) eqn:E.
  - apply Qle_bool_iff in E. split; [by left |]. split; [apply Qle_refl | exact E].
  - split; [by right |]. split; [| apply Qle_refl].
    apply Qlt_le_weak, Qnot_le_lt. intros H. apply Qle_bool_iff in H. congruence.
Qed.

Lemma py_max_spec a b : (py_max a b = a ∨ py_max a b = b) ∧ (a <= py_max a b)%Q ∧ (b <= py_max a b)%Q.
Proof.
  unfold py_max. destruct (Qle_bool b a) eqn:E.
  - apply Qle_bool_iff in E. split; [by left |]. split; [apply Qle_refl | exact E].
  - split; [by right |]. split; [| apply Qle_refl].
    apply Qlt_le_weak, Qnot_le_lt. intros H. apply Qle_bool_iff in H. congruence.
Qed.

Lemma fold_py_min_least l : ∀ x, least (x :: l) (fold_left py_min l x).
Proof.
  induction l as [| y l IH]; intros x; cbn.
  - split; [left |]. intros z Hz. apply list_elem_of_singleton in Hz as ->. apply Qle_refl.
  - destruct (IH (py_min x y)) as [Hin Hle].
    destruct (py_min_spec x y) as (Hor & Hx & Hy). split.
    + apply elem_of_cons in Hin as [-> | Hin].
      * destruct Hor as [-> | ->]; [left | right; left].
      * by do 2 right.
    + intros z Hz. apply elem_of_cons in Hz as [-> | Hz].
      * eapply Qle_trans; [apply Hle; left | exact Hx].
      * apply elem_of_cons in Hz as [-> | Hz].
        -- eapply Qle_trans; [apply Hle; left | exact Hy].
        -- apply Hle. by right.
Qed.

Lemma fold_py_max_greatest l : ∀ x, greatest (x :: l) (fold_left py_max l x).
Proof.
  induction l as [| y l IH]; intros x; cbn.
  - split; [left |]. intros z Hz. apply list_elem_of_singleton in Hz as ->. apply Qle_refl.
  - destruct (IH (py_max x y)) as [Hin Hle].
    destruct (py_max_spec x y) as (Hor & Hx & Hy). split.
    + apply elem_of_cons in Hin as [-> | Hin].
      * destruct Hor as [-> | ->]; [left | right; left].
      * by do 2 right.
    + intros z Hz. apply elem_of_cons in Hz as [-> | Hz].
      * eapply Qle_trans; [exact Hx | apply Hle; left].
      * apply elem_of_cons in Hz as [-> | Hz].
        -- eapply Qle_trans; [exact Hy | apply Hle; left].
        -- apply Hle. by right.
Qed.

Lemma min_of_least l m : min_of l = Some m → least l m.
Proof. destruct l as [| x l]; [done |]. intros [= <-]. apply fold_py_min_least. Qed.

Lemma max_of_greatest l m : max_of l = Some m → greatest l m.
Proof. destruct l as [| x l]; [done |]. intros [= <-]. apply fold_py_max_greatest. Qed.

(** The bounds the two methods compute from a non-empty list of corners
    are those of its bounding box. *)
Lemma bounds_of_corners corners :
  corners ≠ [] →
  ∃ lo hi, min_of (map vx corners) = Some (vx lo) ∧ min_of (map vy corners) = Some (vy lo) ∧
           min_of (map vz corners) = Some (vz lo) ∧
           max_of (map vx corners) = Some (vx hi) ∧ max_of (map vy corners) = Some (vy hi) ∧
           max_of (map vz corners) = Some (vz hi) ∧
           bounding_box corners lo hi.
Proof.
  intros Hne. destruct corners as [| c cs]; [done |].
  exists (mkVec (fold_left py_min (map vx cs) (vx c)) (fold_left py_min (map vy cs) (vy c))
                (fold_left py_min (map vz cs) (vz c))),
         (mkVec (fold_left py_max (map vx cs) (vx c)) (fold_left py_max (map vy cs) (vy c))
                (fold_left py_max (map vz cs) (vz c))).
  cbn. split_and!; try reflexivity.
  unfold bounding_box. cbn.
  split_and!; first [apply fold_py_min_least | apply fold_py_max_greatest].
Qed.

Lemma bind_view_type_positional view : bind_view_type [view] ∅ = Ok view.
Proof. unfold bind_view_type. by rewrite bool_decide_true. Qed.

(** What the body of [get_view_parameters] computes. *)
Lemma get_view_parameters_func_spec s name ob lo hi view :
  obj (self s) = Some name → objects (data (world s)) !! name = Some ob →
  min_of (map vx (bbox_corners ob)) = Some (vx lo) →
  min_of (map vy (bbox_corners ob)) = Some (vy lo) →
  min_of (map vz (bbox_corners ob)) = Some (vz lo) →
  max_of (map vx (bbox_corners ob)) = Some (vx hi) →
  max_of (map vy (bbox_corners ob)) = Some (vy hi) →
  max_of (map vz (bbox_corners ob)) = Some (vz hi) →
  get_view_parameters_func [view] ∅ s
    = (Ok (view_params view lo hi (centre lo hi) (vz hi - vz lo)), s).
Proof.
  destruct s as [p w], lo as [x0 y0 z0], hi as [x1 y1 z1]. cbn [self world vx vy vz].
  intros Ho Hob H1 H2 H3 H4 H5 H6.
  unfold get_view_parameters_func. rewrite bind_view_type_positional.
  unfold bind at 1, of_result at 1. unfold the_obj. rewrite bind_assoc, bind_get_self.
  cbn [self]. rewrite Ho, bind_ret, bind_liftW. unfold lookup_object. rewrite Hob.
  rewrite H1, H2, H3, H4, H5, H6. reflexivity.
Qed.

(** What the body of [calculate_optimal_distance] computes. *)
Lemma calculate_optimal_distance_func_spec s name ob lo hi view cam c fov :
  obj (self s) = Some name → objects (data (world s)) !! name = Some ob →
  min_of (map vx (bbox_corners ob)) = Some (vx lo) →
  min_of (map vy (bbox_corners ob)) = Some (vy lo) →
  min_of (map vz (bbox_corners ob)) = Some (vz lo) →
  max_of (map vx (bbox_corners ob)) = Some (vx hi) →
  max_of (map vy (bbox_corners ob)) = Some (vy hi) →
  max_of (map vz (bbox_corners ob)) = Some (vz hi) →
  camera (self s) = Some cam → objects (data (world s)) !! cam = Some c →
  getattr "angle" (o_data c) = VNum fov →
  Qeq_bool (2 * math_tan (libm (host (world s))) (fov / 2)) 0 = false →
  calculate_optimal_distance_func [view] ∅ s
    = (Ok ((base_distance view (py_max (vx hi - vx lo) (vy hi - vy lo)) (vz hi - vz lo)
            / (2 * math_tan (libm (host (world s))) (fov / 2))) * (8 # 10))%Q, s).
Proof.
  destruct s as [p w]. cbn [self world].
  intros Ho Hob H1 H2 H3 H4 H5 H6 Hc Hcam Hfov Ht.
  unfold calculate_optimal_distance_func. rewrite bind_view_type_positional.
  unfold bind at 1, of_result at 1. rewrite bind_get_self. cbn [self]. rewrite Ho.
  rewrite bind_liftW. unfold lookup_object at 1. rewrite Hob.
  unfold extent. rewrite H1, H2, H3, H4, H5, H6. rewrite !bind_ret.
  unfold camera_angle. rewrite bind_assoc, bind_get_self. cbn [self]. rewrite Hc.
  rewrite bind_assoc, bind_liftW. unfold lookup_object. rewrite Hcam, Hfov.
  rewrite bind_ret, bind_get_world. cbn [world]. rewrite Ht. reflexivity.
Qed.

(** A first call of a memoized method runs the body and files what it
    returns. *)
Section MemoizeMiss.
Context {V : Type}.
Context (get_cache : World → gmap nat (gmap Key V)).
Context (set_cache : (gmap nat (gmap Key V) → gmap nat (gmap Key V)) → World → World).
Hypothesis get_set : ∀ f w, get_cache (set_cache f w) = f (get_cache w).
Hypothesis set_set : ∀ f g w, set_cache g (set_cache f w) = set_cache (fun c => g (f c)) w.

Lemma memoize_miss func args kwargs s v :
  (∀ g, func args kwargs (with_world (set_cache g) s) = (Ok v, with_world (set_cache g) s)) →
  cached (get_cache (world s)) (self_id (self s)) (call_key args kwargs) = None →
  ∃ g, memoize get_cache set_cache func args kwargs s = (Ok v, with_world (set_cache g) s).
Proof using get_set set_set.
  intros Hf Hc. destruct s as [p w]; cbn in Hc.
  set (setdefault := fun c : gmap nat (gmap Key V) =>
         match c !! self_id p with Some _ => c | None => <[self_id p := ∅]> c end).
  assert (Hc1 : cached (setdefault (get_cache w)) (self_id p) (call_key args kwargs) = None).
  { unfold setdefault, cached in *. destruct (get_cache w !! self_id p) eqn:E.
    - by rewrite E.
    - by rewrite lookup_insert_eq. }
  assert (Hme : is_Some (setdefault (get_cache w) !! self_id p)).
  { unfold setdefault. destruct (get_cache w !! self_id p) eqn:E; [by rewrite E |].
    rewrite lookup_insert_eq. eauto. }
  destruct Hme as [d Hd].
  exists (fun c => alter <[call_key args kwargs := v]> (self_id p) (setdefault c)).
  unfold memoize. cbv zeta. rewrite bind_get_self. cbn [self]. fold setdefault.
  rewrite bind_set_world, bind_get_world. unfold with_world at 1 2. cbn [self world].
  rewrite get_set, cached_default, Hc1.
  rewrite bool_decide_false by (by intros [? ?]).
  rewrite bind_assoc.
  specialize (Hf setdefault). unfold with_world in Hf. cbn [self world] in Hf.
  rewrite (bind_ok _ _ _ _ _ Hf). rewrite bind_set_world. unfold with_world at 1.
  cbn [self world]. rewrite bind_get_world. cbn [world]. rewrite set_set, get_set.
  rewrite cached_default. unfold cached. rewrite lookup_alter_eq, Hd. cbn.
  rewrite lookup_insert_eq. reflexivity.
Qed.
End MemoizeMiss.

(** The two decorated bodies read nothing a change of the memo tables
    changes. *)
Section MemoChange.
Variable fw : World → World.
Hypothesis fw_data : ∀ w, data (fw w) = data w.
Hypothesis fw_host : ∀ w, host (fw w) = host w.

Lemma memo_change_lookup_object n : ignores fw (lookup_object n).
Proof using fw_data.
  intros w. unfold lookup_object. rewrite fw_data.
  destruct (objects (data w) !! n); reflexivity.
Qed.

#[local] Hint Resolve memo_change_lookup_object : ignores.

Lemma memo_change_distance args kwargs :
  ignores (with_world fw) (calculate_optimal_distance_func args kwargs).
Proof using fw_data fw_host.
  unfold calculate_optimal_distance_func, extent, camera_angle. ignores_auto.
  apply ignores_gets. intros [p w]. cbn. by rewrite fw_host.
Qed.

Lemma memo_change_view args kwargs :
  ignores (with_world fw) (get_view_parameters_func args kwargs).
Proof using fw_data.
  unfold get_view_parameters_func, the_obj. ignores_auto.
Qed.
End MemoChange.

Lemma distance_first_call s view v :
  calculate_optimal_distance_func [view] ∅ s = (Ok v, s) →
  cached (memo_distance (world s)) (self_id (self s)) (call_key [view] ∅) = None →
  ∃ g, calculate_optimal_distance [view] ∅ s = (Ok v, with_world (with_memo_distance g) s).
Proof.
  intros Hf Hc. apply (memoize_miss memo_distance with_memo_distance distance_get_set
                         distance_set_set); [| exact Hc].
  intros g. rewrite (memo_change_distance (with_memo_distance g)) by done.
  by rewrite Hf.
Qed.

Lemma view_first_call s view v :
  get_view_parameters_func [view] ∅ s = (Ok v, s) →
  cached (memo_view (world s)) (self_id (self s)) (call_key [view] ∅) = None →
  ∃ g, get_view_parameters [view] ∅ s = (Ok v, with_world (with_memo_view g) s).
Proof.
  intros Hf Hc. apply (memoize_miss memo_view with_memo_view view_get_set view_set_set);
    [| exact Hc].
  intros g. rewrite (memo_change_view (with_memo_view g)) by done.
  by rewrite Hf.
Qed.

Lemma update_object_spec name f w o :
  objects (data w) !! name = Some o →
  update_object name f w = (Ok tt, with_data (with_objects (insert name (f o))) w).
Proof.
  intros Ho. unfold update_object, bind, lookup_object, modify. rewrite Ho.
  f_equal. destruct w as [sc d]; destruct d. unfold with_data, with_objects. cbn in *.
  do 2 f_equal. apply map_eq. intros k. destruct (decide (name = k)) as [-> | Hne].
  - rewrite lookup_alter_eq, lookup_insert_eq, Ho. reflexivity.
  - by rewrite lookup_alter_ne, lookup_insert_ne.
Qed.

(** [position_camera], given what the two memoized calls return: the
    camera is put at the position of the view category and aimed at the
    target, and made the scene camera. *)
Lemma position_camera_spec s h view name cam c zm z_pos target d s1 s2 :
  obj (self s) = Some name → camera (self s) = Some cam →
  get_view_parameters [view] ∅ s = (Ok (zm, z_pos, target), s1) →
  calculate_optimal_distance [view] ∅ s1 = (Ok d, s2) →
  objects (data (world s2)) !! cam = Some c →
  let L := libm (host (world s2)) in
  let h_rad := math_radians L h in
  let pos :=
    if view_is view "below" then
      mkVec (vx target + (d * (9 # 10)) * math_cos L h_rad)
            (vy target + (d * (9 # 10)) * math_sin L h_rad)
            (z_pos - d * (3 # 10))
    else if view_is view "total" then
      mkVec (vx target + d * math_cos L h_rad) (vy target + d * math_sin L h_rad) (vz target)
    else
      mkVec (vx target + (d * (9 # 10)) * math_cos L h_rad)
            (vy target + (d * (9 # 10)) * math_sin L h_rad)
            (z_pos + d * (3 # 10)) in
  ∃ s3, position_camera h view s = (Ok tt, s3) ∧
        self s3 = self s2 ∧
        objects (data (world s3))
          = <[cam := with_o_aim (fun _ => Some (vsub target pos))
                       (with_o_location (fun _ => pos) c)]> (objects (data (world s2))) ∧
        scene_camera (scene (world s3)) = Some cam.
Proof.
  intros Ho Hc E1 E2 Hcam L h_rad pos.
  unfold position_camera. rewrite !bind_get_self, Ho, Hc.
  rewrite (bind_ok _ _ _ _ _ E1). cbv beta iota.
  rewrite (bind_ok _ _ _ _ _ E2). rewrite bind_get_world.
  fold L. fold h_rad. cbv zeta. fold pos. destruct s2 as [p2 w2]. cbn [world self] in *.
  rewrite bind_liftW. rewrite (update_object_spec _ _ _ _ Hcam).
  rewrite bind_liftW. erewrite update_object_spec by (cbn; apply lookup_insert_eq).
  eexists. split; [reflexivity |]. cbn. split; [reflexivity |]. split; [| reflexivity].
  by rewrite insert_insert_eq.
Qed.

Lemma in_view_coneb_spec t loc aim p :
  in_view_coneb t loc aim p = true ↔ in_view_cone t loc aim p.
Proof.
  unfold in_view_coneb, in_view_cone. cbv zeta.
  rewrite andb_true_iff, negb_true_iff, Qle_bool_iff. split.
  - intros [H1 H2]. split; [| exact H2]. apply Qnot_le_lt. intros H.
    apply Qle_bool_iff in H. congruence.
  - intros [H1 H2]. split; [| exact H2]. destruct (Qle_bool _ 0) eqn:E; [| done].
    apply Qle_bool_iff in E. exfalso. eapply Qlt_not_le; eauto.
Qed.

(** * The claims *)

(** ** The fixed sequence of camera angles *)

(** C1.  [generate_camera_angles] returns, in every state and leaving the
    state as it is, the same twelve (view category, azimuth) pairs: for
    'below', 'total', 'upper' in this order, the azimuths 0, 90, 180, 270
    in this order. *)
Theorem generate_camera_angles_fixed (s : PState) :
  generate_camera_angles s =
    (Ok [("below", 0); ("below", 90); ("below", 180); ("below", 270);
         ("total", 0); ("total", 90); ("total", 180); ("total", 270);
         ("upper", 0); ("upper", 90); ("upper", 180); ("upper", 270)], s)
  ∧ ∀ l s', generate_camera_angles s = (Ok l, s') → length l = 12%nat.
Proof.
  split; [reflexivity |]. intros l s' H. cbv [generate_camera_angles ret] in H.
  by simplify_eq.
Qed.

(** ** The settings of a bake run *)

(** C8.  No operation mutates the settings: after any method of the
    projector, returning or raising, the projector's settings are the ones
    it had; after [modal] and [cleanup] of the bake operator the projector
    it holds has the settings it had; and when [execute] of a fresh
    operator leaves a projector, its settings are the ones constructed from
    the scene properties at the start. *)
Theorem settings_never_mutated :
  (∀ f, projector_operation f → ∀ s, settings (self (f s)) = settings (self s)) ∧
  (∀ ev s p, projector (op s) = Some p →
     ∃ p', projector (op (snd (EEVEE_OT_TextureBaker.modal ev s))) = Some p' ∧
           settings p' = settings p) ∧
  (∀ s p, projector (op s) = Some p →
     ∃ p', projector (op (snd (EEVEE_OT_TextureBaker.cleanup s))) = Some p' ∧
           settings p' = settings p) ∧
  (∀ s p', projector (op s) = None →
     projector (op (snd (EEVEE_OT_TextureBaker.execute s))) = Some p' →
     settings p' = execute_settings (oworld s)).
Proof.
  repeat split.
  - intros f Hf s. by destruct (projector_operation_frame f Hf s) as [(H & _) _].
  - intros ev s p Hp. apply oframe_settings; [apply stable_baker_modal | exact Hp].
  - intros s p Hp. apply oframe_settings; [apply stable_baker_cleanup | exact Hp].
  - intros s p' Hnone Hp'. by apply execute_settings_spec.
Qed.

Lemma settings_never_mutated_witness :
  projector_operation (fun s => snd (process s)) ∧
  settings (self (snd (process (mkPState Sample.fresh_projector Sample.world)))) = default_settings ∧
  projector (op Sample.ostate) = None ∧
  (∀ p', projector (op (snd (EEVEE_OT_TextureBaker.execute Sample.ostate))) = Some p' →
         settings p' = execute_settings Sample.world).
Proof.
  split; [constructor |]. split.
  - apply (proj1 settings_never_mutated _ op_process).
  - split; [reflexivity |]. intros p'.
    apply (proj2 (proj2 (proj2 settings_never_mutated)) Sample.ostate p'). reflexivity.
Defined.

(** ** Memoized geometry *)

(** C9.  For one projector instance, once [calculate_optimal_distance] or
    [get_view_parameters] has returned a value for given arguments, every
    later call with the same arguments returns that value and changes
    nothing, whatever the object, its bounding box and the camera have
    become, and whatever function is decorated: the body is not consulted.
    "Later" is any state of the same instance whose memo table still holds
    what it held; every method of the projector keeps the identity of the
    instance and what the tables hold. *)
Theorem memoized_calls_return_the_first_result :
  (∀ args kwargs s v s',
     calculate_optimal_distance args kwargs s = (Ok v, s') →
     ∀ s2, self_id (self s2) = self_id (self s) →
           memo_le (memo_distance (world s')) (memo_distance (world s2)) →
           calculate_optimal_distance args kwargs s2 = (Ok v, s2) ∧
           ∀ func, memoize memo_distance with_memo_distance func args kwargs s2 = (Ok v, s2)) ∧
  (∀ args kwargs s v s',
     get_view_parameters args kwargs s = (Ok v, s') →
     ∀ s2, self_id (self s2) = self_id (self s) →
           memo_le (memo_view (world s')) (memo_view (world s2)) →
           get_view_parameters args kwargs s2 = (Ok v, s2) ∧
           ∀ func, memoize memo_view with_memo_view func args kwargs s2 = (Ok v, s2)) ∧
  (∀ f, projector_operation f → ∀ s,
     self_id (self (f s)) = self_id (self s) ∧
     memo_le (memo_distance (world s)) (memo_distance (world (f s))) ∧
     memo_le (memo_view (world s)) (memo_view (world (f s)))).
Proof.
  split; [| split].
  - intros args kwargs s v s' Hcall s2 Hid Hle.
    apply (memoize_result memo_distance with_memo_distance distance_get_set) in Hcall
      as [_ Hc]; [| apply calculate_optimal_distance_func_readonly].
    apply Hle in Hc. rewrite <- Hid in Hc.
    split; [| intros func];
      apply (memoize_hit memo_distance with_memo_distance distance_get_set distance_set_same);
      exact Hc.
  - intros args kwargs s v s' Hcall s2 Hid Hle.
    apply (memoize_result memo_view with_memo_view view_get_set) in Hcall
      as [_ Hc]; [| apply get_view_parameters_func_readonly].
    apply Hle in Hc. rewrite <- Hid in Hc.
    split; [| intros func];
      apply (memoize_hit memo_view with_memo_view view_get_set view_set_same);
      exact Hc.
  - intros f Hf s.
    destruct (projector_operation_frame f Hf s) as [(_ & Hid & _) [(_ & _ & H1 & H2) _]].
    done.
Qed.


Lemma memoized_calls_witness :
  calculate_optimal_distance [Some "total"] ∅ Sample.pstate
    = (Ok (800 # 180)%Q, Sample.pstate_called) ∧
  self_id (self Sample.pstate_later) = self_id (self Sample.pstate) ∧
  memo_le (memo_distance (world Sample.pstate_called))
          (memo_distance (world Sample.pstate_later)) ∧
  calculate_optimal_distance [Some "total"] ∅ Sample.pstate_later
    = (Ok (800 # 180)%Q, Sample.pstate_later) ∧
  fst (calculate_optimal_distance_func [Some "total"] ∅ Sample.pstate_later)
    = Ok (8000 # 180)%Q.
Proof.
  assert (H1 : calculate_optimal_distance [Some "total"] ∅ Sample.pstate
               = (Ok (800 # 180)%Q, Sample.pstate_called)).
  { unfold Sample.pstate_called.
    rewrite (surjective_pairing (calculate_optimal_distance _ _ _)) at 1.
    apply (f_equal (fun r => (r, _))). vm_compute. reflexivity. }
  assert (H2 : self_id (self Sample.pstate_later) = self_id (self Sample.pstate))
    by (vm_compute; reflexivity).
  assert (H3 : memo_le (memo_distance (world Sample.pstate_called))
                       (memo_distance (world Sample.pstate_later))).
  { unfold Sample.pstate_later. cbn [world with_world memo_distance with_data].
    intros me k v H. exact H. }
  split; [exact H1 |]. split; [exact H2 |]. split; [exact H3 |]. split.
  - apply (proj1 memoized_calls_return_the_first_result
             [Some "total"] ∅ Sample.pstate (800 # 180)%Q Sample.pstate_called H1
             Sample.pstate_later H2 H3).
  - vm_compute. reflexivity.
Defined.

(** ** The original connection of a material *)

(** C6.  The original connection is captured once.  An entry of
    [original_nodes] survives any number of calls of
    [setup_material_nodes] unchanged, and so does it through every other
    method of the projector; a material's [original_connection] survives
    any sequence of calls of [toggle_material_nodes] unchanged; and when a
    call of [toggle_material_nodes] writes the property on a material
    that had none, the preview was being switched on and the value is the
    node then feeding the material output, which is not [Bake_Texture]. *)
Theorem original_connection_captured_once :
  (∀ s mat e n, original_nodes (self s) !! mat = Some e →
     original_nodes (self (Nat.iter n (fun s => snd (setup_material_nodes s)) s)) !! mat
       = Some e) ∧
  (∀ f, projector_operation f → ∀ s mat e,
     original_nodes (self s) !! mat = Some e → original_nodes (self (f s)) !! mat = Some e) ∧
  (∀ calls w mat m c, materials (data w) !! mat = Some m →
     id_props m !! "original_connection" = Some c →
     ∃ m', materials (data (toggle_many calls w)) !! mat = Some m' ∧
           id_props m' !! "original_connection" = Some c) ∧
  (∀ obj show_bake w mat m m' c, materials (data w) !! mat = Some m →
     id_props m !! "original_connection" = None →
     materials (data (snd (EEVEE_OT_ToggleBakePreview.toggle_material_nodes obj show_bake w)))
       !! mat = Some m' →
     id_props m' !! "original_connection" = Some c →
     show_bake = true ∧
     ∃ l rest, surface_links m = l :: rest ∧ from_node l ≠ "Bake_Texture" ∧
               c = (from_node l, from_socket l)).
Proof.
  assert (Hop : ∀ f, projector_operation f → ∀ s mat e,
            original_nodes (self s) !! mat = Some e →
            original_nodes (self (f s)) !! mat = Some e).
  { intros f Hf s mat e He.
    destruct (projector_operation_frame f Hf s) as [(_ & _ & Hsub) _].
    eapply map_subseteq_spec; eauto. }
  split; [| split; [exact Hop | split]].
  - intros s mat e n He. induction n as [| n IH]; cbn; [exact He |].
    apply (Hop _ op_setup_material_nodes). exact IH.
  - intros calls. induction calls as [| [obj show_bake] calls IH]; intros w mat m c Hm Hc.
    + cbn. eauto.
    + cbn. destruct (toggle_material_nodes_keeps obj show_bake w mat m c Hm Hc)
        as (m1 & Hm1 & Hc1).
      exact (IH _ mat m1 c Hm1 Hc1).
  - intros obj show_bake w mat m m' c Hm Hnone Hm' Hc.
    destruct (toggle_material_nodes_cases obj show_bake w) as [E | (mat' & m0 & out & Hm0 & E)];
      cbn zeta in E; rewrite E in Hm'.
    + congruence.
    + destruct (decide (mat' = mat)) as [-> | Hne].
      * rewrite lookup_insert_eq in Hm'. injection Hm' as <-.
        assert (m0 = m) as -> by congruence.
        eapply toggle_links_writes; eauto.
      * rewrite lookup_insert_ne in Hm' by done. congruence.
Qed.

Lemma original_connection_witness :
  (original_nodes (self Sample.pstate_nodes_set_up) !! "Mat" = Some Sample.filed_entry ∧
   original_nodes
     (self (Nat.iter 2 (fun s => snd (setup_material_nodes s)) Sample.pstate_nodes_set_up))
     !! "Mat" = Some Sample.filed_entry) ∧
  (materials (data Sample.world_preview_on) !! "Mat" = Some Sample.material_preview_on ∧
   id_props Sample.material_preview_on !! "original_connection" = Some ("Diffuse BSDF", 0%nat) ∧
   ∃ m', materials (data (toggle_many [(Some "Cube", true); (Some "Cube", false);
                                        (Some "Cube", true)] Sample.world_preview_on))
           !! "Mat" = Some m' ∧
         id_props m' !! "original_connection" = Some ("Diffuse BSDF", 0%nat)) ∧
  (materials (data Sample.world_with_material) !! "Mat" = Some Sample.material ∧
   id_props Sample.material !! "original_connection" = None ∧
   true = true ∧
   ∃ l rest, surface_links Sample.material = l :: rest ∧ from_node l ≠ "Bake_Texture" ∧
             ("Diffuse BSDF", 0%nat) = (from_node l, from_socket l)).
Proof.
  assert (H1 : original_nodes (self Sample.pstate_nodes_set_up) !! "Mat"
               = Some Sample.filed_entry) by (vm_compute; reflexivity).
  assert (H2 : materials (data Sample.world_preview_on) !! "Mat"
               = Some Sample.material_preview_on) by (vm_compute; reflexivity).
  assert (H3 : id_props Sample.material_preview_on !! "original_connection"
               = Some ("Diffuse BSDF", 0%nat)) by (vm_compute; reflexivity).
  assert (H4 : materials (data Sample.world_with_material) !! "Mat" = Some Sample.material)
    by (vm_compute; reflexivity).
  assert (H5 : id_props Sample.material !! "original_connection" = None)
    by (vm_compute; reflexivity).
  split; [split; [exact H1 |] | split; [split; [exact H2 | split; [exact H3 |]] |
                                        split; [exact H4 | split; [exact H5 |]]]].
  - exact (proj1 original_connection_captured_once
             Sample.pstate_nodes_set_up "Mat" Sample.filed_entry 2%nat H1).
  - exact (proj1 (proj2 (proj2 original_connection_captured_once))
             _ Sample.world_preview_on "Mat" Sample.material_preview_on _ H2 H3).
  - apply (proj2 (proj2 (proj2 original_connection_captured_once))
             (Some "Cube") true Sample.world_with_material "Mat" Sample.material
             Sample.material_preview_on ("Diffuse BSDF", 0%nat) H4 H5 H2 H3).
Defined.

(** ** Cancellation *)

(** C3.  Whenever [modal] is invoked with [should_cancel] set, whatever
    the event, it performs [cleanup] (the timer is removed, [is_baking] is
    reset, the projector's artifacts are cleaned up), resets
    [should_cancel], reports the cancellation and returns FINISHED, and
    it does so quietly: no object is placed, nothing is rendered or
    painted, the progress properties and the angle index stay.  The flag
    is polled: the cancel operator only writes it; no method of the
    projector writes it; and the processing of an angle ignores it, so a
    flag set while an angle is processed changes nothing before the next
    invocation of [modal], where, with the flag clear at entry, a timer
    tick in auto-bake mode is the processing of one angle. *)
Theorem cancellation_is_polled :
  (∀ ev o w, should_cancel (eevee_baker (scene w)) = true →
     ∃ s', EEVEE_OT_TextureBaker.modal ev (mkOState o w) = (Ok FINISHED, s') ∧
           should_cancel (eevee_baker (scene (oworld s'))) = false ∧
           is_baking (eevee_baker (scene (oworld s'))) = false ∧
           quiet w (oworld s') ∧
           _current_angle_index (op s') = _current_angle_index o ∧
           _camera_angles (op s') = _camera_angles o ∧
           reports (wm (oworld s')) = (reports (wm w) ++ [("INFO", "Baking cancelled")])%list ∧
           (∀ h, _timer o = Some h → h ∉ map fst (timers (wm (oworld s')))) ∧
           match projector o with
           | Some p => projector (op s') = Some (with_temp_files (fun _ => []) p) ∧
                       artifacts_removed_unless_locked (temp_files p) (oworld s')
           | None => projector (op s') = None
           end) ∧
  (∀ w, ∃ w', EEVEE_OT_CancelBake.execute w = (Ok FINISHED, w') ∧
              should_cancel (eevee_baker (scene w')) = true ∧
              data w' = data w ∧ os w' = os w ∧ wm w' = wm w ∧ areas w' = areas w) ∧
  (∀ f, projector_operation f → ∀ s,
     should_cancel (eevee_baker (scene (world (f s))))
       = should_cancel (eevee_baker (scene (world s)))) ∧
  (∀ b h v label c t s,
     angle_step h v label c t (with_world (set_cancel b) s)
       = (fst (angle_step h v label c t s),
          with_world (set_cancel b) (snd (angle_step h v label c t s)))) ∧
  (∀ o w p v h,
     should_cancel (eevee_baker (scene w)) = false →
     auto_bake (eevee_baker (scene w)) = true →
     projector o = Some p →
     _camera_angles o !! _current_angle_index o = Some (v, h) →
     ∃ r ps, angle_step h v (angle_fstring v h) (_current_angle_index o + 1)
               (length (_camera_angles o)) (mkPState p w) = (r, ps) ∧
             fst (EEVEE_OT_TextureBaker.modal "TIMER" (mkOState o w))
               = match r with Ok _ => Ok PASS_THROUGH | Raise e => Raise e end ∧
             projector (op (snd (EEVEE_OT_TextureBaker.modal "TIMER" (mkOState o w))))
               = Some (self ps) ∧
             data (oworld (snd (EEVEE_OT_TextureBaker.modal "TIMER" (mkOState o w))))
               = data (world ps) ∧
             os (oworld (snd (EEVEE_OT_TextureBaker.modal "TIMER" (mkOState o w))))
               = os (world ps)).
Proof.
  split_and!.
  - intros ev o w Hc. exact (modal_cancel ev o w Hc).
  - intros w. eexists. split; [reflexivity |]. by split_and!.
  - intros f Hf s. destruct (projector_operation_frame f Hf s) as [_ [_ [Hprops _]]].
    by rewrite Hprops.
  - intros b h v label c t s. apply ignores_angle_step.
  - intros o w p v h Hc Ha Hp Hi. rewrite (modal_tick o w p v h Hc Ha Hp Hi).
    destruct (angle_step _ _ _ _ _ _) as [[[] | e] ps]; eexists _, _; by split_and!.
Qed.

Lemma cancellation_witness :
  should_cancel (eevee_baker (scene Sample.world_cancelled)) = true ∧
  ∃ s', EEVEE_OT_TextureBaker.modal "TIMER"
          (mkOState (op Sample.ostate_ticked) Sample.world_cancelled) = (Ok FINISHED, s') ∧
        should_cancel (eevee_baker (scene (oworld s'))) = false ∧
        is_baking (eevee_baker (scene (oworld s'))) = false ∧
        quiet Sample.world_cancelled (oworld s') ∧
        _current_angle_index (op s') = _current_angle_index (op Sample.ostate_ticked) ∧
        _camera_angles (op s') = _camera_angles (op Sample.ostate_ticked) ∧
        reports (wm (oworld s'))
          = (reports (wm Sample.world_cancelled) ++ [("INFO", "Baking cancelled")])%list ∧
        (∀ h, _timer (op Sample.ostate_ticked) = Some h →
              h ∉ map fst (timers (wm (oworld s')))) ∧
        match projector (op Sample.ostate_ticked) with
        | Some p => projector (op s') = Some (with_temp_files (fun _ => []) p) ∧
                    artifacts_removed_unless_locked (temp_files p) (oworld s')
        | None => projector (op s') = None
        end.
Proof.
  assert (H : should_cancel (eevee_baker (scene Sample.world_cancelled)) = true)
    by (vm_compute; reflexivity).
  split; [exact H |].
  exact (proj1 cancellation_is_polled "TIMER" (op Sample.ostate_ticked)
           Sample.world_cancelled H).
Defined.

(** ** Cleanup of the temporary render artifacts *)




(** ** One angle per timer tick *)





(** ** The single-shot mode *)



(** ** A failing angle *)

(** C4.  In the loop of [process] an angle whose processing raises is
    logged and skipped, and the loop, which never raises, goes on with the
    remaining angles.  In [modal], which is what the operator runs, the
    three calls are not guarded: when the processing of the angle of a
    tick raises, the exception leaves [modal]; nothing is logged, the
    angle index, the progress properties and the flags stay as they were,
    the timer stays registered and the records of [temp_files] stay, and
    the same angle is the one a further tick would process. *)
Theorem failing_angle_leaves_modal :
  (∀ v h rest idx total s,
     process_angles ((v, h) :: rest) idx total s =
       match angle_step h (Some v) (angle_label v h) idx total s with
       | (Ok _, s1) => process_angles rest (S idx) total s1
       | (Raise e, s1) =>
           process_angles rest (S idx) total (logged (angle_error idx total e) s1)
       end) ∧
  (∀ l idx total s, fst (process_angles l idx total s) = Ok tt) ∧
  (∀ o w p v h e ps,
     should_cancel (eevee_baker (scene w)) = false →
     auto_bake (eevee_baker (scene w)) = true →
     projector o = Some p →
     _camera_angles o !! _current_angle_index o = Some (v, h) →
     angle_step h v (angle_fstring v h) (_current_angle_index o + 1)
       (length (_camera_angles o)) (mkPState p w) = (Raise e, ps) →
     ∃ s', EEVEE_OT_TextureBaker.modal "TIMER" (mkOState o w) = (Raise e, s') ∧
           oworld s' = world ps ∧
           projector (op s') = Some (self ps) ∧
           _current_angle_index (op s') = _current_angle_index o ∧
           _camera_angles (op s') = _camera_angles o ∧
           _timer (op s') = _timer o ∧
           eevee_baker (scene (oworld s')) = eevee_baker (scene w) ∧
           wm (oworld s') = wm w ∧
           temp_files p `prefix_of` temp_files (self ps)).
Proof.
  split_and!.
  - apply process_angles_step.
  - apply process_angles_total.
  - intros o w p v h e ps Hc Ha Hp Hv E. rewrite (modal_tick o w p v h Hc Ha Hp Hv), E.
    eexists. split; [reflexivity |].
    assert (Hst : stable frame (angle_step h v (angle_fstring v h) (_current_angle_index o + 1)
                                  (length (_camera_angles o))))
      by (unfold angle_step; frame_auto).
    pose proof (Hst (mkPState p w)) as [_ (_ & Hprops & Hwm)].
    pose proof (records_angle_step h v (angle_fstring v h) (_current_angle_index o + 1)
                  (length (_camera_angles o)) (mkPState p w)) as Hrec.
    rewrite E in Hprops, Hwm, Hrec. by split_and!.
Qed.

Lemma failing_angle_witness :
  fst (EEVEE_OT_TextureBaker.execute Sample.ostate_no_viewport) = Ok RUNNING_MODAL ∧
  should_cancel (eevee_baker (scene (oworld Sample.ostate_blind_running))) = false ∧
  auto_bake (eevee_baker (scene (oworld Sample.ostate_blind_running))) = true ∧
  projector (op Sample.ostate_blind_running) = Some Sample.blind_projector ∧
  _camera_angles (op Sample.ostate_blind_running)
    !! _current_angle_index (op Sample.ostate_blind_running) = Some (Some "below", 0%Z) ∧
  angle_step 0 (Some "below") (angle_fstring (Some "below") 0)
    (_current_angle_index (op Sample.ostate_blind_running) + 1)
    (length (_camera_angles (op Sample.ostate_blind_running)))
    (mkPState Sample.blind_projector (oworld Sample.ostate_blind_running))
    = (Raise (RuntimeError "No 3D viewport found"), Sample.pstate_angle_failed) ∧
  stdout (world Sample.pstate_angle_failed) = [] ∧
  ∃ s', EEVEE_OT_TextureBaker.modal "TIMER"
          (mkOState (op Sample.ostate_blind_running) (oworld Sample.ostate_blind_running))
          = (Raise (RuntimeError "No 3D viewport found"), s') ∧
        oworld s' = world Sample.pstate_angle_failed ∧
        projector (op s') = Some (self Sample.pstate_angle_failed) ∧
        _current_angle_index (op s') = _current_angle_index (op Sample.ostate_blind_running) ∧
        _camera_angles (op s') = _camera_angles (op Sample.ostate_blind_running) ∧
        _timer (op s') = _timer (op Sample.ostate_blind_running) ∧
        eevee_baker (scene (oworld s'))
          = eevee_baker (scene (oworld Sample.ostate_blind_running)) ∧
        wm (oworld s') = wm (oworld Sample.ostate_blind_running) ∧
        temp_files Sample.blind_projector `prefix_of` temp_files (self Sample.pstate_angle_failed).
Proof.
  assert (H1 : should_cancel (eevee_baker (scene (oworld Sample.ostate_blind_running))) = false)
    by (vm_compute; reflexivity).
  assert (H2 : auto_bake (eevee_baker (scene (oworld Sample.ostate_blind_running))) = true)
    by (vm_compute; reflexivity).
  assert (H3 : projector (op Sample.ostate_blind_running) = Some Sample.blind_projector)
    by (vm_compute; reflexivity).
  assert (H4 : _camera_angles (op Sample.ostate_blind_running)
                 !! _current_angle_index (op Sample.ostate_blind_running)
               = Some (Some "below", 0%Z)) by (vm_compute; reflexivity).
  assert (H5 : angle_step 0 (Some "below") (angle_fstring (Some "below") 0)
                 (_current_angle_index (op Sample.ostate_blind_running) + 1)
                 (length (_camera_angles (op Sample.ostate_blind_running)))
                 (mkPState Sample.blind_projector (oworld Sample.ostate_blind_running))
               = (Raise (RuntimeError "No 3D viewport found"), Sample.pstate_angle_failed))
    by (apply (run_eq (angle_step 0 (Some "below") (angle_fstring (Some "below") 0)
                          (_current_angle_index (op Sample.ostate_blind_running) + 1)
                          (length (_camera_angles (op Sample.ostate_blind_running))))
                  (mkPState Sample.blind_projector (oworld Sample.ostate_blind_running)));
        vm_compute; reflexivity).
  split; [vm_compute; reflexivity |].
  split; [exact H1 |]. split; [exact H2 |]. split; [exact H3 |]. split; [exact H4 |].
  split; [exact H5 |]. split; [vm_compute; reflexivity |].
  exact (proj2 (proj2 failing_angle_leaves_modal) (op Sample.ostate_blind_running)
           (oworld Sample.ostate_blind_running) Sample.blind_projector (Some "below") 0%Z
           (RuntimeError "No 3D viewport found") Sample.pstate_angle_failed H1 H2 H3 H4 H5).
Defined.

(** ** The geometry of the camera placement *)

(** C7, as stated, fails: the mesh is not framed in every shot.  In the
    run on the cube of side 2, with the camera the add-on creates (a 50 mm
    lens on a 36 mm sensor, half-angle tangent 9/25), the first tick puts
    the camera for the view from below at azimuth 0, aimed at the centre
    of the box; the corner (1, 1, -1) of the cube is then outside the cone
    through the corners of the frame, so outside the frame. *)
Lemma below_shot_cuts_a_corner :
  objects (data (oworld Sample.ostate_ticked)) !! "BakeCamera" = Some Sample.camera_after_tick ∧
  scene_camera (scene (oworld Sample.ostate_ticked)) = Some "BakeCamera" ∧
  getattr "angle" (o_data Sample.camera_after_tick) = VNum (36 / 50) ∧
  math_tan Sample.libm ((36 / 50) / 2) = (9 # 25)%Q ∧
  (vx (o_location Sample.camera_after_tick) == 24 # 10)%Q ∧
  (vy (o_location Sample.camera_after_tick) == 0)%Q ∧
  (vz (o_location Sample.camera_after_tick) == - (22 # 10))%Q ∧
  Sample.near_corner ∈ bbox_corners Sample.cube ∧
  ¬ corners_in_view (9 # 25) Sample.camera_after_tick (bbox_corners Sample.cube).
Proof.
  assert (Hin : Sample.near_corner ∈ bbox_corners Sample.cube).
  { apply list_elem_of_In. vm_compute. do 7 right. left. reflexivity. }
  assert (Hb : match o_aim Sample.camera_after_tick with
               | Some aim => in_view_coneb (9 # 25) (o_location Sample.camera_after_tick) aim
                               Sample.near_corner
               | None => false
               end = false) by (vm_compute; reflexivity).
  split; [vm_compute; reflexivity |]. split; [vm_compute; reflexivity |].
  split; [vm_compute; reflexivity |]. split; [reflexivity |].
  split; [apply Qeq_bool_eq; vm_compute; reflexivity |].
  split; [apply Qeq_bool_eq; vm_compute; reflexivity |].
  split; [apply Qeq_bool_eq; vm_compute; reflexivity |].
  split; [exact Hin |].
  intros (aim & Haim & Hall). rewrite Haim in Hb.
  specialize (Hall _ Hin). apply in_view_coneb_spec in Hall. congruence.
Qed.

(** C7, amended.  For an object with a non-empty bound box, [lo] and [hi]
    being the corners of the world-space axis-aligned bounding box of its
    corners: for each view category the target [get_view_parameters]
    computes is the centre of the box, and the height it computes is the
    bottom of the box less a fifth of its height ('below'), the height of
    the centre ('total'), the top of the box plus a fifth of its height
    ('upper'); the distance [calculate_optimal_distance] computes is a
    base length over [2 * tan (fov / 2)], the base length being 0.8 times
    1.2 times the larger horizontal extent ('below', 'upper') or 0.8 times
    twice the largest extent ('total'); a first call of either memoized
    method returns what its body computes; and [position_camera] puts the
    camera, at the azimuth, 0.9 times the distance from the target and 0.3
    times the distance below resp. above the computed height ('below',
    'upper'), or at the distance from the target and at its height
    ('total'), aims it at the target and makes it the scene camera.  That
    the mesh is framed is not part of it. *)
Theorem camera_placement_geometry :
  (∀ s name ob,
     obj (self s) = Some name →
     objects (data (world s)) !! name = Some ob →
     bbox_corners ob ≠ [] →
     ∃ lo hi,
       bounding_box (bbox_corners ob) lo hi ∧
       get_view_parameters_func [Some "below"] ∅ s
         = (Ok ((3 # 10)%Q, (vz lo - (vz hi - vz lo) * (2 # 10))%Q, centre lo hi), s) ∧
       get_view_parameters_func [Some "total"] ∅ s
         = (Ok (1%Q, vz (centre lo hi), centre lo hi), s) ∧
       get_view_parameters_func [Some "upper"] ∅ s
         = (Ok ((17 # 10)%Q, (vz hi + (vz hi - vz lo) * (2 # 10))%Q, centre lo hi), s) ∧
       ∀ cam c fov,
         camera (self s) = Some cam →
         objects (data (world s)) !! cam = Some c →
         getattr "angle" (o_data c) = VNum fov →
         Qeq_bool (2 * math_tan (libm (host (world s))) (fov / 2)) 0 = false →
         ∃ d_side d_total,
           calculate_optimal_distance_func [Some "below"] ∅ s = (Ok d_side, s) ∧
           calculate_optimal_distance_func [Some "total"] ∅ s = (Ok d_total, s) ∧
           calculate_optimal_distance_func [Some "upper"] ∅ s = (Ok d_side, s) ∧
           (d_side == (8 # 10) * ((12 # 10) * py_max (vx hi - vx lo) (vy hi - vy lo))
                      / (2 * math_tan (libm (host (world s))) (fov / 2)))%Q ∧
           (d_total == (8 # 10) * (2 * py_max (py_max (vx hi - vx lo) (vy hi - vy lo))
                                          (vz hi - vz lo))
                       / (2 * math_tan (libm (host (world s))) (fov / 2)))%Q) ∧
  (∀ s view v,
     get_view_parameters_func [view] ∅ s = (Ok v, s) →
     cached (memo_view (world s)) (self_id (self s)) (call_key [view] ∅) = None →
     ∃ g, get_view_parameters [view] ∅ s = (Ok v, with_world (with_memo_view g) s)) ∧
  (∀ s view v,
     calculate_optimal_distance_func [view] ∅ s = (Ok v, s) →
     cached (memo_distance (world s)) (self_id (self s)) (call_key [view] ∅) = None →
     ∃ g, calculate_optimal_distance [view] ∅ s = (Ok v, with_world (with_memo_distance g) s)) ∧
  (∀ s h view name cam c zm z_pos target d s1 s2,
     view ∈ ["below"; "total"; "upper"] →
     obj (self s) = Some name → camera (self s) = Some cam →
     get_view_parameters [Some view] ∅ s = (Ok (zm, z_pos, target), s1) →
     calculate_optimal_distance [Some view] ∅ s1 = (Ok d, s2) →
     objects (data (world s2)) !! cam = Some c →
     ∃ s3 c',
       position_camera h (Some view) s = (Ok tt, s3) ∧
       objects (data (world s3)) !! cam = Some c' ∧
       scene_camera (scene (world s3)) = Some cam ∧
       o_aim c' = Some (vsub target (o_location c')) ∧
       let L := libm (host (world s2)) in
       let cos_h := math_cos L (math_radians L h) in
       let sin_h := math_sin L (math_radians L h) in
       o_location c' =
         if String.eqb view "below" then
           mkVec (vx target + d * (9 # 10) * cos_h) (vy target + d * (9 # 10) * sin_h)
                 (z_pos - d * (3 # 10))
         else if String.eqb view "total" then
           mkVec (vx target + d * cos_h) (vy target + d * sin_h) (vz target)
         else
           mkVec (vx target + d * (9 # 10) * cos_h) (vy target + d * (9 # 10) * sin_h)
                 (z_pos + d * (3 # 10))).
Proof.
  split_and!.
  - intros s name ob Ho Hob Hne.
    destruct (bounds_of_corners _ Hne) as (lo & hi & H1 & H2 & H3 & H4 & H5 & H6 & Hbox).
    exists lo, hi. split; [exact Hbox |].
    split; [exact (get_view_parameters_func_spec s name ob lo hi _ Ho Hob H1 H2 H3 H4 H5 H6) |].
    split; [exact (get_view_parameters_func_spec s name ob lo hi _ Ho Hob H1 H2 H3 H4 H5 H6) |].
    split; [exact (get_view_parameters_func_spec s name ob lo hi _ Ho Hob H1 H2 H3 H4 H5 H6) |].
    intros cam c fov Hc Hcam Hfov Ht.
    pose proof (fun view => calculate_optimal_distance_func_spec s name ob lo hi view cam c fov
                  Ho Hob H1 H2 H3 H4 H5 H6 Hc Hcam Hfov Ht) as Hd.
    eexists _, _. split; [exact (Hd (Some "below")) |]. split; [exact (Hd (Some "total")) |].
    split; [exact (Hd (Some "upper")) |].
    apply Qeq_bool_neq in Ht. cbn [base_distance view_is String.eqb Ascii.eqb Bool.eqb].
    assert (Ht' : ¬ (math_tan (libm (host (world s))) (fov / 2) == 0)%Q).
    { intros H. apply Ht. rewrite H. reflexivity. }
    split; field; exact Ht'.
  - intros s view v. apply view_first_call.
  - intros s view v. apply distance_first_call.
  - intros s h view name cam c zm z_pos target d s1 s2 Hview Ho Hc E1 E2 Hcam.
    destruct (position_camera_spec s h (Some view) name cam c zm z_pos target d s1 s2
                Ho Hc E1 E2 Hcam) as (s3 & E3 & _ & Hobjs & Hsc).
    cbv zeta in Hobjs. eexists s3, _. split; [exact E3 |].
    split; [rewrite Hobjs; apply lookup_insert_eq |]. split; [exact Hsc |].
    split; [reflexivity |]. cbn [o_location with_o_aim with_o_location view_is].
    reflexivity.
Qed.

(** * Further properties of the code *)

(** ** The context managers of the projector *)

Lemma mode_set_spec mode name ob w :
  active_object w = Some name → objects (data w) !! name = Some ob →
  mode_set mode w
    = (Ok tt, with_data (with_objects (insert name (with_o_mode (fun _ => mode) ob))) w).
Proof.
  intros Ha Hob. unfold mode_set. rewrite bind_gets, Ha. by apply update_object_spec.
Qed.

(** X1.  [object_mode] on an object that is active and in another mode:
    the body runs with the object switched to the mode asked for; what the
    body returns or raises is what [object_mode] returns or raises; and
    afterwards the object is back in the mode it had, also when the body
    raised.  The body is any computation that keeps the object and leaves
    it active. *)
Theorem object_mode_restores {A} (mode : string) (body : M PState A) s name ob :
  obj (self s) = Some name →
  active_object (world s) = Some name →
  objects (data (world s)) !! name = Some ob →
  o_mode ob ≠ mode →
  (∀ s1, active_object (world (snd (body s1))) = active_object (world s1) ∧
         (is_Some (objects (data (world s1)) !! name) →
          is_Some (objects (data (world (snd (body s1)))) !! name))) →
  let entered :=
    with_world (with_data (with_objects (insert name (with_o_mode (fun _ => mode) ob)))) s in
  fst (object_mode mode body s) = fst (body entered) ∧
  self (snd (object_mode mode body s)) = self (snd (body entered)) ∧
  ∃ ob', objects (data (world (snd (body entered)))) !! name = Some ob' ∧
         objects (data (world (snd (object_mode mode body s)))) !! name
           = Some (with_o_mode (fun _ => o_mode ob) ob').
Proof.
  intros Ho Ha Hob Hmode Hbody entered.
  assert (E : ∃ ob', objects (data (world (snd (body entered)))) !! name = Some ob' ∧
            object_mode mode body s
              = (fst (body entered),
                 with_world (with_data (with_objects
                   (insert name (with_o_mode (fun _ => o_mode ob) ob')))) (snd (body entered)))).
  { subst entered. destruct s as [p w]. unfold with_world. cbn [self world] in *.
    unfold object_mode. rewrite bind_get_self. cbn [self]. rewrite Ho.
    rewrite bind_liftW. unfold lookup_object at 1. rewrite Hob.
    apply String.eqb_neq in Hmode. rewrite Hmode. cbn [negb when].
    rewrite bind_liftW, (mode_set_spec _ _ _ _ Ha Hob).
    set (entered := mkPState p (with_data _ w)). unfold try_finally.
    destruct (Hbody entered) as [Hact Hkeep].
    destruct (body entered) as [r [p2 w2]]. cbn [fst snd self world] in *.
    destruct Hkeep as [ob' Hob'].
    { exists (with_o_mode (fun _ => mode) ob). unfold entered.
      cbn [world data objects with_data with_objects]. apply lookup_insert_eq. }
    exists ob'. split; [exact Hob' |]. unfold liftW. cbn [world self].
    rewrite (mode_set_spec _ name ob' w2) by (rewrite ?Hact; done). reflexivity. }
  destruct E as (ob' & Hob' & ->). cbn [fst snd]. split; [reflexivity |].
  split; [reflexivity |]. exists ob'. split; [exact Hob' |]. cbn. apply lookup_insert_eq.
Qed.

Lemma object_mode_restores_witness :
  obj (self Sample.pstate) = Some "Cube" ∧
  active_object (world Sample.pstate) = Some "Cube" ∧
  objects (data (world Sample.pstate)) !! "Cube" = Some Sample.cube ∧
  o_mode Sample.cube ≠ "EDIT" ∧
  let body : M PState unit := raise (ValueError "the body fails") in
  let entered :=
    with_world (with_data (with_objects
      (insert "Cube" (with_o_mode (fun _ => "EDIT") Sample.cube)))) Sample.pstate in
  fst (object_mode "EDIT" body Sample.pstate) = fst (body entered) ∧
  self (snd (object_mode "EDIT" body Sample.pstate)) = self (snd (body entered)) ∧
  ∃ ob', objects (data (world (snd (body entered)))) !! "Cube" = Some ob' ∧
         objects (data (world (snd (object_mode "EDIT" body Sample.pstate)))) !! "Cube"
           = Some (with_o_mode (fun _ => o_mode Sample.cube) ob').
Proof.
  assert (H1 : obj (self Sample.pstate) = Some "Cube") by reflexivity.
  assert (H2 : active_object (world Sample.pstate) = Some "Cube") by reflexivity.
  assert (H3 : objects (data (world Sample.pstate)) !! "Cube" = Some Sample.cube)
    by (vm_compute; reflexivity).
  assert (H4 : o_mode Sample.cube ≠ "EDIT") by discriminate.
  split; [exact H1 |]. split; [exact H2 |]. split; [exact H3 |]. split; [exact H4 |].
  intros body.
  apply (object_mode_restores "EDIT" body Sample.pstate "Cube" Sample.cube H1 H2 H3 H4).
  intros s1. split; [reflexivity | tauto].
Defined.

Lemma find_index_None {A} (p : A → bool) l i :
  find_index p l i = None ↔ ∀ x, x ∈ l → p x = false.
Proof.
  revert i. induction l as [| y l IH]; intros i; cbn.
  - split; [intros _ x Hx; by apply elem_of_nil in Hx | done].
  - destruct (p y) eqn:E.
    + split; [done |]. intros H. specialize (H y). rewrite E in H.
      by discriminate H; [left].
    + rewrite IH. split.
      * intros H x Hx. apply elem_of_cons in Hx as [-> | Hx]; auto.
      * intros H x Hx. apply H. by right.
Qed.

Lemma find_index_first {A} (p : A → bool) l a x :
  l !! a = Some x → p x = true →
  (∀ j y, (j < a)%nat → l !! j = Some y → p y = false) →
  ∀ i, find_index p l i = Some (i + a)%nat.
Proof.
  revert a. induction l as [| z l IH]; intros a Hx Hp Hbefore i; [done |].
  destruct a as [| a]; cbn in *.
  - injection Hx as ->. rewrite Hp. f_equal. lia.
  - rewrite (Hbefore 0%nat z) by (done || lia).
    rewrite (IH a Hx Hp); [f_equal; lia |].
    intros j y Hj Hy. apply (Hbefore (S j) y); [lia | done].
Qed.

(** X2.  [view3d_context] looks the 3D viewport up once.  With nothing
    kept and no area of type VIEW_3D on the screen it raises
    "No 3D viewport found" and changes nothing; with nothing kept it runs
    the body on the first VIEW_3D area of the screen and keeps that area;
    with an area kept it runs the body on that area and looks at the
    screen no more, whatever the screen has become. *)
Theorem view3d_context_looks_up_once {A} (body : nat → M PState A) s :
  (_view3d_cache (self s) = None →
   (∀ ar, ar ∈ areas (world s) → area_type ar ≠ "VIEW_3D") →
   view3d_context body s = (Raise (RuntimeError "No 3D viewport found"), s)) ∧
  (∀ a ar, _view3d_cache (self s) = None →
     areas (world s) !! a = Some ar → area_type ar = "VIEW_3D" →
     (∀ j ar', (j < a)%nat → areas (world s) !! j = Some ar' → area_type ar' ≠ "VIEW_3D") →
     view3d_context body s = body a (with_self (with__view3d_cache (fun _ => Some a)) s)) ∧
  (∀ a, _view3d_cache (self s) = Some a → view3d_context body s = body a s).
Proof.
  destruct s as [p w]. cbn [self world]. split_and!.
  - intros Hc Hnone. unfold view3d_context. rewrite bind_get_self. cbn [self]. rewrite Hc.
    rewrite bind_assoc, bind_get_world. cbn [world].
    assert (E : find_index is_view3d (areas w) 0 = None).
    { apply find_index_None. intros ar Har. apply String.eqb_neq. by apply Hnone. }
    rewrite E. reflexivity.
  - intros a ar Hc Har Hty Hbefore. unfold view3d_context.
    rewrite bind_get_self. cbn [self]. rewrite Hc.
    rewrite bind_assoc, bind_get_world. cbn [world].
    rewrite (find_index_first is_view3d (areas w) a ar Har).
    + cbn [Nat.add]. rewrite bind_assoc, bind_set_self, bind_ret. reflexivity.
    + by apply String.eqb_eq.
    + intros j y Hj Hy. apply String.eqb_neq. by eapply Hbefore.
  - intros a Hc. unfold view3d_context. rewrite bind_get_self. cbn [self]. rewrite Hc.
    by rewrite bind_ret.
Qed.

Lemma view3d_context_witness :
  _view3d_cache (self Sample.pstate) = None ∧
  areas (world Sample.pstate) !! 1%nat = Some Sample.viewport ∧
  area_type Sample.viewport = "VIEW_3D" ∧
  (∀ j ar', (j < 1)%nat → areas (world Sample.pstate) !! j = Some ar' →
            area_type ar' ≠ "VIEW_3D") ∧
  view3d_context (fun a => ret a) Sample.pstate
    = ret 1%nat (with_self (with__view3d_cache (fun _ => Some 1%nat)) Sample.pstate).
Proof.
  assert (H1 : _view3d_cache (self Sample.pstate) = None) by reflexivity.
  assert (H2 : areas (world Sample.pstate) !! 1%nat = Some Sample.viewport) by reflexivity.
  assert (H3 : area_type Sample.viewport = "VIEW_3D") by reflexivity.
  assert (H4 : ∀ j ar', (j < 1)%nat → areas (world Sample.pstate) !! j = Some ar' →
                        area_type ar' ≠ "VIEW_3D").
  { intros j ar' Hj. destruct j as [| j]; [| lia]. cbn. intros [= <-]. discriminate. }
  split; [exact H1 |]. split; [exact H2 |]. split; [exact H3 |]. split; [exact H4 |].
  exact (proj1 (proj2 (view3d_context_looks_up_once (fun a => ret a) Sample.pstate))
           1%nat Sample.viewport H1 H2 H3 H4).
Defined.

(** ** Rendering the temporary still *)

Lemma for_each_set_render l p w :
  for_each l (fun '(key, value) => liftW (set_render key value)) (mkPState p w)
    = (Ok tt, mkPState p (with_scene (with_render (restore_all l)) w)).
Proof.
  revert w. induction l as [| [k v] l IH]; intros w; cbn [for_each].
  - destruct w as [sc ?]; destruct sc; reflexivity.
  - rewrite bind_liftW. cbn [set_render modify]. rewrite IH. reflexivity.
Qed.

Lemma restore_all_lookup (f : string → PyVal) keys r k :
  restore_all (map (fun key => (key, f key)) keys) r !! k
    = if bool_decide (k ∈ keys) then Some (f k) else r !! k.
Proof.
  revert r. induction keys as [| key keys IH]; intros r; cbn.
  - rewrite bool_decide_false by (by intros H; apply elem_of_nil in H). done.
  - unfold restore_all in IH. rewrite IH. unfold setattr.
    destruct (decide (k ∈ keys)) as [Hin | Hnin].
    + rewrite !bool_decide_true; [done | by right | done].
    + rewrite (bool_decide_false (k ∈ keys)) by done.
      destruct (decide (key = k)) as [-> | Hne].
      * rewrite lookup_insert_eq. rewrite bool_decide_true by left. done.
      * rewrite lookup_insert_ne by done. rewrite bool_decide_false; [done |].
        intros H. apply elem_of_cons in H as [-> | H]; done.
Qed.

(** X3.  [create_temp_render] never raises, and on every exit the five
    render settings it saved (resolution_x, resolution_y, filepath, engine,
    use_persistent_data) read as they read before the call, whatever the
    render did.  When the render operator raises, the error is printed,
    the result is [None], and nothing is recorded in [temp_files]. *)
Theorem create_temp_render_restores s :
  (∃ r, fst (create_temp_render s) = Ok r) ∧
  (∀ key, key ∈ original_settings_keys →
     getattr key (render (scene (world (snd (create_temp_render s)))))
       = getattr key (render (scene (world s)))) ∧
  (render_outcome (host (world s)) = RenderRaises →
     fst (create_temp_render s) = Ok None ∧
     self (snd (create_temp_render s)) = self s ∧
     data (world (snd (create_temp_render s))) = data (world s) ∧
     os (world (snd (create_temp_render s))) = os (world s) ∧
     stdout (world (snd (create_temp_render s)))
       = (stdout (world s) ++ ["Error creating temp render: Error: Cannot render"])%list).
Proof.
  destruct s as [p w]. cbn [self world].
  unfold create_temp_render. rewrite bind_get_world. cbv zeta. cbn [world].
  rewrite bind_get_self, bind_liftW. cbn [time_time gets self].
  set (saved := map _ original_settings_keys).
  set (body := (let* st := get_self settings in _)).
  set (handler := fun e : Exn => _).
  unfold try_finally.
  assert (Htry : ∃ r s1, try_except body handler (mkPState p w) = (Ok r, s1)).
  { unfold try_except. destruct (body (mkPState p w)) as [[a | e] s2]; [eauto |].
    unfold handler. destruct s2 as [p2 w2]. rewrite bind_liftW. cbn. eauto. }
  split_and!.
  - destruct Htry as (r & [p1 w1] & ->). rewrite for_each_set_render. eauto.
  - intros key Hkey. destruct Htry as (r & [p1 w1] & ->). rewrite for_each_set_render.
    cbn [snd world scene render with_scene with_render]. unfold saved.
    unfold getattr at 1.
    rewrite (restore_all_lookup (fun key => getattr key (render (scene w)))).
    by rewrite bool_decide_true.
  - intros Hraise. clear Htry.
    assert (E : try_except body handler (mkPState p w)
                = (Ok None,
                   mkPState p (with_stdout
                     (fun out => (out ++ ["Error creating temp render: Error: Cannot render"])%list)
                     (snd (body (mkPState p w))).(world)))
                ∧ self (snd (body (mkPState p w))) = p
                ∧ data (world (snd (body (mkPState p w)))) = data w
                ∧ os (world (snd (body (mkPState p w)))) = os w
                ∧ stdout (world (snd (body (mkPState p w)))) = stdout w).
    { unfold try_except, body. rewrite bind_get_self. cbn [self].
      repeat (rewrite bind_liftW; cbn [set_render set_eevee modify]).
      unfold render_render at 1 2 3 4 5 6. rewrite !bind_gets.
      cbn [host with_scene]. rewrite Hraise. unfold raise at 1 2 3 4 5 6. cbv beta iota.
      cbn [snd world self]. unfold handler. rewrite bind_liftW. cbn. by split_and!. }
    destruct E as (-> & Hs & Hd & Ho & Hout).
    set (s2 := snd (body (mkPState p w))) in *. clearbody s2 body handler.
    destruct s2 as [p2 w2]. cbn [self world] in *. subst p2.
    rewrite for_each_set_render. cbn. by rewrite Hd, Ho, Hout.
Qed.

Lemma create_temp_render_witness :
  "filepath" ∈ original_settings_keys ∧
  getattr "filepath"
    (render (scene (world (snd (create_temp_render Sample.pstate_render_fails)))))
    = getattr "filepath" (render (scene (world Sample.pstate_render_fails))) ∧
  render_outcome (host (world Sample.pstate_render_fails)) = RenderRaises ∧
  fst (create_temp_render Sample.pstate_render_fails) = Ok None ∧
  self (snd (create_temp_render Sample.pstate_render_fails)) = self Sample.pstate_render_fails ∧
  data (world (snd (create_temp_render Sample.pstate_render_fails)))
    = data (world Sample.pstate_render_fails) ∧
  os (world (snd (create_temp_render Sample.pstate_render_fails)))
    = os (world Sample.pstate_render_fails) ∧
  stdout (world (snd (create_temp_render Sample.pstate_render_fails)))
    = (stdout (world Sample.pstate_render_fails)
       ++ ["Error creating temp render: Error: Cannot render"])%list.
Proof.
  assert (H1 : "filepath" ∈ original_settings_keys) by (do 2 right; left).
  assert (H2 : render_outcome (host (world Sample.pstate_render_fails)) = RenderRaises)
    by reflexivity.
  split; [exact H1 |].
  split; [exact (proj1 (proj2 (create_temp_render_restores Sample.pstate_render_fails))
                   "filepath" H1) |].
  split; [exact H2 |].
  exact (proj2 (proj2 (create_temp_render_restores Sample.pstate_render_fails)) H2).
Defined.

(** ** The bake image *)

Lemma unique_name_free {V} (m : gmap string V) base : m !! base = None → unique_name m base = base.
Proof. intros H. unfold unique_name. rewrite H. by rewrite bool_decide_false by (by intros [? ?]). Qed.

(** X4.  [create_bake_image] never raises and returns the image named by
    the settings.  In single-shot mode an image of that name is reused as
    it is, with what was projected on it, and nothing changes.  Otherwise
    (auto-bake mode, or no such image) the image of that name is a new one:
    nothing is projected on it, it has the resolution of the settings and
    the file path under the output directory, relative to the blend file;
    the other images stay. *)
Theorem create_bake_image_fresh_or_reused s :
  let st := settings (self s) in
  let name := st_image_name st in
  let reuse := bool_decide (is_Some (images (data (world s)) !! name))
               && negb (auto_bake (eevee_baker (scene (world s)))) in
  fst (create_bake_image s) = Ok name ∧
  self (snd (create_bake_image s)) = self s ∧
  (reuse = true → snd (create_bake_image s) = s) ∧
  (reuse = false →
     ∃ i, images (data (world (snd (create_bake_image s)))) !! name = Some i ∧
          img_painted i = [] ∧
          getattr "width" (img_attrs i) = VInt (st_resolution st) ∧
          getattr "height" (img_attrs i) = VInt (st_resolution st) ∧
          getattr "filepath_raw" (img_attrs i)
            = VStr (bpy_path_relpath (filepath (data (world s)))
                      (os_path_join (output_dir (self s)) (name +:+ ".png"))) ∧
          ∀ n, n ≠ name →
               images (data (world (snd (create_bake_image s)))) !! n
                 = images (data (world s)) !! n).
Proof.
  cbv zeta. destruct s as [p w]. cbn [self world].
  set (st := settings p). set (name := st_image_name st).
  set (reuse := bool_decide _ && negb _).
  unfold create_bake_image. rewrite bind_get_self. cbn [self]. fold st.
  rewrite bind_liftW. cbn [get_props gets]. rewrite bind_liftW. cbn [image_exists gets].
  fold name. fold reuse.
  destruct reuse eqn:Hreuse.
  { by split_and!. }
  assert (E : ∃ w1, when (bool_decide (is_Some (images (data w) !! name)))
                      (cleanup_render_view_image name) (mkPState p w) = (Ok tt, mkPState p w1) ∧
                    images (data w1) = delete name (images (data w)) ∧
                    filepath (data w1) = filepath (data w)).
  { case_bool_decide as Hfound; cbn [when].
    - destruct Hfound as [i Hi]. unfold cleanup_render_view_image.
      rewrite bind_liftW. cbn [image_exists gets]. rewrite bool_decide_true by eauto.
      cbn [when]. rewrite bind_liftW. rewrite (set_image_attr_spec _ _ _ _ _ Hi).
      unfold liftW, images_remove, modify. cbn. eexists. split; [reflexivity |].
      split; [| reflexivity]. cbn. apply map_eq. intros k.
      destruct (decide (name = k)) as [-> | Hne].
      + by rewrite !lookup_delete_eq.
      + by rewrite !lookup_delete_ne, lookup_alter_ne.
    - exists w. split; [reflexivity |]. split; [| reflexivity].
      symmetry. apply delete_id. by apply eq_None_not_Some. }
  destruct E as (w1 & E & Himgs & Hpath).
  rewrite (bind_ok _ _ _ _ _ E). rewrite bind_get_self, bind_get_world. cbn [self world].
  unfold liftW, images_add. cbn [world self]. rewrite Himgs.
  rewrite unique_name_free by apply lookup_delete_eq.
  cbn [fst snd self world]. split; [reflexivity |]. split; [reflexivity |]. split; [done |].
  intros _. eexists. cbn. rewrite Himgs. split; [apply lookup_insert_eq |].
  split; [reflexivity |]. split; [reflexivity |]. split; [reflexivity |].
  split; [by rewrite Hpath |].
  intros n Hn. by rewrite lookup_insert_ne, lookup_delete_ne.
Qed.

Lemma create_bake_image_witness :
  (bool_decide (is_Some (images (data (world Sample.pstate))
                           !! st_image_name (settings (self Sample.pstate))))
   && negb (auto_bake (eevee_baker (scene (world Sample.pstate))))) = false ∧
  ∃ i, images (data (world (snd (create_bake_image Sample.pstate))))
         !! st_image_name (settings (self Sample.pstate)) = Some i ∧
       img_painted i = [] ∧
       getattr "width" (img_attrs i) = VInt (st_resolution (settings (self Sample.pstate))) ∧
       getattr "height" (img_attrs i) = VInt (st_resolution (settings (self Sample.pstate))) ∧
       getattr "filepath_raw" (img_attrs i)
         = VStr (bpy_path_relpath (filepath (data (world Sample.pstate)))
                   (os_path_join (output_dir (self Sample.pstate))
                      (st_image_name (settings (self Sample.pstate)) +:+ ".png"))) ∧
       ∀ n, n ≠ st_image_name (settings (self Sample.pstate)) →
            images (data (world (snd (create_bake_image Sample.pstate)))) !! n
              = images (data (world Sample.pstate)) !! n.
Proof.
  assert (H : (bool_decide (is_Some (images (data (world Sample.pstate))
                                       !! st_image_name (settings (self Sample.pstate))))
               && negb (auto_bake (eevee_baker (scene (world Sample.pstate))))) = false)
    by (vm_compute; reflexivity).
  split; [exact H |].
  exact (proj2 (proj2 (proj2 (create_bake_image_fresh_or_reused Sample.pstate))) H).
Defined.

(** ** The bake operator's [execute] *)

(** X5.  The quality preset: FAST and BALANCED write the TAA samples and
    both shadow sizes of the preferences; any other preset, HIGH that is,
    ends with 32 TAA samples and a shadow cube size of 1024 whatever the
    preferences say, only the cascade size being the preference's.  Nothing
    but these three render-engine settings is written. *)
Theorem quality_preset_settings prefs w :
  let preset := quality_preset (eevee_baker (scene w)) in
  let w' := snd (EEVEE_OT_TextureBaker.apply_quality_preset prefs w) in
  let read key := getattr key (eevee (scene w')) in
  fst (EEVEE_OT_TextureBaker.apply_quality_preset prefs w) = Ok tt ∧
  (preset = "FAST" →
     read "taa_render_samples" = VInt (fast_taa_samples prefs) ∧
     read "shadow_cube_size" = VStr (fast_shadow_size prefs) ∧
     read "shadow_cascade_size" = VStr (fast_shadow_size prefs)) ∧
  (preset = "BALANCED" →
     read "taa_render_samples" = VInt (balanced_taa_samples prefs) ∧
     read "shadow_cube_size" = VStr (balanced_shadow_size prefs) ∧
     read "shadow_cascade_size" = VStr (balanced_shadow_size prefs)) ∧
  (preset ≠ "FAST" → preset ≠ "BALANCED" →
     read "taa_render_samples" = VInt 32 ∧
     read "shadow_cube_size" = VStr "1024" ∧
     read "shadow_cascade_size" = VStr (high_shadow_size prefs)) ∧
  (∀ key, key ≠ "taa_render_samples" → key ≠ "shadow_cube_size" →
          key ≠ "shadow_cascade_size" → read key = getattr key (eevee (scene w))) ∧
  eevee_baker (scene w') = eevee_baker (scene w) ∧
  render (scene w') = render (scene w) ∧
  data w' = data w ∧ os w' = os w ∧ wm w' = wm w.
Proof.
  cbv zeta. unfold EEVEE_OT_TextureBaker.apply_quality_preset, get_props.
  rewrite bind_gets.
  destruct (String.eqb_spec (quality_preset (eevee_baker (scene w))) "FAST") as [E | E];
    [| destruct (String.eqb_spec (quality_preset (eevee_baker (scene w))) "BALANCED")
         as [E' | E']];
    cbn; unfold getattr, setattr; split_and!; try done;
    try (intros key H1 H2 H3; by rewrite !lookup_insert_ne);
    try (intros H; rewrite E in H; discriminate H);
    try (intros; split_and!; by simplify_map_eq).
Qed.

Lemma execute_body_no_preferences s :
  addons (host (oworld s)) !! "Texture Paint Bake" = Some None →
  ∃ s1, EEVEE_OT_TextureBaker.execute_body s = (Ok CANCELLED, s1) ∧ op s1 = op s ∧
        is_baking (eevee_baker (scene (oworld s1))) = true ∧
        timers (wm (oworld s1)) = timers (wm (oworld s)) ∧
        reports (wm (oworld s1))
          = (reports (wm (oworld s)) ++ [("ERROR", "Could not find addon preferences")])%list.
Proof.
  intros Ha. destruct s as [o w]. cbn [op oworld] in *.
  unfold EEVEE_OT_TextureBaker.execute_body.
  do 4 (rewrite bind_liftO; cbn [set_props modify gets]).
  cbn [host with_scene]. rewrite Ha. rewrite bind_liftO. cbn [report modify].
  eexists. split; [reflexivity |]. by cbn.
Qed.

Lemma execute_body_not_enabled s :
  addons (host (oworld s)) !! "Texture Paint Bake" = None →
  ∃ s1, EEVEE_OT_TextureBaker.execute_body s = (Raise (KeyError "Texture Paint Bake"), s1) ∧
        _timer (op s1) = _timer (op s) ∧
        reports (wm (oworld s1)) = reports (wm (oworld s)).
Proof.
  intros Ha. destruct s as [o w]. cbn [op oworld] in *.
  unfold EEVEE_OT_TextureBaker.execute_body.
  do 4 (rewrite bind_liftO; cbn [set_props modify gets]).
  cbn [host with_scene]. rewrite Ha.
  eexists. split; [reflexivity |]. by cbn.
Qed.

Lemma execute_body_with_preferences s prefs r s1 :
  addons (host (oworld s)) !! "Texture Paint Bake" = Some (Some prefs) →
  EEVEE_OT_TextureBaker.execute_body s = (Ok r, s1) → r = RUNNING_MODAL.
Proof.
  intros Ha E. destruct s as [o w]. cbn [op oworld] in *.
  unfold EEVEE_OT_TextureBaker.execute_body in E.
  do 4 (rewrite bind_liftO in E; cbn [set_props modify gets] in E).
  cbn [host with_scene] in E. rewrite Ha in E.
  rewrite bind_liftO in E.
  destruct (EEVEE_OT_TextureBaker.apply_quality_preset prefs _) as [[[] | e] w2];
    [| discriminate].
  rewrite bind_liftO in E. cbn [get_props gets] in E. rewrite bind_liftO in E.
  cbn [gets] in E.
  by apply execute_bake_returns in E as (-> & _).
Qed.

(** The [except] branch of [execute]: it returns CANCELLED with the
    error reported last, the flag cleared and the timer gone. *)
Lemma execute_handler e s1 :
  ∃ s', (EEVEE_OT_TextureBaker.cleanup ;;
         liftO (report "ERROR" (str e)) ;;
         ret CANCELLED) s1 = (Ok CANCELLED, s') ∧
        _timer (op s') = _timer (op s1) ∧
        is_baking (eevee_baker (scene (oworld s'))) = false ∧
        reports (wm (oworld s')) = (reports (wm (oworld s1)) ++ [("ERROR", str e)])%list ∧
        (∀ h, _timer (op s') = Some h → h ∉ map fst (timers (wm (oworld s')))).
Proof.
  destruct s1 as [o1 w1].
  destruct (baker_cleanup_returns o1 w1)
    as ([o2 w2] & E & _ & _ & _ & Ht & Hb & _ & _ & Hr & Hh & _).
  cbn [op oworld] in *.
  rewrite (bind_ok _ _ _ _ _ E). rewrite bind_liftO.
  cbn [report modify ret].
  eexists. split; [reflexivity |]. cbn. rewrite Hr, Ht. split_and!; try done.
Qed.



(** ** [process] and the set-up of the camera *)

(** X7.  [process] without a mesh selected: when the active object is
    missing or is no mesh, [process] raises "Please select a mesh object",
    and [cleanup] has still run: the artifacts recorded so far are removed
    (unless a file is locked), the record is empty, and nothing else of the
    scene is touched. *)
Theorem process_needs_a_mesh s :
  (∀ name ob, active_object (world s) = Some name →
              objects (data (world s)) !! name = Some ob → o_type ob ≠ "MESH") →
  fst (process s) = Raise (ValueError "Please select a mesh object") ∧
  self (snd (process s))
    = with_temp_files (fun _ => []) (with_obj (fun _ => active_object (world s)) (self s)) ∧
  cleanup_rel (world s) (world (snd (process s))) ∧
  artifacts_removed_unless_locked (temp_files (self s)) (world (snd (process s))).
Proof.
  intros Hmesh.
  assert (E : process_body s
              = (Raise (ValueError "Please select a mesh object"),
                 with_self (with_obj (fun _ => active_object (world s))) s)).
  { destruct s as [p w]. cbn [world] in Hmesh. unfold process_body.
    rewrite bind_get_world, bind_set_self, bind_get_world. cbn [world with_self self].
    destruct (active_object w) as [name |] eqn:Ha; [| reflexivity].
    change (Some name ≫= (fun name => objects (data w) !! name))
      with (objects (data w) !! name).
    destruct (objects (data w) !! name) as [ob |] eqn:Hob; [| reflexivity].
    specialize (Hmesh name ob eq_refl Hob).
    destruct (String.eqb_spec (o_type ob) "MESH"); [done | reflexivity]. }
  destruct (process_spec s) as (H1 & H2 & H3 & H4). rewrite E in H1, H2, H3, H4.
  destruct s as [p w]. cbn in H1, H2, H3, H4. by split_and!.
Qed.

Lemma process_needs_a_mesh_witness :
  fst (process Sample.pstate_nothing_selected)
    = Raise (ValueError "Please select a mesh object").
Proof.
  refine (proj1 (process_needs_a_mesh Sample.pstate_nothing_selected _)).
  intros name ob H. cbn in H. discriminate H.
Defined.

Lemma rename_object_spec old new o w :
  objects (data w) !! old = Some o →
  rename_object old new w
    = (Ok tt,
       with_scene (with_scene_camera (fun c =>
         match c with Some n => if String.eqb n old then Some new else c | None => None end))
         (with_active_object (fun c =>
            match c with Some n => if String.eqb n old then Some new else c | None => None end)
            (with_data (with_objects (fun m => <[new := o]> (delete old m))) w))).
Proof. intros H. unfold rename_object, bind, lookup_object. rewrite H. reflexivity. Qed.


(** ** The constructor of the projector *)

Lemma os_makedirs_spec p w :
  match os_makedirs p w with
  | (Ok _, w') =>
      p ∈ dirs (os w') ∧ dirs (os w) ⊆ dirs (os w') ∧ dirs (os w') ⊆ {[p]} ∪ dirs (os w) ∧
      files (os w') = files (os w) ∧ scene w' = scene w ∧ data w' = data w ∧
      areas w' = areas w ∧ next_instance w' = next_instance w
  | (Raise e, w') => w' = w ∧ ∃ msg, e = OSError msg
  end.
Proof.
  unfold os_makedirs. repeat case_bool_decide; cbn; split_and!; eauto; set_solver.
Qed.



(** ** Parts of the world a computation leaves alone *)

Lemma keeps_refl {X} (f : World → X) w : keeps f w w.
Proof. reflexivity. Qed.

Lemma keeps_trans {X} (f : World → X) w1 w2 w3 : keeps f w1 w2 → keeps f w2 w3 → keeps f w1 w3.
Proof. unfold keeps. congruence. Qed.

Lemma okeeps_refl {X} (f : World → X) s : okeeps f s s.
Proof. reflexivity. Qed.

Lemma okeeps_trans {X} (f : World → X) s1 s2 s3 : okeeps f s1 s2 → okeeps f s2 s3 → okeeps f s1 s3.
Proof. unfold okeeps. congruence. Qed.

Lemma keeps_liftW {X A} (f : World → X) (m : M World A) :
  stable (keeps f) m → stable (on_world (keeps f)) (liftW m).
Proof.
  intros H [p w]. unfold liftW, on_world; cbn. specialize (H w). by destruct (m w).
Qed.

Lemma keeps_liftO {X A} (f : World → X) (m : M World A) :
  stable (keeps f) m → stable (okeeps f) (liftO m).
Proof.
  intros H [o w]. unfold liftO, okeeps; cbn. specialize (H w). by destruct (m w).
Qed.

Lemma keeps_on_projector {X A} (f : World → X) (m : M PState A) :
  stable (on_world (keeps f)) m → stable (okeeps f) (on_projector m).
Proof.
  intros H [o w]. unfold on_projector, okeeps; cbn.
  destruct (projector o) as [p |]; cbn; [| done].
  specialize (H (mkPState p w)). by destruct (m (mkPState p w)) as [r [p' w']].
Qed.

Ltac head_of t := lazymatch t with ?f _ => head_of f | _ => t end.

(** One step of such a proof: along the combinators, through a lift, at
    a setter of another part, or into the definition of the computation. *)
Ltac keeps_step :=
  lazymatch goal with
  | |- stable (on_world (keeps ?f)) ?m =>
      first
        [ stable_comb (on_world_refl (keeps f) (keeps_refl f))
                      (on_world_trans (keeps f) (keeps_trans f))
        | lazymatch m with
          | liftW _ => apply keeps_liftW
          | set_self _ => apply stable_modify; intros; reflexivity
          | set_world _ => apply stable_modify; intros; reflexivity
          end
        | let h := head_of m in progress unfold h ]
  | |- stable (okeeps ?f) ?m =>
      first
        [ stable_comb (okeeps_refl f) (okeeps_trans f)
        | lazymatch m with
          | liftO _ => apply keeps_liftO
          | on_projector _ => apply keeps_on_projector
          | modify (with_op _) => apply stable_modify; intros; reflexivity
          end
        | let h := head_of m in progress unfold h ]
  | |- stable (keeps ?f) ?m =>
      first
        [ stable_comb (keeps_refl f) (keeps_trans f)
        | lazymatch m with
          | modify _ => apply stable_modify; intros; reflexivity
          | (fun _ => _) =>
              let w := fresh "w" in
              intros w; repeat case_match; reflexivity
          end
        | let h := head_of m in progress unfold h ]
  end.

Ltac keeps_auto := repeat keeps_step.

Lemma engine_create_uv_map : stable (on_world (keeps engine)) create_uv_map.
Proof. keeps_auto. Qed.

Lemma engine_create_bake_image : stable (on_world (keeps engine)) create_bake_image.
Proof. keeps_auto. Qed.

Lemma engine_setup_material_nodes : stable (on_world (keeps engine)) setup_material_nodes.
Proof. keeps_auto. Qed.

Lemma engine_setup_camera : stable (on_world (keeps engine)) setup_camera.
Proof. keeps_auto. Qed.

(** The render engine after the constructor of the projector. *)
Lemma constructor_engine st w p w' :
  TextureProjector_init st w = (Ok p, w') →
  getattr "taa_render_samples" (eevee (scene w')) = VInt 8 ∧
  getattr "shadow_cube_size" (eevee (scene w')) = VStr "512" ∧
  getattr "shadow_cascade_size" (eevee (scene w')) = VStr "512".
Proof.
  unfold TextureProjector_init. unfold bind at 1.
  destruct (_setup_directories _) as [[[] | e] [p1 w1]]; [| discriminate].
  rewrite bind_set_self. unfold optimize_render_settings, liftW, with_self.
  cbn [self world bind set_eevee modify]. intros [= <- <-].
  cbn [scene with_areas with_scene with_eevee eevee]. unfold getattr, setattr.
  split_and!; by simplify_map_eq.
Qed.

(** X10.  The quality preset does not survive [execute]: when [execute]
    returns RUNNING_MODAL, the render engine has the 8 TAA samples and the
    shadow sizes of 512 that the constructor of the projector sets, whatever
    the preset and the preferences were. *)
Theorem execute_overrides_preset s s' :
  EEVEE_OT_TextureBaker.execute s = (Ok RUNNING_MODAL, s') →
  getattr "taa_render_samples" (eevee (scene (oworld s'))) = VInt 8 ∧
  getattr "shadow_cube_size" (eevee (scene (oworld s'))) = VStr "512" ∧
  getattr "shadow_cascade_size" (eevee (scene (oworld s'))) = VStr "512".
Proof.
  unfold EEVEE_OT_TextureBaker.execute, try_except.
  destruct (EEVEE_OT_TextureBaker.execute_body s) as [[r | e] s1] eqn:E.
  - intros [= -> ->]. destruct s as [o w].
    unfold EEVEE_OT_TextureBaker.execute_body in E.
    do 4 (rewrite bind_liftO in E; cbn [set_props modify gets] in E).
    destruct (addons _ !! "Texture Paint Bake") as [[prefs |] |]; [| | discriminate].
    + rewrite bind_liftO in E.
      destruct (EEVEE_OT_TextureBaker.apply_quality_preset prefs _) as [[[] | e] w2];
        [| discriminate].
      rewrite bind_liftO in E. cbn [get_props gets] in E. rewrite bind_liftO in E.
      cbn [gets] in E.
      unfold EEVEE_OT_TextureBaker.execute_bake in E.
      apply bind_ok_inv in E as (p & s2 & Ei & E).
      match type of E with
      | ?m s2 = _ => assert (F : stable (okeeps engine) m) by keeps_auto;
                     specialize (F s2); rewrite E in F
      end.
      unfold okeeps, engine in F. cbn [snd] in F. rewrite F.
      unfold liftO in Ei. cbn [oworld op] in Ei.
      match type of Ei with
      | context [TextureProjector_init ?st ?w] =>
          destruct (TextureProjector_init st w) as [[p' | e'] w3] eqn:C; [| discriminate]
      end.
      injection Ei as <- <-. exact (constructor_engine _ _ _ _ C).
    + rewrite bind_liftO in E. discriminate.
  - destruct (execute_handler e s1) as (s2 & -> & _). discriminate.
Qed.

Lemma execute_overrides_preset_witness :
  EEVEE_OT_TextureBaker.execute Sample.ostate = (Ok RUNNING_MODAL, Sample.ostate_running) ∧
  getattr "taa_render_samples" (eevee (scene (oworld Sample.ostate_running))) = VInt 8 ∧
  getattr "shadow_cube_size" (eevee (scene (oworld Sample.ostate_running))) = VStr "512" ∧
  getattr "shadow_cascade_size" (eevee (scene (oworld Sample.ostate_running))) = VStr "512".
Proof.
  assert (H0 : EEVEE_OT_TextureBaker.execute Sample.ostate
               = (Ok RUNNING_MODAL, Sample.ostate_running))
    by (apply (run_eq EEVEE_OT_TextureBaker.execute Sample.ostate); vm_compute; reflexivity).
  split; [exact H0 |].
  exact (execute_overrides_preset Sample.ostate Sample.ostate_running H0).
Defined.

(** X11.  What [create_temp_render] does not put back: on every exit,
    also when the render raised, the six render settings it writes without
    saving them (border, crop, file format, colour mode, compression,
    transparent film) and the four settings of the render engine (ambient
    occlusion and its distance, screen-space reflections and refraction)
    read what the method wrote, not what they read before. *)
Theorem create_temp_render_not_restored s :
  let w' := world (snd (create_temp_render s)) in
  let render_setting key := getattr key (render (scene w')) in
  let engine_setting key := getattr key (eevee (scene w')) in
  render_setting "use_border" = VBool false ∧
  render_setting "use_crop_to_border" = VBool false ∧
  render_setting "image_settings.file_format" = VStr "PNG" ∧
  render_setting "image_settings.color_mode" = VStr "RGBA" ∧
  render_setting "image_settings.compression" = VInt 0 ∧
  render_setting "film_transparent" = VBool true ∧
  engine_setting "use_gtao" = VBool true ∧
  engine_setting "gtao_distance" = VNum (2 # 10) ∧
  engine_setting "use_ssr" = VBool true ∧
  engine_setting "use_ssr_refraction" = VBool true.
Proof.
  cbv zeta. destruct s as [p w].
  unfold create_temp_render. rewrite bind_get_world. cbv zeta. cbn [world].
  rewrite bind_get_self, bind_liftW. cbn [time_time gets self].
  set (saved := map _ original_settings_keys).
  set (temp_path := os_path_join _ _).
  unfold try_finally.
  match goal with
  | |- context [try_except ?b ?h (mkPState p w)] =>
      assert (E : ∃ w0, scene (world (snd (try_except b h (mkPState p w)))) = scene w0 ∧
                getattr "use_border" (render (scene w0)) = VBool false ∧
                getattr "use_crop_to_border" (render (scene w0)) = VBool false ∧
                getattr "image_settings.file_format" (render (scene w0)) = VStr "PNG" ∧
                getattr "image_settings.color_mode" (render (scene w0)) = VStr "RGBA" ∧
                getattr "image_settings.compression" (render (scene w0)) = VInt 0 ∧
                getattr "film_transparent" (render (scene w0)) = VBool true ∧
                getattr "use_gtao" (eevee (scene w0)) = VBool true ∧
                getattr "gtao_distance" (eevee (scene w0)) = VNum (2 # 10) ∧
                getattr "use_ssr" (eevee (scene w0)) = VBool true ∧
                getattr "use_ssr_refraction" (eevee (scene w0)) = VBool true);
      [| destruct (try_except b h (mkPState p w)) as [r [p1 w1]] ]
  end.
  { unfold try_except. rewrite bind_get_self. cbn [self].
    do 15 (rewrite bind_liftW; cbn [set_render set_eevee modify]; cbv beta iota).
    match goal with
    | |- context [bind ?m ?k (mkPState p ?w15)] =>
        assert (F : stable (on_world (keeps scene)) (bind m k)) by keeps_auto;
        specialize (F (mkPState p w15));
        destruct (bind m k (mkPState p w15)) as [[a | e] [p2 w2]];
        exists w15
    end.
    - split; [exact F |]. unfold getattr, setattr. cbn. split_and!; by simplify_map_eq.
    - rewrite bind_liftW. cbn [print modify]. cbv beta iota. cbn [snd world scene with_stdout].
      split; [exact F |]. unfold getattr, setattr. cbn. split_and!; by simplify_map_eq. }
  destruct E as (w0 & Hs & H). cbn [snd world] in Hs.
  rewrite for_each_set_render. cbn [snd world scene with_scene with_render render eevee].
  rewrite Hs. unfold getattr at 1 2 3 4 5 6.
  unfold saved.
  rewrite !(restore_all_lookup (fun key => getattr key (render (scene w)))).
  rewrite !bool_decide_false by (unfold original_settings_keys; set_solver).
  exact H.
Qed.

(** ** The UV layer *)

Lemma bind_update_object {B} name f (k : unit → M PState B) p w o :
  objects (data w) !! name = Some o →
  bind (liftW (update_object name f)) k (mkPState p w)
    = k tt (mkPState p (with_data (with_objects (insert name (f o))) w)).
Proof. intros H. by rewrite bind_liftW, (update_object_spec _ _ _ _ H). Qed.

Lemma bind_the_mesh {B} (k : string * Object → M PState B) p w name ob :
  obj p = Some name → objects (data w) !! name = Some ob → o_type ob = "MESH" →
  bind the_mesh k (mkPState p w) = k (name, ob) (mkPState p w).
Proof.
  intros Ho Hob Ht. unfold the_mesh, the_obj.
  rewrite !bind_assoc, bind_get_self. cbn [self]. rewrite Ho. cbv beta iota.
  rewrite bind_ret, ?bind_assoc, bind_liftW.
  unfold lookup_object. rewrite Hob. cbv beta iota. rewrite Ht. reflexivity.
Qed.

Lemma filter_absent (uv : string) l :
  uv ∉ l → List.filter (fun u => negb (String.eqb u uv)) l = l.
Proof.
  induction l as [| u l IH]; intros Hin; [done |]. cbn.
  destruct (String.eqb_spec u uv) as [-> | Hne]; cbn.
  - exfalso. apply Hin. by left.
  - f_equal. apply IH. intros H. apply Hin. by right.
Qed.

Lemma create_uv_map_run p w name ob :
  obj p = Some name → objects (data w) !! name = Some ob → o_type ob = "MESH" →
  let uv := st_uv_map_name (settings p) in
  let needed := negb (str_in uv (o_uv_layers ob)) || force_new_uv (eevee_baker (scene w)) in
  let ob' :=
    if needed
    then with_o_data (setattr "unwrapped" (VStr uv))
           (with_o_uv_active (fun _ => Some uv)
              (with_o_uv_layers
                 (fun l => (List.filter (fun u => negb (String.eqb u uv)) l ++ [uv])%list) ob))
    else ob in
  ∃ w', create_uv_map (mkPState p w) = (Ok tt, mkPState p w') ∧
        active_object w' = Some name ∧
        objects (data w') = <[name := ob']> (objects (data w)).
Proof.
  intros Ho Hob Ht uv needed ob'.
  unfold create_uv_map. rewrite bind_get_self. cbn [self]. rewrite Ho.
  rewrite bind_set_world. unfold with_world. cbn [self world].
  set (w1 := with_active_object (fun _ => Some name) w).
  rewrite bind_liftW. cbn [get_props gets]. cbv beta iota.
  rewrite (bind_the_mesh _ p w1 name ob Ho Hob Ht). cbv beta iota.
  rewrite bind_get_self. cbn [self]. fold uv.
  change (scene w1) with (scene w). fold needed.
  destruct needed eqn:En; cbn [when]; cycle 1.
  { exists w1. split; [reflexivity |]. split; [reflexivity |].
    subst ob'. cbn. by rewrite insert_id. }
  set (ob1 := with_o_uv_layers (List.filter (fun u => negb (String.eqb u uv))) ob).
  assert (E1 : ∃ w2, when (str_in uv (o_uv_layers ob))
                       (liftW (update_object name
                          (with_o_uv_layers (List.filter (fun u => negb (String.eqb u uv))))))
                       (mkPState p w1) = (Ok tt, mkPState p w2) ∧
                     active_object w2 = Some name ∧
                     objects (data w2) = <[name := ob1]> (objects (data w))).
  { unfold str_in. case_bool_decide as Hin; cbn [when].
    - unfold liftW. cbn [world self]. rewrite (update_object_spec _ _ w1 ob Hob).
      eexists. split; [reflexivity |]. by split.
    - exists w1. split; [reflexivity |]. split; [reflexivity |].
      assert (Hid : ob1 = ob).
      { unfold ob1, with_o_uv_layers. rewrite (filter_absent _ _ Hin). by destruct ob. }
      rewrite Hid. cbn. by rewrite insert_id. }
  destruct E1 as (w2 & E1 & A2 & O2).
  rewrite (bind_ok _ _ _ _ _ E1).
  assert (L2 : objects (data w2) !! name = Some ob1) by (rewrite O2; apply lookup_insert_eq).
  rewrite (bind_update_object _ _ _ p w2 ob1 L2).
  set (w3 := with_data _ w2).
  assert (L3 : objects (data w3) !! name
               = Some (with_o_uv_layers (fun l => (l ++ [uv])%list) ob1))
    by apply lookup_insert_eq.
  rewrite (bind_update_object _ _ _ p w3 _ L3).
  set (ob3 := with_o_uv_active _ _).
  set (w4 := with_data _ w3).
  assert (L4 : objects (data w4) !! name = Some ob3) by apply lookup_insert_eq.
  assert (A4 : active_object w4 = Some name) by exact A2.
  assert (O4 : objects (data w4) = <[name := ob3]> (objects (data w))).
  { unfold w4, w3. cbn. rewrite O2. by rewrite !insert_insert_eq. }
  clearbody w4. clear L3 w3 L2 E1 O2 A2 w2.
  unfold object_mode. rewrite bind_get_self. cbn [self]. rewrite Ho.
  rewrite bind_liftW. unfold lookup_object at 1. rewrite L4. cbv beta iota.
  assert (U : ∀ wa oa, active_object wa = Some name → objects (data wa) !! name = Some oa →
            uv_unwrap wa
            = (Ok tt, with_data (with_objects (insert name
                 (with_o_data (setattr "unwrapped"
                    (match o_uv_active oa with Some u => VStr u | None => VNone end)) oa))) wa)).
  { intros wa oa Ha Hoa. unfold uv_unwrap. rewrite bind_gets, Ha.
    by rewrite (update_object_spec _ _ wa oa Hoa). }
  destruct (String.eqb (o_mode ob3) "EDIT") eqn:Em; cbn [negb when].
  - rewrite bind_ret. unfold try_finally, liftW. cbn [self world].
    rewrite (U w4 ob3 A4 L4). cbv beta iota. cbn [ret self world].
    eexists. split; [reflexivity |]. split; [exact A4 |].
    cbn. rewrite O4, insert_insert_eq. reflexivity.
  - rewrite bind_liftW, (mode_set_spec "EDIT" name ob3 w4 A4 L4). cbv beta iota.
    unfold try_finally, liftW. cbn [self world].
    set (w5 := with_data _ w4).
    rewrite (U w5 (with_o_mode (fun _ => "EDIT") ob3) A4 (lookup_insert_eq _ _ _)).
    cbv beta iota. cbn [self world].
    set (w6 := with_data _ w5).
    rewrite (mode_set_spec (o_mode ob3) name _ w6 A4 (lookup_insert_eq _ _ _)).
    eexists. split; [reflexivity |]. split; [exact A4 |].
    cbn. rewrite O4, !insert_insert_eq. reflexivity.
Qed.

(** X12.  [create_uv_map] on a mesh: it never raises and makes the mesh
    the active object.  When the mesh has the configured UV layer and no
    new one is forced, the mesh is left as it is.  Otherwise the layer is
    removed if present and added at the end, made the active layer and
    unwrapped, and the mesh is back in the mode it was in.  Either way the
    mesh has the layer afterwards and no other object is touched. *)
Theorem create_uv_map_spec s name ob :
  obj (self s) = Some name → objects (data (world s)) !! name = Some ob →
  o_type ob = "MESH" →
  let uv := st_uv_map_name (settings (self s)) in
  let needed := negb (str_in uv (o_uv_layers ob))
                || force_new_uv (eevee_baker (scene (world s))) in
  let s' := snd (create_uv_map s) in
  fst (create_uv_map s) = Ok tt ∧ self s' = self s ∧
  active_object (world s') = Some name ∧
  (∀ n, n ≠ name → objects (data (world s')) !! n = objects (data (world s)) !! n) ∧
  ∃ ob', objects (data (world s')) !! name = Some ob' ∧
         o_mode ob' = o_mode ob ∧ uv ∈ o_uv_layers ob' ∧
         if needed
         then o_uv_layers ob'
                = (List.filter (fun u => negb (String.eqb u uv)) (o_uv_layers ob) ++ [uv])%list ∧
              o_uv_active ob' = Some uv ∧
              getattr "unwrapped" (o_data ob') = VStr uv
         else ob' = ob.
Proof.
  destruct s as [p w]. cbn [self world]. intros Ho Hob Ht. cbv zeta.
  destruct (create_uv_map_run p w name ob Ho Hob Ht) as (w' & E & Ha & Hobjs).
  rewrite E. cbn [fst snd self world].
  set (uv := st_uv_map_name (settings p)) in *.
  set (needed := negb (str_in uv (o_uv_layers ob)) || force_new_uv (eevee_baker (scene w))) in *.
  split; [done |]. split; [done |]. split; [done |].
  split. { intros n Hn. by rewrite Hobjs, lookup_insert_ne. }
  eexists. split; [by rewrite Hobjs, lookup_insert_eq |].
  destruct needed eqn:En.
  - cbn. split; [done |]. split; [set_solver |]. split; [done |]. split; [done |].
    unfold getattr, setattr. by rewrite lookup_insert_eq.
  - split; [done |]. split; [| done].
    unfold needed in En. apply orb_false_iff in En as [En _].
    apply negb_false_iff in En. unfold str_in in En. by apply bool_decide_eq_true in En.
Qed.

Lemma create_uv_map_witness :
  obj (self Sample.pstate) = Some "Cube" ∧
  objects (data (world Sample.pstate)) !! "Cube" = Some Sample.cube ∧
  o_type Sample.cube = "MESH" ∧
  fst (create_uv_map Sample.pstate) = Ok tt ∧
  active_object (world (snd (create_uv_map Sample.pstate))) = Some "Cube".
Proof.
  assert (H1 : obj (self Sample.pstate) = Some "Cube") by reflexivity.
  assert (H2 : objects (data (world Sample.pstate)) !! "Cube" = Some Sample.cube)
    by (vm_compute; reflexivity).
  assert (H3 : o_type Sample.cube = "MESH") by reflexivity.
  split; [exact H1 |]. split; [exact H2 |]. split; [exact H3 |].
  pose proof (create_uv_map_spec Sample.pstate "Cube" Sample.cube H1 H2 H3) as H.
  cbv zeta in H. split; [exact (proj1 H) | exact (proj1 (proj2 (proj2 H)))].
Defined.

(** ** The preview toggle and the handler *)

Lemma mesh_with_materials_spec w name ob mat rest :
  active_object w = Some name → objects (data w) !! name = Some ob →
  o_type ob = "MESH" → o_materials ob = mat :: rest →
  EEVEE_OT_ToggleBakePreview.mesh_with_materials w = Some (name, ob).
Proof.
  intros Ha Hob Ht Hm. unfold EEVEE_OT_ToggleBakePreview.mesh_with_materials.
  rewrite Ha, Hob, Ht, Hm. by rewrite bool_decide_false.
Qed.

(** One run of [execute] of the toggle on a mesh whose first material
    uses nodes and has both the bake texture and the output node. *)
Lemma toggle_execute_run w name ob mat rest m bt mo :
  active_object w = Some name → objects (data w) !! name = Some ob →
  o_type ob = "MESH" → o_materials ob = mat :: rest →
  materials (data w) !! mat = Some m → use_nodes m = true →
  nodes_get "Bake_Texture" (nodes m) = Some bt →
  nodes_get "Material Output" (nodes m) = Some mo →
  let show := negb (show_bake (eevee_baker (scene w))) in
  let m' := fst (EEVEE_OT_ToggleBakePreview.toggle_links show m (stdout w)) in
  let m'' := if bool_decide (is_Some (id_props m' !! "original_connection")) && negb show
             then with_id_props (delete "original_connection") m' else m' in
  ∃ w', EEVEE_OT_ToggleBakePreview.execute w = (Ok FINISHED, w') ∧
        active_object w' = active_object w ∧ objects (data w') = objects (data w) ∧
        show_bake (eevee_baker (scene w')) = show ∧
        materials (data w') = <[mat := m'']> (materials (data w)).
Proof.
  intros Ha Hob Ht Hmats Hm Hn Hbt Hmo show m' m''.
  unfold EEVEE_OT_ToggleBakePreview.execute.
  rewrite ?bind_assoc, bind_gets.
  rewrite (mesh_with_materials_spec w name ob mat rest Ha Hob Ht Hmats). cbv beta iota.
  set (w1 := with_scene (with_eevee_baker (with_show_bake negb)) w).
  destruct (EEVEE_OT_ToggleBakePreview.toggle_links show m (stdout w)) as [m1 out1] eqn:Et.
  set (w2 := with_stdout (fun _ => out1) (with_data (with_materials (insert mat m1)) w1)).
  assert (E1 : (set_props (with_show_bake negb) ;;
                let* show0 := get_props show_bake in
                EEVEE_OT_ToggleBakePreview.toggle_material_nodes (Some name) show0) w
               = (Ok tt, w2)).
  { unfold set_props. unfold bind at 1, modify at 1. fold w1.
    unfold get_props. rewrite bind_gets.
    change (show_bake (eevee_baker (scene w1))) with show.
    unfold EEVEE_OT_ToggleBakePreview.toggle_material_nodes. rewrite bind_gets.
    change (objects (data w1)) with (objects (data w)).
    change (Some name ≫= (fun name => objects (data w) !! name))
      with (objects (data w) !! name).
    rewrite Hob. cbv beta iota. rewrite Hmats. cbv beta iota.
    rewrite bind_lookup_material.
    change (materials (data w1)) with (materials (data w)). rewrite Hm. cbv beta iota.
    rewrite Hn. cbn [negb]. rewrite Hbt, Hmo. cbv beta iota.
    rewrite bind_gets. change (stdout w1) with (stdout w). rewrite Et. reflexivity. }
  rewrite (bind_ok _ _ _ _ _ E1). rewrite ?bind_assoc, bind_gets.
  assert (Hmw : EEVEE_OT_ToggleBakePreview.mesh_with_materials w2 = Some (name, ob)).
  { by apply (mesh_with_materials_spec w2 name ob mat rest). }
  rewrite Hmw. cbv beta iota. rewrite Hmats. cbv beta iota.
  rewrite ?bind_assoc, bind_lookup_material.
  assert (Hm2 : materials (data w2) !! mat = Some m1) by apply lookup_insert_eq.
  rewrite Hm2. cbv beta iota. unfold get_props. rewrite ?bind_assoc, bind_gets.
  change (show_bake (eevee_baker (scene w2))) with show.
  subst m' m''. cbn [fst].
  destruct (bool_decide (is_Some (id_props m1 !! "original_connection")) && negb show);
    cbn [when]; unfold bind, modify, ret; cbn.
  - eexists. split; [reflexivity |]. split_and!; try done.
    cbn. apply map_eq. intros k. destruct (decide (mat = k)) as [<- | Hne].
    + by rewrite lookup_alter_eq, !lookup_insert_eq.
    + by rewrite lookup_alter_ne, !lookup_insert_ne.
  - eexists. split; [reflexivity |]. by split_and!.
Qed.

Lemma filter_neg_idem {A} (p : A → bool) l :
  List.filter (fun x => negb (p x)) (List.filter (fun x => negb (p x)) l)
    = List.filter (fun x => negb (p x)) l.
Proof.
  induction l as [| x l IH]; [done |]. cbn.
  destruct (p x) eqn:E; cbn; [exact IH |]. rewrite E. cbn. by rewrite IH.
Qed.

Lemma filter_neg_filter {A} (p : A → bool) l :
  List.filter p (List.filter (fun x => negb (p x)) l) = [].
Proof.
  induction l as [| x l IH]; [done |]. cbn.
  destruct (p x) eqn:E; cbn; [exact IH |]. by rewrite E.
Qed.

(** The link into the surface input of the output node. *)
Lemma surface_link_eta l :
  (String.eqb (to_node l) "Material Output" && String.eqb (to_socket l) "Surface") = true →
  mkLink (from_node l) (from_socket l) "Material Output" "Surface" = l.
Proof.
  intros H. apply andb_true_iff in H as [H1 H2].
  apply String.eqb_eq in H1, H2. destruct l. cbn in *. by subst.
Qed.

Lemma toggle_links_on m out l0 ls :
  id_props m !! "original_connection" = None → surface_links m = l0 :: ls →
  from_node l0 ≠ "Bake_Texture" →
  fst (EEVEE_OT_ToggleBakePreview.toggle_links true m out)
    = mkMaterial (use_nodes m) (nodes m)
        (links_new (mkLink "Bake_Texture" 0 "Material Output" "Surface")
           (List.filter (fun l => negb (String.eqb (to_node l) "Material Output"
                                        && String.eqb (to_socket l) "Surface")) (links m)))
        (nodes_active m)
        (<["original_connection" := (from_node l0, from_socket l0)]> (id_props m)).
Proof.
  intros Hnone Hs Hne. unfold EEVEE_OT_ToggleBakePreview.toggle_links.
  rewrite Hnone, Hs. apply String.eqb_neq in Hne. rewrite Hne. reflexivity.
Qed.

Lemma toggle_links_off m out n i n0 :
  id_props m !! "original_connection" = Some (n, i) →
  nodes_get n (nodes m) = Some n0 → (i < n_outputs n0)%nat →
  fst (EEVEE_OT_ToggleBakePreview.toggle_links false m out)
    = mkMaterial (use_nodes m) (nodes m)
        (links_new (mkLink n i "Material Output" "Surface")
           (List.filter (fun l => negb (String.eqb (to_node l) "Material Output"
                                        && String.eqb (to_socket l) "Surface")) (links m)))
        (nodes_active m) (id_props m).
Proof.
  intros Hc Hn Hi. unfold EEVEE_OT_ToggleBakePreview.toggle_links.
  cbn [with_links id_props nodes]. rewrite Hc, Hn.
  apply Nat.ltb_lt in Hi. rewrite Hi. reflexivity.
Qed.

(** X13.  Switching the preview on and off again.  On an active mesh
    whose first material uses nodes, has the bake texture and the output
    node, stores no original connection, and has its surface fed by one
    link from an existing output of a node other than the bake texture:
    the first [execute] of the toggle sets [show_bake] and leaves the bake
    texture feeding the surface; the second clears [show_bake] and leaves
    the material with the surface fed by the original link, the same links
    and nodes, and the custom properties it had; no other material is
    touched. *)
Theorem toggle_round_trip w name ob mat rest m bt mo l0 n0 :
  active_object w = Some name → objects (data w) !! name = Some ob →
  o_type ob = "MESH" → o_materials ob = mat :: rest →
  materials (data w) !! mat = Some m → use_nodes m = true →
  nodes_get "Bake_Texture" (nodes m) = Some bt →
  nodes_get "Material Output" (nodes m) = Some mo →
  show_bake (eevee_baker (scene w)) = false →
  id_props m !! "original_connection" = None →
  surface_links m = [l0] → from_node l0 ≠ "Bake_Texture" →
  nodes_get (from_node l0) (nodes m) = Some n0 → (from_socket l0 < n_outputs n0)%nat →
  let w1 := snd (EEVEE_OT_ToggleBakePreview.execute w) in
  let w2 := snd (EEVEE_OT_ToggleBakePreview.execute w1) in
  fst (EEVEE_OT_ToggleBakePreview.execute w) = Ok FINISHED ∧
  fst (EEVEE_OT_ToggleBakePreview.execute w1) = Ok FINISHED ∧
  show_bake (eevee_baker (scene w1)) = true ∧
  EEVEE_OT_ToggleBakePreview.is_bake_texture_connected (materials (data w1) !! mat) = true ∧
  show_bake (eevee_baker (scene w2)) = false ∧
  (∀ k, k ≠ mat → materials (data w2) !! k = materials (data w) !! k) ∧
  ∃ m2, materials (data w2) !! mat = Some m2 ∧
        surface_links m2 = [l0] ∧ (∀ l, l ∈ links m2 ↔ l ∈ links m) ∧
        nodes m2 = nodes m ∧ id_props m2 = id_props m ∧ use_nodes m2 = true ∧
        EEVEE_OT_ToggleBakePreview.is_bake_texture_connected (Some m2) = false.
Proof.
  intros Ha Hob Ht Hmats Hm Hn Hbt Hmo Hshow Hnone Hs Hne Hn0 Hi.
  destruct (toggle_execute_run w name ob mat rest m bt mo Ha Hob Ht Hmats Hm Hn Hbt Hmo)
    as (w1 & E1 & Ha1 & Hob1 & Hshow1 & Hmat1).
  rewrite Hshow in Hshow1, Hmat1. cbn [negb] in Hshow1, Hmat1.
  rewrite (toggle_links_on m (stdout w) l0 [] Hnone Hs Hne) in Hmat1.
  rewrite andb_false_r in Hmat1.
  set (m1 := mkMaterial _ _ _ _ _) in Hmat1.
  assert (Hm1 : materials (data w1) !! mat = Some m1) by (rewrite Hmat1; apply lookup_insert_eq).
  rewrite E1. cbv zeta. cbn [fst snd].
  destruct (toggle_execute_run w1 name ob mat rest m1 bt mo) as (w2 & E2 & Ha2 & Hob2 & Hshow2 & Hmat2);
    [congruence | congruence | done | done | done | done | done | done |].
  rewrite Hshow1 in Hshow2, Hmat2. cbn [negb] in Hshow2, Hmat2.
  rewrite (toggle_links_off m1 (stdout w1) (from_node l0) (from_socket l0) n0) in Hmat2;
    [| apply lookup_insert_eq | exact Hn0 | exact Hi].
  rewrite E2. cbn [fst snd].
  cbn [id_props] in Hmat2.
  rewrite bool_decide_true in Hmat2 by (unfold m1; cbn [id_props]; rewrite lookup_insert_eq; eauto).
  cbn [andb with_id_props use_nodes nodes links nodes_active id_props] in Hmat2.
  set (m2 := mkMaterial _ _ _ _ _) in Hmat2.
  set (P := fun l : Link =>
              String.eqb (to_node l) "Material Output" && String.eqb (to_socket l) "Surface").
  assert (Hl0 : P l0 = true ∧ List.filter P (links m) = [l0]).
  { assert (Hin : l0 ∈ surface_links m) by (rewrite Hs; by left).
    apply list_elem_of_In, filter_In in Hin as [_ Hp]. by split. }
  destruct Hl0 as [Hp0 Hfilter].
  assert (L1 : links m1
               = (List.filter (fun l => negb (P l)) (links m)
                  ++ [mkLink "Bake_Texture" 0 "Material Output" "Surface"])%list).
  { unfold m1, links_new. cbn [links to_node to_socket].
    by rewrite (filter_neg_idem P). }
  assert (L2 : links m2 = (List.filter (fun l => negb (P l)) (links m) ++ [l0])%list).
  { unfold m2, links_new. cbn [links to_node to_socket].
    rewrite (filter_neg_idem P), L1, List.filter_app, (filter_neg_idem P).
    cbn. rewrite app_nil_r. by rewrite (surface_link_eta l0 Hp0). }
  assert (S1 : surface_links m1 = [mkLink "Bake_Texture" 0 "Material Output" "Surface"]).
  { unfold surface_links. rewrite L1, List.filter_app. fold P.
    by rewrite (filter_neg_filter P). }
  assert (S2 : surface_links m2 = [l0]).
  { unfold surface_links. rewrite L2, List.filter_app. fold P.
    rewrite (filter_neg_filter P). cbn. by rewrite Hp0. }
  split; [done |]. split; [done |]. split; [done |].
  split. { rewrite Hm1. unfold EEVEE_OT_ToggleBakePreview.is_bake_texture_connected.
           change (use_nodes m1) with (use_nodes m). rewrite Hn. cbn [negb].
           change (nodes m1) with (nodes m). by rewrite Hmo, S1. }
  split; [done |].
  split. { intros k Hk. by rewrite Hmat2, lookup_insert_ne, Hmat1, lookup_insert_ne. }
  exists (with_id_props (delete "original_connection") m2).
  split; [by rewrite Hmat2, lookup_insert_eq |].
  split; [exact S2 |]. split.
  { intros l. change (links (with_id_props _ m2)) with (links m2).
    rewrite L2, elem_of_app, !list_elem_of_In, filter_In, <- !list_elem_of_In.
    rewrite list_elem_of_singleton. split.
    - intros [[H _] | ->]; [done |].
      assert (Hin : l0 ∈ surface_links m) by (rewrite Hs; by left).
      apply list_elem_of_In, filter_In in Hin as [Hin _]. by apply list_elem_of_In.
    - intros Hl. destruct (P l) eqn:Hpl; [right | by left].
      assert (Hin : l ∈ List.filter P (links m)).
      { apply list_elem_of_In, filter_In. split; [by apply list_elem_of_In | done]. }
      rewrite Hfilter in Hin. by apply list_elem_of_singleton in Hin. }
  split; [done |]. split.
  { unfold m2, m1. cbn [id_props]. by apply delete_insert_id. }
  split; [exact Hn |].
  unfold EEVEE_OT_ToggleBakePreview.is_bake_texture_connected.
  change (use_nodes (with_id_props _ m2)) with (use_nodes m). rewrite Hn. cbn [negb].
  change (nodes (with_id_props _ m2)) with (nodes m).
  change (surface_links (with_id_props _ m2)) with (surface_links m2). rewrite Hmo, S2.
  by apply String.eqb_neq.
Qed.

Lemma toggle_round_trip_witness :
  let w2 := snd (EEVEE_OT_ToggleBakePreview.execute
                   (snd (EEVEE_OT_ToggleBakePreview.execute Sample.world_with_material))) in
  ∃ m2, materials (data w2) !! "Mat" = Some m2 ∧
        surface_links m2 = [mkLink "Diffuse BSDF" 0 "Material Output" "Surface"] ∧
        id_props m2 = id_props Sample.material ∧
        EEVEE_OT_ToggleBakePreview.is_bake_texture_connected (Some m2) = false.
Proof.
  cbv zeta.
  pose (ob := with_o_materials (fun _ => ["Mat"]) Sample.cube).
  pose (l0 := mkLink "Diffuse BSDF" 0 "Material Output" "Surface").
  assert (H1 : active_object Sample.world_with_material = Some "Cube") by reflexivity.
  assert (H2 : objects (data Sample.world_with_material) !! "Cube" = Some ob)
    by (vm_compute; reflexivity).
  assert (H3 : o_type ob = "MESH") by reflexivity.
  assert (H4 : o_materials ob = ["Mat"]) by reflexivity.
  assert (H5 : materials (data Sample.world_with_material) !! "Mat" = Some Sample.material)
    by (vm_compute; reflexivity).
  assert (H6 : use_nodes Sample.material = true) by reflexivity.
  assert (H7 : nodes_get "Bake_Texture" (nodes Sample.material)
               = Some (mkNode "Bake_Texture" "TEX_IMAGE" 2 ∅)) by (vm_compute; reflexivity).
  assert (H8 : nodes_get "Material Output" (nodes Sample.material)
               = Some (mkNode "Material Output" "OUTPUT_MATERIAL" 0 ∅))
    by (vm_compute; reflexivity).
  assert (H9 : show_bake (eevee_baker (scene Sample.world_with_material)) = false)
    by reflexivity.
  assert (H10 : id_props Sample.material !! "original_connection" = None)
    by (vm_compute; reflexivity).
  assert (H11 : surface_links Sample.material = [l0]) by (vm_compute; reflexivity).
  assert (H12 : from_node l0 ≠ "Bake_Texture") by discriminate.
  assert (H13 : nodes_get (from_node l0) (nodes Sample.material)
                = Some (mkNode "Diffuse BSDF" "BSDF_DIFFUSE" 1 ∅)) by (vm_compute; reflexivity).
  assert (H14 : (from_socket l0 < n_outputs (mkNode "Diffuse BSDF" "BSDF_DIFFUSE" 1 ∅))%nat)
    by (cbn; lia).
  destruct (toggle_round_trip Sample.world_with_material "Cube" ob "Mat" [] Sample.material
              _ _ l0 _ H1 H2 H3 H4 H5 H6 H7 H8 H9 H10 H11 H12 H13 H14)
    as (_ & _ & _ & _ & _ & _ & m2 & Hm2 & Hs & _ & _ & Hid & _ & Hc).
  exists m2. by split_and!.
Defined.

Lemma node_tree_changed_handler_run w name ob mat rest :
  active_object w = Some name → objects (data w) !! name = Some ob →
  o_type ob = "MESH" → o_materials ob = mat :: rest →
  node_tree_changed_handler w
    = (Ok tt,
       with_scene (with_eevee_baker (with_show_bake (fun _ =>
         EEVEE_OT_ToggleBakePreview.is_bake_texture_connected (materials (data w) !! mat)))) w).
Proof.
  intros Ha Hob Ht Hm. unfold node_tree_changed_handler.
  rewrite bind_gets, (mesh_with_materials_spec w name ob mat rest Ha Hob Ht Hm).
  cbv beta iota. rewrite Hm. reflexivity.
Qed.

Lemma mesh_with_materials_Some w name ob :
  EEVEE_OT_ToggleBakePreview.mesh_with_materials w = Some (name, ob) →
  active_object w = Some name ∧ objects (data w) !! name = Some ob ∧
  o_type ob = "MESH" ∧ o_materials ob ≠ [].
Proof.
  unfold EEVEE_OT_ToggleBakePreview.mesh_with_materials.
  destruct (active_object w) as [n |]; [| done].
  destruct (objects (data w) !! n) as [o |] eqn:Ho; [| done].
  destruct (String.eqb_spec (o_type o) "MESH") as [Ht | Ht]; [| done].
  case_bool_decide as Hm; [done |]. cbn. intros [= -> ->]. done.
Qed.

(** X14.  The handler run after updates of the dependency graph never
    raises and writes nothing but [show_bake]: with an active mesh that has
    materials, [show_bake] becomes whether the bake texture feeds the
    surface of the first material; otherwise it stays.  Run again, the
    handler changes nothing. *)
Theorem node_tree_changed_handler_spec w :
  let w' := snd (node_tree_changed_handler w) in
  fst (node_tree_changed_handler w) = Ok tt ∧
  (∃ b, w' = with_scene (with_eevee_baker (with_show_bake (fun _ => b))) w ∧
        match EEVEE_OT_ToggleBakePreview.mesh_with_materials w with
        | Some (_, ob) =>
            b = EEVEE_OT_ToggleBakePreview.is_bake_texture_connected
                  (head (o_materials ob) ≫= (fun mat => materials (data w) !! mat))
        | None => b = show_bake (eevee_baker (scene w))
        end) ∧
  snd (node_tree_changed_handler w') = w'.
Proof.
  cbv zeta.
  assert (Heta : w = with_scene (with_eevee_baker
                       (with_show_bake (fun _ => show_bake (eevee_baker (scene w))))) w).
  { destruct w as [sc]. destruct sc as [pr]. by destruct pr. }
  destruct (EEVEE_OT_ToggleBakePreview.mesh_with_materials w) as [[name ob] |] eqn:Hmw.
  - destruct (mesh_with_materials_Some w name ob Hmw) as (Ha & Hob & Ht & Hne).
    destruct (o_materials ob) as [| mat rest] eqn:Hmats; [done |].
    rewrite (node_tree_changed_handler_run w name ob mat rest Ha Hob Ht Hmats).
    cbn [fst snd]. split; [done |]. split; [eauto |].
    set (w' := with_scene _ w).
    rewrite (node_tree_changed_handler_run w' name ob mat rest Ha Hob Ht Hmats).
    reflexivity.
  - assert (E : node_tree_changed_handler w = (Ok tt, w)).
    { unfold node_tree_changed_handler. by rewrite bind_gets, Hmw. }
    rewrite E. cbn [fst snd]. split; [done |]. split; [eauto |]. by rewrite E.
Qed.

Lemma toggle_links_off_unsaved m out :
  id_props m !! "original_connection" = None →
  fst (EEVEE_OT_ToggleBakePreview.toggle_links false m out)
    = mkMaterial (use_nodes m) (nodes m)
        (links_new (mkLink "Bake_Texture" 0 "Material Output" "Surface")
           (List.filter (fun l => negb (String.eqb (to_node l) "Material Output"
                                        && String.eqb (to_socket l) "Surface")) (links m)))
        (nodes_active m) (id_props m).
Proof.
  intros Hc. unfold EEVEE_OT_ToggleBakePreview.toggle_links.
  cbn [with_links id_props nodes]. by rewrite Hc.
Qed.

(** X15.  Switching the preview off with no original connection stored.
    On an active mesh whose first material uses nodes and has the bake
    texture and the output node, with [show_bake] set and no original
    connection stored on the material: [execute] of the toggle clears
    [show_bake] but connects the bake texture to the surface all the same,
    so the handler run after the update sets [show_bake] again. *)
Theorem toggle_off_without_saved_connection w name ob mat rest m bt mo :
  active_object w = Some name → objects (data w) !! name = Some ob →
  o_type ob = "MESH" → o_materials ob = mat :: rest →
  materials (data w) !! mat = Some m → use_nodes m = true →
  nodes_get "Bake_Texture" (nodes m) = Some bt →
  nodes_get "Material Output" (nodes m) = Some mo →
  show_bake (eevee_baker (scene w)) = true →
  id_props m !! "original_connection" = None →
  let w1 := snd (EEVEE_OT_ToggleBakePreview.execute w) in
  fst (EEVEE_OT_ToggleBakePreview.execute w) = Ok FINISHED ∧
  show_bake (eevee_baker (scene w1)) = false ∧
  (∃ m1, materials (data w1) !! mat = Some m1 ∧
         surface_links m1 = [mkLink "Bake_Texture" 0 "Material Output" "Surface"]) ∧
  EEVEE_OT_ToggleBakePreview.is_bake_texture_connected (materials (data w1) !! mat) = true ∧
  show_bake (eevee_baker (scene (snd (node_tree_changed_handler w1)))) = true.
Proof.
  intros Ha Hob Ht Hmats Hm Hn Hbt Hmo Hshow Hnone.
  destruct (toggle_execute_run w name ob mat rest m bt mo Ha Hob Ht Hmats Hm Hn Hbt Hmo)
    as (w1 & E1 & Ha1 & Hob1 & Hshow1 & Hmat1).
  rewrite Hshow in Hshow1, Hmat1. cbn [negb] in Hshow1, Hmat1.
  rewrite (toggle_links_off_unsaved m (stdout w) Hnone) in Hmat1.
  cbn [id_props] in Hmat1.
  rewrite bool_decide_false in Hmat1 by (rewrite Hnone; by intros [? ?]).
  cbn [andb] in Hmat1.
  set (m1 := mkMaterial _ _ _ _ _) in Hmat1.
  assert (Hm1 : materials (data w1) !! mat = Some m1) by (rewrite Hmat1; apply lookup_insert_eq).
  set (P := fun l : Link =>
              String.eqb (to_node l) "Material Output" && String.eqb (to_socket l) "Surface").
  assert (S1 : surface_links m1 = [mkLink "Bake_Texture" 0 "Material Output" "Surface"]).
  { unfold surface_links, m1, links_new. cbn [links to_node to_socket].
    rewrite List.filter_app. fold P. rewrite (filter_neg_idem P), (filter_neg_filter P).
    reflexivity. }
  assert (C1 : EEVEE_OT_ToggleBakePreview.is_bake_texture_connected
                 (materials (data w1) !! mat) = true).
  { rewrite Hm1. unfold EEVEE_OT_ToggleBakePreview.is_bake_texture_connected.
    change (use_nodes m1) with (use_nodes m). rewrite Hn. cbn [negb].
    change (nodes m1) with (nodes m). by rewrite Hmo, S1. }
  rewrite E1. cbv zeta. cbn [fst snd].
  split; [done |]. split; [done |]. split; [eauto |]. split; [exact C1 |].
  rewrite (node_tree_changed_handler_run w1 name ob mat rest); [| congruence.. | done | done].
  cbn. exact C1.
Qed.

Lemma toggle_off_without_saved_connection_witness :
  let w := with_scene (with_eevee_baker (with_show_bake (fun _ => true)))
             Sample.world_with_material in
  let w1 := snd (EEVEE_OT_ToggleBakePreview.execute w) in
  show_bake (eevee_baker (scene w1)) = false ∧
  show_bake (eevee_baker (scene (snd (node_tree_changed_handler w1)))) = true.
Proof.
  cbv zeta.
  set (w := with_scene (with_eevee_baker (with_show_bake (fun _ => true)))
              Sample.world_with_material).
  pose (ob := with_o_materials (fun _ => ["Mat"]) Sample.cube).
  assert (H1 : active_object w = Some "Cube") by reflexivity.
  assert (H2 : objects (data w) !! "Cube" = Some ob) by (vm_compute; reflexivity).
  assert (H3 : o_type ob = "MESH") by reflexivity.
  assert (H4 : o_materials ob = ["Mat"]) by reflexivity.
  assert (H5 : materials (data w) !! "Mat" = Some Sample.material)
    by (vm_compute; reflexivity).
  assert (H6 : use_nodes Sample.material = true) by reflexivity.
  assert (H7 : nodes_get "Bake_Texture" (nodes Sample.material)
               = Some (mkNode "Bake_Texture" "TEX_IMAGE" 2 ∅)) by (vm_compute; reflexivity).
  assert (H8 : nodes_get "Material Output" (nodes Sample.material)
               = Some (mkNode "Material Output" "OUTPUT_MATERIAL" 0 ∅))
    by (vm_compute; reflexivity).
  assert (H9 : show_bake (eevee_baker (scene w)) = true) by reflexivity.
  assert (H10 : id_props Sample.material !! "original_connection" = None)
    by (vm_compute; reflexivity).
  destruct (toggle_off_without_saved_connection w "Cube" ob "Mat" [] Sample.material
              _ _ H1 H2 H3 H4 H5 H6 H7 H8 H9 H10) as (_ & Hs & _ & _ & Hh).
  by split.
Defined.

(** ** [cleanup] of the bake operator *)

(** X16.  What [cleanup] of the bake operator removes from the scene.
    With a projector that has a camera: in auto-bake mode the camera is
    removed, it is the only object removed, and neither the scene camera
    nor the active object refer to it any more; in single-shot mode the
    objects stay as they are, the camera included. *)
Theorem baker_cleanup_camera o w p c :
  projector o = Some p → camera p = Some c →
  let w' := oworld (snd (EEVEE_OT_TextureBaker.cleanup (mkOState o w))) in
  (auto_bake (eevee_baker (scene w)) = true →
     objects (data w') = delete c (objects (data w)) ∧
     scene_camera (scene w') ≠ Some c ∧ active_object w' ≠ Some c) ∧
  (auto_bake (eevee_baker (scene w)) = false → objects (data w') = objects (data w)).
Proof.
  intros Hp Hc. cbv zeta. split; [| apply baker_cleanup_objects].
  intros Ha. unfold EEVEE_OT_TextureBaker.cleanup.
  rewrite bind_liftO. cbn [set_props modify]. rewrite bind_gets. cbn [op].
  set (w1 := with_scene _ w).
  set (w2 := match _timer o with
             | Some h => with_wm (with_timers (List.filter (fun t => negb (Nat.eqb (fst t) h)))) w1
             | None => w1 end).
  assert (E2 : (match _timer o with
                | Some h => liftO (event_timer_remove h)
                | None => ret tt end) (mkOState o w1) = (Ok tt, mkOState o w2)).
  { unfold w2. destruct (_timer o); reflexivity. }
  assert (H2 : objects (data w2) = objects (data w) ∧
               auto_bake (eevee_baker (scene w2)) = true).
  { unfold w2, w1. destruct (_timer o); by split. }
  destruct H2 as [Hobj Hauto].
  rewrite (bind_ok _ _ _ _ _ E2). rewrite bind_gets. cbn [op]. rewrite Hp.
  rewrite (bind_on_projector _ _ _ _ _ Hp).
  destruct (cleanup_spec (mkPState p w2)) as (w3 & E3 & R3 & _). rewrite E3.
  cbv beta iota. cbn [self world]. rewrite bind_liftO. cbn [get_props gets]. rewrite bind_gets.
  cbn [op projector with_projector mbind option_bind camera with_temp_files].
  destruct R3 as (S1 & S2 & _). cbn [world] in S1, S2.
  rewrite S1, Hauto, Hc. cbn [when]. unfold liftO, objects_remove, bind, modify.
  cbn [snd oworld op objects data scene scene_camera active_object with_active_object
       with_scene with_scene_camera with_data with_objects].
  rewrite S2, Hobj. split; [done |]. split.
  - destruct (scene_camera (scene w3)) as [n |]; [| done].
    destruct (String.eqb_spec n c); congruence.
  - destruct (active_object w3) as [n |]; [| done].
    destruct (String.eqb_spec n c); congruence.
Qed.

Lemma baker_cleanup_camera_witness :
  projector (op Sample.ostate_running) = Some Sample.running_projector ∧
  camera Sample.running_projector = Some "BakeCamera" ∧
  auto_bake (eevee_baker (scene (oworld Sample.ostate_running))) = true ∧
  objects (data (oworld (snd (EEVEE_OT_TextureBaker.cleanup
                                (mkOState (op Sample.ostate_running)
                                          (oworld Sample.ostate_running))))))
    = delete "BakeCamera" (objects (data (oworld Sample.ostate_running))).
Proof.
  assert (H1 : projector (op Sample.ostate_running) = Some Sample.running_projector)
    by (vm_compute; reflexivity).
  assert (H2 : camera Sample.running_projector = Some "BakeCamera")
    by (vm_compute; reflexivity).
  assert (H3 : auto_bake (eevee_baker (scene (oworld Sample.ostate_running))) = true)
    by (vm_compute; reflexivity).
  split; [exact H1 |]. split; [exact H2 |]. split; [exact H3 |].
  exact (proj1 (proj1 (baker_cleanup_camera (op Sample.ostate_running)
                         (oworld Sample.ostate_running) Sample.running_projector
                         "BakeCamera" H1 H2) H3)).
Defined.

(** ** What [cleanup] of the projector leaves alone *)

Section Spares.

Variables N F D : string → Prop.

Lemma spares_refl w : spares N F D w w.
Proof. by split_and!. Qed.

Lemma spares_trans w1 w2 w3 : spares N F D w1 w2 → spares N F D w2 w3 → spares N F D w1 w3.
Proof.
  intros (H1 & H2 & H3) (G1 & G2 & G3). split_and!.
  - intros k Hk. by rewrite G1, H1.
  - intros f Hf. by rewrite G2, H2.
  - intros d Hd. by rewrite G3, H3.
Qed.

Lemma spares_same w w' :
  images (data w') = images (data w) → files (os w') = files (os w) →
  dirs (os w') = dirs (os w) → spares N F D w w'.
Proof. intros H1 H2 H3. unfold spares. rewrite H1, H2, H3. by split_and!. Qed.

Lemma spares_set_image_attr n k v : N n → stable (spares N F D) (set_image_attr n k v).
Proof.
  intros Hn w. unfold set_image_attr. destruct (images (data w) !! n); [| apply spares_refl].
  split_and!; try done. intros j Hj. cbn. apply lookup_alter_ne. congruence.
Qed.

Lemma spares_os_remove p : F p → stable (spares N F D) (os_remove p).
Proof.
  intros Hp w. unfold os_remove. repeat case_bool_decide; try apply spares_refl.
  split_and!; try done. intros f Hf. cbn. set_solver.
Qed.

Lemma spares_os_rmdir d : D d → stable (spares N F D) (os_rmdir d).
Proof.
  intros Hd w. unfold os_rmdir. repeat case_bool_decide; try apply spares_refl.
  split_and!; try done. intros f Hf. cbn. set_solver.
Qed.

Lemma spares_batch_remove names :
  (∀ k, k ∈ names → N k) → stable (spares N F D) (batch_remove names).
Proof.
  intros Hn w. split_and!; try done. intros k Hk. cbn.
  rewrite lookup_foldr_delete. rewrite bool_decide_false; [done |]. intros H. by apply Hk, Hn.
Qed.

Lemma spares_print msg : stable (spares N F D) (print msg).
Proof. intros w. by apply spares_same. Qed.

Lemma spares_liftW {A} (m : M World A) :
  stable (spares N F D) m → stable (on_world (spares N F D)) (liftW m).
Proof.
  intros H [p w]. unfold liftW, on_world; cbn. specialize (H w). by destruct (m w).
Qed.

Ltac spares_step :=
  first
    [ stable_comb (on_world_refl (spares N F D) spares_refl)
                  (on_world_trans (spares N F D) spares_trans)
    | stable_comb spares_refl spares_trans
    | lazymatch goal with
      | |- stable _ (liftW _) => apply spares_liftW
      | |- stable _ (set_self _) => apply stable_modify; intros; apply spares_refl
      | |- stable _ (set_image_attr _ _ _) => apply spares_set_image_attr
      | |- stable _ (os_remove _) => apply spares_os_remove
      | |- stable _ (os_rmdir _) => apply spares_os_rmdir
      | |- stable _ (batch_remove _) => apply spares_batch_remove
      | |- stable _ (print _) => apply spares_print
      end ].

Lemma spares_cleanup_entry n p :
  N n → F p → stable (on_world (spares N F D)) (cleanup_entry n p).
Proof. intros Hn Hp. unfold cleanup_entry. repeat spares_step; assumption. Qed.

Lemma spares_cleanup_loop l acc :
  (∀ n p, (n, p) ∈ l → N n ∧ F p) →
  stable (on_world (spares N F D)) (cleanup_loop l acc).
Proof.
  revert acc. induction l as [| [n p] l IH]; intros acc Hl; cbn [cleanup_loop].
  - repeat spares_step.
  - destruct (Hl n p) as [Hn Hp]; [by left |].
    spares_step; [by apply spares_cleanup_entry |].
    apply IH. intros n' p' Hin. apply Hl. by right.
Qed.

Lemma spares_remove_temp_dir s :
  D (temp_dir (self s)) → on_world (spares N F D) s (snd (remove_temp_dir s)).
Proof.
  intros Hd. unfold remove_temp_dir, try_except.
  destruct s as [p w]. rewrite bind_get_self. cbn [self] in *.
  assert (H : stable (on_world (spares N F D))
                (let* there := liftW (os_path_exists (temp_dir p)) in
                 let* entries := liftW (os_listdir (temp_dir p)) in
                 when (there && bool_decide (entries = [])) (liftW (os_rmdir (temp_dir p)))))
    by (repeat spares_step; assumption).
  specialize (H (mkPState p w)).
  destruct (bind _ _ (mkPState p w)) as [[[] | e] s1]; [exact H |].
  cbn [snd] in *. eapply (on_world_trans (spares N F D) spares_trans); [exact H |].
  assert (H' : stable (on_world (spares N F D))
                 (liftW (print ("Error removing temp directory: " +:+ str e))))
    by repeat spares_step.
  apply H'.
Qed.

End Spares.

Lemma found_names_recorded l w k : k ∈ found_names l w → k ∈ l.*1.
Proof.
  unfold found_names. intros H. apply list_elem_of_fmap in H as ([n p] & -> & H).
  apply list_elem_of_In, filter_In in H as [H _]. apply list_elem_of_In in H.
  apply list_elem_of_fmap. by exists (n, p).
Qed.

(** X17.  [cleanup] of the projector touches only what was recorded: an
    image whose name is not recorded in [temp_files] is left as it is, a
    file whose path is not recorded is neither removed nor created, and no
    directory other than the temporary one is removed or created. *)
Theorem cleanup_touches_only_recorded s :
  let w := world s in
  let w' := world (snd (cleanup s)) in
  (∀ k, k ∉ (temp_files (self s)).*1 → images (data w') !! k = images (data w) !! k) ∧
  (∀ f, f ∉ (temp_files (self s)).*2 → (f ∈ files (os w') ↔ f ∈ files (os w))) ∧
  (∀ d, d ≠ temp_dir (self s) → (d ∈ dirs (os w') ↔ d ∈ dirs (os w))).
Proof.
  cbv zeta. destruct s as [p0 w]. cbn [self world].
  set (N := fun k => k ∈ (temp_files p0).*1).
  set (F := fun f => f ∈ (temp_files p0).*2).
  set (D := fun d => d = temp_dir p0).
  change (spares N F D w (world (snd (cleanup (mkPState p0 w))))).
  unfold cleanup. rewrite bind_liftW, print_spec, bind_get_self. cbn [self].
  set (w0 := with_stdout _ w).
  assert (R0 : spares N F D w w0) by (by apply spares_same).
  pose proof (spares_cleanup_loop N F D (temp_files p0) []) as R1.
  destruct (cleanup_loop_spec (temp_files p0) [] (mkPState p0 w0)) as (w1 & E1 & _).
  specialize (R1 (fun n p Hin => conj (proj2 (list_elem_of_fmap fst _ n) (ex_intro _ (n, p) (conj eq_refl Hin)))
                                      (proj2 (list_elem_of_fmap snd _ p) (ex_intro _ (n, p) (conj eq_refl Hin))))
                 (mkPState p0 w0)).
  rewrite E1 in R1. cbn [snd] in R1. unfold on_world in R1. cbn [world] in R1.
  cbn [world self app] in E1. rewrite (bind_ok _ _ _ _ _ E1).
  set (names := found_names (temp_files p0) w0) in *.
  assert (R2 : stable (on_world (spares N F D))
                 (when (negb (bool_decide (names = []))) (liftW (batch_remove names)))).
  { apply stable_when; [apply on_world_refl, spares_refl |].
    apply spares_liftW, spares_batch_remove. intros k Hk. by apply found_names_recorded in Hk. }
  specialize (R2 (mkPState p0 w1)).
  destruct (when _ _ (mkPState p0 w1)) as [[[] | e] [p2 w2]] eqn:E2.
  - rewrite (bind_ok _ _ _ _ _ E2). rewrite bind_set_self.
    assert (Hp2 : p2 = p0).
    { revert E2. unfold when, liftW, batch_remove, modify, ret.
      destruct (negb _); cbn; congruence. }
    subst p2. unfold with_self. cbn [self world].
    pose proof (spares_remove_temp_dir N F D (mkPState (with_temp_files (fun _ => []) p0) w2)
                  eq_refl) as R3.
    unfold on_world in R2, R3. cbn [world snd] in R2, R3.
    eapply spares_trans; [exact R0 |]. eapply spares_trans; [exact R1 |].
    eapply spares_trans; [exact R2 | exact R3].
  - exfalso. revert E2. unfold when, liftW, batch_remove, modify, ret.
    destruct (negb _); cbn; congruence.
Qed.

(** ** The bake nodes of the material *)

Lemma update_material_spec name f w m :
  materials (data w) !! name = Some m →
  update_material name f w = (Ok tt, with_data (with_materials (insert name (f m))) w).
Proof.
  intros Hm. unfold update_material, bind, lookup_material, modify. rewrite Hm.
  f_equal. destruct w as [sc d]; destruct d. unfold with_data, with_materials. cbn in *.
  do 2 f_equal. apply map_eq. intros k. destruct (decide (name = k)) as [-> | Hne].
  - rewrite lookup_alter_eq, lookup_insert_eq, Hm. reflexivity.
  - by rewrite lookup_alter_ne, lookup_insert_ne.
Qed.

Lemma bind_update_material {B} name f (k : unit → M PState B) p w m :
  materials (data w) !! name = Some m →
  bind (liftW (update_material name f)) k (mkPState p w)
    = k tt (mkPState p (with_data (with_materials (insert name (f m))) w)).
Proof. intros H. by rewrite bind_liftW, (update_material_spec _ _ _ _ H). Qed.

Lemma material_eta m :
  mkMaterial (use_nodes m) (nodes m) (links m) (nodes_active m) (id_props m) = m.
Proof. by destruct m. Qed.

Lemma setup_material_nodes_run p w name ob mat rest m :
  obj p = Some name → objects (data w) !! name = Some ob → o_type ob = "MESH" →
  o_materials ob = mat :: rest → materials (data w) !! mat = Some m →
  let m1 := enable_nodes m in
  let uv_node := mkNode "Bake_UV" "UVMAP" 1
                   (list_to_map [("uv_map", VStr (st_uv_map_name (settings p)));
                                 ("location", VInts [-600; 0])]) in
  let tex_node := mkNode "Bake_Texture" "TEX_IMAGE" 2
                    (list_to_map [("image", image_ref (bake_image p));
                                  ("location", VInts [-300; 0])]) in
  let ns1 := if bool_decide (is_Some (nodes_get "Bake_UV" (nodes m1))) then nodes m1
             else (nodes m1 ++ [uv_node])%list in
  let ns2 := if bool_decide (is_Some (nodes_get "Bake_Texture" (nodes m1)))
             then map (fun n => if String.eqb (n_name n) "Bake_Texture"
                                then with_n_attrs (setattr "image" (image_ref (bake_image p))) n
                                else n) ns1
             else (ns1 ++ [tex_node])%list in
  let ls := if existsb (fun l => String.eqb (from_node l) "Bake_UV"
                                 && String.eqb (to_node l) "Bake_Texture") (links m1)
            then links m1
            else links_new (mkLink "Bake_UV" 0 "Bake_Texture" "Vector") (links m1) in
  ∃ p' w', setup_material_nodes (mkPState p w) = (Ok tt, mkPState p' w') ∧
           materials (data w')
             = <[mat := mkMaterial (use_nodes m1) ns2 ls None (id_props m1)]> (materials (data w)) ∧
           objects (data w') = objects (data w) ∧ images (data w') = images (data w).
Proof.
  intros Ho Hob Ht Hmats Hm m1 uv_node tex_node ns1 ns2 ls.
  unfold setup_material_nodes.
  rewrite (bind_the_mesh _ p w name ob Ho Hob Ht). cbv beta iota.
  rewrite Hmats, bind_ret.
  rewrite (bind_update_material _ _ _ p w m Hm). fold m1.
  set (w1 := with_data _ w).
  assert (H1 : materials (data w1) !! mat = Some m1) by apply lookup_insert_eq.
  rewrite bind_liftW. unfold lookup_material at 1. rewrite H1. cbv beta iota.
  rewrite bind_get_self. cbn [self].
  assert (E0 : ∃ p1, (when (negb (bool_decide (is_Some (original_nodes p !! mat))))
                        (set_self (with_original_nodes
                           (insert mat (mkOriginalNodes
                              (map (fun n => (n_name n, n_type n)) (nodes m1)) None))) ;;
                         match nodes_get "Material Output" (nodes m1), surface_links m1 with
                         | Some _, l :: _ =>
                             set_self (with_original_nodes
                               (alter (with_on_output_connection (fun _ => Some (from_node l))) mat))
                         | _, _ => ret tt
                         end)) (mkPState p w1) = (Ok tt, mkPState p1 w1) ∧
                     settings p1 = settings p ∧ bake_image p1 = bake_image p).
  { destruct (negb _); cbn [when]; [| by exists p].
    rewrite bind_set_self.
    destruct (nodes_get "Material Output" (nodes m1)); [destruct (surface_links m1) |];
      eexists; (split; [reflexivity |]); done. }
  destruct E0 as (p1 & E0 & Hst & Himg).
  rewrite (bind_ok _ _ _ _ _ E0). rewrite !bind_get_self. cbn [self]. rewrite Hst, Himg.
  set (M2 := mkMaterial (use_nodes m1) ns1 (links m1) (nodes_active m1) (id_props m1)).
  assert (E2 : ∃ w2, (when (negb (bool_decide (is_Some (nodes_get "Bake_UV" (nodes m1)))))
                        (liftW (update_material mat (with_nodes
                           (nodes_new "ShaderNodeUVMap" "Bake_UV"
                              (list_to_map [("uv_map", VStr (st_uv_map_name (settings p)));
                                            ("location", VInts [-600; 0])]))))))
                       (mkPState p1 w1) = (Ok tt, mkPState p1 w2) ∧
                     materials (data w2) = <[mat := M2]> (materials (data w)) ∧
                     objects (data w2) = objects (data w) ∧
                     images (data w2) = images (data w)).
  { unfold M2, ns1. destruct (bool_decide (is_Some (nodes_get "Bake_UV" (nodes m1))));
      cbn [negb when].
    - exists w1. split; [reflexivity |]. by rewrite material_eta.
    - unfold liftW. cbn [world self]. rewrite (update_material_spec _ _ w1 m1 H1).
      eexists. split; [reflexivity |]. cbn. by rewrite insert_insert_eq. }
  destruct E2 as (w2 & E2 & Hm2 & Ho2 & Hi2).
  rewrite (bind_ok _ _ _ _ _ E2).
  assert (L2 : materials (data w2) !! mat = Some M2) by (rewrite Hm2; apply lookup_insert_eq).
  set (M3 := mkMaterial (use_nodes m1) ns2 (links m1) (nodes_active m1) (id_props m1)).
  assert (E3 : ∃ w3, (if bool_decide (is_Some (nodes_get "Bake_Texture" (nodes m1)))
                      then liftW (update_material mat (with_nodes (map (fun n =>
                             if String.eqb (n_name n) "Bake_Texture"
                             then with_n_attrs (setattr "image" (image_ref (bake_image p))) n
                             else n))))
                      else liftW (update_material mat (with_nodes
                             (nodes_new "ShaderNodeTexImage" "Bake_Texture"
                                (list_to_map [("image", image_ref (bake_image p));
                                              ("location", VInts [-300; 0])])))))
                       (mkPState p1 w2) = (Ok tt, mkPState p1 w3) ∧
                     materials (data w3) = <[mat := M3]> (materials (data w)) ∧
                     objects (data w3) = objects (data w) ∧
                     images (data w3) = images (data w)).
  { unfold M3, ns2. destruct (bool_decide (is_Some (nodes_get "Bake_Texture" (nodes m1))));
      unfold liftW; cbn [world self]; rewrite (update_material_spec _ _ w2 M2 L2);
      eexists; (split; [reflexivity |]); cbn; by rewrite Hm2, insert_insert_eq. }
  destruct E3 as (w3 & E3 & Hm3 & Ho3 & Hi3).
  rewrite (bind_ok _ _ _ _ _ E3).
  assert (L3 : materials (data w3) !! mat = Some M3) by (rewrite Hm3; apply lookup_insert_eq).
  rewrite bind_liftW. unfold lookup_material at 1. rewrite L3. cbv beta iota.
  change (links M3) with (links m1).
  set (M4 := mkMaterial (use_nodes m1) ns2 ls (nodes_active m1) (id_props m1)).
  assert (E4 : ∃ w4, (when (negb (existsb (fun l => String.eqb (from_node l) "Bake_UV"
                                             && String.eqb (to_node l) "Bake_Texture") (links m1)))
                        (liftW (update_material mat (with_links
                           (links_new (mkLink "Bake_UV" 0 "Bake_Texture" "Vector"))))))
                       (mkPState p1 w3) = (Ok tt, mkPState p1 w4) ∧
                     materials (data w4) = <[mat := M4]> (materials (data w)) ∧
                     objects (data w4) = objects (data w) ∧
                     images (data w4) = images (data w)).
  { unfold M4, ls. destruct (existsb _ (links m1)); cbn [negb when].
    - exists w3. split; [reflexivity |]. done.
    - unfold liftW. cbn [world self]. rewrite (update_material_spec _ _ w3 M3 L3).
      eexists. split; [reflexivity |]. cbn. by rewrite Hm3, insert_insert_eq. }
  destruct E4 as (w4 & E4 & Hm4 & Ho4 & Hi4).
  rewrite (bind_ok _ _ _ _ _ E4).
  assert (L4 : materials (data w4) !! mat = Some M4) by (rewrite Hm4; apply lookup_insert_eq).
  unfold liftW. cbn [world self]. rewrite (update_material_spec _ _ w4 M4 L4).
  eexists _, _. split; [reflexivity |]. cbn. by rewrite Hm4, insert_insert_eq.
Qed.

Lemma nodes_get_app x ns n :
  nodes_get x (ns ++ [n])
    = match nodes_get x ns with
      | Some a => Some a
      | None => if String.eqb (n_name n) x then Some n else None
      end.
Proof.
  unfold nodes_get. induction ns as [| a ns IH]; cbn; [done |].
  by destruct (String.eqb (n_name a) x).
Qed.

Lemma nodes_get_name x ns a : nodes_get x ns = Some a → n_name a = x.
Proof. intros H. apply find_some in H as [_ H]. by apply String.eqb_eq. Qed.

Lemma nodes_get_map x (g : Node → Node) ns :
  (∀ n, n_name (g n) = n_name n) → nodes_get x (map g ns) = g <$> nodes_get x ns.
Proof.
  intros Hg. unfold nodes_get. induction ns as [| a ns IH]; cbn; [done |].
  rewrite Hg. by destruct (String.eqb (n_name a) x).
Qed.

Lemma filter_filter_implied {A} (p q : A → bool) l :
  (∀ x, p x = true → q x = true) → List.filter p (List.filter q l) = List.filter p l.
Proof.
  intros H. induction l as [| x l IH]; [done |]. cbn.
  destruct (q x) eqn:Eq; cbn.
  - by rewrite IH.
  - destruct (p x) eqn:Ep; [| done]. apply H in Ep. congruence.
Qed.

Lemma enable_nodes_spec m :
  use_nodes (enable_nodes m) = true ∧ id_props (enable_nodes m) = id_props m ∧
  (use_nodes m = true → enable_nodes m = m).
Proof.
  unfold enable_nodes. destruct (use_nodes m) eqn:E; [done |].
  destruct (nodes m); by split_and!.
Qed.

(** Splits on a decidable proposition and rewrites its [bool_decide]. *)
Ltac decide_case P H :=
  destruct (decide P) as [H | H];
  [rewrite (bool_decide_true P) by exact H | rewrite (bool_decide_false P) by exact H].

(** X18.  [setup_material_nodes] on a mesh whose first material exists: it
    never raises; afterwards the material uses nodes, has a node Bake_UV
    and a node Bake_Texture whose image is the projector's bake image, has
    a link from Bake_UV to Bake_Texture and no active node; the links into
    the surface input of the output node and the custom properties are
    those of the material once nodes are enabled, so the preview is not
    switched on; and no other material, no object and no image is
    touched. *)
Theorem setup_material_nodes_spec s name ob mat rest m :
  obj (self s) = Some name → objects (data (world s)) !! name = Some ob →
  o_type ob = "MESH" → o_materials ob = mat :: rest →
  materials (data (world s)) !! mat = Some m →
  let s' := snd (setup_material_nodes s) in
  fst (setup_material_nodes s) = Ok tt ∧
  (∃ m', materials (data (world s')) !! mat = Some m' ∧
         use_nodes m' = true ∧
         is_Some (nodes_get "Bake_UV" (nodes m')) ∧
         (∃ tex, nodes_get "Bake_Texture" (nodes m') = Some tex ∧
                 getattr "image" (n_attrs tex) = image_ref (bake_image (self s))) ∧
         existsb (fun l => String.eqb (from_node l) "Bake_UV"
                           && String.eqb (to_node l) "Bake_Texture") (links m') = true ∧
         nodes_active m' = None ∧
         surface_links m' = surface_links (enable_nodes m) ∧
         id_props m' = id_props m) ∧
  (∀ k, k ≠ mat → materials (data (world s')) !! k = materials (data (world s)) !! k) ∧
  objects (data (world s')) = objects (data (world s)) ∧
  images (data (world s')) = images (data (world s)).
Proof.
  destruct s as [p w]. cbn [self world]. intros Ho Hob Ht Hmats Hm. cbv zeta.
  destruct (setup_material_nodes_run p w name ob mat rest m Ho Hob Ht Hmats Hm)
    as (p' & w' & -> & Hmat & Hobj & Himg).
  cbn [fst snd world]. split; [done |]. split; [| split; [| by split]]; cycle 1.
  { intros k Hk. by rewrite Hmat, lookup_insert_ne. }
  destruct (enable_nodes_spec m) as (Hu & Hid & _).
  set (m1 := enable_nodes m) in *.
  eexists. split; [by rewrite Hmat, lookup_insert_eq |]. cbn [use_nodes nodes links nodes_active id_props].
  set (uv_node := mkNode "Bake_UV" _ _ _). set (tex_node := mkNode "Bake_Texture" _ _ _).
  set (ns1 := if bool_decide (is_Some (nodes_get "Bake_UV" (nodes m1))) then nodes m1
              else (nodes m1 ++ [uv_node])%list).
  set (g := fun n : Node => if String.eqb (n_name n) "Bake_Texture"
                            then with_n_attrs (setattr "image" (image_ref (bake_image p))) n
                            else n).
  assert (Hg : ∀ n, n_name (g n) = n_name n) by (intros n; unfold g; by destruct (String.eqb _ _)).
  assert (Huv1 : is_Some (nodes_get "Bake_UV" ns1)).
  { unfold ns1. decide_case (is_Some (nodes_get "Bake_UV" (nodes m1))) Hb; [done |].
    rewrite nodes_get_app. destruct (nodes_get "Bake_UV" (nodes m1)); eauto. }
  assert (Htex1 : nodes_get "Bake_Texture" ns1 = nodes_get "Bake_Texture" (nodes m1)).
  { unfold ns1. decide_case (is_Some (nodes_get "Bake_UV" (nodes m1))) Hb; [done |].
    rewrite nodes_get_app. by destruct (nodes_get "Bake_Texture" (nodes m1)). }
  clearbody ns1.
  split; [exact Hu |]. split.
  { decide_case (is_Some (nodes_get "Bake_Texture" (nodes m1))) Hb.
    - rewrite (nodes_get_map _ g _ Hg). destruct Huv1 as [a ->]. cbn. eauto.
    - rewrite nodes_get_app. destruct Huv1 as [a ->]. eauto. }
  split.
  { decide_case (is_Some (nodes_get "Bake_Texture" (nodes m1))) Hb.
    - rewrite (nodes_get_map _ g _ Hg), Htex1. destruct Hb as [a Ha]. rewrite Ha. cbn.
      eexists. split; [reflexivity |]. unfold g.
      rewrite (nodes_get_name _ _ _ Ha). cbn. unfold getattr, setattr.
      by rewrite lookup_insert_eq.
    - rewrite nodes_get_app, Htex1.
      destruct (nodes_get "Bake_Texture" (nodes m1)) eqn:E; [exfalso; apply Hb; eauto |].
      cbn. eexists. split; [reflexivity |]. unfold getattr. cbn. by simplify_map_eq. }
  split.
  { destruct (existsb _ (links m1)) eqn:E; [exact E |].
    unfold links_new. rewrite existsb_app. cbn. by rewrite orb_true_r. }
  split; [done |]. split; [| exact Hid].
  destruct (existsb _ (links m1)); [done |].
  unfold surface_links, links_new. cbn [links to_node to_socket].
  rewrite List.filter_app. cbn. rewrite app_nil_r.
  apply filter_filter_implied. intros l Hl.
  apply andb_true_iff in Hl as [Hl _]. apply String.eqb_eq in Hl. rewrite Hl. reflexivity.
Qed.

Lemma setup_material_nodes_witness :
  fst (setup_material_nodes Sample.pstate_with_material) = Ok tt ∧
  ∃ m', materials (data (world (snd (setup_material_nodes Sample.pstate_with_material))))
          !! "Mat" = Some m' ∧
        surface_links m' = surface_links (enable_nodes Sample.material).
Proof.
  pose (ob := with_o_materials (fun _ => ["Mat"]) Sample.cube).
  assert (H1 : obj (self Sample.pstate_with_material) = Some "Cube") by reflexivity.
  assert (H2 : objects (data (world Sample.pstate_with_material)) !! "Cube" = Some ob)
    by (vm_compute; reflexivity).
  assert (H3 : o_type ob = "MESH") by reflexivity.
  assert (H4 : o_materials ob = ["Mat"]) by reflexivity.
  assert (H5 : materials (data (world Sample.pstate_with_material)) !! "Mat"
               = Some Sample.material) by (vm_compute; reflexivity).
  destruct (setup_material_nodes_spec Sample.pstate_with_material "Cube" ob "Mat" []
              Sample.material H1 H2 H3 H4 H5)
    as (Hr & (m' & Hm' & _ & _ & _ & _ & _ & Hs & _) & _).
  split; [exact Hr |]. exists m'. by split.
Defined.

(** ** A projection, from the render to the paint *)

Lemma render_render_writes w path :
  render_outcome (host w) = RenderWrites →
  getattr "filepath" (render (scene w)) = VStr path →
  render_render w
    = (Ok tt, with_os (with_files (fun fs => {[path]} ∪ fs))
                (with_os (with_clock (fun t => t + render_seconds (host w))) w)).
Proof.
  intros H1 H2. unfold render_render. rewrite !bind_gets, H1, bind_gets, H2. reflexivity.
Qed.

Lemma create_temp_render_writes p w :
  render_outcome (host w) = RenderWrites →
  let temp_path := os_path_join (temp_dir p)
                     ("temp_render_" +:+ pretty (clock (os w)) +:+ ".png") in
  let temp_name := st_render_view_prefix (settings p) +:+ "_"
                   +:+ pretty (clock (os w) + render_seconds (host w)) in
  let name' := unique_name (images (data w)) temp_name in
  ∃ w', create_temp_render (mkPState p w)
          = (Ok (Some name'),
             mkPState (with_temp_files (fun l => (l ++ [(temp_name, temp_path)])%list) p) w') ∧
        images (data w')
          = <[name' := mkImage (list_to_map [("filepath", VStr temp_path);
                                             ("packed", VBool true)]) []]> (images (data w)) ∧
        objects (data w') = objects (data w) ∧ filepath (data w') = filepath (data w) ∧
        files (os w') = {[temp_path]} ∪ files (os w) ∧
        image_paint (scene w') = image_paint (scene w) ∧ areas w' = areas w ∧
        active_object w' = active_object w ∧ host w' = host w ∧ stdout w' = stdout w.
Proof.
  intros Hout temp_path temp_name name'.
  unfold create_temp_render. rewrite bind_get_world. cbv zeta. cbn [world].
  rewrite bind_get_self, bind_liftW. cbn [time_time gets self]. fold temp_path.
  set (saved := map _ original_settings_keys).
  unfold try_finally, try_except. rewrite bind_get_self. cbn [self].
  do 15 (rewrite bind_liftW; cbn [set_render set_eevee modify]; cbv beta iota).
  set (w15 := with_scene _ _).
  clearbody temp_path.
  assert (Hfp : getattr "filepath" (render (scene w15)) = VStr temp_path).
  { unfold w15, getattr, setattr.
    cbn [scene render with_scene with_render with_eevee]. by rewrite lookup_insert_eq. }
  rewrite bind_liftW, (render_render_writes w15 temp_path Hout Hfp). cbv beta iota.
  change (host w15) with (host w).
  set (w17 := with_os _ (with_os _ w15)).
  rewrite bind_liftW. unfold os_path_exists at 1, gets at 1.
  assert (Hthere : bool_decide (temp_path ∈ files (os w17))
                   || bool_decide (temp_path ∈ dirs (os w17)) = true).
  { rewrite bool_decide_true; [done |]. unfold w17. cbn. set_solver. }
  rewrite Hthere. cbv beta iota.
  rewrite bind_liftW. unfold time_time at 1, gets at 1. cbv beta iota.
  change (clock (os w17)) with (clock (os w) + render_seconds (host w)). fold temp_name.
  rewrite bind_liftW. unfold images_add at 1. cbv zeta beta iota.
  change (images (data w17)) with (images (data w)). fold name'.
  rewrite bind_set_self. unfold ret at 1. unfold with_self at 1. cbn [self world].
  rewrite for_each_set_render.
  eexists. split; [reflexivity |].
  cbn. by split_and!.
Qed.

Lemma view3d_context_run {A} (body : nat → M PState A) p w a :
  the_viewport p w = Some a →
  view3d_context body (mkPState p w)
    = body a (mkPState (with__view3d_cache (fun _ => Some a) p) w).
Proof.
  unfold the_viewport, view3d_context. rewrite bind_get_self. cbn [self].
  destruct (_view3d_cache p) as [a' |] eqn:Hc.
  - intros [= ->]. rewrite bind_ret. do 2 f_equal. destruct p; cbn in *. by subst.
  - intros Hf. rewrite bind_assoc, bind_get_world. cbn [world]. rewrite Hf.
    by rewrite bind_assoc, bind_set_self, bind_ret.
Qed.

Lemma project_texture_unfold angle c t :
  project_texture angle c t
    = (let* o := get_self obj in
       set_world (with_active_object (fun _ => o)) ;;
       object_mode "TEXTURE_PAINT" (
         let* st := get_self settings in
         let* b := get_self bake_image in
         liftW (set_image_paint "mode" (VStr "IMAGE")) ;;
         liftW (set_image_paint "canvas" (image_ref b)) ;;
         liftW (set_image_paint "use_occlude" (VBool true)) ;;
         liftW (set_image_paint "use_backface_culling" (VBool true)) ;;
         liftW (set_image_paint "seam_bleed" (VInt (st_seam_bleed st))) ;;
         liftW (set_image_paint "screen_grab_size" (VInts [st_resolution st; st_resolution st])) ;;
         view3d_context (fun area =>
           liftW (print ("Processing view " +:+ pretty c +:+ "/" +:+ pretty t)) ;;
           paint_render area))).
Proof. unfold project_texture, paint_render. reflexivity. Qed.

Lemma project_texture_run angle c t p w name ob a r p2 w2 ob2 :
  obj p = Some name → objects (data w) !! name = Some ob → the_viewport p w = Some a →
  paint_render a (mkPState (with__view3d_cache (fun _ => Some a) p) (paint_ready p name ob c t w))
    = (r, mkPState p2 w2) →
  active_object w2 = Some name → objects (data w2) !! name = Some ob2 →
  project_texture angle c t (mkPState p w)
    = (r, mkPState p2
            (if String.eqb (o_mode ob) "TEXTURE_PAINT" then w2
             else with_data (with_objects (insert name
                    (with_o_mode (fun _ => o_mode ob) ob2))) w2)).
Proof.
  intros Ho Hob Hv Hpaint Ha2 Hob2.
  rewrite project_texture_unfold. rewrite bind_get_self. cbn [self]. rewrite Ho.
  rewrite bind_set_world. unfold with_world at 1. cbn [self world].
  set (wa := with_active_object (fun _ => Some name) w).
  unfold object_mode. rewrite bind_get_self. cbn [self]. rewrite Ho.
  rewrite bind_liftW. unfold lookup_object at 1.
  change (objects (data wa)) with (objects (data w)). rewrite Hob. cbv beta iota.
  set (wm := if String.eqb (o_mode ob) "TEXTURE_PAINT" then wa
             else with_data (with_objects (insert name
                    (with_o_mode (fun _ => "TEXTURE_PAINT") ob))) wa).
  assert (E1 : when (negb (String.eqb (o_mode ob) "TEXTURE_PAINT"))
                 (liftW (mode_set "TEXTURE_PAINT")) (mkPState p wa) = (Ok tt, mkPState p wm)).
  { unfold wm. destruct (String.eqb (o_mode ob) "TEXTURE_PAINT"); cbn [negb when]; [done |].
    unfold liftW. cbn [world self].
    by rewrite (mode_set_spec "TEXTURE_PAINT" name ob wa eq_refl Hob). }
  rewrite (bind_ok _ _ _ _ _ E1). unfold try_finally.
  rewrite !bind_get_self. cbn [self].
  do 6 (rewrite bind_liftW; cbn [set_image_paint modify]; cbv beta iota).
  assert (Hv' : ∀ w', areas w' = areas w → the_viewport p w' = Some a).
  { intros w' Hw'. unfold the_viewport in *. by rewrite Hw'. }
  rewrite (view3d_context_run _ p _ a); cycle 1.
  { apply Hv'. unfold wm. by destruct (String.eqb (o_mode ob) "TEXTURE_PAINT"). }
  rewrite bind_liftW, print_spec. cbv beta iota.
  unfold paint_ready in Hpaint. cbv zeta in Hpaint. fold wa in Hpaint. fold wm in Hpaint.
  rewrite Hpaint.
  destruct (String.eqb (o_mode ob) "TEXTURE_PAINT"); cbn [negb when ret]; [reflexivity |].
  unfold liftW. cbn [world self].
  by rewrite (mode_set_spec (o_mode ob) name ob2 w2 Ha2 Hob2).
Qed.

Lemma render_render_raises w :
  render_outcome (host w) = RenderRaises →
  render_render w = (Raise (RuntimeError "Error: Cannot render"), w).
Proof. intros H. unfold render_render. by rewrite !bind_gets, H. Qed.

Lemma create_temp_render_raises p w :
  render_outcome (host w) = RenderRaises →
  ∃ w', create_temp_render (mkPState p w) = (Ok None, mkPState p w') ∧
        data w' = data w ∧ os w' = os w ∧ active_object w' = active_object w ∧
        areas w' = areas w ∧ host w' = host w ∧
        image_paint (scene w') = image_paint (scene w) ∧
        stdout w' = (stdout w ++ ["Error creating temp render: Error: Cannot render"])%list.
Proof.
  intros Hout.
  unfold create_temp_render. rewrite bind_get_world. cbv zeta. cbn [world].
  rewrite bind_get_self, bind_liftW. cbn [time_time gets self].
  set (temp_path := os_path_join _ _). clearbody temp_path.
  set (saved := map _ original_settings_keys).
  unfold try_finally, try_except. rewrite bind_get_self. cbn [self].
  do 15 (rewrite bind_liftW; cbn [set_render set_eevee modify]; cbv beta iota).
  set (w15 := with_scene _ _).
  rewrite bind_liftW, (render_render_raises w15 Hout). cbv beta iota.
  rewrite bind_liftW, print_spec. cbv beta iota. unfold ret at 1.
  rewrite for_each_set_render.
  eexists. split; [reflexivity |]. cbn. by split_and!.
Qed.

Lemma paint_render_render_raises a p w :
  render_outcome (host w) = RenderRaises →
  ∃ w', paint_render a (mkPState p w) = (Ok tt, mkPState p w') ∧
        data w' = data w ∧ os w' = os w ∧ active_object w' = active_object w ∧
        stdout w' = (stdout w ++ ["Error creating temp render: Error: Cannot render"])%list.
Proof.
  intros Hout. destruct (create_temp_render_raises p w Hout) as (w' & E & H).
  exists w'. unfold paint_render. rewrite (bind_ok _ _ _ _ _ E). split; [reflexivity | tauto].
Qed.

(** The render written, up to the projection. *)
Lemma paint_render_rendered a p w ar :
  render_outcome (host w) = RenderWrites → areas w !! a = Some ar →
  "WINDOW" ∈ area_regions ar →
  let temp_path := os_path_join (temp_dir p)
                     ("temp_render_" +:+ pretty (clock (os w)) +:+ ".png") in
  let temp_name := st_render_view_prefix (settings p) +:+ "_"
                   +:+ pretty (clock (os w) + render_seconds (host w)) in
  images (data w) !! temp_name = None →
  ∃ w1, paint_render a (mkPState p w)
          = try_except (liftW (project_image temp_name) ;; bake_image_save)
              (fun e => liftW (print ("Error during texture projection: " +:+ str e)))
              (mkPState (with_temp_files (fun l => (l ++ [(temp_name, temp_path)])%list) p) w1) ∧
        images (data w1)
          = <[temp_name := mkImage (list_to_map [("filepath", VStr temp_path);
                                                 ("packed", VBool true)]) []]> (images (data w)) ∧
        objects (data w1) = objects (data w) ∧ filepath (data w1) = filepath (data w) ∧
        files (os w1) = {[temp_path]} ∪ files (os w) ∧
        getattr "canvas" (image_paint (scene w1)) = getattr "canvas" (image_paint (scene w)) ∧
        active_object w1 = active_object w ∧ host w1 = host w ∧ stdout w1 = stdout w.
Proof.
  intros Hout Har Hwin temp_path temp_name Hfree.
  destruct (create_temp_render_writes p w Hout)
    as (w' & E & Hi & Ho & Hf & Hfiles & Hip & Hareas & Hact & Hhost & Hstd).
  cbv zeta in E, Hi. fold temp_path temp_name in E, Hi, Hfiles.
  rewrite (unique_name_free _ _ Hfree) in E, Hi.
  unfold paint_render. rewrite (bind_ok _ _ _ _ _ E).
  set (w1 := with_scene (with_image_paint (setattr "clone_image" (VStr temp_name))) w').
  exists w1. split.
  - unfold try_except. rewrite bind_liftW. cbn [set_image_paint modify]. cbv beta iota.
    fold w1. rewrite bind_get_world. cbn [world].
    change (areas w1) with (areas w'). rewrite Hareas, Har.
    unfold str_in. rewrite bool_decide_true by exact Hwin. reflexivity.
  - unfold w1. cbn [data os scene with_scene with_image_paint image_paint active_object
                    host stdout].
    split_and!; try done.
    unfold getattr, setattr. rewrite lookup_insert_ne by done. by rewrite Hip.
Qed.

Lemma projection_paints p w b img fp image :
  project_image_fails (host w) = false →
  getattr "canvas" (image_paint (scene w)) = VStr b →
  images (data w) !! b = Some img → bake_image p = Some b →
  getattr "filepath_raw" (img_attrs img) = VStr fp →
  (liftW (project_image image) ;; bake_image_save) (mkPState p w)
    = (Ok tt,
       mkPState p
         (with_os (with_files (fun fs => {[bpy_path_abspath (filepath (data w)) fp]} ∪ fs))
            (with_data (with_images
               (alter (with_img_painted (fun l => (l ++ [image])%list)) b)) w))).
Proof.
  intros Hf Hc Hi Hb Hfp. rewrite bind_liftW. unfold project_image.
  rewrite !bind_gets, Hf, Hc, Hi. rewrite bool_decide_true by eauto.
  cbn [orb negb modify]. cbv beta iota.
  unfold bake_image_save. rewrite bind_get_self. cbn [self]. rewrite Hb.
  rewrite bind_get_world. cbn [world with_data with_images images data].
  rewrite lookup_alter_eq, Hi. cbn [fmap option_fmap option_map with_img_painted img_attrs].
  rewrite Hfp. rewrite bind_get_world. reflexivity.
Qed.

Lemma projection_fails p w image :
  project_image_fails (host w) = true →
  ∃ msg, (liftW (project_image image) ;; bake_image_save) (mkPState p w)
           = (Raise (RuntimeError msg), mkPState p w).
Proof.
  intros Hf. rewrite bind_liftW. unfold project_image. rewrite !bind_gets, Hf.
  destruct (getattr "canvas" (image_paint (scene w))); cbn; eauto.
Qed.

Lemma paint_ready_facts p name ob c t w :
  objects (data w) !! name = Some ob →
  let w1 := paint_ready p name ob c t w in
  host w1 = host w ∧ os w1 = os w ∧ images (data w1) = images (data w) ∧
  filepath (data w1) = filepath (data w) ∧ areas w1 = areas w ∧
  active_object w1 = Some name ∧
  getattr "canvas" (image_paint (scene w1)) = image_ref (bake_image p) ∧
  stdout w1 = (stdout w ++ ["Processing view " +:+ pretty c +:+ "/" +:+ pretty t])%list ∧
  (∀ k, k ≠ name → objects (data w1) !! k = objects (data w) !! k) ∧
  ∃ ob1, objects (data w1) !! name = Some ob1 ∧
         with_o_mode (fun _ => o_mode ob) ob1 = ob ∧
         (String.eqb (o_mode ob) "TEXTURE_PAINT" = true → ob1 = ob).
Proof.
  intros Hob. cbv zeta. unfold paint_ready. cbv zeta.
  assert (Heta : with_o_mode (fun _ => o_mode ob) ob = ob) by (by destruct ob).
  destruct (String.eqb (o_mode ob) "TEXTURE_PAINT");
    cbn [host os data images filepath areas active_object scene image_paint stdout objects
         with_stdout with_scene with_image_paint with_data with_objects with_active_object];
    split_and!; try done;
    try (unfold getattr, setattr; by simplify_map_eq);
    try (intros k Hk; by rewrite lookup_insert_ne);
    try (eexists; split; [exact Hob | by split]);
    try (eexists; split; [apply lookup_insert_eq | split; [by destruct ob | done]]).
Qed.




